(** * Verification of the stock-predictor ML service

    A shallow embedding of [ml-service/app]: the feature pipeline
    ([features/engineering.py]), the residual corrector
    ([models/lstm_model.py]), the baseline tables
    ([models/prophet_model.py]), the Monte Carlo simulation
    ([models/monte_carlo.py]) and the orchestration loop ([predict.py]);
    then the service layer around them: the fetcher with its retries and
    its Firestore cache ([data/fetcher.py]), the endpoints ([main.py])
    and the status updates of a run ([predict.py]), over a record of the
    services the application talks to and a log of the calls it makes.

    Python floats are IEEE binary64 values: they are modelled by Rocq's
    primitive floats.  The two numerical kernels whose algebra matters (the
    min-max scaler and the geometric Brownian motion simulation) are written
    once over an arithmetic interface [Numeric], instantiated at binary64
    (the program as it runs) and at the real numbers (exact arithmetic).
    Calls into numpy's random generator, [np.exp], ta, Prophet and Keras are
    parameters of the development. *)

From Stdlib Require Import Floats ZArith List Reals Lra Lia Bool Sorted.
From stdpp Require Import base option list gmap strings.
Import ListNotations.

Set Default Proof Using "Type".
Set Warnings "-inexact-float".

(* ================================================================== *)
(** * Exceptions and the error monad *)

(** The Python exceptions the modelled code can raise. *)
Inductive exn : Type :=
| ValueError (msg : string)
| IndexError (msg : string)
| ZeroDivisionError (msg : string)
| OverflowError (msg : string)
| LibraryError (msg : string).

Inductive result (A : Type) : Type :=
| Ok (a : A)
| Raise (e : exn).
Arguments Ok {A} a.
Arguments Raise {A} e.

#[global] Instance result_ret : MRet result := fun A a => Ok a.
#[global] Instance result_bind : MBind result := fun A B k m =>
  match m with
  | Ok a => k a
  | Raise e => Raise e
  end.

Definition is_ok {A} (m : result A) : bool :=
  match m with Ok _ => true | Raise _ => false end.

(** [xs.iloc[-1]] / [xs[-1]]: the last element, [IndexError] when empty. *)
Definition iloc_last {A} (xs : list A) : result A :=
  match last xs with
  | Some a => Ok a
  | None => Raise (IndexError "single positional indexer is out-of-bounds")
  end.

(* ================================================================== *)
(** * Python floats *)

Module PyFloat.

Local Open Scope float_scope.

(** [float(z)] for a Python int: the nearest binary64 value. *)
Definition of_Z (z : Z) : float :=
  SF2Prim (binary_normalize prec emax z 0 false).

(** [math.floor] of a finite float, as an integer. *)
Definition floor (x : float) : Z :=
  match Prim2SF x with
  | S754_finite s m e =>
      let n := if s then Z.neg m else Z.pos m in
      if (0 <=? e)%Z then (n * 2 ^ e)%Z else (n / 2 ^ (- e))%Z
  | _ => 0%Z
  end.

(** [a / b] rounded to the nearest integer, ties to the even one. *)
Definition round_half_even_div (a b : Z) : Z :=
  let q := (a / b)%Z in
  let r := (a mod b)%Z in
  match (2 * r ?= b)%Z with
  | Lt => q
  | Gt => (q + 1)%Z
  | Eq => if Z.even q then q else (q + 1)%Z
  end.

(** The builtin [round(x, ndigits)] on a float with [ndigits >= 0]:
    CPython prints the exact binary value of [x] with [ndigits] decimals,
    correctly rounded (ties to even), and parses the decimal string back
    to the nearest float.  NaN and the infinities are returned as they
    are, and so is [x] when [ndigits] exceeds 323. *)
Definition py_round (x : float) (ndigits : N) : float :=
  if (323 <? ndigits)%N then x else
  match Prim2SF x with
  | S754_finite s m e =>
      let p10 := (10 ^ Z.of_N ndigits)%Z in
      let num := if (0 <=? e)%Z then (Z.pos m * 2 ^ e)%Z else Z.pos m in
      let den := if (0 <=? e)%Z then 1%Z else (2 ^ (- e))%Z in
      match round_half_even_div (num * p10) den with
      | Z.pos n =>
          SF2Prim (SFdiv prec emax (S754_finite s n 0)
                                   (S754_finite false (Z.to_pos p10) 0))
      | _ => if s then neg_zero else zero
      end
  | _ => x
  end.

(** The builtin [max(a, b)]: [b] when [b > a], else [a]. *)
Definition py_max (a b : float) : float := if a <? b then b else a.

(** A value stored into a [float32] array: rounded to the nearest
    binary32 value (ties to even, 24 bits of precision, infinite from
    [2^128] on), which is again a binary64 value. *)
Definition to_float32 (x : float) : float :=
  match Prim2SF x with
  | S754_finite s m e =>
      match binary_round 24 128 s m e with
      | S754_finite s' m' e' =>
          SF2Prim (binary_normalize prec emax (cond_Zopp s' (Z.pos m')) e' s')
      | S754_zero s' => if s' then neg_zero else zero
      | S754_infinity s' => if s' then neg_infinity else infinity
      | S754_nan => nan
      end
  | _ => x
  end.

End PyFloat.

(* ================================================================== *)
(** * The arithmetic interface *)

(** The arithmetic the numerical kernels are written over.  [nis_nan],
    [nis_inf] and [nnan] are the IEEE special values ([np.isnan],
    [np.isinf], [np.nan]); [neps] is [np.finfo(float64).eps]. *)
Class Numeric (F : Type) : Type := {
  nadd : F -> F -> F;
  nsub : F -> F -> F;
  nmul : F -> F -> F;
  ndiv : F -> F -> F;
  nsqrt : F -> F;
  nltb : F -> F -> bool;
  nleb : F -> F -> bool;
  nis_nan : F -> bool;
  nis_inf : F -> bool;
  nnan : F;
  nof_Z : Z -> F;
  nfloor : F -> Z;
  neps : F
}.

Declare Scope num_scope.
Delimit Scope num_scope with num.
Infix "+" := nadd : num_scope.
Infix "-" := nsub : num_scope.
Infix "*" := nmul : num_scope.
Infix "/" := ndiv : num_scope.
Infix "<?" := nltb : num_scope.
Infix "<=?" := nleb : num_scope.

(** Binary64: the arithmetic of the running program. *)
#[global] Instance float_numeric : Numeric float := {
  nadd := PrimFloat.add;
  nsub := PrimFloat.sub;
  nmul := PrimFloat.mul;
  ndiv := PrimFloat.div;
  nsqrt := PrimFloat.sqrt;
  nltb := PrimFloat.ltb;
  nleb := PrimFloat.leb;
  nis_nan := PrimFloat.is_nan;
  nis_inf := PrimFloat.is_infinity;
  nnan := PrimFloat.nan;
  nof_Z := PyFloat.of_Z;
  nfloor := PyFloat.floor;
  neps := 0x1p-52%float
}.

Definition Rltb (x y : R) : bool := if Rlt_dec x y then true else false.
Definition Rleb (x y : R) : bool := if Rle_dec x y then true else false.

(** Exact arithmetic: the real numbers, where no value is NaN or infinite
    and no operation rounds. *)
#[global] Instance real_numeric : Numeric R := {
  nadd := Rplus;
  nsub := Rminus;
  nmul := Rmult;
  ndiv := Rdiv;
  nsqrt := sqrt;
  nltb := Rltb;
  nleb := Rleb;
  nis_nan := fun _ => false;
  nis_inf := fun _ => false;
  nnan := 0%R;
  nof_Z := IZR;
  nfloor := Int_part;
  neps := (/ 2 ^ 52)%R
}.

(** The numpy functions the simulation calls and this development takes
    as given: [np.exp], [np.mean], [np.std], and the global random
    generator ([np.random.seed] resets its state from the seed alone;
    [next_gauss] is one draw of [standard_normal]). *)
Record Numpy (F : Type) : Type := {
  np_exp : F -> F;
  np_mean : list F -> F;
  np_std : list F -> F;
  RandomState : Type;
  np_random_seed : Z -> RandomState;
  next_gauss : RandomState -> F * RandomState
}.
Arguments np_exp {F} _ _.
Arguments np_mean {F} _ _.
Arguments np_std {F} _ _.
Arguments RandomState {F} _.
Arguments np_random_seed {F} _ _.
Arguments next_gauss {F} _ _.

(* ================================================================== *)
(** * sklearn.preprocessing.MinMaxScaler

    The scaler of scikit-learn, which [lstm_model.py] instantiates with
    its defaults, after the library's definition: [fit] records the
    per-column minimum, maximum and range, [scale_ = 1 / range] and
    [min_ = 0 - data_min * scale_]. *)

Module MinMaxScaler.
Section Generic.
Context {F : Type} `{Numeric F}.
Local Open Scope num_scope.

(** The fitted attributes, one entry per column. *)
Record t : Type := {
  data_min_ : list F;
  data_max_ : list F;
  data_range_ : list F;
  scale_ : list F;
  min_ : list F
}.

(** [np.fmin] / [np.fmax]: the NaN-ignoring minimum and maximum. *)
Definition fmin (a b : F) : F :=
  if nis_nan b then a else if nis_nan a then b else if b <? a then b else a.
Definition fmax (a b : F) : F :=
  if nis_nan b then a else if nis_nan a then b else if a <? b then b else a.

Definition nanmin (col : list F) : F :=
  match col with [] => nnan | x :: xs => fold_left fmin xs x end.
Definition nanmax (col : list F) : F :=
  match col with [] => nnan | x :: xs => fold_left fmax xs x end.

Definition n_features (X : list (list F)) : nat :=
  match X with [] => 0 | row :: _ => length row end.

Definition column (j : nat) (X : list (list F)) : list F :=
  map (fun row => nth j row nnan) X.

Definition columns (X : list (list F)) : list (list F) :=
  map (fun j => column j X) (seq 0 (n_features X)).

(** [check_array(X, force_all_finite="allow-nan")]: a 2-D array with at
    least one sample and one feature, and no infinite entry. *)
Definition check_array (X : list (list F)) : result (list (list F)) :=
  match X with
  | [] => Raise (ValueError "Found array with 0 sample(s)")
  | row :: _ =>
      if Nat.eqb (length row) 0 then
        Raise (ValueError "Found array with 0 feature(s)")
      else if existsb (existsb nis_inf) X then
        Raise (ValueError "Input contains infinity")
      else Ok X
  end.

(** [_handle_zeros_in_scale]: a (near-)constant column is scaled by 1. *)
Definition handle_zeros_in_scale (scale : F) : F :=
  if scale <? nof_Z 10 * neps then nof_Z 1 else scale.

(** [fit] with the default [feature_range=(0, 1)]. *)
Definition fit (X : list (list F)) : result t :=
  X ← check_array X;
  let cols := columns X in
  let data_min := map nanmin cols in
  let data_max := map nanmax cols in
  let data_range := zip_with nsub data_max data_min in
  let scale :=
    map (fun r => nof_Z (1 - 0) / handle_zeros_in_scale r) data_range in
  let min := zip_with (fun m s => nof_Z 0 - m * s) data_min scale in
  Ok {| data_min_ := data_min; data_max_ := data_max;
        data_range_ := data_range; scale_ := scale; min_ := min |}.

(** The arrays a fitted scaler accepts: as many columns as it was fit on. *)
Definition check_n_features (sc : t) (X : list (list F))
  : result (list (list F)) :=
  if forallb (fun row => Nat.eqb (length row) (length (scale_ sc))) X
  then Ok X
  else Raise (ValueError "X has a different number of features")%string.

(** [transform]: [X *= scale_; X += min_] (no clipping by default). *)
Definition transform (sc : t) (X : list (list F)) : result (list (list F)) :=
  X ← check_array X;
  X ← check_n_features sc X;
  Ok (map (fun row =>
        zip_with nadd (zip_with nmul row (scale_ sc)) (min_ sc)) X).

(** [inverse_transform]: [X -= min_; X /= scale_]. *)
Definition inverse_transform (sc : t) (X : list (list F))
  : result (list (list F)) :=
  X ← check_array X;
  X ← check_n_features sc X;
  Ok (map (fun row =>
        zip_with ndiv (zip_with nsub row (min_ sc)) (scale_ sc)) X).

(** [fit_transform(X) = fit(X).transform(X)]. *)
Definition fit_transform (X : list (list F)) : result (t * list (list F)) :=
  sc ← fit X;
  Y ← transform sc X;
  Ok (sc, Y).

End Generic.
Arguments t F : clear implicits.
End MinMaxScaler.

(* ================================================================== *)
(** * numpy.percentile

    The percentile of numpy with its default method, after the
    library's definition. *)

Module NumpyPercentile.
Section Generic.
Context {F : Type} `{Numeric F}.
Local Open Scope num_scope.

Fixpoint insert_sorted (x : F) (l : list F) : list F :=
  match l with
  | [] => [x]
  | y :: l' => if x <=? y then x :: y :: l' else y :: insert_sorted x l'
  end.

(** [np.sort] of an array without NaN. *)
Definition sort (l : list F) : list F := fold_right insert_sorted [] l.

(** [arr[i]] with Python's negative indices. *)
Definition item (arr : list F) (i : Z) : F :=
  let n := Z.of_nat (length arr) in
  nth (Z.to_nat (if (i <? 0)%Z then n + i else i)%Z) arr nnan.

(** [_lerp(a, b, t)]: [a + (b - a) * t], computed from [b] when
    [t >= 0.5]. *)
Definition lerp (a b t : F) : F :=
  let diff_b_a := b - a in
  if nof_Z 1 / nof_Z 2 <=? t
  then b - diff_b_a * (nof_Z 1 - t)
  else a + diff_b_a * t.

(** [np.percentile(arr, q)] with the default method ["linear"]: the
    virtual index [(n - 1) * q / 100] is split into the neighbouring
    positions of the sorted array, which are interpolated; an array that
    holds a NaN gives NaN. *)
Definition percentile (arr : list F) (q : Z) : result F :=
  if ((q <? 0) || (100 <? q))%Z then
    Raise (ValueError "Percentiles must be in the range [0, 100]")
  else
  match arr with
  | [] => Raise (IndexError "index -1 is out of bounds for axis 0 with size 0")
  | _ =>
      let values_count := Z.of_nat (length arr) in
      let quantile := nof_Z q / nof_Z 100 in
      let virtual_index := nof_Z (values_count - 1) * quantile in
      let above := nof_Z (values_count - 1) <=? virtual_index in
      let below := virtual_index <? nof_Z 0 in
      let previous_index :=
        if above then (-1)%Z else if below then 0%Z
        else nfloor virtual_index in
      let next_index :=
        if above then (-1)%Z else if below then 0%Z
        else (nfloor virtual_index + 1)%Z in
      let sorted := sort arr in
      let gamma := virtual_index - nof_Z previous_index in
      if existsb nis_nan arr then Ok nnan
      else Ok (lerp (item sorted previous_index) (item sorted next_index) gamma)
  end.

End Generic.
End NumpyPercentile.

(* ================================================================== *)
(** * models/monte_carlo.py *)

Module MonteCarlo.
Section Generic.
Context {F : Type} `{Numeric F} (np : Numpy F).
Local Open Scope num_scope.

(** The dictionary [monte_carlo_simulation] returns. *)
Record scenarios : Type := {
  p10 : F; p25 : F; p50 : F; p75 : F; p90 : F; mean : F; std : F
}.

Fixpoint draw_row (k : nat) (g : RandomState np) : list F * RandomState np :=
  match k with
  | O => ([], g)
  | S k' =>
      let '(z, g1) := next_gauss np g in
      let '(zs, g2) := draw_row k' g1 in
      (z :: zs, g2)
  end.

Fixpoint draw_rows (n k : nat) (g : RandomState np)
  : list (list F) * RandomState np :=
  match n with
  | O => ([], g)
  | S n' =>
      let '(row, g1) := draw_row k g in
      let '(rows, g2) := draw_rows n' k g1 in
      (row :: rows, g2)
  end.

(** [np.random.standard_normal((rows, cols))]: the array is filled row by
    row from the global generator; a negative dimension is an error. *)
Definition standard_normal (rows cols : Z) (g : RandomState np)
  : result (list (list F)) * RandomState np :=
  if ((rows <? 0) || (cols <? 0))%Z then
    (Raise (ValueError "negative dimensions are not allowed"), g)
  else
    let '(Zs, g') := draw_rows (Z.to_nat rows) (Z.to_nat cols) g in
    (Ok Zs, g').

(** One row of [paths]: [paths[t] = paths[t - 1] * daily_returns[t - 1]],
    from [paths[0] = last_price]; the value is [paths[-1]]. *)
Definition final_price (last_price : F) (returns : list F) : F :=
  fold_left nmul returns last_price.

(** [x ** 2] on a Python float: the square, taken as the correctly
    rounded product, and [OverflowError] when the square of a finite
    number is infinite.  An infinite or NaN operand gives an infinite
    or NaN square without an error. *)
Definition float_square (x : F) : result F :=
  let y := x * x in
  if nis_inf y && negb (nis_inf x) then
    Raise (OverflowError "(34, 'Numerical result out of range')")
  else Ok y.

(** The terminal prices [paths[:, -1]] of the simulated paths, with
    [daily_returns = exp((mu - 0.5 * sigma**2) * dt + sigma * sqrt(dt) * Z)]
    computed elementwise over the array [Z] of normal draws: the two
    scalars once, then one product, sum and exponential per draw.
    [0.5] is [1 / 2]; [sigma**2] is evaluated after the draws, on the
    Python float the pipeline passes. *)
Definition simulate_final_prices (last_price annual_return annual_volatility : F)
    (days n_simulations : Z) (g : RandomState np)
  : result (list F) * RandomState np :=
  let dt := nof_Z 1 / nof_Z 252 in
  let mu := annual_return in
  let sigma := annual_volatility in
  let g := np_random_seed np 42 in
  let '(r, g) := standard_normal n_simulations days g in
  match r with
  | Raise e => (Raise e, g)
  | Ok Zs =>
      match float_square sigma with
      | Raise e => (Raise e, g)
      | Ok sigma2 =>
          let drift := (mu - (nof_Z 1 / nof_Z 2) * sigma2) * dt in
          let diffusion := sigma * nsqrt dt in
          let daily_returns :=
            map (map (fun z => np_exp np (drift + diffusion * z))) Zs in
          (Ok (map (final_price last_price) daily_returns), g)
      end
  end.

Definition summarize (final_prices : list F) : result scenarios :=
  q10 ← NumpyPercentile.percentile final_prices 10;
  q25 ← NumpyPercentile.percentile final_prices 25;
  q50 ← NumpyPercentile.percentile final_prices 50;
  q75 ← NumpyPercentile.percentile final_prices 75;
  q90 ← NumpyPercentile.percentile final_prices 90;
  Ok {| p10 := q10; p25 := q25; p50 := q50; p75 := q75; p90 := q90;
        mean := np_mean np final_prices; std := np_std np final_prices |}.

(** [monte_carlo_simulation(last_price, annual_return, annual_volatility,
    days, n_simulations)], as a transformer of the global generator
    state. *)
Definition monte_carlo_simulation (last_price annual_return annual_volatility : F)
    (days n_simulations : Z) (g : RandomState np)
  : result scenarios * RandomState np :=
  let '(r, g) :=
    simulate_final_prices last_price annual_return annual_volatility
                          days n_simulations g in
  match r with
  | Raise e => (Raise e, g)
  | Ok final_prices => (summarize final_prices, g)
  end.

End Generic.
Arguments scenarios F : clear implicits.

(** The default [n_simulations=1000]. *)
Definition default_n_simulations : Z := 1000.

End MonteCarlo.

(* ================================================================== *)
(** * pandas series operations used by the pipeline

    Rolling and exponentially weighted windows and percent changes, by
    their documented formulas.  pandas accumulates the window sums
    incrementally, so its last bits can differ from the sums written
    here; the warm-up rows, which the theorems depend on, do not. *)

Module Pandas.
Local Open Scope float_scope.

Definition fsum (xs : list float) : float := fold_left PrimFloat.add xs 0.

(** The window [xs[i - w + 1 .. i]]. *)
Definition window (w i : nat) (xs : list float) : list float :=
  take w (drop (i + 1 - w) xs).

(** [s.rolling(window=w).mean()]: undefined (NaN) on the first [w - 1]
    rows, then the mean of the last [w] values. *)
Definition rolling_mean (w : nat) (xs : list float) : list float :=
  imap (fun i _ =>
          if (i + 1 <? w)%nat then nan
          else fsum (window w i xs) / PyFloat.of_Z (Z.of_nat w)) xs.

(** [s.rolling(w).std()]: the sample standard deviation of the window. *)
Definition rolling_std (w : nat) (xs : list float) : list float :=
  imap (fun i _ =>
          if (i + 1 <? w)%nat then nan
          else
            let win := window w i xs in
            let m := fsum win / PyFloat.of_Z (Z.of_nat w) in
            PrimFloat.sqrt (fsum (map (fun x => (x - m) * (x - m)) win)
                  / PyFloat.of_Z (Z.of_nat w - 1))) xs.

(** [s.ewm(span=span, adjust=False).mean()]:
    [y0 = x0], [y_t = (1 - alpha) * y_(t-1) + alpha * x_t] with
    [alpha = 2 / (span + 1)]. *)
Fixpoint ewm_from (alpha y : float) (xs : list float) : list float :=
  match xs with
  | [] => []
  | x :: xs' =>
      let y' := (1 - alpha) * y + alpha * x in
      y' :: ewm_from alpha y' xs'
  end.

Definition ewm_mean (span : nat) (xs : list float) : list float :=
  match xs with
  | [] => []
  | x :: xs' =>
      x :: ewm_from (2 / PyFloat.of_Z (Z.of_nat span + 1)) x xs'
  end.

(** [s.pct_change(k)]: [x_i / x_(i-k) - 1], undefined on the first [k]
    rows. *)
Definition pct_change (k : nat) (xs : list float) : list float :=
  imap (fun i x =>
          if (i <? k)%nat then nan
          else x / nth (i - k) xs nan - 1) xs.

(** [s.dropna()] on a series. *)
Definition dropna (xs : list float) : list float :=
  filter (fun x => is_nan x = false) xs.

End Pandas.

(* ================================================================== *)
(** * features/engineering.py *)

Module Engineering.
Local Open Scope float_scope.

(** One record of the price series. *)
Record ohlcv : Type := {
  date : Z; open : float; high : float; low : float; close : float;
  volume : float
}.

(** A row of the feature table: the price record and the derived
    columns, in the order of [columns]. *)
Record row : Type := { base : ohlcv; vals : list float }.

Record frame : Type := { columns : list string; rows : list row }.

(** The indicators computed by the [ta] package.  Each call returns a
    series indexed like its input, or raises. *)
Record TaLib : Type := {
  ta_rsi : list float -> nat -> result (list float);
  ta_macd : list float -> nat -> nat -> nat
            -> result (list float * list float * list float);
  ta_bollinger : list float -> nat -> nat
                 -> result (list float * list float * list float);
  ta_average_true_range :
    list float -> list float -> list float -> nat -> result (list float);
  ta_on_balance_volume : list float -> list float -> result (list float);
  ta_roc : list float -> nat -> result (list float)
}.

(** [df[name] = series] for each named series: the value at each row's
    position, NaN where the series has none. *)
Definition assign_columns (df : list ohlcv) (cols : list (string * list float))
  : frame :=
  {| columns := map fst cols;
     rows := imap (fun i b =>
                     {| base := b;
                        vals := map (fun c => nth i (snd c) nan) cols |}) df |}.

Definition add_technical_indicators (ta : TaLib) (df : list ohlcv)
  : result frame :=
  let c := map close df in
  let sma := map (fun '(w, name) => (name, Pandas.rolling_mean w c))
                 [(5, "sma_5"); (20, "sma_20"); (50, "sma_50");
                  (200, "sma_200")]%nat in
  let ema := map (fun '(w, name) => (name, Pandas.ewm_mean w c))
                 [(5, "ema_5"); (20, "ema_20"); (50, "ema_50");
                  (200, "ema_200")]%nat in
  rsi_14 ← ta_rsi ta c 14;
  '(macd, macd_signal, macd_diff) ← ta_macd ta c 26 12 9;
  '(bb_upper, bb_lower, bb_mid) ← ta_bollinger ta c 20 2;
  let bb_width :=
    zip_with PrimFloat.div (zip_with PrimFloat.sub bb_upper bb_lower) bb_mid in
  atr_14 ← ta_average_true_range ta (map high df) (map low df) c 14;
  obv ← ta_on_balance_volume ta c (map volume df);
  roc_10 ← ta_roc ta c 10;
  let return_1d := Pandas.pct_change 1 c in
  let return_5d := Pandas.pct_change 5 c in
  let return_20d := Pandas.pct_change 20 c in
  let volatility_20d :=
    map (fun s => s * PrimFloat.sqrt 252) (Pandas.rolling_std 20 return_1d) in
  Ok (assign_columns df
        (sma ++ ema ++
         [("rsi_14", rsi_14); ("macd", macd); ("macd_signal", macd_signal);
          ("macd_diff", macd_diff); ("bb_upper", bb_upper);
          ("bb_lower", bb_lower); ("bb_mid", bb_mid);
          ("bb_width", bb_width); ("atr_14", atr_14); ("obv", obv);
          ("roc_10", roc_10); ("return_1d", return_1d);
          ("return_5d", return_5d); ("return_20d", return_20d);
          ("volatility_20d", volatility_20d)])).

(** A market-context frame as [fetch_market_data] builds it: the dates
    and one value column, named like its key in the dictionary. *)
Definition market_frame : Type := list (Z * float).

(** [pd.merge(df, mdf, on="date", how="left")]: every row of [df], in
    order, once per matching row of [mdf], and once with NaN when there
    is none. *)
Definition merge_left (df : frame) (name : string) (mdf : market_frame)
  : frame :=
  {| columns := columns df ++ [name];
     rows := flat_map (fun r =>
               match filter (fun m => Z.eqb (fst m) (date (base r))) mdf with
               | [] => [ {| base := base r; vals := vals r ++ [nan] |} ]
               | ms => map (fun m => {| base := base r;
                                        vals := vals r ++ [snd m] |}) ms
               end) (rows df) |}.

Definition is_market_col (name : string) : bool :=
  existsb (String.eqb name) ["sp500"; "vix"; "tnx"]%string.

(** One step of [ffill]: a NaN in a market column takes the value of the
    row above. *)
Definition ffill_row (cols : list string) (prev cur : list float)
  : list float :=
  imap (fun j v =>
          if is_market_col (nth j cols "") && is_nan v
          then nth j prev nan else v) cur.

Fixpoint ffill_rows (cols : list string) (prev : list float) (rs : list row)
  : list row :=
  match rs with
  | [] => []
  | r :: rs' =>
      let v := ffill_row cols prev (vals r) in
      {| base := base r; vals := v |} :: ffill_rows cols v rs'
  end.

(** The position of a column name, when present. *)
Fixpoint col_index (name : string) (cols : list string) : option nat :=
  match cols with
  | [] => None
  | c :: cols' =>
      if String.eqb c name then Some 0%nat
      else option_map S (col_index name cols')
  end.

Definition add_market_features (df : frame)
    (market_data : list (string * market_frame)) : frame :=
  let df := fold_left (fun d '(name, mdf) => merge_left d name mdf)
                      market_data df in
  let df := {| columns := columns df;
               rows := ffill_rows (columns df) [] (rows df) |} in
  match col_index "sp500" (columns df) with
  | Some j =>
      let ret := Pandas.pct_change 1
                   (map (fun r => nth j (vals r) nan) (rows df)) in
      {| columns := columns df ++ ["sp500_return"];
         rows := imap (fun i r => {| base := base r;
                                     vals := vals r ++ [nth i ret nan] |})
                      (rows df) |}
  | None => df
  end.

Definition row_has_nan (r : row) : bool :=
  let b := base r in
  is_nan (open b) || is_nan (high b) || is_nan (low b) || is_nan (close b)
  || is_nan (volume b) || existsb is_nan (vals r).

(** [df.dropna().reset_index(drop=True)]. *)
Definition dropna (df : frame) : frame :=
  {| columns := columns df;
     rows := filter (fun r => row_has_nan r = false) (rows df) |}.

(** [prepare_features(df, market_data)]; [None] and the empty dictionary
    both skip the market features. *)
Definition prepare_features (ta : TaLib) (df : list ohlcv)
    (market_data : option (list (string * market_frame))) : result frame :=
  df ← add_technical_indicators ta df;
  let df := match market_data with
            | Some (m :: ms) => add_market_features df (m :: ms)
            | _ => df
            end in
  Ok (dropna df).

End Engineering.

(* ================================================================== *)
(** * models/lstm_model.py *)

Module Lstm.
Local Open Scope float_scope.

Definition SEQUENCE_LENGTH : nat := 60.

(** The Keras model: [keras_fit X y] builds the two-layer network of
    [_build_lstm_model] and trains it; [keras_predict m X] is the single
    output of [m.predict] on one window. *)
Record Keras : Type := {
  KerasModel : Type;
  keras_fit : list (list (list float)) -> list (list float) -> KerasModel;
  keras_predict : KerasModel -> list (list float) -> float
}.

Definition scaler : Type := MinMaxScaler.t float.

(** [residuals.values.reshape(-1, 1)]. *)
Definition reshape_column (xs : list float) : list (list float) :=
  map (fun x => [x]) xs.

(** The loop of [prepare_lstm_data]: for [i] from [seq_length] up to
    [len(scaled_features)], the window [scaled_features[i - seq_length : i]]
    and the target [scaled_target[i]]. *)
Definition build_sequences (seq_length : nat)
    (scaled_features scaled_target : list (list float))
  : result (list (list (list float)) * list (list float)) :=
  mapM (fun i =>
          match scaled_target !! i with
          | Some y => Ok (take seq_length (drop (i - seq_length) scaled_features), y)
          | None => Raise (IndexError "index out of bounds")
          end)
       (seq seq_length (length scaled_features - seq_length))
  ≫= fun xy => Ok (map fst xy, map snd xy).

(** [prepare_lstm_data(features_df, residuals)].  [features] holds the
    values of the columns other than date, close, open, high, low and
    volume. *)
Definition prepare_lstm_data (features : list (list float))
    (residuals : list float)
  : result (list (list (list float)) * list (list float) * scaler * scaler) :=
  '(feature_scaler, scaled_features) ← MinMaxScaler.fit_transform features;
  '(target_scaler, scaled_target) ←
     MinMaxScaler.fit_transform (reshape_column residuals);
  '(X, y) ← build_sequences SEQUENCE_LENGTH scaled_features scaled_target;
  Ok (X, y, feature_scaler, target_scaler).

(** [train_lstm(features_df, residuals)]: no model when fewer than
    [SEQUENCE_LENGTH + 10] sequences are available. *)
Definition train_lstm (K : Keras) (features : list (list float))
    (residuals : list float)
  : result (option (KerasModel K) * scaler * scaler) :=
  '(X, y, feature_scaler, target_scaler) ← prepare_lstm_data features residuals;
  if (length X <? SEQUENCE_LENGTH + 10)%nat then
    Ok (None, feature_scaler, target_scaler)
  else
    Ok (Some (keras_fit K X y), feature_scaler, target_scaler).

(** [target_scaler.inverse_transform] on the array [model.predict]
    returns.  That array is [float32]; sklearn keeps the dtype and
    subtracts and divides in place, so each of the two steps is
    computed in binary64 and stored as binary32. *)
Definition inverse_transform_float32 (sc : scaler) (X : list (list float))
  : result (list (list float)) :=
  X ← MinMaxScaler.check_array X;
  X ← MinMaxScaler.check_n_features sc X;
  Ok (map (fun row =>
        zip_with (fun x s => PyFloat.to_float32 (x / s))
                 (zip_with (fun x m => PyFloat.to_float32 (x - m))
                           row (MinMaxScaler.min_ sc))
                 (MinMaxScaler.scale_ sc)) X).

(** [predict_lstm_residual(model, recent_features, feature_scaler,
    target_scaler)].  The prediction of the network is a [float32]
    value, and so is the residual handed back, as a Python float. *)
Definition predict_lstm_residual (K : Keras) (model : option (KerasModel K))
    (recent_features : list (list float))
    (feature_scaler target_scaler : scaler) : result float :=
  match model with
  | None => Ok 0
  | Some m =>
      scaled ← MinMaxScaler.transform feature_scaler recent_features;
      let X := drop (length scaled - SEQUENCE_LENGTH) scaled in
      if negb (length X =? SEQUENCE_LENGTH)%nat then
        Raise (ValueError "cannot reshape array")
      else
        let pred_scaled := PyFloat.to_float32 (keras_predict K m X) in
        pred ← inverse_transform_float32 target_scaler [[pred_scaled]];
        match pred with
        | [p] :: _ => Ok p
        | _ => Raise (IndexError "index out of bounds")
        end
  end.

End Lstm.

(* ================================================================== *)
(** * models/prophet_model.py *)

Module ProphetModel.
Local Open Scope float_scope.

(** A row of a Prophet forecast. *)
Record fc_row : Type := {
  ds : Z; yhat : float; yhat_lower : float; yhat_upper : float
}.

(** The Prophet library: fitting, the future calendar
    ([make_future_dataframe]: the history dates followed by [periods]
    business days) and prediction at given dates. *)
Record Prophet : Type := {
  Model : Type;
  prophet_fit : list (Z * float) -> result Model;
  make_future_dataframe : Model -> Z -> list Z;
  prophet_predict : Model -> list Z -> list fc_row
}.

(** [train_prophet(df)].  [Prophet.fit] refuses a history of fewer than
    two rows. *)
Definition train_prophet (P : Prophet) (df : Engineering.frame)
  : result (Model P) :=
  let prophet_df :=
    map (fun r => (Engineering.date (Engineering.base r),
                   Engineering.close (Engineering.base r)))
        (Engineering.rows df) in
  if (length prophet_df <? 2)%nat then
    Raise (ValueError "Dataframe has less than 2 non-NaN rows.")
  else prophet_fit P prophet_df.

(** [prophet_forecast(model, periods)] with business-day frequency. *)
Definition prophet_forecast (P : Prophet) (model : Model P) (periods : Z)
  : list fc_row :=
  let future := make_future_dataframe P model periods in
  prophet_predict P model future.

(** [get_prophet_residuals(model, df)]: the column [residual], actual
    minus in-sample prediction, one entry per row of [df]. *)
Definition get_prophet_residuals (P : Prophet) (model : Model P)
    (df : Engineering.frame) : result (list float) :=
  let rs := Engineering.rows df in
  let in_sample :=
    prophet_predict P model
      (map (fun r => Engineering.date (Engineering.base r)) rs) in
  if negb (length in_sample =? length rs)%nat then
    Raise (ValueError "Length of values does not match length of index")
  else
    Ok (zip_with (fun r p => Engineering.close (Engineering.base r) - yhat p)
                 rs in_sample).

Definition HORIZON_DAYS : gmap string Z :=
  list_to_map
    [("1mo", 21); ("6mo", 126); ("1yr", 252); ("2yr", 504);
     ("3yr", 756); ("4yr", 1008); ("5yr", 1260)]%Z.

End ProphetModel.

(* ================================================================== *)
(** * predict.py *)

Module Predict.
Local Open Scope float_scope.

(** Horizon weighting for the LSTM influence. *)
Definition LSTM_WEIGHTS : gmap string float :=
  list_to_map
    [("1mo", 0.6); ("6mo", 0.5); ("1yr", 0.4); ("2yr", 0.3);
     ("3yr", 0.2); ("4yr", 0.15); ("5yr", 0.1)].

(** [HORIZON_DAYS.get(h, 252)] and [LSTM_WEIGHTS.get(h, 0.3)]. *)
Definition horizon_days (h : string) : Z :=
  default 252%Z (ProphetModel.HORIZON_DAYS !! h).
Definition lstm_weight (h : string) : float :=
  default 0.3 (LSTM_WEIGHTS !! h).

(** Everything the pipeline calls outside of this repository's core. *)
Record Libs : Type := {
  np : Numpy float;
  ta : Engineering.TaLib;
  prophet : ProphetModel.Prophet;
  keras : Lstm.Keras;
  get_stock_data : string -> result (list Engineering.ohlcv);
  fetch_market_data : result (list (string * Engineering.market_frame));
  series_mean : list float -> float;
  series_std : list float -> float
}.

(** The rounded percentile bundle attached to long horizons. *)
Record monte_carlo_bundle : Type := {
  mc_p10 : float; mc_p25 : float; mc_p50 : float; mc_p75 : float;
  mc_p90 : float
}.

(** One entry of [horizon_results]. *)
Record horizon_result : Type := {
  horizon : string;
  predictedPrice : float;
  lowerBound : float;
  upperBound : float;
  changePercent : float;
  confidence : float;
  monteCarlo : option monte_carlo_bundle
}.

(** One entry of [forecast_timeseries]. *)
Record ts_point : Type := {
  ts_date : Z; ts_value : float; ts_lower : float; ts_upper : float
}.

(** The terminal status a run hands to the persistence layer. *)
Inductive outcome : Type :=
| Completed (horizons : list horizon_result)
            (forecastTimeseries : list ts_point)
| Failed (error : exn).

(** The state of a run when the horizon loop starts. *)
Record context (L : Libs) : Type := {
  prophet_model : ProphetModel.Model (prophet L);
  lstm_model : option (Lstm.KerasModel (keras L));
  feat_scaler : Lstm.scaler;
  target_scaler : Lstm.scaler;
  aligned_features : list (list float);
  last_price : float;
  annual_return : float;
  annual_vol : float
}.
Arguments prophet_model {L} _.
Arguments lstm_model {L} _.
Arguments feat_scaler {L} _.
Arguments target_scaler {L} _.
Arguments aligned_features {L} _.
Arguments last_price {L} _.
Arguments annual_return {L} _.
Arguments annual_vol {L} _.

(** The LSTM residual correction of one iteration: zero without a model
    or without a full window of history. *)
Definition lstm_correction {L : Libs} (c : context L) : result float :=
  match lstm_model c with
  | Some m =>
      if (Lstm.SEQUENCE_LENGTH <=? length (aligned_features c))%nat then
        let recent :=
          drop (length (aligned_features c) - Lstm.SEQUENCE_LENGTH)
               (aligned_features c) in
        Lstm.predict_lstm_residual (keras L) (Some m) recent
                                   (feat_scaler c) (target_scaler c)
      else Ok 0
  | None => Ok 0
  end.

(** The ensemble of one horizon, before rounding. *)
Record ensemble : Type := {
  predicted_price : float;
  lower_bound : float;
  upper_bound : float;
  change_pct : float
}.

(** The division of two Python floats raises on a zero divisor, of
    either sign. *)
Definition blend (prophet_price prophet_lower prophet_upper : float)
    (weight lstm_residual last : float) : result ensemble :=
  let predicted := prophet_price + weight * lstm_residual in
  let lower := prophet_lower + weight * lstm_residual in
  let upper := prophet_upper + weight * lstm_residual in
  if last =? 0 then Raise (ZeroDivisionError "float division by zero")
  else
    Ok {| predicted_price := predicted;
          lower_bound := lower;
          upper_bound := upper;
          change_pct := ((predicted - last) / last) * 100 |}.

(** Confidence degrades with the horizon. *)
Definition confidence_of (days : Z) : float :=
  let base_confidence := 0.85 in
  let decay := PyFloat.of_Z days / PyFloat.of_Z 2520 in
  PyFloat.py_max 0.1 (base_confidence * (1 - decay)).

Definition round_bundle (mc : MonteCarlo.scenarios float) : monte_carlo_bundle :=
  {| mc_p10 := PyFloat.py_round (MonteCarlo.p10 mc) 2;
     mc_p25 := PyFloat.py_round (MonteCarlo.p25 mc) 2;
     mc_p50 := PyFloat.py_round (MonteCarlo.p50 mc) 2;
     mc_p75 := PyFloat.py_round (MonteCarlo.p75 mc) 2;
     mc_p90 := PyFloat.py_round (MonteCarlo.p90 mc) 2 |}.

(** The Monte Carlo block of one iteration: run for three years and
    more. *)
Definition monte_carlo_block {L : Libs} (c : context L) (days : Z)
    (g : RandomState (np L))
  : result (option monte_carlo_bundle) * RandomState (np L) :=
  if (756 <=? days)%Z then
    let '(r, g') :=
      MonteCarlo.monte_carlo_simulation (np L) (last_price c)
        (annual_return c) (annual_vol c) days
        MonteCarlo.default_n_simulations g in
    (mc ← r; Ok (Some (round_bundle mc)), g')
  else (Ok None, g).

(** The body of [for h in horizons]. *)
Definition forecast_horizon {L : Libs} (c : context L) (h : string)
    (g : RandomState (np L))
  : result horizon_result * RandomState (np L) :=
  let days := horizon_days h in
  let weight := lstm_weight h in
  let prophet_fc :=
    ProphetModel.prophet_forecast (prophet L) (prophet_model c) days in
  match
    prophet_end ← iloc_last prophet_fc;
    lstm_residual ← lstm_correction c;
    blend (ProphetModel.yhat prophet_end)
          (ProphetModel.yhat_lower prophet_end)
          (ProphetModel.yhat_upper prophet_end)
          weight lstm_residual (last_price c)
  with
  | Raise e => (Raise e, g)
  | Ok e =>
      let '(mc, g') := monte_carlo_block c days g in
      (mc ← mc;
       Ok {| horizon := h;
             predictedPrice := PyFloat.py_round (predicted_price e) 2;
             lowerBound := PyFloat.py_round (lower_bound e) 2;
             upperBound := PyFloat.py_round (upper_bound e) 2;
             changePercent := PyFloat.py_round (change_pct e) 2;
             confidence := PyFloat.py_round (confidence_of days) 3;
             monteCarlo := mc |}, g')
  end.

(** The loop over the requested horizons; the first exception ends it. *)
Fixpoint forecast_horizons {L : Libs} (c : context L) (horizons : list string)
    (g : RandomState (np L))
  : result (list horizon_result) * RandomState (np L) :=
  match horizons with
  | [] => (Ok [], g)
  | h :: hs =>
      let '(r, g1) := forecast_horizon c h g in
      match r with
      | Raise e => (Raise e, g1)
      | Ok res =>
          let '(rs, g2) := forecast_horizons c hs g1 in
          (rs ← rs; Ok (res :: rs), g2)
      end
  end.

(** [max(HORIZON_DAYS.get(h, 252) for h in horizons)]. *)
Definition max_days (horizons : list string) : result Z :=
  match horizons with
  | [] => Raise (ValueError "max() arg is an empty sequence")
  | h :: hs => Ok (fold_left (fun m h' => Z.max m (horizon_days h'))
                             hs (horizon_days h))
  end.

(** The forecast timeseries for charting, over the longest horizon. *)
Definition build_timeseries {L : Libs} (c : context L) (last_date : Z)
    (horizons : list string) : result (list ts_point) :=
  max_days ← max_days horizons;
  let full_forecast :=
    ProphetModel.prophet_forecast (prophet L) (prophet_model c) max_days in
  let future_only :=
    filter (fun r => (last_date <? ProphetModel.ds r)%Z = true) full_forecast in
  Ok (map (fun r =>
             {| ts_date := ProphetModel.ds r;
                ts_value := PyFloat.py_round (ProphetModel.yhat r) 2;
                ts_lower := PyFloat.py_round (ProphetModel.yhat_lower r) 2;
                ts_upper := PyFloat.py_round (ProphetModel.yhat_upper r) 2 |})
          future_only).

(** Steps 1 to 4 and the scalars of step 5: data, features, Prophet,
    residuals, the LSTM, the last price and the annualized return and
    volatility. *)
Definition prepare_context (L : Libs) (ticker : string)
  : result (context L * Z) :=
  df ← get_stock_data L ticker;
  market_data ← fetch_market_data L;
  features_df ← Engineering.prepare_features (ta L) df (Some market_data);
  prophet_model ← ProphetModel.train_prophet (prophet L) features_df;
  residuals ←
    ProphetModel.get_prophet_residuals (prophet L) prophet_model features_df;
  let aligned :=
    map Engineering.vals
        (take (length residuals) (Engineering.rows features_df)) in
  '(lstm_model, feat_scaler, target_scaler) ←
    Lstm.train_lstm (keras L) aligned residuals;
  last ← iloc_last (Engineering.rows features_df);
  let closes :=
    map (fun r => Engineering.close (Engineering.base r))
        (Engineering.rows features_df) in
  let returns := Pandas.dropna (Pandas.pct_change 1 closes) in
  Ok ({| prophet_model := prophet_model;
         lstm_model := lstm_model;
         feat_scaler := feat_scaler;
         target_scaler := target_scaler;
         aligned_features := aligned;
         last_price := Engineering.close (Engineering.base last);
         annual_return := series_mean L returns * 252;
         annual_vol := series_std L returns * PrimFloat.sqrt 252 |},
      Engineering.date (Engineering.base last)).

(** [run_prediction(prediction_id, ticker, horizons)]: the status the run
    ends with.  Any exception is caught and recorded as a failure. *)
Definition run_prediction (L : Libs) (prediction_id ticker : string)
    (horizons : list string) (g : RandomState (np L))
  : outcome * RandomState (np L) :=
  match prepare_context L ticker with
  | Raise e => (Failed e, g)
  | Ok (c, last_date) =>
      let '(r, g') := forecast_horizons c horizons g in
      match r with
      | Raise e => (Failed e, g')
      | Ok horizon_results =>
          match build_timeseries c last_date horizons with
          | Raise e => (Failed e, g')
          | Ok forecast_timeseries =>
              (Completed horizon_results (take 500 forecast_timeseries), g')
          end
      end
  end.

End Predict.

(* ================================================================== *)
(** * Reference libraries for running the model

    Executable stand-ins for the library parameters, used to evaluate the
    model on concrete inputs.  The general theorems do not depend on
    them. *)

Module Reference.
Local Open Scope float_scope.

(** [x] rounded to an integer value, for [|x| < 2^51]. *)
Definition rint (x : float) : float := (x + 0x1.8p52) - 0x1.8p52.

(** [p * 2^k] for an integer-valued [k] with [|k| < 1536]. *)
Definition scale2 (p k : float) : float :=
  snd (fold_left
         (fun '(rest, acc) '(b, pw) =>
            if b <=? rest
            then (rest - b, if 0 <=? k then acc * pw else acc / pw)
            else (rest, acc))
         [(512, 0x1p512); (512, 0x1p512); (256, 0x1p256); (128, 0x1p128);
          (64, 0x1p64); (32, 0x1p32); (16, 0x1p16); (8, 0x1p8); (4, 0x1p4);
          (2, 0x1p2); (1, 0x1p1)]
         (abs k, p)).

(** An exponential on binary64: Cody-Waite range reduction
    [x = k * ln 2 + r] and a Taylor polynomial in [r].  It has the IEEE
    special cases of every [exp]: NaN on NaN, zero below the underflow
    threshold, infinity above the overflow threshold; its values are
    never negative. *)
Definition exp (x : float) : float :=
  if is_nan x then nan
  else if x <? -746 then 0
  else if 710 <? x then infinity
  else
    let k := rint (x / 0x1.62e42fefa39efp-1) in
    let r := (x - k * 0x1.62e42feep-1) - k * 0x1.a39ef35793c76p-33 in
    let p :=
      fold_right (fun c acc => c + r * acc) 0
        [1; 1; 0.5; 0.16666666666666666; 0.041666666666666664;
         0.008333333333333333; 0.001388888888888889;
         0.0001984126984126984; 2.48015873015873e-05;
         2.7557319223985893e-06; 2.755731922398589e-07;
         2.505210838544172e-08; 2.08767569878681e-09;
         1.6059043836821613e-10] in
    abs (scale2 p k).

(** A small deterministic generator: the minimal-standard congruential
    state [s' = 16807 * s mod (2^31 - 1)], computed exactly in binary64,
    and a draw uniform on an interval of unit variance. *)
Definition lcg_next (s : float) : float * float :=
  let t := 16807 * s in
  let q := rint (t / 2147483647) in
  let q := if t <? q * 2147483647 then q - 1 else q in
  let s' := t - q * 2147483647 in
  ((s' / 2147483647 * 2 - 1) * PrimFloat.sqrt 3, s').

Definition mean (xs : list float) : float :=
  Pandas.fsum xs / PyFloat.of_Z (Z.of_nat (length xs)).

(** Standard deviation with [ddof] delta degrees of freedom. *)
Definition std (ddof : Z) (xs : list float) : float :=
  let m := mean xs in
  PrimFloat.sqrt (Pandas.fsum (map (fun x => (x - m) * (x - m)) xs)
                  / PyFloat.of_Z (Z.of_nat (length xs) - ddof)).

Definition numpy : Numpy float :=
  {| np_exp := exp;
     np_mean := mean;
     np_std := std 0;
     RandomState := float;
     np_random_seed := fun seed => PyFloat.of_Z seed;
     next_gauss := lcg_next |}.

(** Exact arithmetic: the real exponential, and a generator whose draws
    are all zero. *)
Definition real_numpy : Numpy R :=
  {| np_exp := Rtrigo_def.exp;
     np_mean := fun _ => 0%R;
     np_std := fun _ => 0%R;
     RandomState := unit;
     np_random_seed := fun _ => tt;
     next_gauss := fun g => (0%R, g) |}.

(** Indicators in the manner of [ta]: MACD and its signal from
    exponential averages, Bollinger bands from the rolling mean and
    deviation, the rate of change in percent, a cumulative on-balance
    volume, Cutler's RSI, and the average true range, which indexes
    position [window - 1] and so raises on a shorter series. *)
Definition cumulative (xs : list float) : list float :=
  match xs with
  | [] => []
  | x :: xs' =>
      x :: snd (fold_left (fun '(s, out) v => (s + v, out ++ [s + v]))
                          xs' (x, []))
  end.

Definition ta : Engineering.TaLib :=
  {| Engineering.ta_rsi := fun c w =>
       let d := Pandas.pct_change 1 c in
       let up := map (fun x => if 0 <? x then x else 0) d in
       let dn := map (fun x => if x <? 0 then - x else 0) d in
       Ok (zip_with (fun u v => 100 - 100 / (1 + u / v))
                    (Pandas.rolling_mean w up) (Pandas.rolling_mean w dn));
     Engineering.ta_macd := fun c slow fast sign =>
       let m := zip_with PrimFloat.sub (Pandas.ewm_mean fast c)
                                       (Pandas.ewm_mean slow c) in
       let s := Pandas.ewm_mean sign m in
       Ok (m, s, zip_with PrimFloat.sub m s);
     Engineering.ta_bollinger := fun c w dev =>
       let mid := Pandas.rolling_mean w c in
       let sd := Pandas.rolling_std w c in
       let k := PyFloat.of_Z (Z.of_nat dev) in
       Ok (zip_with (fun m s => m + k * s) mid sd,
           zip_with (fun m s => m - k * s) mid sd, mid);
     Engineering.ta_average_true_range := fun h l c w =>
       if (length c <? w)%nat then
         Raise (IndexError "index out of bounds")
       else Ok (Pandas.rolling_mean w (zip_with PrimFloat.sub h l));
     Engineering.ta_on_balance_volume := fun c v =>
       Ok (cumulative
             (imap (fun i x =>
                      if (i =? 0)%nat then x
                      else if nth (i - 1) c nan <? nth i c nan then x
                      else - x) v));
     Engineering.ta_roc := fun c w =>
       Ok (map (fun x => x * 100) (Pandas.pct_change w c)) |}.

(** A naive baseline in place of Prophet: the model is the history; the
    forecast at every date is the last close with a band of ten percent;
    the future calendar skips Saturdays and Sundays (day 0 is a
    Thursday). *)
Fixpoint business_days (fuel : nat) (d : Z) (periods : nat) : list Z :=
  match fuel, periods with
  | O, _ | _, O => []
  | S fuel', S periods' =>
      let d' := (d + 1)%Z in
      let wd := ((d' + 3) mod 7)%Z in
      if (5 <=? wd)%Z then business_days fuel' d' periods
      else d' :: business_days fuel' d' periods'
  end.

Definition prophet : ProphetModel.Prophet :=
  {| ProphetModel.Model := list (Z * float);
     ProphetModel.prophet_fit := fun history => Ok history;
     ProphetModel.make_future_dataframe := fun history periods =>
       map fst history ++
       business_days (3 * Z.to_nat periods + 3)
                     (default 0%Z (fst <$> last history)) (Z.to_nat periods);
     ProphetModel.prophet_predict := fun history dates =>
       let y := default 0 (snd <$> last history) in
       map (fun d => {| ProphetModel.ds := d; ProphetModel.yhat := y;
                        ProphetModel.yhat_lower := y * 0.9;
                        ProphetModel.yhat_upper := y * 1.1 |}) dates |}.

(** A network that always answers the middle of the scaled range. *)
Definition keras : Lstm.Keras :=
  {| Lstm.KerasModel := unit;
     Lstm.keras_fit := fun _ _ => tt;
     Lstm.keras_predict := fun _ _ => 0.5 |}.

(** A synthetic price series of [n] consecutive days: a slow upward
    drift with a weekly wave. *)
Definition synthetic_series (n : nat) : list Engineering.ohlcv :=
  map (fun i =>
         let c := 100 + PyFloat.of_Z (Z.of_nat i) * 0.05
                  + PyFloat.of_Z (Z.of_nat i mod 7) in
         {| Engineering.date := Z.of_nat i;
            Engineering.open := c - 0.5; Engineering.high := c + 1;
            Engineering.low := c - 1; Engineering.close := c;
            Engineering.volume := 1000 |})
      (seq 0 n).

(** The libraries of a run on a synthetic series of [n] days, without
    market context. *)
Definition libs (n : nat) : Predict.Libs :=
  {| Predict.np := numpy;
     Predict.ta := ta;
     Predict.prophet := prophet;
     Predict.keras := keras;
     Predict.get_stock_data := fun _ => Ok (synthetic_series n);
     Predict.fetch_market_data := Ok [];
     Predict.series_mean := mean;
     Predict.series_std := std 1 |}.

(** A loop context over a one-day history whose drift is NaN. *)
Definition nan_drift_context : Predict.context (libs 0) :=
  let unit_scaler :=
    {| MinMaxScaler.data_min_ := [0]; MinMaxScaler.data_max_ := [1];
       MinMaxScaler.data_range_ := [1]; MinMaxScaler.scale_ := [1];
       MinMaxScaler.min_ := [0] |} in
  {| Predict.prophet_model := [(0%Z, 100)] : ProphetModel.Model (Predict.prophet (libs 0));
     Predict.lstm_model := None;
     Predict.feat_scaler := unit_scaler;
     Predict.target_scaler := unit_scaler;
     Predict.aligned_features := [];
     Predict.last_price := 100;
     Predict.annual_return := nan;
     Predict.annual_vol := 0.2 |}.

End Reference.

(* ================================================================== *)
(** * Vocabulary of the specification *)

(** The fields of a horizon result, from the ensemble [e] of the
    horizon and the Monte Carlo block [mc]. *)
Definition result_of (h : string) (e : Predict.ensemble)
    (mc : option Predict.monte_carlo_bundle) : Predict.horizon_result :=
  {| Predict.horizon := h;
     Predict.predictedPrice := PyFloat.py_round (Predict.predicted_price e) 2;
     Predict.lowerBound := PyFloat.py_round (Predict.lower_bound e) 2;
     Predict.upperBound := PyFloat.py_round (Predict.upper_bound e) 2;
     Predict.changePercent := PyFloat.py_round (Predict.change_pct e) 2;
     Predict.confidence :=
       PyFloat.py_round (Predict.confidence_of (Predict.horizon_days h)) 3;
     Predict.monteCarlo := mc |}.

(** The last row of the baseline forecast at the horizon [h]. *)
Definition baseline_end {L : Predict.Libs} (c : Predict.context L) (h : string)
  : result ProphetModel.fc_row :=
  iloc_last (ProphetModel.prophet_forecast (Predict.prophet L)
               (Predict.prophet_model c) (Predict.horizon_days h)).


(** The ensemble of the horizon [h] from the forecast's last row [fc]
    and the residual correction [res]. *)
Definition ensemble_of {L : Predict.Libs} (c : Predict.context L) (h : string)
    (fc : ProphetModel.fc_row) (res : float) : result Predict.ensemble :=
  Predict.blend (ProphetModel.yhat fc) (ProphetModel.yhat_lower fc)
    (ProphetModel.yhat_upper fc) (Predict.lstm_weight h) res
    (Predict.last_price c).

(** The last row of the feature table of a run: the data is fetched,
    the features are prepared, and the table has a last row. *)
Definition last_feature_row (L : Predict.Libs) (ticker : string)
  : result Engineering.row :=
  df ← Predict.get_stock_data L ticker;
  market_data ← Predict.fetch_market_data L;
  features_df ←
    Engineering.prepare_features (Predict.ta L) df (Some market_data);
  iloc_last (Engineering.rows features_df).

(** The square of the volatility can be taken: it does not overflow. *)
Definition square_defined {L : Predict.Libs} (c : Predict.context L) : bool :=
  is_ok (MonteCarlo.float_square (Predict.annual_vol c)).

(** What a run needs to complete: the context can be prepared, the
    baseline forecast of every requested horizon has a last row, the
    residual correction is available, the last close is not zero, and
    the square of the volatility does not overflow when a horizon is
    long enough for the simulation. *)
Definition run_ready (L : Predict.Libs) (ticker : string)
    (horizons : list string) : bool :=
  match Predict.prepare_context L ticker with
  | Ok (c, _) =>
      forallb (fun h => is_ok (baseline_end c h)) horizons
      && is_ok (Predict.lstm_correction c)
      && negb (Predict.last_price c =? 0)%float
      && (forallb (fun h => (Predict.horizon_days h <? 756)%Z) horizons
          || square_defined c)
  | Raise _ => false
  end.

(** The number of training sequences [prepare_lstm_data] builds from a
    feature table: one per row after the first [SEQUENCE_LENGTH]. *)
Definition n_sequences (features : list (list float)) : nat :=
  length features - Lstm.SEQUENCE_LENGTH.

(** Two floats denote the same number: they are the same value (NaN
    included), or they compare equal ([+0.0] and [-0.0]). *)
Definition same_number (x y : float) : Prop :=
  x = y \/ (x =? y)%float = true.

(** The arrays the scaler accepts as training data: at least one row and
    one column, rectangular, without infinite entries. *)
Definition well_formed_array (X : list (list float)) : Prop :=
  X <> [] /\ MinMaxScaler.n_features X <> 0 /\
  Forall (fun row => length row = MinMaxScaler.n_features X) X /\
  existsb (existsb PrimFloat.is_infinity) X = false.

(** The prepared context of a run has fewer than 70 training
    sequences. *)
Definition few_sequences (L : Predict.Libs) (ticker : string) : bool :=
  match Predict.prepare_context L ticker with
  | Ok (c, _) => n_sequences (Predict.aligned_features c) <? 70
  | Raise _ => false
  end.

(** The price record [b] is one of the rows of [df] at a position not
    below [lo]. *)
Definition from_index (df : list Engineering.ohlcv) (lo : nat)
    (b : Engineering.ohlcv) : Prop :=
  exists i, lo <= i /\ df !! i = Some b.

(** No column of the row holds an undefined value. *)
Definition row_complete (r : Engineering.row) : Prop :=
  let b := Engineering.base r in
  is_nan (Engineering.open b) = false /\
  is_nan (Engineering.high b) = false /\
  is_nan (Engineering.low b) = false /\
  is_nan (Engineering.close b) = false /\
  is_nan (Engineering.volume b) = false /\
  Forall (fun v => is_nan v = false) (Engineering.vals r).

(** The invariant of the feature pipeline before the final drop: the
    fourth derived column is [sma_200], and every row either stems from
    a position past the warm-up window or is undefined there. *)
Definition warm_up_marked (df : list Engineering.ohlcv)
    (f : Engineering.frame) : Prop :=
  Engineering.columns f !! 3 = Some "sma_200" /\
  Forall (fun r =>
            from_index df 199 (Engineering.base r) \/
            exists v, Engineering.vals r !! 3 = Some v /\ is_nan v = true)
         (Engineering.rows f).

(** The bundle whose five percentiles are NaN. *)
Definition nan_bundle : Predict.monte_carlo_bundle :=
  {| Predict.mc_p10 := nan; Predict.mc_p25 := nan; Predict.mc_p50 := nan;
     Predict.mc_p75 := nan; Predict.mc_p90 := nan |}.

(** The drift or the volatility of the context is NaN. *)
Definition nan_inputs {L : Predict.Libs} (c : Predict.context L) : bool :=
  is_nan (Predict.annual_return c) || is_nan (Predict.annual_vol c).

(** The prepared context of a run has a NaN drift or volatility. *)
Definition run_has_nan_inputs (L : Predict.Libs) (ticker : string) : bool :=
  match Predict.prepare_context L ticker with
  | Ok (c, _) => nan_inputs c
  | Raise _ => false
  end.

(** The square of the volatility of the prepared context of a run can
    be taken. *)
Definition run_square_defined (L : Predict.Libs) (ticker : string) : bool :=
  match Predict.prepare_context L ticker with
  | Ok (c, _) => square_defined c
  | Raise _ => false
  end.

(** Linear interpolation in a sorted array of reals at the virtual index
    [v]: the last element from [length s - 1] on, and otherwise the
    point between the elements at [floor v] and [floor v + 1]. *)
Definition interp (s : list R) (v : R) : R :=
  if Rle_dec (IZR (Z.of_nat (length s) - 1)) v then nth (length s - 1) s 0%R
  else
    let k := Z.to_nat (Int_part v) in
    (nth k s 0 + (nth (S k) s 0 - nth k s 0) * (v - IZR (Int_part v)))%R.

(** The virtual index of the [q]-th percentile of [n] values. *)
Definition virtual_index (n : nat) (q : Z) : R :=
  (IZR (Z.of_nat n - 1) * (IZR q / 100))%R.

(** A float that is not negative: NaN, or at least zero. *)
Definition non_negative_or_nan (x : float) : Prop :=
  is_nan x = true \/ (0 <=? x)%float = true.

(** The same on the specification of a float: NaN, a zero, or a positive
    sign. *)
Definition sign_not_negative (f : spec_float) : Prop :=
  match f with
  | S754_nan | S754_zero _ => True
  | S754_infinity s | S754_finite s _ _ => s = false
  end.

(* ================================================================== *)
(** * Python values, text and exceptions of the service layer *)

Module Py.

(** The exceptions of the service layer: those of the pipeline, and the
    attribute, key and type errors of the interpreter and of pandas. *)
Inductive exc : Type :=
| AttributeError (msg : string)
| KeyError (msg : string)
| TypeError (msg : string)
| Builtin (e : exn).

(** What a call answers: a value, or an exception. *)
Inductive reply (A : Type) : Type :=
| Returns (a : A)
| Raises (e : exc).
Arguments Returns {A} a.
Arguments Raises {A} e.

Definition returned {A} (r : reply A) : bool :=
  match r with Returns _ => true | Raises _ => false end.

(** The values found in the dictionaries of yfinance and Firestore. *)
Inductive value : Type :=
| VNone
| VBool (b : bool)
| VInt (z : Z)
| VFloat (x : float)
| VStr (s : string).

(** Truth value testing: [None], [False], zero and the empty string are
    false. *)
Definition truthy (v : value) : bool :=
  match v with
  | VNone => false
  | VBool b => b
  | VInt z => negb (z =? 0)%Z
  | VFloat x => negb (x =? 0)%float
  | VStr s => negb (String.eqb s "")
  end.

(** [a or b]. *)
Definition or_ (a b : value) : value := if truthy a then a else b.

(** A dictionary with text keys, in insertion order. *)
Definition dict (V : Type) : Type := list (string * V).

Fixpoint lookup {V} (d : dict V) (k : string) : option V :=
  match d with
  | [] => None
  | (k', v) :: d' => if String.eqb k' k then Some v else lookup d' k
  end.

(** [d.get(k)] and [d.get(k, default)]. *)
Definition get (d : dict value) (k : string) : value :=
  default VNone (lookup d k).
Definition get_default {V} (d : dict V) (k : string) (v : V) : V :=
  default v (lookup d k).

(** [d[k] = v]: an existing key keeps its position. *)
Fixpoint set {V} (d : dict V) (k : string) (v : V) : dict V :=
  match d with
  | [] => [(k, v)]
  | (k', v') :: d' =>
      if String.eqb k' k then (k, v) :: d' else (k', v') :: set d' k v
  end.

(** [dict(zip(keys, values))]. *)
Definition of_pairs {V} (kvs : list (string * V)) : dict V :=
  fold_left (fun d kv => set d (fst kv) (snd kv)) kvs [].

(** Text is held byte by byte.  On ASCII text, which is what ticker
    symbols and column labels are, [str.upper], [str.lower],
    [str.replace(" ", "_")] and [str.strip] act as written here; on
    other text Python follows the Unicode tables, so the theorems on a
    query or a ticker that comes from a request assume [is_ascii]. *)
Fixpoint is_ascii (s : string) : bool :=
  match s with
  | EmptyString => true
  | String a s' => (Ascii.nat_of_ascii a <? 128)%nat && is_ascii s'
  end.

Definition upper_char (a : Ascii.ascii) : Ascii.ascii :=
  let n := Ascii.nat_of_ascii a in
  if (97 <=? n)%nat && (n <=? 122)%nat then Ascii.ascii_of_nat (n - 32) else a.
Definition lower_char (a : Ascii.ascii) : Ascii.ascii :=
  let n := Ascii.nat_of_ascii a in
  if (65 <=? n)%nat && (n <=? 90)%nat then Ascii.ascii_of_nat (n + 32) else a.

Fixpoint map_chars (f : Ascii.ascii -> Ascii.ascii) (s : string) : string :=
  match s with
  | EmptyString => EmptyString
  | String a s' => String (f a) (map_chars f s')
  end.

Definition upper (s : string) : string := map_chars upper_char s.
Definition lower (s : string) : string := map_chars lower_char s.
Definition replace_space (s : string) : string :=
  map_chars (fun a => if (Ascii.nat_of_ascii a =? 32)%nat
                      then Ascii.ascii_of_nat 95 else a) s.

(** [str.strip()]: the ASCII whitespace is tab to carriage return, the
    four separators and the space. *)
Definition is_space (a : Ascii.ascii) : bool :=
  let n := Ascii.nat_of_ascii a in
  ((9 <=? n)%nat && (n <=? 13)%nat) || ((28 <=? n)%nat && (n <=? 32)%nat).

Fixpoint lstrip (s : string) : string :=
  match s with
  | String a s' => if is_space a then lstrip s' else s
  | EmptyString => EmptyString
  end.

Definition strip (s : string) : string :=
  String.rev (lstrip (String.rev (lstrip s))).

(** A state and exception monad: a computation steps the state of the
    world and returns or raises. *)
Definition io (S A : Type) : Type := S -> reply A * S.

Definition io_ret {S A} (a : A) : io S A := fun s => (Returns a, s).

Definition io_bind {S A B} (m : io S A) (k : A -> io S B) : io S B :=
  fun s =>
    match m s with
    | (Returns a, s') => k a s'
    | (Raises e, s') => (Raises e, s')
    end.

Definition raise {S A} (e : exc) : io S A := fun s => (Raises e, s).

Definition lift {S A} (r : reply A) : io S A := fun s => (r, s).

(** [try: body except Exception as e: handler(e)]. *)
Definition try_except {S A} (body : io S A) (handler : exc -> io S A)
  : io S A :=
  fun s =>
    match body s with
    | (Returns a, s') => (Returns a, s')
    | (Raises e, s') => handler e s'
    end.

End Py.

(** Sequencing in [Py.io]: [x <~ m ;; k] runs [m], binds its value and
    continues with [k]; an exception of [m] ends the sequence. *)
Declare Scope io_scope.
Delimit Scope io_scope with io.
Notation "x <~ m ;; k" := (Py.io_bind m (fun x => k))
  (at level 100, m at next level, right associativity) : io_scope.
Notation "m ;;; k" := (Py.io_bind m (fun _ => k))
  (at level 100, right associativity) : io_scope.

(* ================================================================== *)
(** * pandas data frames, as the fetcher uses them *)

Module Frame.

(** A cell: a timestamp (the wall clock in nanoseconds since the epoch,
    with the time zone of a zone-aware value), an integer, a float or a
    text. *)
Inductive cell : Type :=
| Timestamp (wall : Z) (tz : option string)
| Integer (z : Z)
| Number (x : float)
| Text (s : string).

(** A frame: the index with its name, the column labels, and the values
    row by row. *)
Record t : Type := {
  index_name : option string;
  index : list cell;
  labels : list string;
  rows : list (list cell)
}.

(** [len(df)] and [df.empty]. *)
Definition len (df : t) : nat := length (index df).
Definition empty (df : t) : bool :=
  (len df =? 0)%nat || (length (labels df) =? 0)%nat.

Definition range_index (n : nat) : list cell :=
  map (fun i => Integer (Z.of_nat i)) (seq 0 n).

Definition has_label (name : string) (df : t) : bool :=
  existsb (String.eqb name) (labels df).

(** [df.reset_index()]: the index becomes the first column, under its
    name, or under [index] (or [level_0]) when it has none; a label
    that exists already is refused. *)
Definition reset_index (df : t) : Py.reply t :=
  let name :=
    match index_name df with
    | Some n => n
    | None => if has_label "index" df then "level_0"%string else "index"%string
    end in
  if has_label name df then
    Py.Raises (Py.Builtin
                 (ValueError ("cannot insert " ++ name ++ ", already exists")))
  else
    Py.Returns {| index_name := None;
                  index := range_index (len df);
                  labels := name :: labels df;
                  rows := zip_with cons (index df) (rows df) |}.

(** [df.reset_index(drop=True)]. *)
Definition reset_index_drop (df : t) : t :=
  {| index_name := None; index := range_index (len df);
     labels := labels df; rows := rows df |}.

(** [df.columns = [f(c) for c in df.columns]]. *)
Definition map_labels (f : string -> string) (df : t) : t :=
  {| index_name := index_name df; index := index df;
     labels := map f (labels df); rows := rows df |}.

(** The positions of a label among the columns. *)
Definition positions (name : string) (df : t) : list nat :=
  map fst (filter (fun p => String.eqb (snd p) name = true)
                  (imap (fun i l => (i, l)) (labels df))).

Definition column_at (j : nat) (df : t) : list cell :=
  map (fun r => nth j r (Number nan)) (rows df).

(** [df[name]] for one label: the column, a [KeyError] when the label
    is absent; [None] stands for the frame a repeated label selects. *)
Definition series (name : string) (df : t) : Py.reply (option (list cell)) :=
  match positions name df with
  | [] => Py.Raises (Py.KeyError name)
  | [j] => Py.Returns (Some (column_at j df))
  | _ => Py.Returns None
  end.

(** [df[names]] for a list of labels: the columns of each label in
    turn, a [KeyError] when one is absent. *)
Definition select (names : list string) (df : t) : Py.reply t :=
  match filter (fun n => positions n df = []) names with
  | missing :: _ => Py.Raises (Py.KeyError missing)
  | [] =>
      let js := flat_map (fun n => positions n df) names in
      Py.Returns {| index_name := index_name df; index := index df;
                    labels := map (fun j => nth j (labels df) ""%string) js;
                    rows := map (fun r => map (fun j => nth j r (Number nan)) js)
                                (rows df) |}
  end.

(** [df[name] = column]: every column of that label is replaced, or the
    column is appended. *)
Definition assign (name : string) (col : list cell) (df : t) : t :=
  match positions name df with
  | [] =>
      {| index_name := index_name df; index := index df;
         labels := labels df ++ [name];
         rows := imap (fun i r => r ++ [nth i col (Number nan)]) (rows df) |}
  | js =>
      {| index_name := index_name df; index := index df;
         labels := labels df;
         rows := imap (fun i r =>
                         imap (fun j c =>
                                 if bool_decide (j ∈ js)
                                 then nth i col (Number nan) else c) r)
                      (rows df) |}
  end.

(** [df.drop(columns=[name])]. *)
Definition drop_column (name : string) (df : t) : t :=
  let keep := filter (fun j => negb (String.eqb (nth j (labels df) ""%string) name)
                               = true)
                     (seq 0 (length (labels df))) in
  {| index_name := index_name df; index := index df;
     labels := map (fun j => nth j (labels df) ""%string) keep;
     rows := map (fun r => map (fun j => nth j r (Number nan)) keep) (rows df) |}.

(** [df.rename(columns={old: new})]. *)
Definition rename (old new : string) (df : t) : t :=
  map_labels (fun l => if String.eqb l old then new else l) df.

(** [df.to_dict("records")]: one dictionary per row; of two columns
    with the same label the later one is kept. *)
Definition to_records (df : t) : list (Py.dict cell) :=
  map (fun r => Py.of_pairs (zip (labels df) r)) (rows df).

Definition is_timestamp (c : cell) : bool :=
  match c with Timestamp _ _ => true | _ => false end.

(** [.dt.tz_localize(None)] on one value: the wall clock, without the
    zone. *)
Definition tz_localize_none (c : cell) : cell :=
  match c with Timestamp w _ => Timestamp w None | _ => c end.

(** The civil date of a wall clock: days since the epoch to year, month
    and day of the proleptic Gregorian calendar. *)
Definition civil (wall : Z) : Z * Z * Z :=
  let days := (wall / 86400000000000)%Z in
  let z := (days + 719468)%Z in
  let era := (z / 146097)%Z in
  let doe := (z - era * 146097)%Z in
  let yoe := ((doe - doe / 1460 + doe / 36524 - doe / 146096) / 365)%Z in
  let doy := (doe - (365 * yoe + yoe / 4 - yoe / 100))%Z in
  let mp := ((5 * doy + 2) / 153)%Z in
  let d := (doy - (153 * mp + 2) / 5 + 1)%Z in
  let m := (if mp <? 10 then mp + 3 else mp - 9)%Z in
  ((yoe + era * 400 + (if m <=? 2 then 1 else 0))%Z, m, d).

(** [.dt.year] on one value. *)
Definition year (wall : Z) : Z := fst (fst (civil wall)).

Definition digit (n : Z) : string :=
  String (Ascii.ascii_of_nat (48 + Z.to_nat (n mod 10))) EmptyString.

Definition digits2 (n : Z) : string := (digit (n / 10) ++ digit n)%string.

Definition digits4 (n : Z) : string :=
  (digit (n / 1000) ++ digit (n / 100) ++ digit (n / 10) ++ digit n)%string.

(** [strftime("%Y-%m-%d")], for the years 1000 to 9999. *)
Definition strftime_ymd (wall : Z) : string :=
  let '(y, m, d) := civil wall in
  (digits4 y ++ "-" ++ digits2 m ++ "-" ++ digits2 d)%string.

(** [str(n)] for a year. *)
Definition str_year (y : Z) : string := digits4 y.

End Frame.

(* ================================================================== *)
(** * The world outside: yfinance, the clock and Firestore *)

Module Env.

(** A [datetime]: microseconds since the epoch, naive or zone-aware. *)
Record datetime : Type := { micros : Z; aware : bool }.

(** [a - b], in microseconds: a naive and an aware value cannot be
    subtracted. *)
Definition sub (a b : datetime) : Py.reply Z :=
  if Bool.eqb (aware a) (aware b) then Py.Returns (micros a - micros b)%Z
  else Py.Raises (Py.TypeError
                    "can't subtract offset-naive and offset-aware datetimes").

(** A quote of yfinance's search; its symbol and type are text when
    present. *)
Record quote : Type := {
  symbol : option string;
  quoteType : option string;
  longname : option Py.value;
  shortname : option Py.value;
  exchange : option Py.value
}.

(** The fields of an update of a prediction document. *)
Inductive update : Type :=
| Running
| Completed (horizons : list Predict.horizon_result)
            (forecastTimeseries : list Predict.ts_point)
            (completedAt : string)
| Failed (error : string).

(** The calls that leave the process, with their arguments. *)
Inductive event : Type :=
| History (symbol period : string)
| Info (symbol : string)
| Search (q : string) (max_results : Z)
| Sleep (seconds : Z)
| StockGet (ticker : string)
| StockSet (ticker : string) (info : Py.dict Py.value)
| PricesSet (ticker year : string) (prices : list (Py.dict Frame.cell))
| PricesStream (ticker : string)
| PredictionUpdate (prediction_id : string) (fields : update).

(** The services the application talks to.  Each call steps the world
    and returns or raises.
    - [history symbol period] is [yf.Ticker(symbol).history(period=period,
      interval="1d")], [info symbol] is [yf.Ticker(symbol).info] and
      [search q n] is the list under ["quotes"] of [yf.search(q,
      max_results=n)], when there is one;
    - [stock_get], [stock_set], [prices_set] and [prices_stream] are the
      reads and writes of the documents [stocks/<ticker>] and
      [stocks/<ticker>/dailyPrices/<year>]; a year document answers the
      list under its key ["prices"], when it has one;
      [prediction_update] updates [predictions/<id>];
    - [utcnow] is the clock, in microseconds since the epoch;
    - [fetcher_db] and [predict_db] tell whether the two modules could
      create their Firestore client at import;
    - [to_datetime] is [pd.to_datetime] on a column that is not made of
      timestamps, [frame_of_records] is the frame [get_cached_ohlcv]
      builds from the cached records, sorted by date, and [str_cell] is
      [str] on a value that is not a timestamp. *)
Record Services : Type := {
  World : Type;
  history : string -> string -> World -> Py.reply Frame.t * World;
  info : string -> World -> Py.reply (option (Py.dict Py.value)) * World;
  search : string -> Z -> World -> Py.reply (option (list quote)) * World;
  sleep : Z -> World -> World;
  utcnow : World -> Z;
  isoformat : datetime -> string;
  fromisoformat : string -> Py.reply datetime;
  fetcher_db : bool;
  predict_db : bool;
  stock_get : string -> World -> Py.reply (option (Py.dict Py.value)) * World;
  stock_set : string -> Py.dict Py.value -> World -> Py.reply unit * World;
  prices_set : string -> string -> list (Py.dict Frame.cell) -> World
               -> Py.reply unit * World;
  prices_stream : string -> World
                  -> Py.reply (list (option (list (Py.dict Frame.cell)))) * World;
  prediction_update : string -> update -> World -> Py.reply unit * World;
  to_datetime : list Frame.cell -> Py.reply (list Frame.cell);
  frame_of_records : list (Py.dict Frame.cell) -> Py.reply Frame.t;
  str_cell : Frame.cell -> string
}.

(** The state a computation threads: the world, and the calls made so
    far, oldest first. *)
Definition state (svc : Services) : Type := (World svc * list event)%type.

Definition io (svc : Services) (A : Type) : Type := Py.io (state svc) A.

(** A call to a service: the world steps, and the call is recorded,
    whether it returns or raises. *)
Definition call {svc : Services} {A} (e : event)
    (op : World svc -> Py.reply A * World svc) : io svc A :=
  fun s =>
    let '(r, w) := op (fst s) in (r, (w, snd s ++ [e])).

(** [time.sleep(seconds)]. *)
Definition time_sleep {svc : Services} (seconds : Z) : io svc unit :=
  fun s => (Py.Returns tt, (sleep svc seconds (fst s), snd s ++ [Sleep seconds])).

(** [datetime.utcnow()]: the clock of the world, as a naive value. *)
Definition now {svc : Services} : io svc datetime :=
  fun s => (Py.Returns {| micros := utcnow svc (fst s); aware := false |}, s).

End Env.

(* ================================================================== *)
(** * data/fetcher.py *)

Module Fetcher.
Import Env.
Local Open Scope io_scope.

Definition MAX_RETRIES : nat := 3.
Definition RETRY_DELAY : Z := 2.

Section WithServices.
Context (svc : Services).

(** The loop of [_retry] over the attempts that are left: the first
    call that returns ends it; a failure is followed by a pause of
    [RETRY_DELAY * (attempt + 1)] seconds, except the last one, which
    is raised again.  Past the last attempt the function would return
    [None]. *)
Fixpoint retry_from {A} (fn : io svc A) (attempts : list nat)
  : io svc (option A) :=
  match attempts with
  | [] => Py.io_ret None
  | attempt :: rest =>
      Py.try_except
        (a <~ fn ;; Py.io_ret (Some a))
        (fun e =>
           if (attempt <? MAX_RETRIES - 1)%nat then
             time_sleep (RETRY_DELAY * (Z.of_nat attempt + 1)) ;;;
             retry_from fn rest
           else Py.raise e)
  end.

(** [_retry(fn)]: [for attempt in range(MAX_RETRIES)]. *)
Definition _retry {A} (fn : io svc A) : io svc (option A) :=
  retry_from fn (seq 0 MAX_RETRIES).

(** [c.lower().replace(" ", "_")]. *)
Definition normalise (c : string) : string := Py.replace_space (Py.lower c).

(** [df["date"] = pd.to_datetime(df["date"]).dt.tz_localize(None)],
    under [if "date" in df.columns]. *)
Definition localize_dates (df : Frame.t) : io svc Frame.t :=
  if Frame.has_label "date" df then
    col <~ Py.lift (Frame.series "date" df) ;;
    match col with
    | None =>
        Py.raise (Py.Builtin (ValueError
          "to assemble mappings requires at least that [year, month, day] be specified"))
    | Some col =>
        col <~ (if forallb Frame.is_timestamp col then Py.io_ret col
                else Py.lift (to_datetime svc col)) ;;
        if forallb Frame.is_timestamp col then
          Py.io_ret (Frame.assign "date" (map Frame.tz_localize_none col) df)
        else
          Py.raise (Py.AttributeError
                      "Can only use .dt accessor with datetimelike values")
    end
  else Py.io_ret df.

(** The history of a symbol, through [_retry], with the index as a
    column, normalised labels and naive dates. *)
Definition normalised_history (symbol period : string) : io svc Frame.t :=
  df <~ _retry (call (History symbol period) (history svc symbol period)) ;;
  match df with
  | None =>
      Py.raise (Py.AttributeError
                  "'NoneType' object has no attribute 'reset_index'")
  | Some df =>
      df <~ Py.lift (Frame.reset_index df) ;;
      localize_dates (Frame.map_labels normalise df)
  end.

(** [fetch_ohlcv(ticker, period)]. *)
Definition fetch_ohlcv (ticker period : string) : io svc Frame.t :=
  df <~ _retry (call (History ticker period) (history svc ticker period)) ;;
  match df with
  | None =>
      Py.raise (Py.AttributeError "'NoneType' object has no attribute 'empty'")
  | Some df =>
      if Frame.empty df then
        Py.raise (Py.Builtin (ValueError ("No data returned for " ++ ticker)))
      else
        df <~ Py.lift (Frame.reset_index df) ;;
        df <~ localize_dates (Frame.map_labels normalise df) ;;
        Py.lift (Frame.select ["date"; "open"; "high"; "low"; "close"; "volume"]
                              df)
  end.

(** The body of the loop of [fetch_market_data] for one index: a
    failure is logged and the index skipped. *)
Definition fetch_index (result : Py.dict Frame.t) (symbol name : string)
  : io svc (Py.dict Frame.t) :=
  Py.try_except
    (df <~ normalised_history symbol "10y" ;;
     df <~ Py.lift (Frame.select ["date"; "close"] df) ;;
     Py.io_ret (Py.set result name (Frame.rename "close" name df)))
    (fun _ => Py.io_ret result).

(** [fetch_market_data()]. *)
Definition indices : list (string * string) :=
  [("^GSPC", "sp500"); ("^VIX", "vix"); ("^TNX", "tnx")]%string.

Fixpoint fetch_indices (todo : list (string * string)) (result : Py.dict Frame.t)
  : io svc (Py.dict Frame.t) :=
  match todo with
  | [] => Py.io_ret result
  | (symbol, name) :: todo' =>
      result <~ fetch_index result symbol name ;;
      fetch_indices todo' result
  end.

Definition fetch_market_data : io svc (Py.dict Frame.t) :=
  fetch_indices indices [].

(** [fetch_company_info(ticker)]. *)
Definition fetch_company_info (ticker : string) : io svc (Py.dict Py.value) :=
  info <~ _retry (call (Info ticker) (info svc ticker)) ;;
  match info with
  | Some (Some info) =>
      t <~ now ;;
      Py.io_ret
        [("ticker", Py.VStr (Py.upper ticker));
         ("name", Py.or_ (Py.or_ (Py.get info "longName")
                                 (Py.get info "shortName"))
                         (Py.VStr ticker));
         ("exchange", Py.or_ (Py.get info "exchange") (Py.VStr ""));
         ("sector", Py.or_ (Py.get info "sector") (Py.VStr ""));
         ("lastPrice", Py.or_ (Py.or_ (Py.get info "currentPrice")
                                      (Py.get info "regularMarketPrice"))
                              (Py.VInt 0));
         ("change", Py.or_ (Py.get info "regularMarketChange") (Py.VInt 0));
         ("changePercent",
          Py.or_ (Py.get info "regularMarketChangePercent") (Py.VInt 0));
         ("lastUpdated", Py.VStr (isoformat svc t))]%string
  | _ =>
      Py.raise (Py.AttributeError "'NoneType' object has no attribute 'get'")
  end.

(** The distinct years of a column, in ascending order: the keys of
    [df.groupby("year")]. *)
Fixpoint insert_year (y : Z) (ys : list Z) : list Z :=
  match ys with
  | [] => [y]
  | y' :: ys' =>
      if (y <? y')%Z then y :: ys
      else if (y =? y')%Z then ys
      else y' :: insert_year y ys'
  end.

Definition group_keys (years : list Z) : list Z :=
  fold_left (fun ys y => insert_year y ys) years [].

(** [p["date"] = p["date"].strftime("%Y-%m-%d")]. *)
Definition stamp_date (p : Py.dict Frame.cell) : Py.reply (Py.dict Frame.cell) :=
  match Py.lookup p "date" with
  | Some (Frame.Timestamp w _) =>
      Py.Returns (Py.set p "date" (Frame.Text (Frame.strftime_ymd w)))
  | Some _ => Py.Raises (Py.AttributeError "object has no attribute 'strftime'")
  | None => Py.Raises (Py.KeyError "date")
  end.

Fixpoint stamp_dates (ps : list (Py.dict Frame.cell))
  : Py.reply (list (Py.dict Frame.cell)) :=
  match ps with
  | [] => Py.Returns []
  | p :: ps' =>
      match stamp_date p with
      | Py.Raises e => Py.Raises e
      | Py.Returns q =>
          match stamp_dates ps' with
          | Py.Raises e => Py.Raises e
          | Py.Returns qs => Py.Returns (q :: qs)
          end
      end
  end.

(** The rows of a group of [df.groupby("year")], without the year
    column, as records. *)
Definition group_records (df : Frame.t) (j : nat) (y : Z)
  : list (Py.dict Frame.cell) :=
  let members :=
    filter (fun p => match nth j (snd p) (Frame.Number nan) with
                     | Frame.Integer y' => (y' =? y)%Z
                     | _ => false
                     end = true)
           (zip (Frame.index df) (Frame.rows df)) in
  let group :=
    {| Frame.index_name := Frame.index_name df;
       Frame.index := map fst members;
       Frame.labels := Frame.labels df;
       Frame.rows := map snd members |} in
  Frame.to_records (Frame.drop_column "year" group).

(** The loop over the groups: one document of prices per year. *)
Fixpoint write_years (ticker : string) (df : Frame.t) (j : nat) (years : list Z)
  : io svc unit :=
  match years with
  | [] => Py.io_ret tt
  | y :: years' =>
      prices <~ Py.lift (stamp_dates (group_records df j y)) ;;
      call (PricesSet ticker (Frame.str_year y) prices)
           (prices_set svc ticker (Frame.str_year y) prices) ;;;
      write_years ticker df j years'
  end.

(** [cache_stock_to_firestore(ticker, df, info)].  The function adds
    the column [year] to the frame it is given: the value is that
    frame as the caller sees it afterwards. *)
Definition cache_stock_to_firestore (ticker : string) (df : Frame.t)
    (info : Py.dict Py.value) : io svc Frame.t :=
  if negb (fetcher_db svc) then Py.io_ret df
  else
    let ticker := Py.upper ticker in
    call (StockSet ticker info) (stock_set svc ticker info) ;;;
    dates <~ Py.lift (Frame.series "date" df) ;;
    match dates with
    | None =>
        Py.raise (Py.AttributeError "'DataFrame' object has no attribute 'dt'")
    | Some dates =>
        if negb (forallb Frame.is_timestamp dates) then
          Py.raise (Py.AttributeError
                      "Can only use .dt accessor with datetimelike values")
        else
          let years :=
            map (fun c => match c with
                          | Frame.Timestamp w _ => Frame.year w
                          | _ => 0%Z
                          end) dates in
          let df := Frame.assign "year" (map Frame.Integer years) df in
          match Frame.positions "year" df with
          | [j] =>
              write_years ticker df j (group_keys years) ;;;
              Py.io_ret df
          | _ =>
              Py.raise (Py.Builtin
                          (ValueError "Grouper for 'year' not 1-dimensional"))
          end
    end.

(** Twenty hours, in microseconds. *)
Definition fresh_for : Z := 20 * 3600 * 1000000.

(** [get_cached_ohlcv(ticker)].  Without a Firestore client the first
    line fails on [None]. *)
Definition get_cached_ohlcv (ticker : string) : io svc (option Frame.t) :=
  let ticker := Py.upper ticker in
  if negb (fetcher_db svc) then
    Py.raise (Py.AttributeError
                "'NoneType' object has no attribute 'collection'")
  else
    doc <~ call (StockGet ticker) (stock_get svc ticker) ;;
    match doc with
    | None => Py.io_ret None
    | Some data =>
        let last_updated := Py.get_default data "lastUpdated" (Py.VStr "") in
        if Py.truthy last_updated then
          Py.try_except
            (lu <~ Py.lift (match last_updated with
                            | Py.VStr s => fromisoformat svc s
                            | _ => Py.Raises (Py.TypeError
                                     "fromisoformat: argument must be str")
                            end) ;;
             t <~ now ;;
             age <~ Py.lift (sub t lu) ;;
             if (age <? fresh_for)%Z then
               docs <~ call (PricesStream ticker) (prices_stream svc ticker) ;;
               let all_prices := flat_map (fun d => default [] d) docs in
               match all_prices with
               | [] => Py.io_ret None
               | _ =>
                   df <~ Py.lift (frame_of_records svc all_prices) ;;
                   Py.io_ret (Some df)
               end
             else Py.io_ret None)
            (fun _ => Py.io_ret None)
        else Py.io_ret None
    end.

(** [get_stock_data(ticker)]. *)
Definition get_stock_data (ticker : string) : io svc Frame.t :=
  cached <~ get_cached_ohlcv ticker ;;
  match cached with
  | Some df =>
      if (0 <? Frame.len df)%nat then Py.io_ret df
      else
        df <~ fetch_ohlcv ticker "10y" ;;
        info <~ fetch_company_info ticker ;;
        cache_stock_to_firestore ticker df info
  | None =>
      df <~ fetch_ohlcv ticker "10y" ;;
      info <~ fetch_company_info ticker ;;
      cache_stock_to_firestore ticker df info
  end.

End WithServices.
End Fetcher.

(* ================================================================== *)
(** * main.py *)

Module Main.
Import Env.
Local Open Scope io_scope.

Section WithServices.
Context (svc : Services).

(** The entry of a stock in the answer of the search. *)
Definition entry (ticker : string) (name exchange sector lastPrice change
    changePercent : Py.value) : Py.dict Py.value :=
  [("ticker", Py.VStr ticker); ("name", name); ("exchange", exchange);
   ("sector", sector); ("lastPrice", lastPrice); ("change", change);
   ("changePercent", changePercent)]%string.

(** The first [try] of [stock_search]: the direct lookup of the query as
    a ticker. *)
Definition direct_lookup (q : string) : io svc (list (Py.dict Py.value)) :=
  Py.try_except
    (info <~ call (Info q) (info svc q) ;;
     let info := default [] info in
     if Py.truthy (Py.or_ (Py.get info "regularMarketPrice")
                          (Py.get info "currentPrice")) then
       Py.io_ret
         [entry q
            (Py.or_ (Py.or_ (Py.get info "longName") (Py.get info "shortName"))
                    (Py.VStr q))
            (Py.or_ (Py.get info "exchange") (Py.VStr ""))
            (Py.or_ (Py.get info "sector") (Py.VStr ""))
            (Py.or_ (Py.or_ (Py.get info "currentPrice")
                            (Py.get info "regularMarketPrice")) (Py.VInt 0))
            (Py.or_ (Py.get info "regularMarketChange") (Py.VInt 0))
            (Py.or_ (Py.get info "regularMarketChangePercent") (Py.VInt 0))]
     else Py.io_ret [])
    (fun _ => Py.io_ret []).

(** The tickers of a list of entries: [r["ticker"] for r in results]. *)
Definition tickers (results : list (Py.dict Py.value)) : list Py.value :=
  map (fun r => Py.get r "ticker") results.

(** The loop over the quotes: a quote is added when it has a symbol
    that was not seen yet and is an equity or a fund. *)
Fixpoint add_quotes (quotes : list quote) (seen : list string)
    (results : list (Py.dict Py.value)) : list (Py.dict Py.value) :=
  match quotes with
  | [] => results
  | quote :: quotes' =>
      let sym := default ""%string (symbol quote) in
      if negb (String.eqb sym "")
         && negb (bool_decide (sym ∈ seen))
         && bool_decide (quoteType quote ∈ [Some "EQUITY"; Some "ETF"]%string)
      then
        add_quotes quotes' (sym :: seen)
          (results ++
           [entry sym
              (default (default (Py.VStr sym) (shortname quote)) (longname quote))
              (default (Py.VStr "") (exchange quote))
              (Py.VStr "") (Py.VInt 0) (Py.VInt 0) (Py.VInt 0)])
      else add_quotes quotes' seen results
  end.

(** The second [try] of [stock_search]: the search of yfinance. *)
Definition search_quotes (q : string) (results : list (Py.dict Py.value))
  : io svc (list (Py.dict Py.value)) :=
  Py.try_except
    (found <~ call (Search q 8) (search svc q 8) ;;
     let quotes := default [] found in
     let seen :=
       omap (fun t => match t with Py.VStr s => Some s | _ => None end)
            (tickers results) in
     Py.io_ret (add_quotes quotes seen results))
    (fun _ => Py.io_ret results).

(** [stock_search(q)]. *)
Definition stock_search (q : string) : io svc (list (Py.dict Py.value)) :=
  let q := Py.strip (Py.upper q) in
  if String.eqb q "" then Py.io_ret []
  else
    results <~ direct_lookup q ;;
    results <~ search_quotes q results ;;
    Py.io_ret (take 10 results).

(** [stock_info(ticker)]. *)
Definition stock_info (ticker : string) : io svc (Py.dict Py.value) :=
  Fetcher.fetch_company_info svc (Py.upper ticker).

(** The date of a record as text: [strftime] where the value has it,
    [str] otherwise. *)
Definition format_date (r : Py.dict Frame.cell) : Py.reply (Py.dict Frame.cell) :=
  match Py.lookup r "date" with
  | Some (Frame.Timestamp w _) =>
      Py.Returns (Py.set r "date" (Frame.Text (Frame.strftime_ymd w)))
  | Some c => Py.Returns (Py.set r "date" (Frame.Text (str_cell svc c)))
  | None => Py.Raises (Py.KeyError "date")
  end.

Fixpoint format_dates (rs : list (Py.dict Frame.cell))
  : Py.reply (list (Py.dict Frame.cell)) :=
  match rs with
  | [] => Py.Returns []
  | r :: rs' =>
      match format_date r with
      | Py.Raises e => Py.Raises e
      | Py.Returns r1 =>
          match format_dates rs' with
          | Py.Raises e => Py.Raises e
          | Py.Returns rs1 => Py.Returns (r1 :: rs1)
          end
      end
  end.

(** [stock_history(ticker, period)]. *)
Definition stock_history (ticker period : string)
  : io svc (list (Py.dict Frame.cell)) :=
  df <~ Fetcher.fetch_ohlcv svc (Py.upper ticker) period ;;
  Py.lift (format_dates (Frame.to_records df)).

End WithServices.
End Main.

(* ================================================================== *)
(** * predict.py: the status of a prediction *)

Module Task.
Import Env.
Local Open Scope io_scope.

(** [str(e)]. *)
Definition str_exc (e : Py.exc) : string :=
  match e with
  | Py.AttributeError msg | Py.TypeError msg => msg
  | Py.KeyError key => ("'" ++ key ++ "'")%string
  | Py.Builtin (ValueError msg) | Py.Builtin (IndexError msg)
  | Py.Builtin (ZeroDivisionError msg) | Py.Builtin (OverflowError msg)
  | Py.Builtin (LibraryError msg) => msg
  end.

Section WithServices.
Context (svc : Services) (L : Predict.Libs).

(** What the pipeline reads from the frames the fetcher returned: the
    price table of the history and the series of the market frames
    (the column accesses of pandas; a frame that cannot be read is an
    exception of the pipeline).  [elapse] is the world once the
    pipeline has run: its clock has advanced. *)
Context (read_prices : Frame.t -> result (list Engineering.ohlcv))
        (read_market :
           Py.dict Frame.t -> result (list (string * Engineering.market_frame)))
        (elapse : World svc -> World svc).

(** An update of the prediction document, when the module has a
    Firestore client. *)
Definition update_status (prediction_id : string) (fields : update)
  : io svc unit :=
  if predict_db svc then
    call (PredictionUpdate prediction_id fields)
         (prediction_update svc prediction_id fields)
  else Py.io_ret tt.

(** The handler of [run_prediction]: the failure is reported, and a
    failure of the report is dropped. *)
Definition report_failure (prediction_id : string) (e : Py.exc) : io svc unit :=
  Py.try_except (update_status prediction_id (Failed (str_exc e)))
                (fun _ => Py.io_ret tt).

(** Step 1 of the pipeline: [df = get_stock_data(ticker)] and
    [market_data = fetch_market_data()], with their requests, pauses,
    reads and writes. *)
Definition fetch_data (ticker : string) : io svc (Frame.t * Py.dict Frame.t) :=
  df <~ Fetcher.get_stock_data svc ticker ;;
  market_data <~ Fetcher.fetch_market_data svc ;;
  Py.io_ret (df, market_data).

(** The libraries of the steps that follow, reading the fetched
    frames. *)
Definition with_data (df : Frame.t) (market_data : Py.dict Frame.t)
  : Predict.Libs :=
  {| Predict.np := Predict.np L;
     Predict.ta := Predict.ta L;
     Predict.prophet := Predict.prophet L;
     Predict.keras := Predict.keras L;
     Predict.get_stock_data := fun _ => read_prices df;
     Predict.fetch_market_data := read_market market_data;
     Predict.series_mean := Predict.series_mean L;
     Predict.series_std := Predict.series_std L |}.

(** [run_prediction(prediction_id, ticker, horizons)] with its status
    updates, as a transformer of the global generator and of the world:
    the document is marked as running, the data is fetched, the
    pipeline runs on it, and its results, stamped with the time of
    completion, or the failure are written back. *)
Definition run_prediction (prediction_id ticker : string)
    (horizons : list string) (g : RandomState (Predict.np L)) (s : state svc)
  : RandomState (Predict.np L) * state svc :=
  match update_status prediction_id Running s with
  | (Py.Raises e, s1) => (g, snd (report_failure prediction_id e s1))
  | (Py.Returns _, s1) =>
      match fetch_data ticker s1 with
      | (Py.Raises e, s2) => (g, snd (report_failure prediction_id e s2))
      | (Py.Returns (df, market_data), s2) =>
          let '(out, g') :=
            Predict.run_prediction (with_data df market_data)
              prediction_id ticker horizons g in
          let s3 := (elapse (fst s2), snd s2) in
          match out with
          | Predict.Failed e =>
              (g', snd (report_failure prediction_id (Py.Builtin e) s3))
          | Predict.Completed horizon_results forecast_timeseries =>
              match
                (t <~ now ;;
                 update_status prediction_id
                   (Completed horizon_results forecast_timeseries
                      (isoformat svc t)))
                  s3
              with
              | (Py.Raises e, s4) =>
                  (g', snd (report_failure prediction_id e s4))
              | (Py.Returns _, s4) => (g', s4)
              end
          end
      end
  end.

End WithServices.
End Task.

(* ================================================================== *)
(** * Sample services for running the service layer

    Executable stand-ins for yfinance, the clock and Firestore, used to
    evaluate the model on concrete inputs.  The general theorems do not
    depend on them. *)

Module Sample.
Import Env.

(** Noon of a day, in nanoseconds of the wall clock. *)
Definition noon (day : Z) : Z := (day * 86400000000000 + 43200000000000)%Z.

(** A history of three sessions around a new year, as yfinance returns
    it: the index [Date] in the zone of the exchange, and capitalised
    labels. *)
Definition history_frame : Frame.t :=
  {| Frame.index_name := Some "Date"%string;
     Frame.index :=
       [Frame.Timestamp (noon 19721) (Some "America/New_York"%string);
        Frame.Timestamp (noon 19722) (Some "America/New_York"%string);
        Frame.Timestamp (noon 19725) (Some "America/New_York"%string)];
     Frame.labels :=
       ["Open"; "High"; "Low"; "Close"; "Volume"; "Dividends";
        "Stock Splits"]%string;
     Frame.rows :=
       [[Frame.Number 100; Frame.Number 102; Frame.Number 99;
         Frame.Number 101; Frame.Number 5000; Frame.Number 0; Frame.Number 0];
        [Frame.Number 101; Frame.Number 103; Frame.Number 100;
         Frame.Number 102; Frame.Number 6000; Frame.Number 0; Frame.Number 0];
        [Frame.Number 102; Frame.Number 104; Frame.Number 101;
         Frame.Number 103; Frame.Number 7000; Frame.Number 0;
         Frame.Number 0]]%float |}.

Definition company : Py.dict Py.value :=
  [("shortName", Py.VStr "Sample Corp"); ("currentPrice", Py.VFloat 103);
   ("exchange", Py.VStr "NMS")]%string.

Definition quotes : list quote :=
  [ {| symbol := Some "SMPL"%string; quoteType := Some "EQUITY"%string;
       longname := Some (Py.VStr "Sample Corp"); shortname := None;
       exchange := Some (Py.VStr "NMS") |};
    {| symbol := Some "SMPX"%string; quoteType := Some "ETF"%string;
       longname := None; shortname := Some (Py.VStr "Sample Fund");
       exchange := None |};
    {| symbol := Some "SMPL"%string; quoteType := Some "EQUITY"%string;
       longname := None; shortname := None; exchange := None |};
    {| symbol := Some "SMP=F"%string; quoteType := Some "FUTURE"%string;
       longname := None; shortname := None; exchange := None |} ].

(** The world counts the history requests that will still fail and
    tells the time, in microseconds.  With [cached], the stock document
    exists and was updated an hour before time 0. *)
Record world : Type := { failing : nat; clock : Z }.

Definition services (db cached : bool) : Services :=
  {| World := world;
     history := fun _ _ w =>
       match failing w with
       | O => (Py.Returns history_frame, w)
       | S n =>
           (Py.Raises (Py.Builtin (LibraryError "connection reset")),
            {| failing := n; clock := clock w |})
       end;
     info := fun _ w => (Py.Returns (Some company), w);
     search := fun _ _ w => (Py.Returns (Some quotes), w);
     sleep := fun seconds w =>
       {| failing := failing w; clock := (clock w + seconds * 1000000)%Z |};
     utcnow := clock;
     isoformat := fun _ => "1970-01-01T00:00:00"%string;
     fromisoformat := fun _ =>
       Py.Returns {| micros := (-3600000000)%Z; aware := false |};
     fetcher_db := db;
     predict_db := db;
     stock_get := fun _ w =>
       (Py.Returns (if cached
                    then Some [("lastUpdated"%string,
                                Py.VStr "1969-12-31T23:00:00")]
                    else None), w);
     stock_set := fun _ _ w => (Py.Returns tt, w);
     prices_set := fun _ _ _ w => (Py.Returns tt, w);
     prices_stream := fun _ w =>
       (Py.Returns [Some [[("date"%string, Frame.Text "2023-12-29")]]], w);
     prediction_update := fun _ _ w => (Py.Returns tt, w);
     to_datetime := fun col => Py.Returns col;
     frame_of_records := fun _ => Py.Returns history_frame;
     str_cell := fun _ => ""%string |}.

(** A world in which the next [failures] requests fail. *)
Definition start (db cached : bool) (failures : nat)
  : state (services db cached) :=
  ({| failing := failures; clock := 0 |}, []).

(** Readers of the fetched frames: the day of a timestamp and the
    number of a cell, row by row, and a minute for the pipeline. *)
Definition day (c : Frame.cell) : option Z :=
  match c with
  | Frame.Timestamp wall _ => Some (wall / 86400000000000)%Z
  | _ => None
  end.

Definition number (c : Frame.cell) : option float :=
  match c with
  | Frame.Number x => Some x
  | Frame.Integer z => Some (PyFloat.of_Z z)
  | _ => None
  end.

Definition read_row {A} (labels : list string) (r : list Frame.cell)
    (f : (string -> option Frame.cell) -> option A) : result A :=
  match f (Py.lookup (Py.of_pairs (zip labels r))) with
  | Some a => Ok a
  | None => Raise (LibraryError "KeyError")
  end.

Definition read_prices (df : Frame.t) : result (list Engineering.ohlcv) :=
  mapM (fun r =>
          read_row (Frame.labels df) r (fun get =>
            d ← get "date"%string ≫= day;
            o ← get "open"%string ≫= number;
            h ← get "high"%string ≫= number;
            l ← get "low"%string ≫= number;
            c ← get "close"%string ≫= number;
            v ← get "volume"%string ≫= number;
            Some {| Engineering.date := d; Engineering.open := o;
                    Engineering.high := h; Engineering.low := l;
                    Engineering.close := c; Engineering.volume := v |}))
       (Frame.rows df).

Definition read_market (market_data : Py.dict Frame.t)
  : result (list (string * Engineering.market_frame)) :=
  mapM (fun entry =>
          series ←
            mapM (fun r =>
                    read_row (Frame.labels (snd entry)) r (fun get =>
                      d ← get "date"%string ≫= day;
                      x ← get (fst entry) ≫= number;
                      Some (d, x)))
                 (Frame.rows (snd entry));
          Ok (fst entry, series))
       market_data.

Definition elapse (w : world) : world :=
  {| failing := failing w; clock := (clock w + 60000000)%Z |}.

End Sample.

(* ================================================================== *)
(** * Vocabulary of the service layer *)

(** The calls of [k] attempts at the request [e] under [_retry]: the
    request, and before every further attempt a pause that grows by
    [RETRY_DELAY]. *)
Fixpoint attempts_from (e : Env.event) (i k : nat) : list Env.event :=
  match k with
  | O => []
  | S k' =>
      e :: match k' with
           | O => []
           | _ => Env.Sleep (Fetcher.RETRY_DELAY * (Z.of_nat i + 1))
                  :: attempts_from e (S i) k'
           end
  end.

Definition attempts (e : Env.event) (k : nat) : list Env.event :=
  attempts_from e 0 k.

(** The seconds a sequence of calls spends in [time.sleep]. *)
Definition seconds_slept (log : list Env.event) : Z :=
  fold_right (fun e acc => match e with
                           | Env.Sleep n => (n + acc)%Z
                           | _ => acc
                           end) 0%Z log.

(** The calls a computation made: what it appended to the record. *)
Definition calls_of {svc : Env.Services} {A} (m : Env.io svc A)
    (s : Env.state svc)
  : list Env.event :=
  drop (length (snd s)) (snd (snd (m s))).

(** The requests to yfinance among some calls. *)
Definition is_request (e : Env.event) : bool :=
  match e with
  | Env.History _ _ | Env.Info _ | Env.Search _ _ => true
  | _ => false
  end.

(** The writes to Firestore among some calls. *)
Definition is_write (e : Env.event) : bool :=
  match e with
  | Env.StockSet _ _ | Env.PricesSet _ _ _ | Env.PredictionUpdate _ _ => true
  | _ => false
  end.

(** The labels [fetch_ohlcv] selects. *)
Definition ohlcv_labels : list string :=
  ["date"; "open"; "high"; "low"; "close"; "volume"]%string.

(** The calls of the fresh path of [get_stock_data] for a ticker, as far
    as it got: the history, asked for [kh] times; then the company
    record, asked for [ki] times; then the write of the stock record
    and the writes of the prices. *)
Inductive fresh_calls (ticker : string) : list Env.event -> Prop :=
| fresh_history (kh : nat) :
    1 <= kh <= 3 ->
    fresh_calls ticker (attempts (Env.History ticker "10y") kh)
| fresh_info (kh ki : nat) :
    1 <= kh <= 3 -> 1 <= ki <= 3 ->
    fresh_calls ticker (attempts (Env.History ticker "10y") kh
                        ++ attempts (Env.Info ticker) ki)
| fresh_written (kh ki : nat) (info : Py.dict Py.value)
                (writes : list Env.event) :
    1 <= kh <= 3 -> 1 <= ki <= 3 ->
    Forall (fun e => is_write e = true) writes ->
    fresh_calls ticker (attempts (Env.History ticker "10y") kh
                        ++ attempts (Env.Info ticker) ki
                        ++ Env.StockSet (Py.upper ticker) info :: writes).
(* ================================================================== *)
(** * Vocabulary of the further properties *)

(** The indicator columns of [add_technical_indicators], in the order
    they are assigned. *)
Definition indicator_columns : list string :=
  ["sma_5"; "sma_20"; "sma_50"; "sma_200";
   "ema_5"; "ema_20"; "ema_50"; "ema_200";
   "rsi_14"; "macd"; "macd_signal"; "macd_diff";
   "bb_upper"; "bb_lower"; "bb_mid"; "bb_width";
   "atr_14"; "obv"; "roc_10";
   "return_1d"; "return_5d"; "return_20d"; "volatility_20d"]%string.

(** The columns the market context adds: one per fetched index, and the
    S&P 500 return when the S&P 500 is among them. *)
Definition market_columns
    (market_data : option (list (string * Engineering.market_frame)))
  : list string :=
  match market_data with
  | Some ((_ :: _) as md) =>
      map fst md ++
      (if bool_decide ("sp500"%string ∈ map fst md) then ["sp500_return"%string]
       else [])
  | _ => []
  end.

(** The names [fetch_market_data] gives its frames. *)
Definition market_names : list string := ["sp500"; "vix"; "tnx"]%string.

(** Market data as the fetcher can deliver it: frames under distinct
    names among [market_names], each with at most one row per date. *)
Definition market_data_well_formed
    (market_data : option (list (string * Engineering.market_frame))) : Prop :=
  match market_data with
  | Some md =>
      NoDup (map fst md) /\
      Forall (fun m => fst m ∈ market_names /\ NoDup (map fst (snd m))) md
  | None => True
  end.

(** Every row of the frame has one value per derived column. *)
Definition rectangular (f : Engineering.frame) : Prop :=
  Forall (fun r => length (Engineering.vals r) = length (Engineering.columns f))
         (Engineering.rows f).

(** The price records of the rows of a frame. *)
Definition bases (f : Engineering.frame) : list Engineering.ohlcv :=
  map Engineering.base (Engineering.rows f).

(** The prepared context of a run holds a trained residual model. *)
Definition has_model (L : Predict.Libs) (ticker : string) : bool :=
  match Predict.prepare_context L ticker with
  | Ok (c, _) => bool_decide (is_Some (Predict.lstm_model c))
  | Raise _ => false
  end.

(* ================================================================== *)
(** * Vocabulary of the endpoints *)

(** The keys of the record [fetch_company_info] builds, in order. *)
Definition company_keys : list string :=
  ["ticker"; "name"; "exchange"; "sector"; "lastPrice"; "change";
   "changePercent"; "lastUpdated"]%string.

(** A frame as pandas holds it: one row per entry of the index, and in
    every row one value per label. *)
Definition frame_well_formed (df : Frame.t) : Prop :=
  length (Frame.rows df) = length (Frame.index df) /\
  Forall (fun r => length r = length (Frame.labels df)) (Frame.rows df).

(** What the model leaves open about yfinance and pandas and what they
    guarantee: a history is a well-formed frame, and [pd.to_datetime]
    answers one value per value of the column. *)
Definition histories_well_formed (svc : Env.Services) : Prop :=
  (forall symbol period w df,
     fst (Env.history svc symbol period w) = Py.Returns df ->
     frame_well_formed df) /\
  (forall col col',
     Env.to_datetime svc col = Py.Returns col' -> length col' = length col).

(** The prices of three sessions around a new year, as [fetch_ohlcv]
    returns them: naive dates first, then the five price columns. *)
Definition sample_prices : Frame.t :=
  {| Frame.index_name := None;
     Frame.index := Frame.range_index 3;
     Frame.labels := ohlcv_labels;
     Frame.rows :=
       [[Frame.Timestamp (Sample.noon 19721) None; Frame.Number 100;
         Frame.Number 102; Frame.Number 99; Frame.Number 101;
         Frame.Number 5000];
        [Frame.Timestamp (Sample.noon 19722) None; Frame.Number 101;
         Frame.Number 103; Frame.Number 100; Frame.Number 102;
         Frame.Number 6000];
        [Frame.Timestamp (Sample.noon 19725) None; Frame.Number 102;
         Frame.Number 104; Frame.Number 101; Frame.Number 103;
         Frame.Number 7000]]%float |}.

(* ================================================================== *)
(** * Facts about binary64 arithmetic *)

Module FloatFacts.
Local Open Scope float_scope.

Lemma Prim2SF_nan : Prim2SF nan = S754_nan.
Proof. reflexivity. Qed.

Lemma nan_add_l (y : float) : nan + y = nan.
Proof. apply Prim2SF_inj. rewrite add_spec, Prim2SF_nan. reflexivity. Qed.

Lemma nan_add_r (x : float) : x + nan = nan.
Proof.
  apply Prim2SF_inj. rewrite add_spec, Prim2SF_nan.
  destruct (Prim2SF x); reflexivity.
Qed.

Lemma nan_sub_l (y : float) : nan - y = nan.
Proof. apply Prim2SF_inj. rewrite sub_spec, Prim2SF_nan. reflexivity. Qed.

Lemma nan_sub_r (x : float) : x - nan = nan.
Proof.
  apply Prim2SF_inj. rewrite sub_spec, Prim2SF_nan.
  destruct (Prim2SF x); reflexivity.
Qed.

Lemma nan_mul_l (y : float) : nan * y = nan.
Proof. apply Prim2SF_inj. rewrite mul_spec, Prim2SF_nan. reflexivity. Qed.

Lemma nan_mul_r (x : float) : x * nan = nan.
Proof.
  apply Prim2SF_inj. rewrite mul_spec, Prim2SF_nan.
  destruct (Prim2SF x); reflexivity.
Qed.

(** Adding [+0.0] changes nothing but the sign of a negative zero. *)
Lemma add_zero_r (x : float) :
  x + 0 = x \/ (x = neg_zero /\ x + 0 = zero).
Proof.
  destruct (Prim2SF x) as [s| s | |s m e] eqn:E.
  - destruct s.
    + right. split; apply Prim2SF_inj; [exact E|].
      rewrite add_spec, E. reflexivity.
    + left. apply Prim2SF_inj. rewrite add_spec, E. reflexivity.
  - left. apply Prim2SF_inj. rewrite add_spec, E. reflexivity.
  - left. apply Prim2SF_inj. rewrite add_spec, E. reflexivity.
  - left. apply Prim2SF_inj. rewrite add_spec, E. reflexivity.
Qed.

End FloatFacts.

(* ================================================================== *)
(** * The Monte Carlo simulation is reproducible *)

(** C1.  Two invocations of [monte_carlo_simulation] with the same last
    price, drift, volatility, day count and number of simulations return
    the same result, whatever the states of the global random generator
    they start from: the generator is reseeded with 42 before any draw.
    Over binary64 the equality is that of the bit patterns, for the five
    percentiles as for the mean and the deviation; the generator is also
    left in the same state.  The same holds for the bundle a run
    attaches to a horizon: it does not depend on the generator state the
    iteration starts from. *)
Theorem monte_carlo_deterministic :
  forall (F : Type) (NF : Numeric F) (np : Numpy F)
         (last_price annual_return annual_volatility : F)
         (days n_simulations : Z) (g1 g2 : RandomState np),
    MonteCarlo.monte_carlo_simulation np last_price annual_return
      annual_volatility days n_simulations g1
    = MonteCarlo.monte_carlo_simulation np last_price annual_return
        annual_volatility days n_simulations g2
    /\ (forall (L : Predict.Libs) (c : Predict.context L)
               (g g' : RandomState (Predict.np L)),
          fst (Predict.monte_carlo_block c days g)
          = fst (Predict.monte_carlo_block c days g')).
Proof.
  intros. split.
  - unfold MonteCarlo.monte_carlo_simulation,
      MonteCarlo.simulate_final_prices.
    reflexivity.
  - intros L c g g'. unfold Predict.monte_carlo_block.
    destruct (756 <=? days)%Z; [|reflexivity].
    unfold MonteCarlo.monte_carlo_simulation,
      MonteCarlo.simulate_final_prices.
    reflexivity.
Qed.

(* ================================================================== *)
(** * The horizon tables *)

Lemma horizon_days_known (h : string) (d : Z) :
  ProphetModel.HORIZON_DAYS !! h = Some d ->
  (h, d) ∈ [("1mo", 21); ("6mo", 126); ("1yr", 252); ("2yr", 504);
            ("3yr", 756); ("4yr", 1008); ("5yr", 1260)]%Z.
Proof. apply elem_of_list_to_map_2. Qed.

Lemma lstm_weights_known (h : string) (w : float) :
  Predict.LSTM_WEIGHTS !! h = Some w ->
  (h, w) ∈ [("1mo", 0.6); ("6mo", 0.5); ("1yr", 0.4); ("2yr", 0.3);
            ("3yr", 0.2); ("4yr", 0.15); ("5yr", 0.1)]%float.
Proof. apply elem_of_list_to_map_2. Qed.

Ltac each_entry H :=
  repeat (apply elem_of_cons in H as [H | H]; [inversion H; subst; clear H |]);
  try (apply elem_of_nil in H; destruct H).

(** C6.  Over the fixed schedule (1mo=21, 6mo=126, 1yr=252, 2yr=504,
    3yr=756, 4yr=1008, 5yr=1260 trading days), every known horizon has
    a weight in [LSTM_WEIGHTS], and a horizon with more trading days has
    a strictly smaller ensemble weight. *)
Theorem lstm_weight_strictly_decreasing :
  forall (h1 h2 : string) (d1 d2 : Z),
    ProphetModel.HORIZON_DAYS !! h1 = Some d1 ->
    ProphetModel.HORIZON_DAYS !! h2 = Some d2 ->
    (d1 < d2)%Z ->
    exists w1 w2 : float,
      Predict.LSTM_WEIGHTS !! h1 = Some w1 /\
      Predict.LSTM_WEIGHTS !! h2 = Some w2 /\
      Predict.lstm_weight h1 = w1 /\ Predict.lstm_weight h2 = w2 /\
      (w2 <? w1)%float = true.
Proof.
  intros h1 h2 d1 d2 H1 H2 Hlt.
  apply horizon_days_known in H1. apply horizon_days_known in H2.
  each_entry H1; each_entry H2; try lia;
    eexists _, _; (split; [reflexivity|]); (split; [reflexivity|]);
    (split; [reflexivity|]); (split; [reflexivity|]); reflexivity.
Qed.

Lemma lstm_weight_strictly_decreasing_witness :
  exists w1 w2 : float,
    Predict.LSTM_WEIGHTS !! "1mo" = Some w1 /\
    Predict.LSTM_WEIGHTS !! "5yr" = Some w2 /\
    Predict.lstm_weight "1mo" = w1 /\ Predict.lstm_weight "5yr" = w2 /\
    (w2 <? w1)%float = true.
Proof.
  apply (lstm_weight_strictly_decreasing "1mo" "5yr" 21 1260);
    [reflexivity | reflexivity | lia].
Defined.

(* ================================================================== *)
(** * Inversion of the orchestration loop *)

Lemma forecast_horizon_inv {L : Predict.Libs} (c : Predict.context L)
    (h : string) (g g' : RandomState (Predict.np L))
    (r : Predict.horizon_result) :
  Predict.forecast_horizon c h g = (Ok r, g') ->
  exists fc res e mc,
    baseline_end c h = Ok fc /\
    Predict.lstm_correction c = Ok res /\
    ensemble_of c h fc res = Ok e /\
    Predict.monte_carlo_block c (Predict.horizon_days h) g = (Ok mc, g') /\
    r = result_of h e mc.
Proof.
  unfold Predict.forecast_horizon, baseline_end, ensemble_of. intros Hrun.
  destruct (iloc_last _) as [fc|x]; cbn in Hrun; [|discriminate].
  destruct (Predict.lstm_correction c) as [res|x]; cbn in Hrun; [|discriminate].
  destruct (Predict.blend _ _ _ _ _ _) as [e|x] eqn:He; [|discriminate].
  destruct (Predict.monte_carlo_block c _ g) as [[mc|x] g1]; cbn in Hrun;
    [|discriminate].
  injection Hrun as <- <-.
  exists fc, res, e, mc. repeat split. exact He.
Qed.

(** The ensemble, when the percent change is defined. *)
Lemma blend_inv (p lo up w res last : float) (e : Predict.ensemble) :
  Predict.blend p lo up w res last = Ok e ->
  (last =? 0)%float = false /\
  Predict.predicted_price e = (p + w * res)%float /\
  Predict.lower_bound e = (lo + w * res)%float /\
  Predict.upper_bound e = (up + w * res)%float /\
  Predict.change_pct e
  = ((Predict.predicted_price e - last) / last * 100)%float.
Proof.
  unfold Predict.blend. destruct (last =? 0)%float; [discriminate|].
  intros [= <-]. cbn. repeat split.
Qed.

Lemma blend_ok (p lo up w res last : float) :
  (last =? 0)%float = false ->
  exists e, Predict.blend p lo up w res last = Ok e.
Proof. unfold Predict.blend. intros ->. eauto. Qed.

(** The last row of the feature table of a prepared run gives the last
    close and the last date. *)
Lemma prepare_context_last (L : Predict.Libs) (ticker : string)
    (c : Predict.context L) (last_date : Z) :
  Predict.prepare_context L ticker = Ok (c, last_date) ->
  exists row,
    last_feature_row L ticker = Ok row /\
    Predict.last_price c = Engineering.close (Engineering.base row) /\
    last_date = Engineering.date (Engineering.base row).
Proof.
  unfold Predict.prepare_context, last_feature_row. intros Hp.
  destruct (Predict.get_stock_data L ticker) as [df|]; [|discriminate].
  cbn in Hp |- *.
  destruct (Predict.fetch_market_data L) as [md|]; [|discriminate].
  cbn in Hp |- *.
  destruct (Engineering.prepare_features _ _ _) as [fdf|]; [|discriminate].
  cbn in Hp |- *.
  destruct (ProphetModel.train_prophet _ _) as [pm|]; [|discriminate].
  cbn in Hp.
  destruct (ProphetModel.get_prophet_residuals _ _ _) as [res|]; [|discriminate].
  cbn in Hp.
  destruct (Lstm.train_lstm _ _ _) as [[[lm fs] ts]|]; [|discriminate].
  cbn in Hp.
  destruct (iloc_last _) as [lastrow|]; [|discriminate].
  cbn in Hp. injection Hp as <- <-. exists lastrow. repeat split.
Qed.

Lemma forecast_horizons_inv {L : Predict.Libs} (c : Predict.context L)
    (horizons : list string) :
  forall (g g' : RandomState (Predict.np L)) (rs : list Predict.horizon_result),
    Predict.forecast_horizons c horizons g = (Ok rs, g') ->
    Forall2 (fun h r => exists g1 g2, Predict.forecast_horizon c h g1 = (Ok r, g2))
            horizons rs.
Proof.
  induction horizons as [|h hs IH]; intros g g' rs Hrun; cbn in Hrun.
  - injection Hrun as <- <-. constructor.
  - destruct (Predict.forecast_horizon c h g) as [[r|e] g1] eqn:Hh;
      [|discriminate].
    destruct (Predict.forecast_horizons c hs g1) as [[rs'|e] g2] eqn:Hhs;
      cbn in Hrun; [|discriminate].
    injection Hrun as <- <-.
    constructor; [eauto | eapply IH; eauto].
Qed.

Lemma run_prediction_inv (L : Predict.Libs) (prediction_id ticker : string)
    (horizons : list string) (g g' : RandomState (Predict.np L))
    (rs : list Predict.horizon_result) (ts : list Predict.ts_point) :
  Predict.run_prediction L prediction_id ticker horizons g
    = (Predict.Completed rs ts, g') ->
  exists c last_date,
    Predict.prepare_context L ticker = Ok (c, last_date) /\
    Predict.forecast_horizons c horizons g = (Ok rs, g').
Proof.
  unfold Predict.run_prediction. intros Hrun.
  destruct (Predict.prepare_context L ticker) as [[c d]|e]; [|discriminate].
  destruct (Predict.forecast_horizons c horizons g) as [[rs'|e] g1] eqn:Hloop;
    [|discriminate].
  destruct (Predict.build_timeseries c d horizons); [|discriminate].
  inversion Hrun; subst. eauto.
Qed.

(** Every result of a completed run is assembled by [result_of] from the
    baseline forecast, the residual correction and the Monte Carlo block
    of its horizon. *)
Lemma run_prediction_results (L : Predict.Libs) (prediction_id ticker : string)
    (horizons : list string) (g g' : RandomState (Predict.np L))
    (rs : list Predict.horizon_result) (ts : list Predict.ts_point) :
  Predict.run_prediction L prediction_id ticker horizons g
    = (Predict.Completed rs ts, g') ->
  exists c last_date,
    Predict.prepare_context L ticker = Ok (c, last_date) /\
    Forall2 (fun h r =>
               exists fc res e mc g1 g2,
                 baseline_end c h = Ok fc /\
                 Predict.lstm_correction c = Ok res /\
                 ensemble_of c h fc res = Ok e /\
                 Predict.monte_carlo_block c (Predict.horizon_days h) g1
                   = (Ok mc, g2) /\
                 r = result_of h e mc)
            horizons rs.
Proof.
  intros Hrun. apply run_prediction_inv in Hrun as (c & d & Hc & Hloop).
  exists c, d. split; [exact Hc|].
  apply forecast_horizons_inv in Hloop.
  eapply Forall2_impl; [exact Hloop|].
  intros h r (g1 & g2 & Hh). cbn beta in Hh.
  apply forecast_horizon_inv in Hh as (fc & res & e & mc & ? & ? & ? & ? & ?).
  exists fc, res, e, mc, g1, g2. auto.
Qed.

Lemma monte_carlo_block_some {L : Predict.Libs} (c : Predict.context L)
    (days : Z) (g g' : RandomState (Predict.np L))
    (mc : option Predict.monte_carlo_bundle) :
  Predict.monte_carlo_block c days g = (Ok mc, g') ->
  (is_Some mc <-> (756 <= days)%Z).
Proof.
  unfold Predict.monte_carlo_block. intros Hmc.
  destruct (756 <=? days)%Z eqn:Hd.
  - apply Z.leb_le in Hd.
    destruct (MonteCarlo.monte_carlo_simulation _ _ _ _ _ _ _) as [[s|e] g1];
      cbn in Hmc; [|discriminate].
    injection Hmc as <- _. split; [auto | eauto].
  - apply Z.leb_gt in Hd. injection Hmc as <- _.
    split; [intros [? ?]; discriminate | lia].
Qed.

(* ================================================================== *)
(** * The simulation always returns *)

Section MonteCarloFacts.
Context {F : Type} `{Numeric F} (np : Numpy F).

Lemma draw_row_length (k : nat) (g : RandomState np) :
  length (fst (MonteCarlo.draw_row np k g)) = k.
Proof.
  revert g. induction k as [|k IH]; intros g; cbn; [reflexivity|].
  destruct (next_gauss np g) as [z g1].
  specialize (IH g1). destruct (MonteCarlo.draw_row np k g1) as [zs g2].
  cbn in *. congruence.
Qed.

Lemma draw_rows_shape (n k : nat) (g : RandomState np) :
  length (fst (MonteCarlo.draw_rows np n k g)) = n /\
  Forall (fun row => length row = k) (fst (MonteCarlo.draw_rows np n k g)).
Proof.
  revert g. induction n as [|n IH]; intros g; cbn; [split; [reflexivity|constructor]|].
  pose proof (draw_row_length k g) as Hrow.
  destruct (MonteCarlo.draw_row np k g) as [row g1].
  specialize (IH g1). destruct (MonteCarlo.draw_rows np n k g1) as [rows g2].
  cbn in *. destruct IH as [IH1 IH2]. split; [congruence | constructor; assumption].
Qed.

(** The terminal prices: one per simulated path, each the last price
    multiplied by the daily factors of its row of draws. *)
Lemma float_square_inv (x y : F) :
  MonteCarlo.float_square x = Ok y -> y = (x * x)%num.
Proof.
  unfold MonteCarlo.float_square.
  destruct (nis_inf (x * x)%num && negb (nis_inf x)); [discriminate|].
  intros [= <-]. reflexivity.
Qed.

Lemma simulate_final_prices_spec (last_price mu sigma : F) (days n : Z)
    (g : RandomState np) :
  (0 <= days)%Z -> (0 <= n)%Z ->
  is_ok (MonteCarlo.float_square sigma) = true ->
  exists Zs g',
    MonteCarlo.draw_rows np (Z.to_nat n) (Z.to_nat days)
                         (np_random_seed np 42) = (Zs, g') /\
    MonteCarlo.simulate_final_prices np last_price mu sigma days n g
    = (Ok (map (fun row =>
                  MonteCarlo.final_price last_price
                    (map (fun z =>
                            np_exp np
                              (((mu - (nof_Z 1 / nof_Z 2) * (sigma * sigma))
                                * (nof_Z 1 / nof_Z 252))
                               + (sigma * nsqrt (nof_Z 1 / nof_Z 252)) * z)%num)
                         row)) Zs), g').
Proof.
  intros Hd Hn Hsq.
  unfold MonteCarlo.simulate_final_prices, MonteCarlo.standard_normal.
  assert ((n <? 0)%Z || (days <? 0)%Z = false) as ->.
  { apply orb_false_iff. split; apply Z.ltb_ge; assumption. }
  destruct (MonteCarlo.draw_rows np _ _ _) as [Zs g'] eqn:E.
  exists Zs, g'. split; [reflexivity|].
  destruct (MonteCarlo.float_square sigma) as [sigma2|e] eqn:Hs;
    [|discriminate Hsq].
  apply float_square_inv in Hs. subst sigma2.
  rewrite map_map. reflexivity.
Qed.

(** The square of the volatility is taken after the draws: when it
    overflows, the simulation raises with the generator advanced. *)
Lemma simulate_final_prices_overflow (last_price mu sigma : F) (days n : Z)
    (g : RandomState np) (e : exn) :
  (0 <= days)%Z -> (0 <= n)%Z ->
  MonteCarlo.float_square sigma = Raise e ->
  MonteCarlo.simulate_final_prices np last_price mu sigma days n g
  = (Raise e,
     snd (MonteCarlo.draw_rows np (Z.to_nat n) (Z.to_nat days)
                               (np_random_seed np 42))).
Proof.
  intros Hd Hn Hsq.
  unfold MonteCarlo.simulate_final_prices, MonteCarlo.standard_normal.
  assert ((n <? 0)%Z || (days <? 0)%Z = false) as ->.
  { apply orb_false_iff. split; apply Z.ltb_ge; assumption. }
  destruct (MonteCarlo.draw_rows np _ _ _) as [Zs g'] eqn:E.
  rewrite Hsq. reflexivity.
Qed.

Lemma percentile_ok (arr : list F) (q : Z) :
  arr <> [] -> (0 <= q <= 100)%Z ->
  exists v, NumpyPercentile.percentile arr q = Ok v.
Proof.
  intros Harr Hq. unfold NumpyPercentile.percentile.
  assert ((q <? 0)%Z || (100 <? q)%Z = false) as ->.
  { apply orb_false_iff. split; apply Z.ltb_ge; lia. }
  destruct arr as [|x arr]; [congruence|].
  destruct (existsb nis_nan (x :: arr)); eauto.
Qed.

Lemma summarize_ok (final_prices : list F) :
  final_prices <> [] ->
  exists s, MonteCarlo.summarize np final_prices = Ok s.
Proof.
  intros Hne. unfold MonteCarlo.summarize.
  destruct (percentile_ok final_prices 10 Hne) as [v10 ->]; [lia|].
  destruct (percentile_ok final_prices 25 Hne) as [v25 ->]; [lia|].
  destruct (percentile_ok final_prices 50 Hne) as [v50 ->]; [lia|].
  destruct (percentile_ok final_prices 75 Hne) as [v75 ->]; [lia|].
  destruct (percentile_ok final_prices 90 Hne) as [v90 ->]; [lia|].
  cbn. eauto.
Qed.

(** With a non-negative day count, at least one path and a volatility
    whose square does not overflow, the simulation returns its
    scenarios: it validates nothing else about its inputs. *)
Lemma monte_carlo_simulation_ok (last_price mu sigma : F) (days n : Z)
    (g : RandomState np) :
  (0 <= days)%Z -> (1 <= n)%Z ->
  is_ok (MonteCarlo.float_square sigma) = true ->
  exists fp s g',
    MonteCarlo.simulate_final_prices np last_price mu sigma days n g
      = (Ok fp, g') /\
    length fp = Z.to_nat n /\
    MonteCarlo.summarize np fp = Ok s /\
    MonteCarlo.monte_carlo_simulation np last_price mu sigma days n g
      = (Ok s, g').
Proof.
  intros Hd Hn Hsq.
  destruct (simulate_final_prices_spec last_price mu sigma days n g)
    as (Zs & g' & HZ & Hsim); [lia | lia | exact Hsq |].
  pose proof (draw_rows_shape (Z.to_nat n) (Z.to_nat days)
                (np_random_seed np 42)) as [Hlen _].
  rewrite HZ in Hlen. cbn in Hlen.
  set (fp := map _ Zs) in Hsim.
  assert (length fp = Z.to_nat n) as Hfp.
  { unfold fp. rewrite length_map. exact Hlen. }
  destruct (summarize_ok fp) as [s Hs].
  { intros ->. cbn in Hfp. lia. }
  exists fp, s, g'. repeat split; try assumption.
  unfold MonteCarlo.monte_carlo_simulation. rewrite Hsim. rewrite Hs. reflexivity.
Qed.

End MonteCarloFacts.

Lemma monte_carlo_block_ok {L : Predict.Libs} (c : Predict.context L)
    (days : Z) (g : RandomState (Predict.np L)) :
  (days <? 756)%Z || square_defined c = true ->
  exists mc g', Predict.monte_carlo_block c days g = (Ok mc, g').
Proof.
  unfold Predict.monte_carlo_block. intros Hsq.
  destruct (756 <=? days)%Z eqn:Hd; [|eauto].
  apply Z.leb_le in Hd.
  assert (square_defined c = true) as Hdef.
  { apply orb_true_iff in Hsq as [Hlt|Hdef]; [|exact Hdef].
    apply Z.ltb_lt in Hlt. lia. }
  destruct (monte_carlo_simulation_ok (Predict.np L) (Predict.last_price c)
              (Predict.annual_return c) (Predict.annual_vol c) days
              MonteCarlo.default_n_simulations g)
    as (fp & s & g' & _ & _ & _ & ->);
    [lia | unfold MonteCarlo.default_n_simulations; lia | exact Hdef |].
  cbn. eauto.
Qed.

(** A run completes as soon as the context can be prepared, the baseline
    forecast of every requested horizon has a last row, the residual
    correction is available, the last close is not zero, the square of
    the volatility does not overflow where the simulation runs, and at
    least one horizon is requested. *)
Lemma run_prediction_completes (L : Predict.Libs) (prediction_id ticker : string)
    (horizons : list string) (g : RandomState (Predict.np L)) :
  run_ready L ticker horizons = true ->
  horizons <> [] ->
  exists rs ts g',
    Predict.run_prediction L prediction_id ticker horizons g
      = (Predict.Completed rs ts, g').
Proof.
  unfold run_ready. intros Hready Hne.
  destruct (Predict.prepare_context L ticker) as [[c d]|] eqn:Hc; [|discriminate].
  apply andb_true_iff in Hready as [Hready Hsq].
  apply andb_true_iff in Hready as [Hready Hlast].
  apply andb_true_iff in Hready as [Hfc Hres].
  apply negb_true_iff in Hlast.
  assert (Forall (fun h => (Predict.horizon_days h <? 756)%Z
                           || square_defined c = true) horizons) as Hmc.
  { apply Forall_forall. intros h Hh.
    apply orb_true_iff in Hsq as [Hshort|Hdef];
      [|rewrite Hdef; apply orb_true_r].
    rewrite forallb_forall in Hshort.
    rewrite (Hshort h) by (apply list_elem_of_In; exact Hh). reflexivity. }
  clear Hsq.
  assert (forall g, exists rs g',
             Predict.forecast_horizons c horizons g = (Ok rs, g')) as Hloop.
  { clear Hne. induction horizons as [|h hs IH]; intros g0; cbn; [eauto|].
    cbn in Hfc. apply andb_true_iff in Hfc as [Hh Hhs].
    apply Forall_cons_1 in Hmc as [Hmch Hmc].
    unfold Predict.forecast_horizon. unfold baseline_end in Hh.
    destruct (iloc_last _) as [fc|]; [|discriminate]. cbn.
    destruct (Predict.lstm_correction c) as [res|]; [|discriminate]. cbn.
    destruct (blend_ok (ProphetModel.yhat fc) (ProphetModel.yhat_lower fc)
                (ProphetModel.yhat_upper fc) (Predict.lstm_weight h) res
                (Predict.last_price c) Hlast) as [e ->].
    destruct (monte_carlo_block_ok c (Predict.horizon_days h) g0 Hmch)
      as (mc & g1 & ->). cbn.
    destruct (IH Hhs Hmc g1) as (rs & g2 & ->). cbn. eauto. }
  unfold Predict.run_prediction. rewrite Hc.
  destruct (Hloop g) as (rs & g' & ->).
  unfold Predict.build_timeseries, Predict.max_days.
  destruct horizons as [|h hs]; [congruence|]. cbn. eauto.
Qed.

(* ================================================================== *)
(** * The ensemble of a horizon *)

(** C2.  In every completed run, the last price is the close of the
    last row of the feature table, and the result of each requested
    horizon carries the ensemble of that horizon: the predicted price
    is the baseline point forecast plus the horizon's weight times the
    residual correction, both bounds are shifted by the same weighted
    correction, and the percent change is
    [(predicted - last) / last * 100] with that last close, which is
    not zero; the payload holds these values rounded to two decimals.
    With last close 200, baseline 210, residual 5 and the one-year
    weight 0.4, the predicted price is 212 and the percent change is 6,
    and rounding leaves both unchanged. *)
Theorem ensemble_blend :
  forall (L : Predict.Libs) (prediction_id ticker : string)
         (horizons : list string) (g g' : RandomState (Predict.np L))
         (rs : list Predict.horizon_result) (ts : list Predict.ts_point),
    Predict.run_prediction L prediction_id ticker horizons g
      = (Predict.Completed rs ts, g') ->
    (exists c last_date last_row,
       Predict.prepare_context L ticker = Ok (c, last_date) /\
       last_feature_row L ticker = Ok last_row /\
       Predict.last_price c = Engineering.close (Engineering.base last_row) /\
       Forall2
         (fun h r =>
            exists fc res e,
              baseline_end c h = Ok fc /\
              Predict.lstm_correction c = Ok res /\
              let w := Predict.lstm_weight h in
              let last := Engineering.close (Engineering.base last_row) in
              Predict.blend (ProphetModel.yhat fc)
                (ProphetModel.yhat_lower fc)
                (ProphetModel.yhat_upper fc) w res last = Ok e /\
              (last =? 0)%float = false /\
              Predict.predicted_price e = (ProphetModel.yhat fc + w * res)%float /\
              Predict.lower_bound e = (ProphetModel.yhat_lower fc + w * res)%float /\
              Predict.upper_bound e = (ProphetModel.yhat_upper fc + w * res)%float /\
              Predict.change_pct e
                = ((Predict.predicted_price e - last) / last * 100)%float /\
              Predict.horizon r = h /\
              Predict.predictedPrice r
                = PyFloat.py_round (Predict.predicted_price e) 2 /\
              Predict.lowerBound r = PyFloat.py_round (Predict.lower_bound e) 2 /\
              Predict.upperBound r = PyFloat.py_round (Predict.upper_bound e) 2 /\
              Predict.changePercent r
                = PyFloat.py_round (Predict.change_pct e) 2)
         horizons rs)
    /\ (forall lower upper : float,
          exists e,
            Predict.blend 210 lower upper (Predict.lstm_weight "1yr") 5 200
              = Ok e /\
            Predict.lstm_weight "1yr" = 0.4%float /\
            Predict.predicted_price e = 212%float /\
            Predict.change_pct e = 6%float /\
            PyFloat.py_round (Predict.predicted_price e) 2 = 212%float /\
            PyFloat.py_round (Predict.change_pct e) 2 = 6%float).
Proof.
  intros L pid ticker hs g g' rs ts Hrun. split.
  - apply run_prediction_results in Hrun as (c & d & Hc & Hall).
    destruct (prepare_context_last L ticker c d Hc) as (row & Hrow & Hlast & _).
    exists c, d, row. split; [exact Hc|]. split; [exact Hrow|].
    split; [exact Hlast|].
    eapply Forall2_impl; [exact Hall|].
    intros h r (fc & res & e & mc & g1 & g2 & Hfc & Hres & He & _ & ->).
    unfold ensemble_of in He. rewrite Hlast in He.
    exists fc, res, e. split; [exact Hfc|]. split; [exact Hres|].
    cbv zeta. split; [exact He|].
    apply blend_inv in He as (H0 & Hp & Hlo & Hup & Hch).
    repeat split; assumption.
  - intros lower upper. eexists. split; [reflexivity|].
    cbn. repeat split; vm_compute; reflexivity.
Qed.

(** The reference run: four hundred synthetic days.  It completes by
    [run_prediction_completes]. *)
Ltac reference_run n ticker horizons :=
  destruct (run_prediction_completes (Reference.libs n) "p1" ticker
              horizons 0%float)
    as (rs & ts & g' & Hrun);
  [ vm_compute; reflexivity
  | discriminate
  | exists rs, ts, g'; split; [exact Hrun|] ].

Lemma ensemble_blend_witness :
  exists rs ts g',
    Predict.run_prediction (Reference.libs 400) "p1" "TEST" ["1yr"; "3yr"]
                           0%float
      = (Predict.Completed rs ts, g')
    /\ exists c last_date,
         Predict.prepare_context (Reference.libs 400) "TEST"
           = Ok (c, last_date) /\
         Forall2
           (fun h r =>
              exists fc res,
                baseline_end c h = Ok fc /\
                Predict.lstm_correction c = Ok res /\
                Predict.predictedPrice r
                  = PyFloat.py_round
                      (ProphetModel.yhat fc + Predict.lstm_weight h * res) 2)
           ["1yr"; "3yr"] rs.
Proof.
  reference_run 400 "TEST" ["1yr"; "3yr"].
  destruct (ensemble_blend _ _ _ _ _ _ _ _ Hrun)
    as [(c & d & row & Hc & _ & _ & Hall) _].
  exists c, d. split; [exact Hc|].
  eapply Forall2_impl; [exact Hall|].
  intros h r (fc & res & e & Hfc & Hres & _ & _ & Hp & _ & _ & _ & _ & Hr & _).
  exists fc, res. split; [exact Hfc|]. split; [exact Hres|].
  rewrite Hr, Hp. reflexivity.
Defined.

(* ================================================================== *)
(** * The Monte Carlo bundle and the horizon length *)

(** C4.  In every completed run, the result of a requested horizon
    contains a Monte Carlo bundle exactly when the horizon resolves to
    at least 756 trading days. *)
Theorem monte_carlo_iff_long_horizon :
  forall (L : Predict.Libs) (prediction_id ticker : string)
         (horizons : list string) (g g' : RandomState (Predict.np L))
         (rs : list Predict.horizon_result) (ts : list Predict.ts_point),
    Predict.run_prediction L prediction_id ticker horizons g
      = (Predict.Completed rs ts, g') ->
    Forall2
      (fun h r =>
         Predict.horizon r = h /\
         (is_Some (Predict.monteCarlo r) <-> (756 <= Predict.horizon_days h)%Z))
      horizons rs.
Proof.
  intros L pid ticker hs g g' rs ts Hrun.
  apply run_prediction_results in Hrun as (c & d & _ & Hall).
  eapply Forall2_impl; [exact Hall|].
  intros h r (fc & res & e & mc & g1 & g2 & _ & _ & _ & Hmc & ->).
  split; [reflexivity|]. cbn.
  eapply monte_carlo_block_some; eauto.
Qed.

Lemma monte_carlo_iff_long_horizon_witness :
  exists rs ts g',
    Predict.run_prediction (Reference.libs 400) "p1" "TEST"
                           ["1mo"; "5yr"; "10yr"] 0%float
      = (Predict.Completed rs ts, g')
    /\ Forall2
         (fun h r =>
            Predict.horizon r = h /\
            (is_Some (Predict.monteCarlo r)
             <-> (756 <= Predict.horizon_days h)%Z))
         ["1mo"; "5yr"; "10yr"] rs.
Proof.
  reference_run 400 "TEST" ["1mo"; "5yr"; "10yr"].
  exact (monte_carlo_iff_long_horizon _ _ _ _ _ _ _ _ Hrun).
Defined.

(* ================================================================== *)
(** * The min-max scaler *)

Section ScalerFacts.
Context {F : Type} `{Numeric F}.

Lemma check_array_inv (X X' : list (list F)) :
  MinMaxScaler.check_array X = Ok X' ->
  X' = X /\ X <> [] /\ MinMaxScaler.n_features X <> 0
  /\ existsb (existsb nis_inf) X = false.
Proof.
  unfold MinMaxScaler.check_array. destruct X as [|row X]; [discriminate|].
  cbn [MinMaxScaler.n_features].
  destruct (Nat.eqb (length row) 0) eqn:Hrow; [discriminate|].
  destruct (existsb (existsb nis_inf) (row :: X)) eqn:Hinf; [discriminate|].
  intros [= <-]. apply Nat.eqb_neq in Hrow. repeat split; congruence.
Qed.

Lemma check_array_ok (X : list (list F)) :
  X <> [] -> MinMaxScaler.n_features X <> 0 ->
  existsb (existsb nis_inf) X = false ->
  MinMaxScaler.check_array X = Ok X.
Proof.
  unfold MinMaxScaler.check_array. destruct X as [|row X]; [congruence|].
  cbn [MinMaxScaler.n_features]. intros _ Hrow Hinf.
  apply Nat.eqb_neq in Hrow. rewrite Hrow, Hinf. reflexivity.
Qed.

Lemma fit_inv (X : list (list F)) (sc : MinMaxScaler.t F) :
  MinMaxScaler.fit X = Ok sc ->
  MinMaxScaler.n_features X <> 0 /\
  length (MinMaxScaler.scale_ sc) = MinMaxScaler.n_features X /\
  length (MinMaxScaler.min_ sc) = MinMaxScaler.n_features X /\
  Forall (fun s => exists r,
            s = (nof_Z (1 - 0) / MinMaxScaler.handle_zeros_in_scale r)%num)
         (MinMaxScaler.scale_ sc).
Proof.
  unfold MinMaxScaler.fit. intros Hfit.
  destruct (MinMaxScaler.check_array X) as [X'|] eqn:Hchk; [|discriminate].
  apply check_array_inv in Hchk as (-> & _ & Hcols & _).
  cbn in Hfit. injection Hfit as <-. cbn.
  assert (length (MinMaxScaler.columns X) = MinMaxScaler.n_features X) as Hlen.
  { unfold MinMaxScaler.columns. rewrite length_map, length_seq. reflexivity. }
  repeat split.
  - exact Hcols.
  - rewrite length_map, length_zip_with, !length_map, Hlen. lia.
  - rewrite length_zip_with, !length_map, length_zip_with, !length_map, Hlen. lia.
  - apply Forall_map. apply Forall_forall. intros r _. cbn. eauto.
Qed.

Lemma check_n_features_ok (sc : MinMaxScaler.t F) (X : list (list F)) :
  Forall (fun row => length row = length (MinMaxScaler.scale_ sc)) X ->
  MinMaxScaler.check_n_features sc X = Ok X.
Proof.
  intros Hall. unfold MinMaxScaler.check_n_features.
  assert (forallb (fun row => Nat.eqb (length row)
                     (length (MinMaxScaler.scale_ sc))) X = true) as ->;
    [|reflexivity].
  apply forallb_forall. intros row Hin.
  apply Nat.eqb_eq. rewrite Forall_forall in Hall. apply Hall.
  apply list_elem_of_In. exact Hin.
Qed.

Lemma transform_ok (sc : MinMaxScaler.t F) (X : list (list F)) :
  MinMaxScaler.check_array X = Ok X ->
  Forall (fun row => length row = length (MinMaxScaler.scale_ sc)) X ->
  MinMaxScaler.transform sc X
  = Ok (map (fun row =>
               zip_with nadd (zip_with nmul row (MinMaxScaler.scale_ sc))
                        (MinMaxScaler.min_ sc)) X).
Proof.
  intros Hchk Hrows. unfold MinMaxScaler.transform. rewrite Hchk. cbn.
  rewrite (check_n_features_ok sc X Hrows). reflexivity.
Qed.

Lemma inverse_transform_ok (sc : MinMaxScaler.t F) (X : list (list F)) :
  MinMaxScaler.check_array X = Ok X ->
  Forall (fun row => length row = length (MinMaxScaler.scale_ sc)) X ->
  MinMaxScaler.inverse_transform sc X
  = Ok (map (fun row =>
               zip_with ndiv (zip_with nsub row (MinMaxScaler.min_ sc))
                        (MinMaxScaler.scale_ sc)) X).
Proof.
  intros Hchk Hrows. unfold MinMaxScaler.inverse_transform. rewrite Hchk. cbn.
  rewrite (check_n_features_ok sc X Hrows). reflexivity.
Qed.

(** Fitting and transforming a rectangular array without infinities
    succeeds and keeps the number of rows. *)
Lemma fit_transform_ok (X : list (list F)) :
  MinMaxScaler.check_array X = Ok X ->
  Forall (fun row => length row = MinMaxScaler.n_features X) X ->
  exists sc Y,
    MinMaxScaler.fit_transform X = Ok (sc, Y) /\ length Y = length X.
Proof.
  intros Hchk Hrect. unfold MinMaxScaler.fit_transform.
  destruct (MinMaxScaler.fit X) as [sc|e] eqn:Hfit.
  - pose proof (fit_inv X sc Hfit) as (_ & Hlen & _ & _).
    cbn. rewrite transform_ok; [| exact Hchk | rewrite Hlen; exact Hrect].
    cbn. eexists _, _. split; [reflexivity|]. rewrite length_map. reflexivity.
  - unfold MinMaxScaler.fit in Hfit. rewrite Hchk in Hfit. discriminate.
Qed.

End ScalerFacts.

(** In exact arithmetic the fitted scale is never zero. *)
Lemma real_scale_nonzero (r : R) :
  (nof_Z (1 - 0) / MinMaxScaler.handle_zeros_in_scale r)%num <> 0%R.
Proof.
  unfold MinMaxScaler.handle_zeros_in_scale. cbn -[pow]. unfold Rltb.
  assert (0 < / 2 ^ 52)%R as Heps by (apply Rinv_0_lt_compat; lra).
  unfold Rdiv. apply Rmult_integral_contrapositive_currified;
    [apply not_0_IZR; lia|].
  apply Rinv_neq_0_compat.
  destruct (Rlt_dec r (10 * / 2 ^ 52)) as [Hlt|Hge]; lra.
Qed.

Lemma real_row_round_trip (row scale min : list R) :
  length row = length scale -> length min = length scale ->
  Forall (fun s => s <> 0%R) scale ->
  zip_with Rdiv (zip_with Rminus (zip_with Rplus (zip_with Rmult row scale) min)
                          min) scale = row.
Proof.
  revert scale min. induction row as [|x row IH]; intros [|s scale] [|m min];
    cbn; intros Hl1 Hl2 Hnz; try discriminate; [reflexivity|].
  inversion Hnz; subst. f_equal.
  - field. assumption.
  - apply IH; auto.
Qed.




(* ================================================================== *)
(** * The residual corrector without enough history *)

Lemma mapM_result_length {A B} (f : A -> result B) (l : list A) (r : list B) :
  mapM f l = Ok r -> length r = length l.
Proof.
  revert r. induction l as [|x l IH]; intros r; cbn.
  - intros [= <-]. reflexivity.
  - destruct (f x) as [y|]; cbn; [|discriminate].
    destruct (mapM f l) as [k|]; cbn; [|discriminate].
    intros [= <-]. cbn. f_equal. apply IH. reflexivity.
Qed.

Lemma mapM_result_ok {A B} (f : A -> result B) (l : list A) :
  Forall (fun x => is_ok (f x) = true) l -> exists r, mapM f l = Ok r.
Proof.
  induction 1 as [|x l Hx _ [k IH]]; cbn; [eauto|].
  destruct (f x) as [y|]; [|discriminate]. cbn. rewrite IH. cbn. eauto.
Qed.

Lemma build_sequences_length (seq_length : nat)
    (sf st : list (list float)) X y :
  Lstm.build_sequences seq_length sf st = Ok (X, y) ->
  length X = length sf - seq_length.
Proof.
  unfold Lstm.build_sequences. intros Hb.
  destruct (mapM _ _) as [xy|] eqn:Hm; [|discriminate].
  cbn in Hb. injection Hb as <- <-.
  apply mapM_result_length in Hm. rewrite length_map, Hm, length_seq.
  reflexivity.
Qed.

Lemma build_sequences_ok (seq_length : nat) (sf st : list (list float)) :
  length sf <= length st ->
  exists X y, Lstm.build_sequences seq_length sf st = Ok (X, y).
Proof.
  intros Hlen. unfold Lstm.build_sequences.
  destruct (mapM_result_ok
              (fun i => match st !! i with
                        | Some y => Ok (take seq_length (drop (i - seq_length) sf), y)
                        | None => Raise (IndexError "index out of bounds")
                        end)
              (seq seq_length (length sf - seq_length))) as [xy Hxy].
  { apply Forall_forall. intros i Hi. apply elem_of_seq in Hi.
    destruct (st !! i) eqn:Hst; [reflexivity|].
    apply lookup_ge_None in Hst. lia. }
  rewrite Hxy. cbn. eauto.
Qed.

Lemma prepare_lstm_data_length (features : list (list float))
    (residuals : list float) X y fs ts :
  Lstm.prepare_lstm_data features residuals = Ok (X, y, fs, ts) ->
  length X = n_sequences features.
Proof.
  unfold Lstm.prepare_lstm_data, n_sequences. intros Hp.
  destruct (MinMaxScaler.fit_transform features) as [[fs' sf]|] eqn:Hf;
    [|discriminate].
  cbn in Hp.
  destruct (MinMaxScaler.fit_transform (Lstm.reshape_column residuals))
    as [[ts' st]|]; [|discriminate].
  cbn in Hp.
  destruct (Lstm.build_sequences _ sf st) as [[X' y']|] eqn:Hb; [|discriminate].
  cbn in Hp. injection Hp as <- <- <- <-.
  apply build_sequences_length in Hb. rewrite Hb.
  unfold MinMaxScaler.fit_transform in Hf.
  destruct (MinMaxScaler.fit features) as [sc|]; [|discriminate].
  cbn in Hf. unfold MinMaxScaler.transform in Hf.
  destruct (MinMaxScaler.check_array features) as [X1|] eqn:Hc; [|discriminate].
  apply check_array_inv in Hc as (-> & _). cbn in Hf.
  unfold MinMaxScaler.check_n_features in Hf.
  destruct (forallb _ features); [|discriminate].
  cbn in Hf. injection Hf as <- <-. rewrite length_map. reflexivity.
Qed.

Lemma train_lstm_inv (K : Lstm.Keras) (features : list (list float))
    (residuals : list float) model fs ts :
  Lstm.train_lstm K features residuals = Ok (model, fs, ts) ->
  n_sequences features < Lstm.SEQUENCE_LENGTH + 10 -> model = None.
Proof.
  unfold Lstm.train_lstm. intros Ht Hfew.
  destruct (Lstm.prepare_lstm_data features residuals)
    as [[[[X y] fs'] ts']|] eqn:Hp; [|discriminate].
  apply prepare_lstm_data_length in Hp.
  change (Lstm.train_lstm K features residuals) with
    (Lstm.prepare_lstm_data features residuals ≫= _) in Ht.
  cbv beta iota delta [mbind result_bind] in Ht.
  destruct (length X <? Lstm.SEQUENCE_LENGTH + 10) eqn:Hlt.
  - injection Ht as <- _ _. reflexivity.
  - apply Nat.ltb_ge in Hlt. lia.
Qed.

Lemma reshape_column_well_formed (xs : list float) :
  xs <> [] -> existsb PrimFloat.is_infinity xs = false ->
  well_formed_array (Lstm.reshape_column xs).
Proof.
  intros Hne Hfin. unfold well_formed_array, Lstm.reshape_column.
  repeat split.
  - destruct xs; [congruence|discriminate].
  - destruct xs; [congruence|cbn; lia].
  - apply Forall_map. apply Forall_forall. intros x _.
    destruct xs; [congruence|reflexivity].
  - rewrite <- Hfin. clear. induction xs as [|x xs IH]; [reflexivity|].
    cbn. rewrite IH, orb_false_r. reflexivity.
Qed.

Lemma well_formed_fit_transform (X : list (list float)) :
  well_formed_array X ->
  exists sc Y, MinMaxScaler.fit_transform X = Ok (sc, Y) /\ length Y = length X.
Proof.
  intros (Hne & Hcols & Hrect & Hfin).
  apply fit_transform_ok; [|exact Hrect].
  apply check_array_ok; assumption.
Qed.

(** On well-formed, aligned inputs the data preparation cannot raise. *)
Lemma prepare_lstm_data_ok (features : list (list float))
    (residuals : list float) :
  well_formed_array features ->
  length residuals = length features ->
  existsb PrimFloat.is_infinity residuals = false ->
  exists X y fs ts,
    Lstm.prepare_lstm_data features residuals = Ok (X, y, fs, ts).
Proof.
  intros Hwf Hlen Hfin. unfold Lstm.prepare_lstm_data.
  destruct (well_formed_fit_transform features Hwf) as (fs & sf & -> & Hsf).
  cbn.
  destruct (well_formed_fit_transform (Lstm.reshape_column residuals))
    as (ts & st & -> & Hst).
  { apply reshape_column_well_formed; [|exact Hfin].
    destruct Hwf as (Hne & _). destruct residuals, features; cbn in *; congruence. }
  cbn.
  destruct (build_sequences_ok Lstm.SEQUENCE_LENGTH sf st) as (X & y & ->).
  { rewrite Hsf, Hst. unfold Lstm.reshape_column. rewrite length_map. lia. }
  cbn. eauto.
Qed.

Lemma lstm_weight_cases (h : string) :
  Predict.lstm_weight h
  ∈ [0.3; 0.6; 0.5; 0.4; 0.3; 0.2; 0.15; 0.1]%float.
Proof.
  unfold Predict.lstm_weight.
  destruct (Predict.LSTM_WEIGHTS !! h) as [w|] eqn:Hw; cbn.
  - apply lstm_weights_known in Hw.
    each_entry Hw;
      repeat (apply elem_of_cons; first [left; reflexivity | right]).
  - apply elem_of_cons. left. reflexivity.
Qed.

(** Every ensemble weight times a zero correction is [+0.0]. *)
Lemma lstm_weight_mul_zero (h : string) :
  (Predict.lstm_weight h * 0)%float = 0%float.
Proof.
  pose proof (lstm_weight_cases h) as Hw.
  repeat (apply elem_of_cons in Hw as [-> | Hw]; [vm_compute; reflexivity|]).
  apply elem_of_nil in Hw. destruct Hw.
Qed.

Lemma same_number_add_zero (x : float) : same_number (x + 0)%float x.
Proof.
  destruct (FloatFacts.add_zero_r x) as [->|[-> ->]];
    [left; reflexivity | right; reflexivity].
Qed.

Lemma same_number_round_add_zero (x : float) :
  same_number (PyFloat.py_round (x + 0)%float 2) (PyFloat.py_round x 2).
Proof.
  destruct (FloatFacts.add_zero_r x) as [->|[-> ->]];
    [left; reflexivity | right; reflexivity].
Qed.

Lemma lstm_correction_none {L : Predict.Libs} (c : Predict.context L) :
  Predict.lstm_model c = None -> Predict.lstm_correction c = Ok 0%float.
Proof. unfold Predict.lstm_correction. intros ->. reflexivity. Qed.

(** The model of a prepared context is the one [train_lstm] returned on
    the aligned features. *)
Lemma prepare_context_lstm (L : Predict.Libs) (ticker : string)
    (c : Predict.context L) (last_date : Z) :
  Predict.prepare_context L ticker = Ok (c, last_date) ->
  exists residuals,
    Lstm.train_lstm (Predict.keras L) (Predict.aligned_features c) residuals
    = Ok (Predict.lstm_model c, Predict.feat_scaler c, Predict.target_scaler c).
Proof.
  unfold Predict.prepare_context. intros Hp.
  destruct (Predict.get_stock_data L ticker) as [df|]; [|discriminate].
  cbn in Hp.
  destruct (Predict.fetch_market_data L) as [md|]; [|discriminate].
  cbn in Hp.
  destruct (Engineering.prepare_features _ _ _) as [fdf|]; [|discriminate].
  cbn in Hp.
  destruct (ProphetModel.train_prophet _ _) as [pm|]; [|discriminate].
  cbn in Hp.
  destruct (ProphetModel.get_prophet_residuals _ _ _) as [res|]; [|discriminate].
  cbn in Hp.
  destruct (Lstm.train_lstm _ _ _) as [[[lm fs] ts]|] eqn:Ht; [|discriminate].
  cbn in Hp.
  destruct (iloc_last _) as [lastrow|]; [|discriminate].
  cbn in Hp. injection Hp as <- _. cbn. eauto.
Qed.

Lemma few_sequences_spec (L : Predict.Libs) (ticker : string)
    (c : Predict.context L) (last_date : Z) :
  few_sequences L ticker = true ->
  Predict.prepare_context L ticker = Ok (c, last_date) ->
  n_sequences (Predict.aligned_features c) < 70.
Proof.
  unfold few_sequences. intros Hfew Hc. rewrite Hc in Hfew.
  apply Nat.ltb_lt. exact Hfew.
Qed.

(** The scalers are fitted before the sequences are counted: whatever
    the feature scaler refuses makes the training raise. *)
Lemma train_lstm_check_array (K : Lstm.Keras) (features : list (list float))
    (residuals : list float) (e : exn) :
  MinMaxScaler.check_array features = Raise e ->
  Lstm.train_lstm K features residuals = Raise e.
Proof.
  intros Hc. unfold Lstm.train_lstm, Lstm.prepare_lstm_data,
    MinMaxScaler.fit_transform, MinMaxScaler.fit.
  rewrite Hc. reflexivity.
Qed.

(** C3.  With fewer than 70 usable training sequences, [train_lstm]
    returns no model instead of raising when the scalers accept the
    data (a well-formed feature array with one residual per row, none
    infinite); the scalers are fitted before the sequences are counted,
    so on an empty feature table, and on one that holds an infinite
    value, the training raises [ValueError] however few sequences there
    are.  In a completed run whose aligned features give fewer than 70
    sequences there is no model, the residual correction of every
    horizon is exactly zero, the weighted correction is [+0.0], and the
    predicted price is the baseline point forecast itself, unrounded
    and in the payload (up to the sign of a zero forecast). *)
Theorem residual_corrector_unavailable :
  (forall (K : Lstm.Keras) (features : list (list float))
          (residuals : list float),
      well_formed_array features ->
      length residuals = length features ->
      existsb PrimFloat.is_infinity residuals = false ->
      n_sequences features < 70 ->
      exists fs ts, Lstm.train_lstm K features residuals = Ok (None, fs, ts))
  /\
  (forall (K : Lstm.Keras) (residuals : list float),
      n_sequences [] < 70 /\
      Lstm.train_lstm K [] residuals
      = Raise (ValueError "Found array with 0 sample(s)"))
  /\
  (forall (K : Lstm.Keras) (features : list (list float))
          (residuals : list float),
      features <> [] -> MinMaxScaler.n_features features <> 0 ->
      existsb (existsb PrimFloat.is_infinity) features = true ->
      Lstm.train_lstm K features residuals
      = Raise (ValueError "Input contains infinity"))
  /\
  (forall (L : Predict.Libs) (prediction_id ticker : string)
          (horizons : list string) (g g' : RandomState (Predict.np L))
          (rs : list Predict.horizon_result) (ts : list Predict.ts_point),
      Predict.run_prediction L prediction_id ticker horizons g
        = (Predict.Completed rs ts, g') ->
      exists c last_date,
        Predict.prepare_context L ticker = Ok (c, last_date) /\
        (n_sequences (Predict.aligned_features c) < 70 ->
         Predict.lstm_model c = None /\
         Predict.lstm_correction c = Ok 0%float /\
         Forall2
           (fun h r =>
              exists fc e,
                baseline_end c h = Ok fc /\
                (Predict.lstm_weight h * 0)%float = 0%float /\
                Predict.blend (ProphetModel.yhat fc)
                  (ProphetModel.yhat_lower fc)
                  (ProphetModel.yhat_upper fc)
                  (Predict.lstm_weight h) 0 (Predict.last_price c) = Ok e /\
                same_number (Predict.predicted_price e)
                            (ProphetModel.yhat fc) /\
                same_number (Predict.predictedPrice r)
                            (PyFloat.py_round (ProphetModel.yhat fc) 2))
           horizons rs)).
Proof.
  split; [|split; [|split]].
  - intros K features residuals Hwf Hlen Hfin Hfew.
    destruct (prepare_lstm_data_ok features residuals Hwf Hlen Hfin)
      as (X & y & fs & ts & Hp).
    exists fs, ts. unfold Lstm.train_lstm. rewrite Hp.
    cbv beta iota delta [mbind result_bind].
    apply prepare_lstm_data_length in Hp.
    assert ((length X <? Lstm.SEQUENCE_LENGTH + 10) = true) as ->;
      [|reflexivity].
    apply Nat.ltb_lt. unfold Lstm.SEQUENCE_LENGTH. lia.
  - intros K residuals. split; [cbn; lia|].
    apply train_lstm_check_array. reflexivity.
  - intros K features residuals Hne Hcols Hinf.
    apply train_lstm_check_array. unfold MinMaxScaler.check_array.
    destruct features as [|row rest]; [congruence|].
    cbn in Hcols. apply Nat.eqb_neq in Hcols. rewrite Hcols.
    change (@nis_inf float float_numeric) with PrimFloat.is_infinity.
    rewrite Hinf. reflexivity.
  - intros L pid ticker hs g g' rs ts Hrun.
    apply run_prediction_results in Hrun as (c & d & Hc & Hall).
    exists c, d. split; [exact Hc|]. intros Hfew.
    destruct (prepare_context_lstm L ticker c d Hc) as (residuals & Ht).
    assert (Predict.lstm_model c = None) as Hnone.
    { eapply train_lstm_inv; [exact Ht|]. exact Hfew. }
    pose proof (lstm_correction_none c Hnone) as Hzero.
    repeat split; [exact Hnone | exact Hzero |].
    eapply Forall2_impl; [exact Hall|].
    intros h r (fc & res & e & mc & g1 & g2 & Hfc & Hres & He & _ & ->).
    rewrite Hzero in Hres. injection Hres as <-.
    unfold ensemble_of in He.
    exists fc, e. split; [exact Hfc|].
    split; [apply lstm_weight_mul_zero|].
    split; [exact He|].
    apply blend_inv in He as (_ & Hp & _).
    cbn. rewrite Hp, lstm_weight_mul_zero.
    split; [apply same_number_add_zero | apply same_number_round_add_zero].
Qed.

Lemma residual_corrector_unavailable_witness :
  (exists fs ts,
     Lstm.train_lstm Reference.keras [[1; 2]; [3; 5]; [2; 4]]%float
                     [0.5; -0.25; 0.125]%float = Ok (None, fs, ts))
  /\
  Lstm.train_lstm Reference.keras [[1; 2]; [3; infinity]; [2; 4]]%float
                  [0.5; -0.25; 0.125]%float
  = Raise (ValueError "Input contains infinity")
  /\
  (exists rs ts g' c last_date,
     Predict.run_prediction (Reference.libs 262) "p1" "TEST" ["1mo"; "3yr"]
                            0%float
       = (Predict.Completed rs ts, g') /\
     Predict.prepare_context (Reference.libs 262) "TEST" = Ok (c, last_date) /\
     Predict.lstm_model c = None /\
     Forall2
       (fun h r =>
          exists fc,
            baseline_end c h = Ok fc /\
            same_number (Predict.predictedPrice r)
                        (PyFloat.py_round (ProphetModel.yhat fc) 2))
       ["1mo"; "3yr"] rs).
Proof.
  pose proof residual_corrector_unavailable as (Hnone & _ & Hinf & Hrun).
  split; [|split].
  - apply (Hnone Reference.keras).
    + split; [discriminate|].
      split; [cbn; lia|].
      split; [repeat constructor | reflexivity].
    + reflexivity.
    + reflexivity.
    + cbn. lia.
  - apply (Hinf Reference.keras); [discriminate | cbn; lia | reflexivity].
  - destruct (run_prediction_completes (Reference.libs 262) "p1" "TEST"
                ["1mo"; "3yr"] 0%float)
      as (rs & ts & g' & Hcompl); [vm_compute; reflexivity | discriminate |].
    destruct (Hrun _ _ _ _ _ _ _ _ Hcompl) as (c & d & Hc & Hfew).
    assert (n_sequences (Predict.aligned_features c) < 70) as Hn.
    { apply (few_sequences_spec (Reference.libs 262) "TEST" c d);
        [vm_compute; reflexivity | exact Hc]. }
    destruct (Hfew Hn) as (Hmodel & _ & Hall).
    exists rs, ts, g', c, d.
    split; [exact Hcompl|]. split; [exact Hc|]. split; [exact Hmodel|].
    eapply Forall2_impl; [exact Hall|].
    intros h r (fc & e & Hfc & _ & _ & _ & Hr). eauto.
Defined.

(** C3, as stated.  With fewer than 70 usable sequences the training
    can raise instead of returning no model: on three rows of features
    of which one holds an infinite value (three rows give no sequence
    at all), the feature scaler refuses the table, and the training
    raises [ValueError]. *)
Lemma train_lstm_raises_counterexample :
  let features := [[1; 2]; [3; infinity]; [2; 4]]%float in
  let residuals := [0.5; -0.25; 0.125]%float in
  n_sequences features < 70 /\
  length residuals = length features /\
  Forall (fun row => length row = 2) features /\
  Lstm.train_lstm Reference.keras features residuals
  = Raise (ValueError "Input contains infinity") /\
  ~ (exists fs ts,
       Lstm.train_lstm Reference.keras features residuals
       = Ok (None, fs, ts)).
Proof.
  cbv zeta. split; [cbn; lia|]. split; [reflexivity|].
  split; [repeat constructor|].
  assert (Lstm.train_lstm Reference.keras [[1; 2]; [3; infinity]; [2; 4]]%float
            [0.5; -0.25; 0.125]%float
          = Raise (ValueError "Input contains infinity")) as Hr
    by (apply train_lstm_check_array; reflexivity).
  split; [exact Hr|].
  intros (fs & ts & Hok). rewrite Hr in Hok. discriminate.
Qed.

(* ================================================================== *)
(** * The feature table *)

Lemma rolling_mean_warm_up (w i : nat) (xs : list float) :
  i + 1 < w -> i < length xs ->
  Pandas.rolling_mean w xs !! i = Some nan.
Proof.
  intros Hi Hlen. unfold Pandas.rolling_mean.
  rewrite list_lookup_imap.
  destruct (xs !! i) eqn:Hx.
  - apply Nat.ltb_lt in Hi.
    cbv beta iota delta [fmap option_fmap option_map]. rewrite Hi. reflexivity.
  - apply lookup_ge_None in Hx. lia.
Qed.

Lemma assign_columns_marked (df : list Engineering.ohlcv)
    (cols : list (string * list float)) :
  cols !! 3 = Some ("sma_200"%string,
                    Pandas.rolling_mean 200 (map Engineering.close df)) ->
  warm_up_marked df (Engineering.assign_columns df cols).
Proof.
  intros Hcol. split.
  - cbn. change (map fst cols) with (fst <$> cols).
    rewrite list_lookup_fmap, Hcol. reflexivity.
  - apply Forall_forall. intros r Hr. cbn in Hr.
    apply elem_of_lookup_imap in Hr as (i & b & -> & Hb).
    destruct (Nat.le_gt_cases 199 i) as [Hge|Hlt].
    + left. exists i. split; [exact Hge | exact Hb].
    + right. exists nan. split; [|reflexivity]. cbn.
      change (map ?f cols) with (f <$> cols).
      rewrite list_lookup_fmap, Hcol. cbn. f_equal.
      apply nth_lookup_Some. apply rolling_mean_warm_up; [lia|].
      rewrite length_map. apply lookup_lt_Some in Hb. exact Hb.
Qed.

Lemma add_technical_indicators_marked (ta : Engineering.TaLib)
    (df : list Engineering.ohlcv) (f : Engineering.frame) :
  Engineering.add_technical_indicators ta df = Ok f -> warm_up_marked df f.
Proof.
  unfold Engineering.add_technical_indicators. intros Hf.
  destruct (Engineering.ta_rsi ta _ _) as [rsi|]; [|discriminate].
  cbn in Hf.
  destruct (Engineering.ta_macd ta _ _ _ _) as [[[m s] d]|]; [|discriminate].
  cbn in Hf.
  destruct (Engineering.ta_bollinger ta _ _ _) as [[[u l] mid]|]; [|discriminate].
  cbn in Hf.
  destruct (Engineering.ta_average_true_range ta _ _ _ _) as [atr|];
    [|discriminate].
  cbn in Hf.
  destruct (Engineering.ta_on_balance_volume ta _ _) as [obv|]; [|discriminate].
  cbn in Hf.
  destruct (Engineering.ta_roc ta _ _) as [roc|]; [|discriminate].
  cbn in Hf. injection Hf as <-.
  apply assign_columns_marked. reflexivity.
Qed.

Lemma merge_left_marked (df : list Engineering.ohlcv) (f : Engineering.frame)
    (name : string) (mdf : Engineering.market_frame) :
  warm_up_marked df f -> warm_up_marked df (Engineering.merge_left f name mdf).
Proof.
  intros [Hcol Hrows]. split.
  - cbn. rewrite lookup_app_l; [exact Hcol|].
    apply lookup_lt_Some in Hcol. exact Hcol.
  - apply Forall_forall. intros r Hr. cbn in Hr.
    apply list_elem_of_In, in_flat_map in Hr as (r0 & Hr0 & Hr).
    apply list_elem_of_In in Hr0.
    rewrite Forall_forall in Hrows. specialize (Hrows r0 Hr0).
    assert (Engineering.base r = Engineering.base r0 /\
            exists x, Engineering.vals r = Engineering.vals r0 ++ [x])
      as [Hb [x Hv]].
    { destruct (filter _ mdf) as [|m0 ms].
      - destruct Hr as [<-|[]]. cbn. eauto.
      - destruct Hr as [<-|Hr]; [cbn; eauto|].
        apply in_map_iff in Hr as (m & <- & _). cbn. eauto. }
    rewrite Hb, Hv. destruct Hrows as [Hfrom|(v & Hlook & Hnan)].
    + left. exact Hfrom.
    + right. exists v. split; [|exact Hnan].
      rewrite lookup_app_l; [exact Hlook|].
      apply lookup_lt_Some in Hlook. exact Hlook.
Qed.

Lemma merge_all_marked (df : list Engineering.ohlcv)
    (market_data : list (string * Engineering.market_frame))
    (f : Engineering.frame) :
  warm_up_marked df f ->
  warm_up_marked df
    (fold_left (fun d '(name, mdf) => Engineering.merge_left d name mdf)
               market_data f).
Proof.
  revert f. induction market_data as [|[name mdf] md IH]; intros f Hf; cbn;
    [exact Hf|].
  apply IH. apply merge_left_marked. exact Hf.
Qed.

Lemma ffill_row_keeps (cols : list string) (prev cur : list float) (v : float) :
  cols !! 3 = Some "sma_200"%string ->
  cur !! 3 = Some v ->
  Engineering.ffill_row cols prev cur !! 3 = Some v.
Proof.
  intros Hcol Hv. unfold Engineering.ffill_row.
  rewrite list_lookup_imap, Hv. cbn.
  rewrite (nth_lookup_Some _ _ _ _ Hcol). reflexivity.
Qed.

Lemma ffill_rows_marked (df : list Engineering.ohlcv) (cols : list string)
    (rs : list Engineering.row) :
  cols !! 3 = Some "sma_200"%string ->
  forall prev,
    Forall (fun r =>
              from_index df 199 (Engineering.base r) \/
              exists v, Engineering.vals r !! 3 = Some v /\ is_nan v = true) rs ->
    Forall (fun r =>
              from_index df 199 (Engineering.base r) \/
              exists v, Engineering.vals r !! 3 = Some v /\ is_nan v = true)
           (Engineering.ffill_rows cols prev rs).
Proof.
  intros Hcol. induction rs as [|r rs IH]; intros prev Hall; cbn;
    [constructor|].
  inversion Hall as [|? ? Hr Hrs]; subst. constructor.
  - cbn. destruct Hr as [Hfrom|(v & Hv & Hnan)]; [left; exact Hfrom|].
    right. exists v. split; [|exact Hnan]. apply ffill_row_keeps; assumption.
  - apply IH. exact Hrs.
Qed.

Lemma add_market_features_marked (df : list Engineering.ohlcv)
    (f : Engineering.frame)
    (market_data : list (string * Engineering.market_frame)) :
  warm_up_marked df f ->
  warm_up_marked df (Engineering.add_market_features f market_data).
Proof.
  intros Hf. unfold Engineering.add_market_features.
  pose proof (merge_all_marked df market_data f Hf) as [Hcol Hrows].
  set (merged := fold_left _ market_data f) in *.
  pose proof (ffill_rows_marked df _ _ Hcol [] Hrows) as Hfilled.
  cbn [Engineering.columns Engineering.rows].
  destruct (Engineering.col_index _ _) as [j|].
  - split.
    + cbn. rewrite lookup_app_l; [exact Hcol|].
      apply lookup_lt_Some in Hcol. exact Hcol.
    + cbn. apply Forall_forall. intros r Hr.
      apply elem_of_lookup_imap in Hr as (i & r0 & -> & Hr0).
      apply list_elem_of_lookup_2 in Hr0.
      rewrite Forall_forall in Hfilled. specialize (Hfilled r0 Hr0). cbn.
      destruct Hfilled as [Hfrom|(v & Hv & Hnan)]; [left; exact Hfrom|].
      right. exists v. split; [|exact Hnan].
      rewrite lookup_app_l; [exact Hv|].
      apply lookup_lt_Some in Hv. exact Hv.
  - split; [exact Hcol | exact Hfilled].
Qed.

Lemma existsb_is_nan_false (vs : list float) :
  existsb is_nan vs = false <-> Forall (fun v => is_nan v = false) vs.
Proof.
  induction vs as [|v vs IH]; cbn.
  - split; [constructor | reflexivity].
  - rewrite orb_false_iff, IH. split.
    + intros [? ?]. constructor; assumption.
    + inversion 1; subst. split; assumption.
Qed.

Lemma row_has_nan_false (r : Engineering.row) :
  Engineering.row_has_nan r = false <-> row_complete r.
Proof.
  unfold Engineering.row_has_nan, row_complete. cbn zeta.
  rewrite !orb_false_iff, existsb_is_nan_false. tauto.
Qed.

(** After the drop, every row is complete and stems from a position past
    the warm-up window of the 200-period average. *)
Lemma dropna_marked (df : list Engineering.ohlcv) (f : Engineering.frame) :
  warm_up_marked df f ->
  Forall (fun r => row_complete r /\ from_index df 199 (Engineering.base r))
         (Engineering.rows (Engineering.dropna f)).
Proof.
  intros [_ Hrows]. apply Forall_forall. intros r Hr. cbn in Hr.
  apply list_elem_of_filter in Hr as [Hnan Hr].
  rewrite Forall_forall in Hrows. specialize (Hrows r Hr).
  apply row_has_nan_false in Hnan. split; [exact Hnan|].
  destruct Hrows as [Hfrom|(v & Hv & Hv_nan)]; [exact Hfrom|].
  destruct Hnan as (_ & _ & _ & _ & _ & Hvals).
  rewrite Forall_forall in Hvals.
  specialize (Hvals v (list_elem_of_lookup_2 _ _ _ Hv)). congruence.
Qed.

(** The rows [prepare_features] returns: complete, and past the warm-up
    window. *)
Lemma prepare_features_rows (ta : Engineering.TaLib)
    (df : list Engineering.ohlcv)
    (market_data : option (list (string * Engineering.market_frame)))
    (out : Engineering.frame) :
  Engineering.prepare_features ta df market_data = Ok out ->
  Forall (fun r => row_complete r /\ from_index df 199 (Engineering.base r))
         (Engineering.rows out).
Proof.
  intros Hp. unfold Engineering.prepare_features in Hp.
  destruct (Engineering.add_technical_indicators ta df) as [f|] eqn:Hf;
    [|discriminate].
  apply add_technical_indicators_marked in Hf.
  cbn in Hp. injection Hp as <-.
  apply dropna_marked.
  destruct market_data as [[|m ms]|]; try exact Hf.
  apply add_market_features_marked. exact Hf.
Qed.

(** C5.  Every row of the table [prepare_features] returns has no
    undefined (NaN) value in any column, price columns and derived
    columns alike, and stems from an input row at position 199 or
    later: the 199 leading input rows, the warm-up window of the
    200-period moving average, are absent from the output. *)
Theorem prepare_features_complete :
  forall (ta : Engineering.TaLib) (df : list Engineering.ohlcv)
         (market_data : option (list (string * Engineering.market_frame)))
         (out : Engineering.frame),
    Engineering.prepare_features ta df market_data = Ok out ->
    Forall (fun r =>
              (is_nan (Engineering.open (Engineering.base r)) = false /\
               is_nan (Engineering.high (Engineering.base r)) = false /\
               is_nan (Engineering.low (Engineering.base r)) = false /\
               is_nan (Engineering.close (Engineering.base r)) = false /\
               is_nan (Engineering.volume (Engineering.base r)) = false /\
               Forall (fun v => is_nan v = false) (Engineering.vals r)) /\
              exists i, 199 <= i /\ df !! i = Some (Engineering.base r))
           (Engineering.rows out).
Proof.
  intros ta df market_data out Hp.
  exact (prepare_features_rows ta df market_data out Hp).
Qed.

Lemma prepare_features_complete_witness :
  exists out,
    Engineering.prepare_features Reference.ta (Reference.synthetic_series 202)
      (Some [("sp500"%string,
              map (fun i => (Z.of_nat i, PyFloat.of_Z (4000 + Z.of_nat i)))
                  (seq 0 202));
             ("vix"%string, [(3%Z, 20%float)])])
    = Ok out /\
    length (Engineering.rows out) = 3 /\
    Forall (fun r => row_complete r /\ from_index (Reference.synthetic_series 202)
                                         199 (Engineering.base r))
           (Engineering.rows out).
Proof.
  assert (match Engineering.prepare_features Reference.ta
                  (Reference.synthetic_series 202)
                  (Some [("sp500"%string,
                          map (fun i => (Z.of_nat i,
                                         PyFloat.of_Z (4000 + Z.of_nat i)))
                              (seq 0 202));
                         ("vix"%string, [(3%Z, 20%float)])])
          with
          | Ok out => length (Engineering.rows out) =? 3
          | Raise _ => false
          end = true) as Hlen by (vm_compute; reflexivity).
  destruct (Engineering.prepare_features _ _ _) as [out|] eqn:E;
    [|discriminate Hlen].
  exists out. split; [reflexivity|].
  split; [apply Nat.eqb_eq; exact Hlen|].
  exact (prepare_features_complete _ _ _ _ E).
Defined.

(* ================================================================== *)
(** * A price series shorter than the largest window *)

(** C8, a short series.  On a series of 100 rows the feature pipeline
    signals no error: it returns the table with its 23 derived columns
    and no row. *)
Lemma prepare_features_short_series_counterexample :
  length (Reference.synthetic_series 100) = 100 /\
  Engineering.prepare_features Reference.ta (Reference.synthetic_series 100) None
  = Ok {| Engineering.columns :=
            ["sma_5"; "sma_20"; "sma_50"; "sma_200"; "ema_5"; "ema_20";
             "ema_50"; "ema_200"; "rsi_14"; "macd"; "macd_signal";
             "macd_diff"; "bb_upper"; "bb_lower"; "bb_mid"; "bb_width";
             "atr_14"; "obv"; "roc_10"; "return_1d"; "return_5d";
             "return_20d"; "volatility_20d"]%string;
          Engineering.rows := [] |}.
Proof. split; vm_compute; reflexivity. Qed.

Lemma prepare_features_short (ta : Engineering.TaLib)
    (df : list Engineering.ohlcv)
    (market_data : option (list (string * Engineering.market_frame)))
    (out : Engineering.frame) :
  length df < 200 ->
  Engineering.prepare_features ta df market_data = Ok out ->
  Engineering.rows out = [].
Proof.
  intros Hlen Hp. apply prepare_features_rows in Hp.
  destruct (Engineering.rows out) as [|r rs]; [reflexivity|].
  inversion Hp as [|? ? [_ (i & Hi & Hlook)] _]; subst.
  apply lookup_lt_Some in Hlook. lia.
Qed.

(** C8, as the code behaves.  With fewer than 200 input rows, [prepare_features]
    never returns a row: whenever the indicator calls return, its result
    is the empty table, not an error.  The run then fails at the next
    stage, where the baseline model refuses the empty history. *)
Theorem short_series_gives_empty_table :
  forall (df : list Engineering.ohlcv),
    length df < 200 ->
    (forall (ta : Engineering.TaLib)
            (market_data : option (list (string * Engineering.market_frame)))
            (out : Engineering.frame),
        Engineering.prepare_features ta df market_data = Ok out ->
        Engineering.rows out = [])
    /\
    (forall (L : Predict.Libs) (prediction_id ticker : string)
            (horizons : list string) (g : RandomState (Predict.np L)),
        Predict.get_stock_data L ticker = Ok df ->
        exists e,
          Predict.run_prediction L prediction_id ticker horizons g
          = (Predict.Failed e, g)).
Proof.
  intros df Hlen. split.
  - intros ta market_data out. apply prepare_features_short. exact Hlen.
  - intros L pid ticker hs g Hdf.
    assert (exists e, Predict.prepare_context L ticker = Raise e) as [e He].
    { unfold Predict.prepare_context. rewrite Hdf. cbn.
      destruct (Predict.fetch_market_data L) as [md|e]; cbn; [|eauto].
      destruct (Engineering.prepare_features _ _ _) as [out|e] eqn:Hp; cbn;
        [|eauto].
      apply prepare_features_short in Hp; [|exact Hlen].
      unfold ProphetModel.train_prophet. rewrite Hp. cbn. eauto. }
    exists e. unfold Predict.run_prediction. rewrite He. reflexivity.
Qed.

Lemma short_series_gives_empty_table_witness :
  (exists out,
     Engineering.prepare_features Reference.ta (Reference.synthetic_series 100)
                                  None = Ok out /\
     Engineering.rows out = [])
  /\
  (exists e,
     Predict.run_prediction (Reference.libs 100) "p1" "TEST" ["1mo"] 0%float
     = (Predict.Failed e, 0%float)).
Proof.
  assert (length (Reference.synthetic_series 100) < 200) as Hlen
    by (vm_compute; lia).
  destruct (short_series_gives_empty_table _ Hlen) as [Hempty Hfail].
  split.
  - assert (is_ok (Engineering.prepare_features Reference.ta
                     (Reference.synthetic_series 100) None) = true) as Hok
      by (vm_compute; reflexivity).
    destruct (Engineering.prepare_features _ _ _) as [out|] eqn:Hp;
      [|discriminate Hok].
    exists out. split; [reflexivity|]. exact (Hempty _ _ _ Hp).
  - exact (Hfail (Reference.libs 100) "p1" "TEST" ["1mo"] 0%float
                 (eq_refl : Predict.get_stock_data (Reference.libs 100) "TEST"
                            = Ok (Reference.synthetic_series 100))).
Defined.

(* ================================================================== *)
(** * Non-finite inputs of the simulation *)

Lemma is_nan_eq (x : float) : is_nan x = true -> x = nan.
Proof.
  unfold is_nan. intros Hx. apply Prim2SF_inj.
  rewrite FloatAxioms.eqb_spec in Hx. change (Prim2SF nan) with S754_nan.
  destruct (Prim2SF x) as [s|s| |s m e]; try reflexivity.
  - destruct s; discriminate.
  - destruct s; discriminate.
  - exfalso. cbn in Hx. unfold SFeqb, SFcompare in Hx.
    destruct s.
    + rewrite Z.compare_refl, Pos.compare_cont_refl in Hx. discriminate.
    + rewrite Z.compare_refl, Pos.compare_cont_refl in Hx. discriminate.
Qed.

Lemma fold_mul_nan (row : list float) (x : float) :
  row <> [] -> Forall (fun r => r = nan) row ->
  fold_left PrimFloat.mul row x = nan.
Proof.
  intros Hne Hall. destruct row as [|r row]; [congruence|].
  inversion Hall as [|? ? -> Hrest]; subst. cbn.
  rewrite FloatFacts.nan_mul_r. clear Hne Hall.
  induction Hrest as [|r row -> _ IH]; cbn; [reflexivity|].
  exact IH.
Qed.

(** With a NaN drift or volatility every daily factor is [exp(NaN)]. *)
Lemma nan_daily_exponent (mu sigma dt diffusion z : float) :
  is_nan mu = true \/ is_nan sigma = true ->
  ((mu - (PyFloat.of_Z 1 / PyFloat.of_Z 2) * (sigma * sigma)) * dt
   + diffusion * z)%float = nan.
Proof.
  intros [Hmu|Hsigma].
  - apply is_nan_eq in Hmu. subst mu.
    rewrite FloatFacts.nan_sub_l, FloatFacts.nan_mul_l, FloatFacts.nan_add_l.
    reflexivity.
  - apply is_nan_eq in Hsigma. subst sigma.
    rewrite FloatFacts.nan_mul_l, FloatFacts.nan_mul_r, FloatFacts.nan_sub_r,
      FloatFacts.nan_mul_l, FloatFacts.nan_add_l.
    reflexivity.
Qed.

Lemma percentile_nan (arr : list float) (q : Z) :
  arr <> [] -> existsb is_nan arr = true -> (0 <= q <= 100)%Z ->
  NumpyPercentile.percentile arr q = Ok nan.
Proof.
  intros Hne Hnan Hq. unfold NumpyPercentile.percentile.
  assert ((q <? 0)%Z || (100 <? q)%Z = false) as ->.
  { apply orb_false_iff. split; apply Z.ltb_ge; lia. }
  destruct arr as [|x arr]; [congruence|].
  cbn [nis_nan float_numeric]. rewrite Hnan. reflexivity.
Qed.

(** The simulation with a NaN drift or volatility: it returns, and all
    five percentiles are NaN. *)
Lemma monte_carlo_nan (np : Numpy float) (last_price mu sigma : float)
    (days n : Z) (g : RandomState np) :
  np_exp np nan = nan ->
  is_nan mu = true \/ is_nan sigma = true ->
  is_ok (MonteCarlo.float_square sigma) = true ->
  (1 <= days)%Z -> (1 <= n)%Z ->
  exists s g',
    MonteCarlo.monte_carlo_simulation np last_price mu sigma days n g
      = (Ok s, g') /\
    MonteCarlo.p10 s = nan /\ MonteCarlo.p25 s = nan /\
    MonteCarlo.p50 s = nan /\ MonteCarlo.p75 s = nan /\
    MonteCarlo.p90 s = nan.
Proof.
  intros Hexp Hnan Hsq Hd Hn.
  destruct (simulate_final_prices_spec np last_price mu sigma days n g)
    as (Zs & g' & HZ & Hsim); [lia | lia | exact Hsq |].
  pose proof (draw_rows_shape np (Z.to_nat n) (Z.to_nat days)
                (np_random_seed np 42)) as [Hlen Hrows].
  rewrite HZ in Hlen, Hrows. cbn [fst] in Hlen, Hrows.
  set (fp := map _ Zs) in Hsim.
  assert (Forall (fun p => p = nan) fp) as Hfp.
  { unfold fp. apply Forall_map. eapply Forall_impl; [exact Hrows|].
    intros row Hrow. cbn beta. unfold MonteCarlo.final_price.
    apply fold_mul_nan.
    - destruct row; [cbn in Hrow; lia | discriminate].
    - apply Forall_map. apply Forall_forall. intros z _. cbn beta.
      cbn [nadd nsub nmul ndiv nof_Z float_numeric].
      rewrite nan_daily_exponent; [exact Hexp | exact Hnan]. }
  assert (fp <> []) as Hne.
  { intros Hnil. assert (length fp = Z.to_nat n) as Hl
      by (unfold fp; rewrite length_map; exact Hlen).
    rewrite Hnil in Hl. cbn in Hl. lia. }
  assert (existsb is_nan fp = true) as Hex.
  { destruct fp as [|p fp']; [congruence|].
    inversion Hfp; subst. reflexivity. }
  unfold MonteCarlo.monte_carlo_simulation. rewrite Hsim.
  unfold MonteCarlo.summarize.
  rewrite !percentile_nan by (try assumption; lia).
  cbn. eexists _, _. split; [reflexivity|]. cbn. repeat split.
Qed.

Lemma monte_carlo_block_nan {L : Predict.Libs} (c : Predict.context L)
    (days : Z) (g : RandomState (Predict.np L)) :
  np_exp (Predict.np L) nan = nan ->
  nan_inputs c = true ->
  square_defined c = true ->
  (756 <= days)%Z ->
  exists g', Predict.monte_carlo_block c days g = (Ok (Some nan_bundle), g').
Proof.
  intros Hexp Hnan Hsq Hd. unfold Predict.monte_carlo_block.
  apply Z.leb_le in Hd as Hd'. rewrite Hd'.
  apply orb_true_iff in Hnan.
  destruct (monte_carlo_nan (Predict.np L) (Predict.last_price c)
              (Predict.annual_return c) (Predict.annual_vol c) days
              MonteCarlo.default_n_simulations g Hexp Hnan Hsq)
    as (s & g' & -> & H10 & H25 & H50 & H75 & H90);
    [lia | unfold MonteCarlo.default_n_simulations; lia |].
  cbn. exists g'. unfold Predict.round_bundle, nan_bundle.
  rewrite H10, H25, H50, H75, H90. reflexivity.
Qed.

(** The only exception of [x ** 2]. *)
Lemma float_square_raise (x : float) :
  is_ok (MonteCarlo.float_square x) = false ->
  MonteCarlo.float_square x
  = Raise (OverflowError "(34, 'Numerical result out of range')").
Proof.
  unfold MonteCarlo.float_square.
  destruct (nis_inf (x * x)%num && negb (nis_inf x)); [reflexivity|discriminate].
Qed.

(** The square of a NaN or of an infinite number raises nothing. *)
Lemma float_square_non_finite (x : float) :
  is_nan x = true \/ PrimFloat.is_infinity x = true ->
  is_ok (MonteCarlo.float_square x) = true.
Proof.
  intros [Hnan|Hinf].
  - apply is_nan_eq in Hnan. subst x. reflexivity.
  - unfold MonteCarlo.float_square.
    change (@nis_inf float float_numeric) with PrimFloat.is_infinity.
    rewrite Hinf, andb_false_r. reflexivity.
Qed.

(** The block of a long horizon when the square overflows. *)
Lemma monte_carlo_block_overflow {L : Predict.Libs} (c : Predict.context L)
    (days : Z) (g : RandomState (Predict.np L)) :
  square_defined c = false ->
  (756 <= days)%Z ->
  exists g',
    Predict.monte_carlo_block c days g
    = (Raise (OverflowError "(34, 'Numerical result out of range')"), g').
Proof.
  intros Hsq Hd. unfold Predict.monte_carlo_block.
  apply Z.leb_le in Hd as Hd'. rewrite Hd'.
  unfold MonteCarlo.monte_carlo_simulation.
  rewrite (simulate_final_prices_overflow (Predict.np L) (Predict.last_price c)
             (Predict.annual_return c) (Predict.annual_vol c) days
             MonteCarlo.default_n_simulations g _
             ltac:(lia) ltac:(unfold MonteCarlo.default_n_simulations; lia)
             (float_square_raise _ Hsq)).
  cbn. eauto.
Qed.

(** C7, as the code behaves.  The simulation validates neither drift nor
    volatility.  Take a horizon of at least 756 trading days whose
    baseline forecast and residual correction are available.  When the
    last close is zero, the percent change raises [ZeroDivisionError]
    before the simulation is reached.  Otherwise the only failure of
    the Monte Carlo block is the [OverflowError] of [sigma ** 2] for a
    finite volatility whose square overflows, and it fails the whole
    iteration; a NaN or an infinite volatility never raises it.  When
    the square is defined, whatever the drift and volatility, the
    iteration returns the horizon's result with a Monte Carlo bundle
    attached, and the predicted price, bounds, percent change and
    confidence are the ensemble values, computed without the drift or
    the volatility.  When the drift or the volatility is NaN (and
    [exp] maps NaN to NaN), the five percentiles of the bundle are
    NaN. *)
Theorem monte_carlo_unvalidated :
  forall (L : Predict.Libs) (c : Predict.context L) (h : string)
         (g : RandomState (Predict.np L)) (fc : ProphetModel.fc_row)
         (res : float),
    (756 <= Predict.horizon_days h)%Z ->
    baseline_end c h = Ok fc ->
    Predict.lstm_correction c = Ok res ->
    ((Predict.last_price c =? 0)%float = true ->
     Predict.forecast_horizon c h g
     = (Raise (ZeroDivisionError "float division by zero"), g))
    /\
    ((Predict.last_price c =? 0)%float = false ->
     (is_nan (Predict.annual_vol c) = true \/
      PrimFloat.is_infinity (Predict.annual_vol c) = true ->
      square_defined c = true)
     /\
     (square_defined c = false ->
      exists g',
        Predict.forecast_horizon c h g
        = (Raise (OverflowError "(34, 'Numerical result out of range')"), g'))
     /\
     (square_defined c = true ->
      exists r mc g',
        Predict.forecast_horizon c h g = (Ok r, g') /\
        Predict.monteCarlo r = Some mc /\
        (np_exp (Predict.np L) nan = nan -> nan_inputs c = true ->
         mc = nan_bundle) /\
        let w := Predict.lstm_weight h in
        let predicted := (ProphetModel.yhat fc + w * res)%float in
        Predict.predictedPrice r = PyFloat.py_round predicted 2 /\
        Predict.lowerBound r
          = PyFloat.py_round (ProphetModel.yhat_lower fc + w * res)%float 2 /\
        Predict.upperBound r
          = PyFloat.py_round (ProphetModel.yhat_upper fc + w * res)%float 2 /\
        Predict.changePercent r
          = PyFloat.py_round
              ((predicted - Predict.last_price c) / Predict.last_price c
               * 100)%float 2 /\
        Predict.confidence r
          = PyFloat.py_round (Predict.confidence_of (Predict.horizon_days h)) 3)).
Proof.
  intros L c h g fc res Hd Hfc Hres.
  unfold baseline_end in Hfc.
  split; [|intros Hlast; split; [|split]].
  - intros Hzero. unfold Predict.forecast_horizon.
    rewrite Hfc. cbn. rewrite Hres. cbn.
    unfold Predict.blend. rewrite Hzero. reflexivity.
  - apply float_square_non_finite.
  - intros Hsq.
    destruct (monte_carlo_block_overflow c (Predict.horizon_days h) g Hsq Hd)
      as [g' Hmc].
    exists g'. unfold Predict.forecast_horizon.
    rewrite Hfc. cbn. rewrite Hres. cbn.
    unfold Predict.blend. rewrite Hlast, Hmc. reflexivity.
  - intros Hsq.
    destruct (monte_carlo_block_ok c (Predict.horizon_days h) g)
      as (mc & g' & Hmc); [rewrite Hsq; apply orb_true_r|].
    pose proof (monte_carlo_block_some c _ g g' mc Hmc) as [_ Hsome].
    destruct (Hsome Hd) as [b ->].
    destruct (blend_ok (ProphetModel.yhat fc) (ProphetModel.yhat_lower fc)
                (ProphetModel.yhat_upper fc) (Predict.lstm_weight h) res
                (Predict.last_price c) Hlast) as [e He].
    exists (result_of h e (Some b)), b, g'.
    split.
    { unfold Predict.forecast_horizon.
      rewrite Hfc. cbn. rewrite Hres. cbn. rewrite He, Hmc. reflexivity. }
    split; [reflexivity|].
    split.
    { intros Hexp Hnan.
      destruct (monte_carlo_block_nan c _ g Hexp Hnan Hsq Hd) as [g2 Hblock].
      rewrite Hblock in Hmc. injection Hmc as <- _. reflexivity. }
    apply blend_inv in He as (_ & Hp & Hlo & Hup & Hch).
    cbn. rewrite Hch, Hp, Hlo, Hup. repeat split.
Qed.

Lemma monte_carlo_unvalidated_witness :
  exists fc r g',
    baseline_end Reference.nan_drift_context "3yr" = Ok fc /\
    Predict.forecast_horizon Reference.nan_drift_context "3yr" 0%float
      = (Ok r, g') /\
    Predict.monteCarlo r = Some nan_bundle /\
    Predict.predictedPrice r
      = PyFloat.py_round
          (ProphetModel.yhat fc + Predict.lstm_weight "3yr" * 0)%float 2.
Proof.
  assert (is_ok (baseline_end Reference.nan_drift_context "3yr") = true)
    as Hok by (vm_compute; reflexivity).
  destruct (baseline_end Reference.nan_drift_context "3yr") as [fc|] eqn:Hfc;
    [|discriminate Hok].
  destruct (monte_carlo_unvalidated (Reference.libs 0)
              Reference.nan_drift_context "3yr" 0%float fc 0%float)
    as (_ & Hrest);
    [vm_compute; discriminate | exact Hfc | reflexivity |].
  destruct (Hrest eq_refl) as (_ & _ & Hok').
  destruct (Hok' eq_refl) as (r & mc & g' & Hrun & Hmc & Hnan & Hp & _).
  exists fc, r, g'. split; [reflexivity|]. split; [exact Hrun|].
  split; [|exact Hp].
  rewrite Hmc. f_equal. apply Hnan; reflexivity.
Defined.

Lemma run_has_nan_inputs_spec (L : Predict.Libs) (ticker : string)
    (c : Predict.context L) (last_date : Z) :
  run_has_nan_inputs L ticker = true ->
  Predict.prepare_context L ticker = Ok (c, last_date) ->
  nan_inputs c = true.
Proof.
  unfold run_has_nan_inputs. intros Hnan Hc. rewrite Hc in Hnan. exact Hnan.
Qed.

Lemma run_square_defined_spec (L : Predict.Libs) (ticker : string)
    (c : Predict.context L) (last_date : Z) :
  run_square_defined L ticker = true ->
  Predict.prepare_context L ticker = Ok (c, last_date) ->
  square_defined c = true.
Proof.
  unfold run_square_defined. intros Hsq Hc. rewrite Hc in Hsq. exact Hsq.
Qed.

(** C7, a NaN volatility.  A run on a price series of 201 days: two rows
    survive the warm-up, so there is a single daily return, whose sample
    standard deviation is NaN.  The run completes, and the result of the
    three-year horizon carries a Monte Carlo bundle whose percentiles
    are all NaN: the Monte Carlo block did not fail. *)
Lemma monte_carlo_nan_counterexample :
  exists r ts g',
    Predict.run_prediction (Reference.libs 201) "p1" "TEST" ["3yr"] 0%float
      = (Predict.Completed [r] ts, g') /\
    Predict.monteCarlo r = Some nan_bundle.
Proof.
  destruct (run_prediction_completes (Reference.libs 201) "p1" "TEST"
              ["3yr"] 0%float)
    as (rs & ts & g' & Hrun); [vm_compute; reflexivity | discriminate |].
  pose proof (run_prediction_results _ _ _ _ _ _ _ _ Hrun)
    as (c & d & Hc & Hall).
  apply Forall2_cons_inv_l in Hall as (r & rs' & Hr & Hnil & ->).
  apply Forall2_nil_inv_l in Hnil as ->.
  destruct Hr as (fc & res & e & mc & g1 & g2 & _ & _ & _ & Hmc & ->).
  exists (result_of "3yr" e mc), ts, g'. split; [exact Hrun|].
  assert (nan_inputs c = true) as Hnan.
  { apply (run_has_nan_inputs_spec (Reference.libs 201) "TEST" c d);
      [vm_compute; reflexivity | exact Hc]. }
  assert (square_defined c = true) as Hsq.
  { apply (run_square_defined_spec (Reference.libs 201) "TEST" c d);
      [vm_compute; reflexivity | exact Hc]. }
  destruct (monte_carlo_block_nan c (Predict.horizon_days "3yr") g1)
    as [g3 Hblock].
  - reflexivity.
  - exact Hnan.
  - exact Hsq.
  - vm_compute. discriminate.
  - rewrite Hblock in Hmc. injection Hmc as <- _. reflexivity.
Qed.

(* ================================================================== *)
(** * The simulation in exact arithmetic *)

Lemma real_insert_sorted_length (x : R) (l : list R) :
  length (NumpyPercentile.insert_sorted x l) = S (length l).
Proof.
  induction l as [|y l IH]; cbn; [reflexivity|].
  destruct (Rleb x y); cbn; [reflexivity | rewrite IH; reflexivity].
Qed.

Lemma real_sort_length (l : list R) :
  length (NumpyPercentile.sort l) = length l.
Proof.
  induction l as [|x l IH]; cbn; [reflexivity|].
  rewrite real_insert_sorted_length. f_equal. exact IH.
Qed.

Lemma real_insert_sorted_Forall (P : R -> Prop) (x : R) (l : list R) :
  P x -> Forall P l -> Forall P (NumpyPercentile.insert_sorted x l).
Proof.
  intros Hx Hl. induction Hl as [|y l Hy Hl IH]; cbn.
  - constructor; [exact Hx | constructor].
  - destruct (Rleb x y); repeat constructor; assumption.
Qed.

Lemma real_insert_sorted_sorted (x : R) (l : list R) :
  StronglySorted Rle l ->
  StronglySorted Rle (NumpyPercentile.insert_sorted x l).
Proof.
  induction 1 as [|y l Hl IH Hy]; cbn.
  - constructor; constructor.
  - unfold Rleb. destruct (Rle_dec x y) as [Hxy|Hxy].
    + constructor; [constructor; assumption|].
      constructor; [exact Hxy|].
      eapply Forall_impl; [exact Hy|]. intros z Hz. cbn in Hz. lra.
    + constructor; [exact IH|].
      apply real_insert_sorted_Forall; [lra | exact Hy].
Qed.

Lemma real_sort_sorted (l : list R) :
  StronglySorted Rle (NumpyPercentile.sort l).
Proof.
  induction l as [|x l IH]; cbn; [constructor|].
  apply real_insert_sorted_sorted. exact IH.
Qed.

Lemma real_sort_Forall (P : R -> Prop) (l : list R) :
  Forall P l -> Forall P (NumpyPercentile.sort l).
Proof.
  induction 1 as [|x l Hx Hl IH]; cbn; [constructor|].
  apply real_insert_sorted_Forall; assumption.
Qed.

Lemma sorted_nth (s : list R) :
  StronglySorted Rle s ->
  forall i j, i <= j -> j < length s -> (nth i s 0 <= nth j s 0)%R.
Proof.
  induction 1 as [|x s Hs IH Hx]; intros i j Hij Hj; [cbn in Hj; lia|].
  destruct j as [|j].
  - assert (i = 0) as -> by lia. cbn. lra.
  - destruct i as [|i].
    + cbn [nth]. cbn in Hj.
      rewrite Forall_forall in Hx. apply Hx.
      apply list_elem_of_In. apply nth_In. lia.
    + cbn [nth]. apply IH; [lia | cbn in Hj; lia].
Qed.

Lemma Int_part_bounds (v : R) :
  (IZR (Int_part v) <= v < IZR (Int_part v) + 1)%R.
Proof. destruct (base_Int_part v). lra. Qed.

Lemma Int_part_mono (v v' : R) :
  (v <= v')%R -> (Int_part v <= Int_part v')%Z.
Proof.
  intros Hv. pose proof (Int_part_bounds v). pose proof (Int_part_bounds v').
  assert (Int_part v < Int_part v' + 1)%Z; [|lia].
  apply lt_IZR. rewrite plus_IZR. lra.
Qed.

Lemma Int_part_nonneg (v : R) : (0 <= v)%R -> (0 <= Int_part v)%Z.
Proof.
  intros Hv. pose proof (Int_part_bounds v).
  assert (-1 < Int_part v)%Z; [|lia]. apply lt_IZR. lra.
Qed.

(** Below the last position, the interpolated value lies between its
    two neighbours. *)
Lemma interp_between (s : list R) (v : R) :
  StronglySorted Rle s -> (0 <= v)%R ->
  (v < IZR (Z.of_nat (length s) - 1))%R ->
  let k := Z.to_nat (Int_part v) in
  S k < length s /\
  interp s v = (nth k s 0 + (nth (S k) s 0 - nth k s 0)
                            * (v - IZR (Int_part v)))%R /\
  (nth k s 0 <= interp s v <= nth (S k) s 0)%R.
Proof.
  intros Hs H0 Hv k.
  pose proof (Int_part_bounds v) as Hb.
  pose proof (Int_part_nonneg v H0) as Hk0.
  assert (Int_part v < Z.of_nat (length s) - 1)%Z as Hk.
  { apply lt_IZR. lra. }
  assert (S k < length s) as Hlen by (unfold k; lia).
  assert (interp s v = (nth k s 0 + (nth (S k) s 0 - nth k s 0)
                                    * (v - IZR (Int_part v)))%R) as Heq.
  { unfold interp. destruct (Rle_dec _ v) as [Hle|_]; [lra|reflexivity]. }
  split; [exact Hlen|]. split; [exact Heq|]. rewrite Heq.
  pose proof (sorted_nth s Hs k (S k) ltac:(lia) Hlen) as Hord.
  split; nra.
Qed.

Lemma interp_le_last (s : list R) (v : R) :
  StronglySorted Rle s -> s <> [] -> (0 <= v)%R ->
  (interp s v <= nth (length s - 1) s 0)%R.
Proof.
  intros Hs Hne H0.
  assert (0 < length s) as Hpos by (destruct s; [congruence | cbn; lia]).
  destruct (Rle_dec (IZR (Z.of_nat (length s) - 1)) v) as [Hle|Hlt].
  - unfold interp. destruct (Rle_dec _ v); [lra | contradiction].
  - destruct (interp_between s v Hs H0 ltac:(lra)) as (Hlen & _ & _ & Hup).
    eapply Rle_trans; [exact Hup|]. apply sorted_nth; [exact Hs | lia | lia].
Qed.

(** The interpolation is monotone in the virtual index. *)
Lemma interp_mono (s : list R) (v v' : R) :
  StronglySorted Rle s -> s <> [] -> (0 <= v <= v')%R ->
  (interp s v <= interp s v')%R.
Proof.
  intros Hs Hne [H0 Hvv].
  destruct (Rle_dec (IZR (Z.of_nat (length s) - 1)) v') as [Hle'|Hlt'].
  - assert (interp s v' = nth (length s - 1) s 0%R) as ->.
    { unfold interp. destruct (Rle_dec _ v'); [reflexivity | contradiction]. }
    apply interp_le_last; assumption.
  - destruct (interp_between s v Hs H0 ltac:(lra)) as (Hlen & Heq & Hlo & Hup).
    destruct (interp_between s v' Hs ltac:(lra) ltac:(lra))
      as (Hlen' & Heq' & Hlo' & Hup').
    pose proof (Int_part_mono v v' Hvv) as Hk.
    pose proof (Int_part_nonneg v H0) as Hk0.
    destruct (Z.eq_dec (Int_part v) (Int_part v')) as [Hsame|Hdiff].
    + rewrite Heq, Heq', <- Hsame.
      pose proof (sorted_nth s Hs (Z.to_nat (Int_part v))
                    (S (Z.to_nat (Int_part v))) ltac:(lia) Hlen) as Hord.
      nra.
    + eapply Rle_trans; [exact Hup|].
      eapply Rle_trans; [|exact Hlo'].
      apply sorted_nth; [exact Hs | lia | lia].
Qed.

Lemma real_lerp (a b t : R) :
  NumpyPercentile.lerp a b t = (a + (b - a) * t)%R.
Proof.
  unfold NumpyPercentile.lerp. cbn -[IZR].
  destruct (Rleb _ t); lra.
Qed.

Lemma real_existsb_nan (arr : list R) : existsb nis_nan arr = false.
Proof. induction arr as [|x arr IH]; cbn; [reflexivity | exact IH]. Qed.

Lemma virtual_index_nonneg (n : nat) (q : Z) :
  0 < n -> (0 <= q)%Z -> (0 <= virtual_index n q)%R.
Proof.
  intros Hn Hq. unfold virtual_index.
  apply Rmult_le_pos.
  - apply IZR_le. lia.
  - apply IZR_le in Hq. lra.
Qed.

Lemma virtual_index_mono (n : nat) (q q' : Z) :
  0 < n -> (q <= q')%Z -> (virtual_index n q <= virtual_index n q')%R.
Proof.
  intros Hn Hq. unfold virtual_index.
  apply Rmult_le_compat_l.
  - apply IZR_le. lia.
  - apply IZR_le in Hq. lra.
Qed.

(** In exact arithmetic [np.percentile] is the interpolation of the
    sorted array at the virtual index. *)
Lemma real_percentile (arr : list R) (q : Z) :
  arr <> [] -> (0 <= q <= 100)%Z ->
  NumpyPercentile.percentile arr q
  = Ok (interp (NumpyPercentile.sort arr) (virtual_index (length arr) q)).
Proof.
  intros Hne Hq. unfold NumpyPercentile.percentile.
  assert ((q <? 0)%Z || (100 <? q)%Z = false) as ->.
  { apply orb_false_iff. split; apply Z.ltb_ge; lia. }
  destruct arr as [|x0 arr0] eqn:Harr; [congruence|]. rewrite <- Harr in *.
  assert (0 < length arr) as Hpos by (rewrite Harr; cbn; lia).
  rewrite real_existsb_nan. f_equal.
  rewrite real_lerp.
  pose proof (real_sort_length arr) as Hlen.
  pose proof (virtual_index_nonneg (length arr) q Hpos ltac:(lia)) as Hv0.
  change (nof_Z (Z.of_nat (length arr) - 1) * (nof_Z q / nof_Z 100))%num
    with (virtual_index (length arr) q).
  set (v := virtual_index (length arr) q) in *.
  change (@nleb R real_numeric) with Rleb.
  change (@nltb R real_numeric) with Rltb.
  change (@nof_Z R real_numeric) with IZR.
  change (@nfloor R real_numeric) with Int_part.
  change (@nsub R real_numeric) with Rminus.
  unfold interp, NumpyPercentile.item. rewrite Hlen.
  unfold Rleb, Rltb.
  destruct (Rle_dec (IZR (Z.of_nat (length arr) - 1)) v) as [Hle|Hnle].
  - cbn [Z.ltb Z.compare].
    replace (Z.to_nat (Z.of_nat (length arr) + -1)) with (length arr - 1) by lia.
    change (@nnan R real_numeric) with 0%R. lra.
  - destruct (Rlt_dec v (IZR 0)) as [Hneg|_]; [lra|].
    pose proof (Int_part_nonneg v Hv0) as Hk.
    assert ((Int_part v <? 0)%Z = false) as -> by (apply Z.ltb_ge; lia).
    assert ((Int_part v + 1 <? 0)%Z = false) as -> by (apply Z.ltb_ge; lia).
    replace (Z.to_nat (Int_part v + 1)) with (S (Z.to_nat (Int_part v))) by lia.
    change (@nnan R real_numeric) with 0%R. reflexivity.
Qed.

Lemma real_percentile_mono (arr : list R) (q q' : Z) v v' :
  arr <> [] -> (0 <= q <= q')%Z -> (q' <= 100)%Z ->
  NumpyPercentile.percentile arr q = Ok v ->
  NumpyPercentile.percentile arr q' = Ok v' ->
  (v <= v')%R.
Proof.
  intros Hne Hq Hq' Hv Hv'.
  rewrite real_percentile in Hv, Hv' by (try assumption; lia).
  injection Hv as <-. injection Hv' as <-.
  assert (0 < length arr) as Hpos by (destruct arr; [congruence | cbn; lia]).
  apply interp_mono.
  - apply real_sort_sorted.
  - intros Hnil. pose proof (real_sort_length arr) as Hlen.
    rewrite Hnil in Hlen. cbn in Hlen. lia.
  - split; [apply virtual_index_nonneg; [exact Hpos | lia]
           | apply virtual_index_mono; [exact Hpos | lia]].
Qed.

Lemma real_final_price_pos (last_price : R) (returns : list R) :
  (0 < last_price)%R -> Forall (fun r => (0 < r)%R) returns ->
  (0 < MonteCarlo.final_price last_price returns)%R.
Proof.
  unfold MonteCarlo.final_price. intros Hl Hr. revert last_price Hl.
  induction Hr as [|r rs Hr _ IH]; intros last_price Hl; cbn; [exact Hl|].
  apply IH. apply Rmult_lt_0_compat; assumption.
Qed.

(* ================================================================== *)
(** * The sign of the terminal prices in binary64 *)

Lemma non_negative_or_nan_spec (x : float) :
  non_negative_or_nan x <-> sign_not_negative (Prim2SF x).
Proof.
  unfold non_negative_or_nan, is_nan.
  rewrite FloatAxioms.eqb_spec, FloatAxioms.leb_spec.
  change (Prim2SF 0) with (S754_zero false).
  destruct (Prim2SF x) as [s|s| |s m e]; cbn.
  - split; [trivial | right; reflexivity].
  - destruct s; cbn; split; intros H; try reflexivity;
      try (destruct H; discriminate); try discriminate; right; reflexivity.
  - split; [trivial | left; reflexivity].
  - unfold SFeqb, SFleb, SFcompare.
    rewrite Z.compare_refl, Pos.compare_cont_refl.
    destruct s; cbn; split; intros H; try reflexivity;
      try (destruct H; discriminate); try discriminate; right; reflexivity.
Qed.

Lemma round_sign_not_negative (m e : Z) (l : location) :
  sign_not_negative (binary_round_aux prec emax false m e l).
Proof.
  unfold binary_round_aux.
  destruct (shr_fexp prec emax m e l) as [mrs' e'].
  destruct (shr_fexp prec emax _ e' loc_Exact) as [mrs'' e''].
  destruct (shr_m mrs''); cbn; [trivial | | trivial].
  destruct (e'' <=? emax - prec)%Z; reflexivity.
Qed.

Lemma mul_sign_not_negative (x y : spec_float) :
  sign_not_negative x -> sign_not_negative y ->
  sign_not_negative (SFmul prec emax x y).
Proof.
  destruct x as [sx|sx| |sx mx ex], y as [sy|sy| |sy my ey]; cbn;
    intros Hx Hy; subst; try trivial; try reflexivity.
  apply round_sign_not_negative.
Qed.

Lemma mul_non_negative_or_nan (x y : float) :
  non_negative_or_nan x -> non_negative_or_nan y ->
  non_negative_or_nan (x * y)%float.
Proof.
  rewrite !non_negative_or_nan_spec, mul_spec.
  apply mul_sign_not_negative.
Qed.

Lemma abs_non_negative_or_nan (x : float) : non_negative_or_nan (abs x).
Proof.
  rewrite non_negative_or_nan_spec, abs_spec.
  destruct (Prim2SF x); cbn; trivial.
Qed.

Lemma final_price_non_negative (last_price : float) (returns : list float) :
  non_negative_or_nan last_price ->
  Forall non_negative_or_nan returns ->
  non_negative_or_nan (MonteCarlo.final_price last_price returns).
Proof.
  unfold MonteCarlo.final_price. intros Hl Hr. revert last_price Hl.
  induction Hr as [|r rs Hr _ IH]; intros last_price Hl; cbn; [exact Hl|].
  apply IH. apply mul_non_negative_or_nan; assumption.
Qed.

(** No square overflows in exact arithmetic. *)
Lemma real_float_square_ok (x : R) :
  is_ok (MonteCarlo.float_square x) = true.
Proof. reflexivity. Qed.

Lemma gbm_exact (np : Numpy R) (last_price mu sigma : R) (days n : Z)
    (g : RandomState np) :
  (forall x, 0 < np_exp np x)%R ->
  (0 < last_price)%R -> (0 <= days)%Z -> (1 <= n)%Z ->
  exists final_prices s g',
    MonteCarlo.simulate_final_prices np last_price mu sigma days n g
      = (Ok final_prices, g') /\
    length final_prices = Z.to_nat n /\
    Forall (fun p => (0 < p)%R) final_prices /\
    MonteCarlo.monte_carlo_simulation np last_price mu sigma days n g
      = (Ok s, g') /\
    (MonteCarlo.p10 s <= MonteCarlo.p25 s)%R /\
    (MonteCarlo.p25 s <= MonteCarlo.p50 s)%R /\
    (MonteCarlo.p50 s <= MonteCarlo.p75 s)%R /\
    (MonteCarlo.p75 s <= MonteCarlo.p90 s)%R.
Proof.
  intros Hexp Hlast Hd Hn.
  destruct (monte_carlo_simulation_ok np last_price mu sigma days n g Hd Hn
              (real_float_square_ok sigma))
    as (fp & s & g' & Hsim & Hlen & Hsum & Hmc).
  exists fp, s, g'.
  assert (Forall (fun p => (0 < p)%R) fp) as Hpos.
  { destruct (simulate_final_prices_spec np last_price mu sigma days n g)
      as (Zs & g2 & _ & Hspec);
      [lia | lia | apply real_float_square_ok |].
    rewrite Hspec in Hsim. injection Hsim as <- _.
    apply Forall_map. apply Forall_forall. intros row _. cbn beta.
    apply real_final_price_pos; [exact Hlast|].
    apply Forall_map. apply Forall_forall. intros z _. apply Hexp. }
  assert (fp <> []) as Hne.
  { intros ->. cbn in Hlen. lia. }
  unfold MonteCarlo.summarize in Hsum.
  destruct (NumpyPercentile.percentile fp 10) as [q10|] eqn:H10;
    [|discriminate].
  destruct (NumpyPercentile.percentile fp 25) as [q25|] eqn:H25;
    [|discriminate].
  destruct (NumpyPercentile.percentile fp 50) as [q50|] eqn:H50;
    [|discriminate].
  destruct (NumpyPercentile.percentile fp 75) as [q75|] eqn:H75;
    [|discriminate].
  destruct (NumpyPercentile.percentile fp 90) as [q90|] eqn:H90;
    [|discriminate].
  cbn in Hsum. injection Hsum as <-. cbn.
  split; [exact Hsim|]. split; [exact Hlen|]. split; [exact Hpos|].
  split; [exact Hmc|].
  split; [eapply (real_percentile_mono fp 10 25); eauto; lia|].
  split; [eapply (real_percentile_mono fp 25 50); eauto; lia|].
  split; [eapply (real_percentile_mono fp 50 75); eauto; lia|].
  eapply (real_percentile_mono fp 75 90); eauto; lia.
Qed.

Lemma positive_non_negative (x : float) :
  (0 <? x)%float = true -> non_negative_or_nan x.
Proof.
  intros Hx. right. rewrite FloatAxioms.ltb_spec in Hx.
  rewrite FloatAxioms.leb_spec. unfold SFltb in Hx. unfold SFleb.
  destruct (SFcompare _ _) as [[| |]|]; try discriminate. reflexivity.
Qed.

Lemma gbm_binary64 (np : Numpy float) (last_price mu sigma : float)
    (days n : Z) (g g' : RandomState np) (final_prices : list float) :
  (forall x, non_negative_or_nan (np_exp np x)) ->
  (0 <? last_price)%float = true ->
  MonteCarlo.simulate_final_prices np last_price mu sigma days n g
    = (Ok final_prices, g') ->
  Forall non_negative_or_nan final_prices.
Proof.
  intros Hexp Hlast Hsim.
  unfold MonteCarlo.simulate_final_prices in Hsim.
  destruct (MonteCarlo.standard_normal np n days _) as [[Zs|e] g1];
    [|discriminate].
  destruct (MonteCarlo.float_square sigma) as [sigma2|e]; [|discriminate].
  injection Hsim as <- _.
  rewrite map_map.
  apply Forall_map. apply Forall_forall. intros row _. cbn beta.
  apply final_price_non_negative; [apply positive_non_negative; exact Hlast|].
  apply Forall_map. apply Forall_forall. intros z _. apply Hexp.
Qed.

Lemma reference_exp_non_negative (x : float) :
  non_negative_or_nan (Reference.exp x).
Proof.
  unfold Reference.exp.
  destruct (is_nan x); [left; reflexivity|].
  destruct (x <? -746)%float; [right; reflexivity|].
  destruct (710 <? x)%float; [right; reflexivity|].
  apply abs_non_negative_or_nan.
Qed.




(* ================================================================== *)
(** * The shape of a run's payload *)

(** X1.  A request without horizons never completes: whatever the
    libraries do, the run ends as failed.  The data is fetched and the
    models are trained all the same: the failure is the one of the
    preparation, when it fails, and otherwise the [ValueError] of [max]
    on an empty sequence, raised when the chart series is built. *)
Theorem run_prediction_no_horizons :
  forall (L : Predict.Libs) (prediction_id ticker : string)
         (g : RandomState (Predict.np L)),
  exists e,
    fst (Predict.run_prediction L prediction_id ticker [] g)
    = Predict.Failed e
    /\ match Predict.prepare_context L ticker with
       | Ok _ => e = ValueError "max() arg is an empty sequence"
       | Raise e' => e = e'
       end.
Proof.
  intros L pid ticker g. unfold Predict.run_prediction.
  destruct (Predict.prepare_context L ticker) as [[c d]|e]; cbn.
  - eexists. split; reflexivity.
  - exists e. split; reflexivity.
Qed.

Lemma forecast_horizons_labels {L : Predict.Libs} (c : Predict.context L)
    (horizons : list string) :
  forall (g g' : RandomState (Predict.np L)) (rs : list Predict.horizon_result),
    Predict.forecast_horizons c horizons g = (Ok rs, g') ->
    map Predict.horizon rs = horizons.
Proof.
  intros g g' rs Hloop. apply forecast_horizons_inv in Hloop.
  induction Hloop as [|h r hs rs (g1 & g2 & Hh) _ IH]; [reflexivity|].
  cbn. rewrite IH. f_equal.
  apply forecast_horizon_inv in Hh as (fc & res & e & mc & _ & _ & _ & _ & ->).
  reflexivity.
Qed.

Lemma run_prediction_timeseries (L : Predict.Libs) (prediction_id ticker : string)
    (horizons : list string) (g g' : RandomState (Predict.np L))
    (rs : list Predict.horizon_result) (ts : list Predict.ts_point) :
  Predict.run_prediction L prediction_id ticker horizons g
    = (Predict.Completed rs ts, g') ->
  exists c last_date full,
    Predict.prepare_context L ticker = Ok (c, last_date) /\
    Predict.build_timeseries c last_date horizons = Ok full /\
    ts = take 500 full.
Proof.
  unfold Predict.run_prediction. intros Hrun.
  destruct (Predict.prepare_context L ticker) as [[c d]|e]; [|discriminate].
  destruct (Predict.forecast_horizons c horizons g) as [[rs'|e] g1];
    [|discriminate].
  destruct (Predict.build_timeseries c d horizons) as [full|] eqn:Hts;
    [|discriminate].
  inversion Hrun; subst.
  exists c, d, full. split; [reflexivity|]. split; [exact Hts|reflexivity].
Qed.

(** X2.  A completed run answers the request as it was given: one
    result per requested horizon, in the order of the request and under
    the requested label (a label requested twice is answered twice). *)
Theorem run_prediction_answers_request :
  forall (L : Predict.Libs) (prediction_id ticker : string)
         (horizons : list string) (g g' : RandomState (Predict.np L))
         (rs : list Predict.horizon_result) (ts : list Predict.ts_point),
    Predict.run_prediction L prediction_id ticker horizons g
      = (Predict.Completed rs ts, g') ->
    map Predict.horizon rs = horizons.
Proof.
  intros L pid ticker hs g g' rs ts Hrun.
  apply run_prediction_inv in Hrun as (c & d & _ & Hloop).
  eapply forecast_horizons_labels; eauto.
Qed.

Lemma run_prediction_answers_request_witness :
  exists rs ts g',
    Predict.run_prediction (Reference.libs 400) "p1" "TEST"
                           ["3yr"; "1mo"; "3yr"] 0%float
      = (Predict.Completed rs ts, g')
    /\ map Predict.horizon rs = ["3yr"; "1mo"; "3yr"].
Proof.
  reference_run 400 "TEST" ["3yr"; "1mo"; "3yr"].
  exact (run_prediction_answers_request _ _ _ _ _ _ _ _ Hrun).
Defined.

Lemma fold_max_spec (f : string -> Z) (hs : list string) (m0 : Z) :
  (m0 <= fold_left (fun m h => Z.max m (f h)) hs m0)%Z /\
  Forall (fun h => (f h <= fold_left (fun m h => Z.max m (f h)) hs m0)%Z) hs /\
  (fold_left (fun m h => Z.max m (f h)) hs m0 = m0 \/
   fold_left (fun m h => Z.max m (f h)) hs m0 ∈ map f hs).
Proof.
  revert m0. induction hs as [|h hs IH]; intros m0; cbn [fold_left map].
  - split; [lia|]. split; [constructor | left; reflexivity].
  - destruct (IH (Z.max m0 (f h))) as (Hle & Hall & Hin).
    split; [lia|]. split; [constructor; [lia | exact Hall]|].
    destruct Hin as [Hin|Hin]; [|right; apply list_elem_of_further; exact Hin].
    rewrite Hin.
    destruct (Z.max_spec m0 (f h)) as [[_ Hm]|[_ Hm]]; rewrite Hm.
    + right. apply list_elem_of_here.
    + left. reflexivity.
Qed.

(** [max_days] is the largest day count among the requested horizons. *)
Lemma max_days_spec (horizons : list string) (days : Z) :
  Predict.max_days horizons = Ok days ->
  days ∈ map Predict.horizon_days horizons /\
  Forall (fun h => (Predict.horizon_days h <= days)%Z) horizons.
Proof.
  unfold Predict.max_days. destruct horizons as [|h hs]; [discriminate|].
  intros [= <-].
  destruct (fold_max_spec Predict.horizon_days hs (Predict.horizon_days h))
    as (Hle & Hall & Hin).
  split.
  - cbn [map]. destruct Hin as [->|Hin];
      [apply list_elem_of_here | apply list_elem_of_further; exact Hin].
  - constructor; assumption.
Qed.

(** X3.  The chart series of a completed run is cut from one baseline
    forecast, the one over the largest day count among the requested
    horizons: its rows dated strictly after the last row of the feature
    table, in the order of the forecast, the first 500 of them, each
    with its forecast and bounds rounded to two decimals.  So the
    series holds at most 500 points, all in the future of the data. *)
Theorem forecast_timeseries_future_only :
  forall (L : Predict.Libs) (prediction_id ticker : string)
         (horizons : list string) (g g' : RandomState (Predict.np L))
         (rs : list Predict.horizon_result) (ts : list Predict.ts_point),
    Predict.run_prediction L prediction_id ticker horizons g
      = (Predict.Completed rs ts, g') ->
    exists c last_date last_row days,
      Predict.prepare_context L ticker = Ok (c, last_date) /\
      last_feature_row L ticker = Ok last_row /\
      last_date = Engineering.date (Engineering.base last_row) /\
      Predict.max_days horizons = Ok days /\
      days ∈ map Predict.horizon_days horizons /\
      Forall (fun h => (Predict.horizon_days h <= days)%Z) horizons /\
      ts = map (fun r =>
                  {| Predict.ts_date := ProphetModel.ds r;
                     Predict.ts_value :=
                       PyFloat.py_round (ProphetModel.yhat r) 2;
                     Predict.ts_lower :=
                       PyFloat.py_round (ProphetModel.yhat_lower r) 2;
                     Predict.ts_upper :=
                       PyFloat.py_round (ProphetModel.yhat_upper r) 2 |})
               (take 500
                  (filter (fun r =>
                             (Engineering.date (Engineering.base last_row)
                              < ProphetModel.ds r)%Z)
                     (ProphetModel.prophet_forecast (Predict.prophet L)
                        (Predict.prophet_model c) days))) /\
      length ts <= 500 /\
      Forall (fun p => (Engineering.date (Engineering.base last_row)
                        < Predict.ts_date p)%Z) ts.
Proof.
  intros L pid ticker hs g g' rs ts Hrun.
  apply run_prediction_timeseries in Hrun as (c & d & full & Hc & Hts & ->).
  destruct (prepare_context_last L ticker c d Hc) as (row & Hrow & _ & Hd).
  unfold Predict.build_timeseries in Hts.
  destruct (Predict.max_days hs) as [days|] eqn:Hdays; [|discriminate].
  cbn in Hts. injection Hts as <-.
  apply max_days_spec in Hdays as Hmax. destruct Hmax as [Hin Hall].
  exists c, d, row, days. split; [exact Hc|]. split; [exact Hrow|].
  split; [exact Hd|]. split; [reflexivity|]. split; [exact Hin|].
  split; [exact Hall|]. subst d.
  assert (filter (fun r => (Engineering.date (Engineering.base row)
                            <? ProphetModel.ds r)%Z = true)
            (ProphetModel.prophet_forecast (Predict.prophet L)
               (Predict.prophet_model c) days)
          = filter (fun r => (Engineering.date (Engineering.base row)
                              < ProphetModel.ds r)%Z)
              (ProphetModel.prophet_forecast (Predict.prophet L)
                 (Predict.prophet_model c) days)) as Hf.
  { apply list_filter_iff. intros r. apply Z.ltb_lt. }
  rewrite Hf. split; [rewrite <- firstn_map; reflexivity|].
  split; [rewrite length_take; lia|].
  apply Forall_take. apply Forall_map. apply Forall_forall.
  intros r Hr. apply list_elem_of_filter in Hr as [Hr _]. exact Hr.
Qed.

Lemma forecast_timeseries_future_only_witness :
  exists rs ts g',
    Predict.run_prediction (Reference.libs 400) "p1" "TEST" ["1yr"; "5yr"; "3yr"]
                           0%float
      = (Predict.Completed rs ts, g')
    /\ Predict.max_days ["1yr"; "5yr"; "3yr"] = Ok 1260%Z
    /\ length ts <= 500
    /\ exists last_row,
         last_feature_row (Reference.libs 400) "TEST" = Ok last_row /\
         Forall (fun p => (Engineering.date (Engineering.base last_row)
                           < Predict.ts_date p)%Z) ts.
Proof.
  reference_run 400 "TEST" ["1yr"; "5yr"; "3yr"].
  destruct (forecast_timeseries_future_only _ _ _ _ _ _ _ _ Hrun)
    as (c & d & row & days & _ & Hrow & _ & _ & _ & _ & _ & Hlen & Hall).
  split; [reflexivity|]. split; [exact Hlen|].
  exists row. split; [exact Hrow | exact Hall].
Defined.

(* ================================================================== *)
(** * The confidence of a horizon *)

Lemma horizon_days_cases (h : string) :
  Predict.horizon_days h ∈ [21; 126; 252; 504; 756; 1008; 1260]%Z.
Proof.
  unfold Predict.horizon_days.
  destruct (ProphetModel.HORIZON_DAYS !! h) as [d|] eqn:Hd; cbn.
  - apply horizon_days_known in Hd.
    repeat (apply elem_of_cons in Hd as [Hd | Hd];
            [injection Hd as _ ->;
             repeat first [apply list_elem_of_here | apply list_elem_of_further]|]).
    apply elem_of_nil in Hd. destruct Hd.
  - repeat first [apply list_elem_of_here | apply list_elem_of_further].
Qed.

(** X4.  The confidence reported for a horizon (three decimals) is
    strictly lower for a horizon of more days, for every pair of labels,
    known or not, and always lies strictly between the floor 0.1 and
    the base confidence 0.85: over the horizons the service knows the
    floor [max(0.1, _)] is never the reported value. *)
Theorem confidence_decreases_with_horizon :
  forall h1 h2 : string,
    (Predict.horizon_days h1 < Predict.horizon_days h2)%Z ->
    let c1 := PyFloat.py_round
                (Predict.confidence_of (Predict.horizon_days h1)) 3 in
    let c2 := PyFloat.py_round
                (Predict.confidence_of (Predict.horizon_days h2)) 3 in
    (c2 <? c1)%float = true /\
    (0.1 <? c2)%float = true /\ (c1 <? 0.85)%float = true.
Proof.
  intros h1 h2.
  pose proof (horizon_days_cases h1) as H1.
  pose proof (horizon_days_cases h2) as H2.
  revert H1 H2.
  generalize (Predict.horizon_days h1), (Predict.horizon_days h2).
  intros d1 d2 H1 H2 Hlt.
  repeat (apply elem_of_cons in H1 as [-> | H1];
    [repeat (apply elem_of_cons in H2 as [-> | H2];
       [first [exfalso; lia | vm_compute; repeat split]|]);
     apply elem_of_nil in H2; destruct H2|]).
  apply elem_of_nil in H1. destruct H1.
Qed.

Lemma confidence_decreases_with_horizon_witness :
  (PyFloat.py_round (Predict.confidence_of (Predict.horizon_days "5yr")) 3
   <? PyFloat.py_round (Predict.confidence_of (Predict.horizon_days "1mo")) 3
  )%float = true.
Proof.
  apply (confidence_decreases_with_horizon "1mo" "5yr").
  vm_compute. reflexivity.
Defined.

(* ================================================================== *)
(** * The columns and the rows of the feature table *)

Lemma add_technical_indicators_inv (ta : Engineering.TaLib)
    (df : list Engineering.ohlcv) (f : Engineering.frame) :
  Engineering.add_technical_indicators ta df = Ok f ->
  exists cols,
    map fst cols = indicator_columns /\ f = Engineering.assign_columns df cols.
Proof.
  unfold Engineering.add_technical_indicators. intros Hf.
  destruct (Engineering.ta_rsi ta _ _) as [rsi|]; [|discriminate].
  cbn in Hf.
  destruct (Engineering.ta_macd ta _ _ _ _) as [[[m s] d]|]; [|discriminate].
  cbn in Hf.
  destruct (Engineering.ta_bollinger ta _ _ _) as [[[u l] mid]|]; [|discriminate].
  cbn in Hf.
  destruct (Engineering.ta_average_true_range ta _ _ _ _) as [atr|];
    [|discriminate].
  cbn in Hf.
  destruct (Engineering.ta_on_balance_volume ta _ _) as [obv|]; [|discriminate].
  cbn in Hf.
  destruct (Engineering.ta_roc ta _ _) as [roc|]; [|discriminate].
  cbn in Hf. injection Hf as <-.
  eexists. split; [|reflexivity]. reflexivity.
Qed.

Lemma imap_base {A} (g : nat -> A -> Engineering.row) (l : list A)
    (b : A -> Engineering.ohlcv) :
  (forall i x, Engineering.base (g i x) = b x) ->
  map Engineering.base (imap g l) = map b l.
Proof.
  revert g. induction l as [|x l IH]; intros g Hg; cbn; [reflexivity|].
  rewrite Hg. f_equal. apply IH. intros i y. apply Hg.
Qed.

Lemma assign_columns_shape (df : list Engineering.ohlcv)
    (cols : list (string * list float)) :
  Engineering.columns (Engineering.assign_columns df cols) = map fst cols /\
  rectangular (Engineering.assign_columns df cols) /\
  bases (Engineering.assign_columns df cols) = df.
Proof.
  split; [reflexivity|]. split.
  - unfold rectangular. cbn. apply Forall_forall. intros r Hr.
    apply elem_of_lookup_imap in Hr as (i & b & -> & _). cbn.
    rewrite !length_map. reflexivity.
  - unfold bases. cbn. rewrite (imap_base _ _ (fun b => b)); [apply List.map_id|].
    reflexivity.
Qed.

Lemma filter_date_absent (mdf : list (Z * float)) (d : Z) :
  ~ d ∈ map fst mdf -> filter (fun m => Z.eqb (fst m) d) mdf = [].
Proof.
  induction mdf as [|[d0 x] mdf IH]; intros Hnotin; [reflexivity|].
  rewrite filter_cons. destruct (decide _) as [Heq|Hne].
  - cbn in Heq. apply Is_true_true, Z.eqb_eq in Heq. subst d0.
    exfalso. apply Hnotin. apply list_elem_of_here.
  - apply IH. intros Hin. apply Hnotin. apply list_elem_of_further. exact Hin.
Qed.

Lemma filter_date_at_most_one (mdf : list (Z * float)) (d : Z) :
  NoDup (map fst mdf) ->
  length (filter (fun m => Z.eqb (fst m) d) mdf) <= 1.
Proof.
  induction mdf as [|[d0 x] mdf IH]; intros Hnd; [cbn; lia|].
  inversion Hnd as [|? ? Hnotin Hnd']; subst.
  rewrite filter_cons. destruct (decide _) as [Heq|Hne].
  - cbn in Heq. apply Is_true_true, Z.eqb_eq in Heq. subst d0.
    rewrite filter_date_absent; [cbn; lia | exact Hnotin].
  - apply IH. exact Hnd'.
Qed.

(** A left merge on a frame with at most one row per date keeps the
    rows of the table, one for one. *)
Lemma merge_left_shape (f : Engineering.frame) (name : string)
    (mdf : Engineering.market_frame) :
  rectangular f -> NoDup (map fst mdf) ->
  Engineering.columns (Engineering.merge_left f name mdf)
    = Engineering.columns f ++ [name] /\
  rectangular (Engineering.merge_left f name mdf) /\
  bases (Engineering.merge_left f name mdf) = bases f.
Proof.
  intros Hrect Hnd. split; [reflexivity|].
  unfold Engineering.merge_left. unfold Engineering.market_frame in *.
  pose proof (fun d => filter_date_at_most_one mdf d Hnd) as Hone.
  unfold rectangular, bases in *. cbn.
  induction (Engineering.rows f) as [|r rs IH]; cbn; [split; [constructor|reflexivity]|].
  inversion Hrect as [|? ? Hr Hrs]; subst.
  destruct (IH Hrs) as [IH1 IH2].
  specialize (Hone (Engineering.date (Engineering.base r))).
  destruct (filter _ mdf) as [|m [|m' ms]]; cbn in Hone; [| |lia].
  - cbn. split; [|f_equal; exact IH2].
    constructor; [|exact IH1]. cbn. rewrite !length_app. cbn. lia.
  - cbn. split; [|f_equal; exact IH2].
    constructor; [|exact IH1]. cbn. rewrite !length_app. cbn. lia.
Qed.

Lemma merge_all_shape (market_data : list (string * Engineering.market_frame)) :
  forall f : Engineering.frame,
    rectangular f ->
    Forall (fun m => NoDup (map fst (snd m))) market_data ->
    let merged :=
      fold_left (fun d '(name, mdf) => Engineering.merge_left d name mdf)
                market_data f in
    Engineering.columns merged = Engineering.columns f ++ map fst market_data /\
    rectangular merged /\ bases merged = bases f.
Proof.
  induction market_data as [|[name mdf] md IH]; intros f Hrect Hnd; cbn.
  - rewrite app_nil_r. auto.
  - inversion Hnd as [|? ? Hm Hmd]; subst. cbn in Hm.
    destruct (merge_left_shape f name mdf Hrect Hm) as (Hc & Hr & Hb).
    destruct (IH _ Hr Hmd) as (Hc' & Hr' & Hb').
    cbn zeta in *. rewrite Hc', Hc, Hb', Hb, <- app_assoc. auto.
Qed.

Lemma ffill_rows_shape (cols : list string) (rs : list Engineering.row) :
  forall prev,
    map Engineering.base (Engineering.ffill_rows cols prev rs)
      = map Engineering.base rs /\
    Forall2 (fun r r' => length (Engineering.vals r') = length (Engineering.vals r))
            rs (Engineering.ffill_rows cols prev rs).
Proof.
  induction rs as [|r rs IH]; intros prev; cbn; [split; [reflexivity|constructor]|].
  destruct (IH (Engineering.ffill_row cols prev (Engineering.vals r))) as [Hb Hl].
  split; [f_equal; exact Hb|]. constructor; [|exact Hl].
  cbn. unfold Engineering.ffill_row. apply length_imap.
Qed.

Lemma col_index_is_Some (name : string) (cols : list string) :
  is_Some (Engineering.col_index name cols) <-> name ∈ cols.
Proof.
  induction cols as [|c cols IH]; cbn.
  - split; [intros [? ?]; discriminate | intros H; apply elem_of_nil in H; destruct H].
  - destruct (String.eqb c name) eqn:Heq.
    + apply String.eqb_eq in Heq. subst c. split; [intros _; apply list_elem_of_here | eauto].
    + apply String.eqb_neq in Heq. rewrite elem_of_cons, <- IH.
      destruct (Engineering.col_index name cols); cbn.
      * split; [eauto | intros _; eauto].
      * split; [intros [? ?]; discriminate | intros [?|[? ?]]; [congruence|discriminate]].
Qed.

Lemma add_market_features_shape (f : Engineering.frame)
    (market_data : list (string * Engineering.market_frame)) :
  rectangular f ->
  Forall (fun m => NoDup (map fst (snd m))) market_data ->
  let out := Engineering.add_market_features f market_data in
  Engineering.columns out
    = Engineering.columns f ++ map fst market_data ++
      (if bool_decide ("sp500"%string ∈ Engineering.columns f ++ map fst market_data)
       then ["sp500_return"%string] else []) /\
  rectangular out /\ bases out = bases f.
Proof.
  intros Hrect Hnd. unfold Engineering.add_market_features.
  destruct (merge_all_shape market_data f Hrect Hnd) as (Hc & Hr & Hb).
  set (merged := fold_left _ market_data f) in *.
  destruct (ffill_rows_shape (Engineering.columns merged)
              (Engineering.rows merged) []) as [Hfb Hfl].
  assert (Forall (fun r => length (Engineering.vals r)
                           = length (Engineering.columns merged))
                 (Engineering.ffill_rows (Engineering.columns merged) []
                    (Engineering.rows merged))) as Hfr.
  { unfold rectangular in Hr. revert Hr Hfl. generalize (Engineering.rows merged).
    generalize (Engineering.ffill_rows (Engineering.columns merged) []
                  (Engineering.rows merged)).
    intros k2 k1 Hr Hfl. induction Hfl as [|r r' l1 l2 Hlen _ IH]; [constructor|].
    inversion Hr; subst. constructor; [congruence | apply IH; assumption]. }
  cbn [Engineering.columns Engineering.rows].
  set (filled := Engineering.ffill_rows _ [] _) in *. clearbody filled.
  pose proof (col_index_is_Some "sp500" (Engineering.columns merged)) as Hidx.
  rewrite Hc in Hidx at 2.
  destruct (Engineering.col_index _ _) as [j|].
  - rewrite bool_decide_eq_true_2; [|apply Hidx; eauto].
    cbn zeta. cbn [Engineering.columns Engineering.rows]. rewrite Hc, <- app_assoc.
    split; [reflexivity|]. split.
    + unfold rectangular. cbn [Engineering.columns Engineering.rows].
      apply Forall_forall. intros r Hr'.
      apply elem_of_lookup_imap in Hr' as (i & r0 & -> & Hr0).
      apply list_elem_of_lookup_2 in Hr0.
      rewrite Forall_forall in Hfr. specialize (Hfr r0 Hr0). cbn.
      rewrite !length_app, Hfr, Hc, !length_app. cbn. lia.
    + unfold bases. cbn [Engineering.rows].
      rewrite (imap_base _ _ Engineering.base); [|reflexivity].
      rewrite Hfb. exact Hb.
  - rewrite bool_decide_eq_false_2;
      [|intros Hin; apply Hidx in Hin as [? ?]; discriminate].
    cbn zeta. cbn [Engineering.columns Engineering.rows]. rewrite Hc, app_nil_r.
    split; [reflexivity|]. split.
    + unfold rectangular. cbn [Engineering.columns Engineering.rows].
      rewrite <- Hc. exact Hfr.
    + unfold bases. cbn [Engineering.rows]. rewrite Hfb. exact Hb.
Qed.

Lemma sp500_not_indicator : ~ "sp500"%string ∈ indicator_columns.
Proof.
  unfold indicator_columns. intros Hin.
  repeat (apply elem_of_cons in Hin as [Hin|Hin]; [discriminate|]).
  apply elem_of_nil in Hin. exact Hin.
Qed.

(** The feature table before and after the final drop. *)
Lemma prepare_features_shape (ta : Engineering.TaLib)
    (df : list Engineering.ohlcv)
    (market_data : option (list (string * Engineering.market_frame)))
    (out : Engineering.frame) :
  market_data_well_formed market_data ->
  Engineering.prepare_features ta df market_data = Ok out ->
  Engineering.columns out = indicator_columns ++ market_columns market_data /\
  rectangular out /\
  sublist (bases out) df.
Proof.
  intros Hwf Hp. unfold Engineering.prepare_features in Hp.
  destruct (Engineering.add_technical_indicators ta df) as [f|] eqn:Hf;
    [|discriminate].
  apply add_technical_indicators_inv in Hf as (cols & Hcols & ->).
  destruct (assign_columns_shape df cols) as (Hc & Hr & Hb).
  cbn in Hp. injection Hp as <-.
  assert (forall g : Engineering.frame,
             rectangular g -> rectangular (Engineering.dropna g)) as Hdrop_r.
  { intros g Hg. unfold rectangular, Engineering.dropna in *. cbn.
    apply Forall_forall. intros r Hin. apply list_elem_of_filter in Hin as [_ Hin].
    rewrite Forall_forall in Hg. apply Hg. exact Hin. }
  assert (forall g : Engineering.frame,
             sublist (bases (Engineering.dropna g)) (bases g)) as Hdrop_b.
  { intros g. unfold bases, Engineering.dropna. cbn.
    apply fmap_sublist. apply sublist_filter. }
  destruct market_data as [[|m ms]|].
  - unfold market_columns. rewrite app_nil_r. rewrite Hcols in Hc.
    split; [exact Hc|]. split; [apply Hdrop_r; exact Hr|].
    rewrite <- Hb at 2. apply Hdrop_b.
  - destruct Hwf as [_ Hfr].
    assert (Forall (fun m => NoDup (map fst (snd m))) (m :: ms)) as Hnd.
    { eapply Forall_impl; [exact Hfr|]. intros ? [_ ?]. assumption. }
    destruct (add_market_features_shape _ (m :: ms) Hr Hnd) as (Hc' & Hr' & Hb').
    cbn zeta in *. split; [|split].
    + cbn [Engineering.dropna Engineering.columns]. rewrite Hc', Hc, Hcols.
      unfold market_columns. f_equal. f_equal.
      rewrite (bool_decide_ext _ ("sp500"%string ∈ map fst (m :: ms)));
        [reflexivity|].
      rewrite elem_of_app. pose proof sp500_not_indicator. tauto.
    + apply Hdrop_r. exact Hr'.
    + rewrite <- Hb at 2. rewrite <- Hb'. apply Hdrop_b.
  - unfold market_columns. rewrite app_nil_r. rewrite Hcols in Hc.
    split; [exact Hc|]. split; [apply Hdrop_r; exact Hr|].
    rewrite <- Hb at 2. apply Hdrop_b.
Qed.

(** X5.  On a price table of the six columns date, open, high, low,
    close and volume, the columns the pipeline adds are fixed by the
    market data: the 23 indicator columns in the order they are
    assigned, then one column per fetched market index, then
    [sp500_return] exactly when the S&P 500 is among them (so an index
    that could not be fetched silently changes the feature set).
    Every row carries one value per added column. *)
Theorem prepare_features_columns :
  forall (ta : Engineering.TaLib) (df : list Engineering.ohlcv)
         (market_data : option (list (string * Engineering.market_frame)))
         (out : Engineering.frame),
    market_data_well_formed market_data ->
    Engineering.prepare_features ta df market_data = Ok out ->
    Engineering.columns out = indicator_columns ++ market_columns market_data /\
    Forall (fun r => length (Engineering.vals r)
                     = 23 + length (market_columns market_data))
           (Engineering.rows out).
Proof.
  intros ta df md out Hwf Hp.
  destruct (prepare_features_shape ta df md out Hwf Hp) as (Hc & Hr & _).
  split; [exact Hc|]. unfold rectangular in Hr. rewrite Hc, length_app in Hr.
  exact Hr.
Qed.

Lemma prepare_features_columns_witness :
  exists out,
    Engineering.prepare_features Reference.ta (Reference.synthetic_series 203)
      (Some [("vix"%string, [(3%Z, 20%float)]);
             ("sp500"%string,
              [(198%Z, 4000%float); (199%Z, 4010%float); (201%Z, 4020%float)])])
    = Ok out /\
    Engineering.columns out
    = indicator_columns ++ ["vix"; "sp500"; "sp500_return"]%string /\
    Forall (fun r => length (Engineering.vals r) = 26) (Engineering.rows out).
Proof.
  assert (is_ok (Engineering.prepare_features Reference.ta
                   (Reference.synthetic_series 203)
                   (Some [("vix"%string, [(3%Z, 20%float)]);
                          ("sp500"%string,
                           [(198%Z, 4000%float); (199%Z, 4010%float);
                            (201%Z, 4020%float)])])) = true) as Hok
    by (vm_compute; reflexivity).
  destruct (Engineering.prepare_features _ _ _) as [out|] eqn:E;
    [|discriminate Hok].
  exists out. split; [reflexivity|].
  assert (market_data_well_formed
            (Some [("vix"%string, [(3%Z, 20%float)]);
                   ("sp500"%string,
                    [(198%Z, 4000%float); (199%Z, 4010%float);
                     (201%Z, 4020%float)])])) as Hwf.
  { unfold market_data_well_formed, market_names.
    apply (bool_decide_unpack _). vm_compute. exact I. }
  exact (prepare_features_columns _ _ _ _ Hwf E).
Defined.

(** X6.  The feature pipeline neither invents nor reorders rows: with
    market frames that hold each date at most once, the price records of
    the table it returns are a subsequence of the input series. *)
Theorem prepare_features_subsequence :
  forall (ta : Engineering.TaLib) (df : list Engineering.ohlcv)
         (market_data : option (list (string * Engineering.market_frame)))
         (out : Engineering.frame),
    market_data_well_formed market_data ->
    Engineering.prepare_features ta df market_data = Ok out ->
    sublist (map Engineering.base (Engineering.rows out)) df.
Proof.
  intros ta df md out Hwf Hp.
  destruct (prepare_features_shape ta df md out Hwf Hp) as (_ & _ & Hb).
  exact Hb.
Qed.

Lemma prepare_features_subsequence_witness :
  exists out,
    Engineering.prepare_features Reference.ta (Reference.synthetic_series 203)
      (Some [("sp500"%string,
              [(198%Z, 4000%float); (199%Z, 4010%float); (201%Z, 4020%float)])])
    = Ok out /\
    sublist (map Engineering.base (Engineering.rows out))
            (Reference.synthetic_series 203).
Proof.
  assert (is_ok (Engineering.prepare_features Reference.ta
                   (Reference.synthetic_series 203)
                   (Some [("sp500"%string,
                           [(198%Z, 4000%float); (199%Z, 4010%float);
                            (201%Z, 4020%float)])])) = true) as Hok
    by (vm_compute; reflexivity).
  destruct (Engineering.prepare_features _ _ _) as [out|] eqn:E;
    [|discriminate Hok].
  exists out. split; [reflexivity|].
  assert (market_data_well_formed
            (Some [("sp500"%string,
                    [(198%Z, 4000%float); (199%Z, 4010%float);
                     (201%Z, 4020%float)])])) as Hwf.
  { unfold market_data_well_formed, market_names.
    apply (bool_decide_unpack _). vm_compute. exact I. }
  exact (prepare_features_subsequence _ _ _ _ Hwf E).
Defined.

(* ================================================================== *)
(** * The training data and the availability of the residual model *)

Section ScalerShapes.
Context {F : Type} `{Numeric F}.

(** What a successful [fit_transform] says about its input and its
    results. *)
Lemma fit_transform_inv (X : list (list F)) (sc : MinMaxScaler.t F)
    (Y : list (list F)) :
  MinMaxScaler.fit_transform X = Ok (sc, Y) ->
  MinMaxScaler.check_array X = Ok X /\
  MinMaxScaler.n_features X <> 0 /\
  Forall (fun row => length row = MinMaxScaler.n_features X) X /\
  length (MinMaxScaler.scale_ sc) = MinMaxScaler.n_features X /\
  length (MinMaxScaler.min_ sc) = MinMaxScaler.n_features X /\
  Y = map (fun row =>
             zip_with nadd (zip_with nmul row (MinMaxScaler.scale_ sc))
                      (MinMaxScaler.min_ sc)) X.
Proof.
  unfold MinMaxScaler.fit_transform. intros Hft.
  destruct (MinMaxScaler.fit X) as [sc'|] eqn:Hfit; [|discriminate].
  cbn in Hft.
  destruct (MinMaxScaler.transform sc' X) as [Y'|] eqn:Htr; [|discriminate].
  cbn in Hft. injection Hft as <- <-.
  destruct (fit_inv X sc' Hfit) as (Hn & Hs & Hm & _).
  unfold MinMaxScaler.transform in Htr.
  destruct (MinMaxScaler.check_array X) as [X1|] eqn:Hchk; [|discriminate].
  destruct (check_array_inv _ _ Hchk) as (-> & _). cbn in Htr.
  unfold MinMaxScaler.check_n_features in Htr.
  destruct (forallb _ X) eqn:Hall; [|discriminate].
  cbn in Htr. injection Htr as <-.
  repeat split; try assumption.
  apply Forall_forall. intros row Hin.
  rewrite forallb_forall in Hall. rewrite <- Hs. apply Nat.eqb_eq.
  apply Hall. apply list_elem_of_In. exact Hin.
Qed.

Lemma existsb_drop {A} (P : A -> bool) (n : nat) (l : list A) :
  existsb P l = false -> existsb P (drop n l) = false.
Proof.
  revert n. induction l as [|x l IH]; intros [|n] Hl; cbn in *;
    [reflexivity | reflexivity | exact Hl |].
  apply orb_false_iff in Hl as [_ Hl]. apply IH. exact Hl.
Qed.

End ScalerShapes.

Lemma prepare_lstm_data_inv (features : list (list float))
    (residuals : list float) X y fs ts :
  Lstm.prepare_lstm_data features residuals = Ok (X, y, fs, ts) ->
  exists sf st,
    MinMaxScaler.fit_transform features = Ok (fs, sf) /\
    MinMaxScaler.fit_transform (Lstm.reshape_column residuals) = Ok (ts, st) /\
    Lstm.build_sequences Lstm.SEQUENCE_LENGTH sf st = Ok (X, y).
Proof.
  unfold Lstm.prepare_lstm_data. intros Hp.
  destruct (MinMaxScaler.fit_transform features) as [[fs' sf]|]; [|discriminate].
  cbn in Hp.
  destruct (MinMaxScaler.fit_transform (Lstm.reshape_column residuals))
    as [[ts' st]|]; [|discriminate].
  cbn in Hp.
  destruct (Lstm.build_sequences _ sf st) as [[X' y']|] eqn:Hb; [|discriminate].
  cbn in Hp. injection Hp as <- <- <- <-. eauto.
Qed.

Lemma mapM_result_Forall2 {A B} (f : A -> result B) (l : list A) (r : list B) :
  mapM f l = Ok r -> Forall2 (fun x y => f x = Ok y) l r.
Proof.
  revert r. induction l as [|x l IH]; intros r; cbn.
  - intros [= <-]. constructor.
  - destruct (f x) as [y|] eqn:Hx; cbn; [|discriminate].
    destruct (mapM f l) as [k|]; cbn; [|discriminate].
    intros [= <-]. constructor; [exact Hx | apply IH; reflexivity].
Qed.

Lemma reshape_column_features (xs : list float) :
  xs <> [] -> MinMaxScaler.n_features (Lstm.reshape_column xs) = 1.
Proof. destruct xs; [congruence | reflexivity]. Qed.

(** X7.  The training set [prepare_lstm_data] builds: one sequence per
    row after the first 60, each a window of exactly 60 scaled rows with
    one value per feature column, each with a target of a single scaled
    residual; a table of 60 rows or fewer yields no sequence at all. *)
Theorem prepare_lstm_data_shapes :
  forall (features : list (list float)) (residuals : list float)
         (X : list (list (list float))) (y : list (list float))
         (fs ts : Lstm.scaler),
    Lstm.prepare_lstm_data features residuals = Ok (X, y, fs, ts) ->
    length X = length features - 60 /\
    length y = length X /\
    Forall (fun w =>
              length w = 60 /\
              Forall (fun row => length row = MinMaxScaler.n_features features) w)
           X /\
    Forall (fun t => length t = 1) y.
Proof.
  intros features residuals X y fs ts Hp.
  pose proof (prepare_lstm_data_length _ _ _ _ _ _ Hp) as HlenX.
  apply prepare_lstm_data_inv in Hp as (sf & st & Hf & Ht & Hb).
  apply fit_transform_inv in Hf as (_ & _ & Hrect & Hs & Hm & Hsf).
  apply fit_transform_inv in Ht as (Hchk & _ & Hrect' & Hs' & Hm' & Hst).
  assert (MinMaxScaler.n_features (Lstm.reshape_column residuals) = 1) as Hone.
  { apply reshape_column_features. intros ->. discriminate Hchk. }
  rewrite Hone in *.
  assert (length sf = length features) as Hlsf
    by (rewrite Hsf, length_map; reflexivity).
  assert (Forall (fun row => length row = MinMaxScaler.n_features features) sf)
    as Hsf_rows.
  { rewrite Hsf. apply Forall_map. eapply Forall_impl; [exact Hrect|].
    intros row Hrow. cbn beta in *. rewrite !length_zip_with. lia. }
  assert (Forall (fun t => length t = 1) st) as Hst_rows.
  { rewrite Hst. apply Forall_map. eapply Forall_impl; [exact Hrect'|].
    intros row Hrow. cbn beta in *. rewrite !length_zip_with. lia. }
  unfold Lstm.build_sequences in Hb.
  destruct (mapM _ _) as [xy|] eqn:Hm0; [|discriminate].
  cbn in Hb. injection Hb as <- <-.
  split; [exact HlenX|]. split; [rewrite !length_map; reflexivity|].
  apply mapM_result_Forall2 in Hm0.
  assert (Forall (fun p : list (list float) * list float =>
                    (length (fst p) = 60 /\
                     Forall (fun row => length row
                                        = MinMaxScaler.n_features features)
                            (fst p)) /\
                    length (snd p) = 1) xy) as Hall.
  { assert (Forall (fun i => Lstm.SEQUENCE_LENGTH <= i < length sf)
                   (seq Lstm.SEQUENCE_LENGTH (length sf - Lstm.SEQUENCE_LENGTH)))
      as Hge.
    { apply Forall_forall. intros i Hi. apply elem_of_seq in Hi. lia. }
    clear -Hm0 Hge Hsf_rows Hst_rows.
    revert Hm0 Hge. generalize (seq Lstm.SEQUENCE_LENGTH
                                    (length sf - Lstm.SEQUENCE_LENGTH)).
    intros idx Hm0 Hge.
    induction Hm0 as [|i p idx' ps Hi _ IH]; [constructor|].
    inversion Hge as [|? ? Hi60 Hge']; subst.
    constructor; [|apply IH; exact Hge'].
    destruct (st !! i) as [t|] eqn:Hti; [|discriminate].
    injection Hi as <-. cbn [fst snd]. unfold Lstm.SEQUENCE_LENGTH in *.
    split; [split|].
    - rewrite length_take, length_drop. lia.
    - apply Forall_take, Forall_drop. exact Hsf_rows.
    - rewrite Forall_forall in Hst_rows. apply Hst_rows.
      eapply list_elem_of_lookup_2. exact Hti. }
  split.
  - apply Forall_map. eapply Forall_impl; [exact Hall|]. intros p [Hp _]. exact Hp.
  - apply Forall_map. eapply Forall_impl; [exact Hall|]. intros p [_ Hp]. exact Hp.
Qed.

Lemma prepare_lstm_data_shapes_witness :
  exists X y fs ts,
    Lstm.prepare_lstm_data
      (map (fun i => [PyFloat.of_Z (Z.of_nat i); 1%float]) (seq 0 62))
      (map (fun i => PyFloat.of_Z (Z.of_nat i)) (seq 0 62))
    = Ok (X, y, fs, ts) /\
    length X = 2 /\ length y = length X /\
    Forall (fun w => length w = 60 /\ Forall (fun row => length row = 2) w) X /\
    Forall (fun t => length t = 1) y.
Proof.
  assert (is_ok (Lstm.prepare_lstm_data
                   (map (fun i => [PyFloat.of_Z (Z.of_nat i); 1%float])
                        (seq 0 62))
                   (map (fun i => PyFloat.of_Z (Z.of_nat i)) (seq 0 62)))
          = true) as Hok by (vm_compute; reflexivity).
  destruct (Lstm.prepare_lstm_data _ _) as [[[[X y] fs] ts]|] eqn:E;
    [|discriminate Hok].
  exists X, y, fs, ts. split; [reflexivity|].
  exact (prepare_lstm_data_shapes _ _ _ _ _ _ E).
Defined.

Lemma train_lstm_cases (K : Lstm.Keras) (features : list (list float))
    (residuals : list float) model fs ts :
  Lstm.train_lstm K features residuals = Ok (model, fs, ts) ->
  exists X y,
    Lstm.prepare_lstm_data features residuals = Ok (X, y, fs, ts) /\
    model = if (length X <? Lstm.SEQUENCE_LENGTH + 10)%nat then None
            else Some (Lstm.keras_fit K X y).
Proof.
  unfold Lstm.train_lstm. intros Ht.
  destruct (Lstm.prepare_lstm_data features residuals)
    as [[[[X y] fs'] ts']|] eqn:Hp; [|discriminate].
  change (Lstm.train_lstm K features residuals) with
    (Lstm.prepare_lstm_data features residuals ≫= _) in Ht.
  cbv beta iota delta [mbind result_bind] in Ht.
  exists X, y.
  destruct (length X <? Lstm.SEQUENCE_LENGTH + 10)%nat;
    injection Ht as <- <- <-; split; reflexivity.
Qed.

(** X8.  The residual model exists exactly from 130 aligned rows on:
    whenever [train_lstm] returns, it returns a trained model if and
    only if the feature table has at least 130 rows (60 for the first
    window and 70 sequences), and the model is the one fitted on the
    prepared sequences.  In a prepared run a model therefore implies
    [len(aligned_features) >= SEQUENCE_LENGTH]: the fallback of the
    horizon loop to a zero correction is taken only when no model was
    trained. *)
Theorem lstm_model_iff_130_rows :
  (forall (K : Lstm.Keras) (features : list (list float))
          (residuals : list float) (model : option (Lstm.KerasModel K))
          (fs ts : Lstm.scaler),
      Lstm.train_lstm K features residuals = Ok (model, fs, ts) ->
      (is_Some model <-> 130 <= length features))
  /\
  (forall (L : Predict.Libs) (ticker : string) (c : Predict.context L)
          (last_date : Z),
      Predict.prepare_context L ticker = Ok (c, last_date) ->
      (is_Some (Predict.lstm_model c)
       <-> 130 <= length (Predict.aligned_features c)) /\
      (is_Some (Predict.lstm_model c) ->
       (Lstm.SEQUENCE_LENGTH <=? length (Predict.aligned_features c)) = true)).
Proof.
  assert (forall (K : Lstm.Keras) (features : list (list float))
          (residuals : list float) (model : option (Lstm.KerasModel K))
          (fs ts : Lstm.scaler),
      Lstm.train_lstm K features residuals = Ok (model, fs, ts) ->
      (is_Some model <-> 130 <= length features)) as Hfun.
  { intros K features residuals model fs ts Ht.
    apply train_lstm_cases in Ht as (X & y & Hp & ->).
    apply prepare_lstm_data_length in Hp. unfold n_sequences in Hp.
    unfold Lstm.SEQUENCE_LENGTH in *.
    destruct (length X <? 60 + 10)%nat eqn:Hlt.
    - apply Nat.ltb_lt in Hlt. split; [intros [? ?]; discriminate | lia].
    - apply Nat.ltb_ge in Hlt. split; [lia | eauto]. }
  split; [exact Hfun|].
  intros L ticker c d Hc.
  destruct (prepare_context_lstm L ticker c d Hc) as (residuals & Ht).
  pose proof (Hfun _ _ _ _ _ _ Ht) as Hiff.
  split; [exact Hiff|]. intros Hm. apply Hiff in Hm.
  apply Nat.leb_le. unfold Lstm.SEQUENCE_LENGTH. lia.
Qed.

Lemma lstm_model_iff_130_rows_witness :
  exists model fs ts,
    Lstm.train_lstm Reference.keras
      (map (fun i => [PyFloat.of_Z (Z.of_nat i)]) (seq 0 130))
      (map (fun i => PyFloat.of_Z (Z.of_nat i)) (seq 0 130))
    = Ok (model, fs, ts) /\
    is_Some model.
Proof.
  assert (is_ok (Lstm.train_lstm Reference.keras
                   (map (fun i => [PyFloat.of_Z (Z.of_nat i)]) (seq 0 130))
                   (map (fun i => PyFloat.of_Z (Z.of_nat i)) (seq 0 130)))
          = true) as Hok by (vm_compute; reflexivity).
  destruct (Lstm.train_lstm _ _ _) as [[[model fs] ts]|] eqn:E;
    [|discriminate Hok].
  exists model, fs, ts. split; [reflexivity|].
  apply (proj1 lstm_model_iff_130_rows _ _ _ _ _ _ E).
  rewrite length_map, length_seq. lia.
Defined.

(** X9.  The residual correction of a run that has a model: the last 60
    aligned rows are scaled with the feature scaler, the network is
    asked once, and its output [p], a binary32 value, is mapped back
    through the target scaler in the [float32] array it came in:
    [p - min_] is rounded to binary32, and so is its quotient by
    [scale_], which is the correction.  Scaling cannot fail there; the
    only failure is an infinite network output, which the target
    scaler rejects with a [ValueError] (a NaN output passes through). *)
Theorem lstm_correction_with_model :
  forall (L : Predict.Libs) (ticker : string) (c : Predict.context L)
         (last_date : Z) (m : Lstm.KerasModel (Predict.keras L)),
    Predict.prepare_context L ticker = Ok (c, last_date) ->
    Predict.lstm_model c = Some m ->
    exists (window : list (list float)) (scale0 min0 : float),
      MinMaxScaler.transform (Predict.feat_scaler c)
        (drop (length (Predict.aligned_features c) - 60)
              (Predict.aligned_features c)) = Ok window /\
      length window = 60 /\
      MinMaxScaler.scale_ (Predict.target_scaler c) = [scale0] /\
      MinMaxScaler.min_ (Predict.target_scaler c) = [min0] /\
      Predict.lstm_correction c
      = let p := PyFloat.to_float32
                   (Lstm.keras_predict (Predict.keras L) m window) in
        if is_infinity p then Raise (ValueError "Input contains infinity")
        else Ok (PyFloat.to_float32
                   (PyFloat.to_float32 (p - min0) / scale0))%float.
Proof.
  intros L ticker c d m Hc Hm.
  destruct (prepare_context_lstm L ticker c d Hc) as (residuals & Ht).
  rewrite Hm in Ht.
  pose proof (train_lstm_cases _ _ _ _ _ _ Ht) as (X & y & Hp & Hsome).
  pose proof (prepare_lstm_data_length _ _ _ _ _ _ Hp) as HlenX.
  destruct (length X <? Lstm.SEQUENCE_LENGTH + 10)%nat eqn:Hlt; [discriminate|].
  apply Nat.ltb_ge in Hlt. clear Hsome.
  unfold n_sequences, Lstm.SEQUENCE_LENGTH in *.
  apply prepare_lstm_data_inv in Hp as (sf & st & Hf & Htg & _).
  apply fit_transform_inv in Hf as (Hchk & Hn & Hrect & Hs & Hmn & _).
  apply fit_transform_inv in Htg as (Hchk' & _ & _ & Hs' & Hm' & _).
  assert (MinMaxScaler.n_features (Lstm.reshape_column residuals) = 1) as Hone.
  { apply reshape_column_features. intros ->. discriminate Hchk'. }
  rewrite Hone in Hs', Hm'. clear Hone Hchk'.
  set (aligned := Predict.aligned_features c) in *.
  set (recent := drop (length aligned - 60) aligned).
  assert (length recent = 60) as Hlen by (unfold recent; rewrite length_drop; lia).
  assert (Forall (fun row => length row = MinMaxScaler.n_features aligned) recent)
    as Hrows by (apply Forall_drop; exact Hrect).
  assert (MinMaxScaler.check_array recent = Ok recent) as Hchk_recent.
  { apply check_array_inv in Hchk as (_ & _ & _ & Hinf).
    apply check_array_ok.
    - intros Hnil. rewrite Hnil in Hlen. discriminate.
    - destruct recent as [|row rs]; [discriminate|].
      inversion Hrows; subst. cbn. congruence.
    - apply existsb_drop. exact Hinf. }
  pose proof (transform_ok (Predict.feat_scaler c) recent Hchk_recent) as Htr.
  rewrite Hs in Htr. specialize (Htr Hrows).
  destruct (MinMaxScaler.scale_ (Predict.target_scaler c)) as [|s0 [|? ?]] eqn:Hscale;
    try discriminate.
  destruct (MinMaxScaler.min_ (Predict.target_scaler c)) as [|m0 [|? ?]] eqn:Hmin;
    try discriminate.
  eexists _, s0, m0. split; [exact Htr|].
  split; [rewrite length_map; exact Hlen|].
  split; [reflexivity|]. split; [reflexivity|].
  unfold Predict.lstm_correction. rewrite Hm. fold aligned.
  assert ((Lstm.SEQUENCE_LENGTH <=? length aligned) = true) as ->
    by (apply Nat.leb_le; unfold Lstm.SEQUENCE_LENGTH; lia).
  unfold Lstm.predict_lstm_residual.
  change (drop (length aligned - Lstm.SEQUENCE_LENGTH) aligned) with recent.
  rewrite Htr. cbv beta iota delta [mbind result_bind].
  set (scaled := map _ recent).
  assert (length scaled = 60) as Hls by (unfold scaled; rewrite length_map; exact Hlen).
  unfold Lstm.SEQUENCE_LENGTH. rewrite Hls, Nat.sub_diag, drop_0, Hls.
  cbn [Nat.eqb negb].
  cbv zeta.
  set (p := PyFloat.to_float32 (Lstm.keras_predict (Predict.keras L) m scaled)).
  unfold Lstm.inverse_transform_float32, MinMaxScaler.check_array.
  cbn [length Nat.eqb existsb orb nis_inf float_numeric].
  rewrite !orb_false_r.
  destruct (is_infinity p); [reflexivity|].
  cbv beta iota delta [mbind result_bind].
  unfold MinMaxScaler.check_n_features. rewrite Hscale, Hmin. reflexivity.
Qed.

Lemma lstm_correction_with_model_witness :
  exists c last_date m,
    Predict.prepare_context (Reference.libs 400) "TEST" = Ok (c, last_date) /\
    Predict.lstm_model c = Some m /\
    exists (window : list (list float)) (scale0 min0 : float),
      MinMaxScaler.transform (Predict.feat_scaler c)
        (drop (length (Predict.aligned_features c) - 60)
              (Predict.aligned_features c)) = Ok window /\
      length window = 60 /\
      MinMaxScaler.scale_ (Predict.target_scaler c) = [scale0] /\
      MinMaxScaler.min_ (Predict.target_scaler c) = [min0] /\
      Predict.lstm_correction c
      = let p := PyFloat.to_float32
                   (Lstm.keras_predict (Predict.keras (Reference.libs 400)) m
                      window) in
        if is_infinity p then Raise (ValueError "Input contains infinity")
        else Ok (PyFloat.to_float32
                   (PyFloat.to_float32 (p - min0) / scale0))%float.
Proof.
  assert (has_model (Reference.libs 400) "TEST" = true) as Hm
    by (vm_compute; reflexivity).
  unfold has_model in Hm.
  destruct (Predict.prepare_context (Reference.libs 400) "TEST")
    as [[c d]|] eqn:Hc; [|discriminate Hm].
  apply bool_decide_eq_true in Hm. destruct Hm as [m Hm].
  exists c, d, m. split; [reflexivity|]. split; [exact Hm|].
  exact (lstm_correction_with_model _ _ _ _ _ Hc Hm).
Defined.

(* ================================================================== *)
(** * The edges of the simulation *)

Section MonteCarloEdges.
Context {F : Type} `{Numeric F} (np : Numpy F).

Lemma draw_rows_no_column (n : nat) (g : RandomState np) :
  MonteCarlo.draw_rows np n 0 g = (repeat [] n, g).
Proof.
  induction n as [|n IH]; cbn; [reflexivity|]. rewrite IH. reflexivity.
Qed.

End MonteCarloEdges.

(** X10.  The edges of [monte_carlo_simulation], over any arithmetic and
    any generator.  A negative day count or number of paths raises the
    [ValueError] of numpy's sampler, after the global generator was
    reseeded.  With a non-negative day count and number of paths, the
    draws are made first; then a volatility whose square overflows
    raises the [OverflowError] of [sigma ** 2], and the generator is
    left as the draws left it.  When the square is defined and there
    is at least one path the call returns.  With zero days nothing is
    drawn: the generator is left freshly seeded and every terminal
    price is the last price. *)
Theorem monte_carlo_simulation_edges :
  forall (F : Type) (NF : Numeric F) (np : Numpy F)
         (last_price mu sigma : F) (days n : Z) (g : RandomState np),
    (((days <? 0) || (n <? 0))%Z = true ->
     MonteCarlo.monte_carlo_simulation np last_price mu sigma days n g
     = (Raise (ValueError "negative dimensions are not allowed"),
        np_random_seed np 42))
    /\
    ((0 <= days)%Z -> (0 <= n)%Z ->
     is_ok (MonteCarlo.float_square sigma) = false ->
     MonteCarlo.monte_carlo_simulation np last_price mu sigma days n g
     = (Raise (OverflowError "(34, 'Numerical result out of range')"),
        snd (MonteCarlo.draw_rows np (Z.to_nat n) (Z.to_nat days)
                                  (np_random_seed np 42))))
    /\
    ((0 <= days)%Z -> (1 <= n)%Z ->
     is_ok (MonteCarlo.float_square sigma) = true ->
     exists s g',
       MonteCarlo.monte_carlo_simulation np last_price mu sigma days n g
       = (Ok s, g'))
    /\
    ((0 <= n)%Z ->
     is_ok (MonteCarlo.float_square sigma) = true ->
     MonteCarlo.simulate_final_prices np last_price mu sigma 0 n g
     = (Ok (repeat last_price (Z.to_nat n)), np_random_seed np 42)).
Proof.
  intros F NF np lp mu sigma days n g. split; [|split; [|split]].
  - intros Hneg. unfold MonteCarlo.monte_carlo_simulation,
      MonteCarlo.simulate_final_prices, MonteCarlo.standard_normal.
    rewrite orb_comm in Hneg. rewrite Hneg. reflexivity.
  - intros Hd Hn Hsq. unfold MonteCarlo.monte_carlo_simulation.
    rewrite (simulate_final_prices_overflow np lp mu sigma days n g
               (OverflowError "(34, 'Numerical result out of range')") Hd Hn).
    + reflexivity.
    + unfold MonteCarlo.float_square in Hsq |- *.
      destruct (nis_inf (sigma * sigma)%num && negb (nis_inf sigma));
        [reflexivity | discriminate Hsq].
  - intros Hd Hn Hsq.
    destruct (monte_carlo_simulation_ok np lp mu sigma days n g Hd Hn Hsq)
      as (fp & s & g' & _ & _ & _ & Hmc).
    eauto.
  - intros Hn Hsq. unfold MonteCarlo.simulate_final_prices,
      MonteCarlo.standard_normal.
    assert ((n <? 0)%Z || (0 <? 0)%Z = false) as ->.
    { apply orb_false_iff. split; [apply Z.ltb_ge; lia | reflexivity]. }
    change (Z.to_nat 0) with 0%nat. rewrite draw_rows_no_column.
    destruct (MonteCarlo.float_square sigma) as [sigma2|e];
      [|discriminate Hsq].
    f_equal. f_equal. generalize (Z.to_nat n). intros k.
    induction k as [|k IH]; cbn; [reflexivity|]. f_equal. exact IH.
Qed.

Lemma monte_carlo_simulation_edges_witness :
  MonteCarlo.monte_carlo_simulation Reference.numpy 100%float 0.08%float
    1e200%float 756 1000 7%float
  = (Raise (OverflowError "(34, 'Numerical result out of range')"),
     snd (MonteCarlo.draw_rows Reference.numpy 1000 756
            (np_random_seed Reference.numpy 42)))
  /\
  MonteCarlo.simulate_final_prices Reference.numpy 100%float 0.08%float
    0.2%float 0 3 7%float
  = (Ok [100; 100; 100]%float, np_random_seed Reference.numpy 42).
Proof.
  pose proof (monte_carlo_simulation_edges float float_numeric Reference.numpy
                100%float 0.08%float 1e200%float 756 1000 7%float)
    as (_ & Hover & _ & _).
  pose proof (monte_carlo_simulation_edges float float_numeric Reference.numpy
                100%float 0.08%float 0.2%float 0 3 7%float)
    as (_ & _ & _ & Hzero).
  split.
  - exact (Hover ltac:(lia) ltac:(lia) eq_refl).
  - exact (Hzero ltac:(lia) eq_refl).
Defined.

(* ================================================================== *)
(** * Forward filling of the market columns *)

(** X11.  The forward fill of [add_market_features] touches nothing but
    missing market values: a cell outside the market columns, or a
    market cell that holds a value, is left as it is.  And it leaves no
    gap: once a market column holds a value in some row, it holds one in
    the row below, so the undefined cells of a market column after the
    fill are its leading cells only. *)
Theorem ffill_fills_market_gaps_only :
  forall (cols : list string) (rs : list Engineering.row) (prev : list float),
    let out := Engineering.ffill_rows cols prev rs in
    (forall (i j : nat) (r0 r : Engineering.row) (v : float),
        rs !! i = Some r0 -> out !! i = Some r ->
        Engineering.vals r0 !! j = Some v ->
        Engineering.is_market_col (nth j cols ""%string) && is_nan v = false ->
        Engineering.vals r !! j = Some v)
    /\
    (forall (i j : nat) (r r' : Engineering.row) (v v' : float),
        Engineering.is_market_col (nth j cols ""%string) = true ->
        out !! i = Some r -> out !! S i = Some r' ->
        Engineering.vals r !! j = Some v -> is_nan v = false ->
        Engineering.vals r' !! j = Some v' -> is_nan v' = false).
Proof.
  intros cols rs. induction rs as [|r1 rs IH]; intros prev out.
  - split; intros; discriminate.
  - subst out. cbn [Engineering.ffill_rows].
    set (v1 := Engineering.ffill_row cols prev (Engineering.vals r1)).
    specialize (IH v1). cbn zeta in IH. destruct IH as [IHkeep IHgap].
    split.
    + intros [|i] j r0 r v Hr0 Hr Hv Hm; cbn in Hr0, Hr.
      * injection Hr0 as <-. injection Hr as <-. cbn.
        unfold v1, Engineering.ffill_row. rewrite list_lookup_imap, Hv.
        cbv beta iota delta [fmap option_fmap option_map].
        rewrite Hm. reflexivity.
      * exact (IHkeep i j r0 r v Hr0 Hr Hv Hm).
    + intros [|i] j r r' v v' Hcol Hr Hr' Hv Hnan Hv'; cbn in Hr, Hr'.
      * injection Hr as <-. cbn in Hv.
        destruct rs as [|r2 rs']; [discriminate|].
        cbn in Hr'. injection Hr' as <-. cbn in Hv'.
        unfold Engineering.ffill_row in Hv' at 1.
        rewrite list_lookup_imap in Hv'.
        destruct (Engineering.vals r2 !! j) as [x|];
          cbv beta iota delta [fmap option_fmap option_map] in Hv';
          [|discriminate].
        rewrite Hcol in Hv'. cbn [andb] in Hv'.
        destruct (is_nan x) eqn:Hx.
        -- injection Hv' as <-. rewrite (nth_lookup_Some _ _ _ _ Hv). exact Hnan.
        -- injection Hv' as <-. exact Hx.
      * exact (IHgap i j r r' v v' Hcol Hr Hr' Hv Hnan Hv').
Qed.

(* ================================================================== *)
(** * Retrying a request *)

Section RetryFacts.
Context (svc : Env.Services) {A : Type}.
Implicit Types (e : Env.event) (s : Env.state svc).

(** The three attempts of [_retry] on a request, one after the other. *)
Lemma retry_call_unfold e (op : Env.World svc -> Py.reply A * Env.World svc) s :
  Fetcher._retry svc (Env.call e op) s =
  match op (fst s) with
  | (Py.Returns a, w1) => (Py.Returns (Some a), (w1, snd s ++ attempts e 1))
  | (Py.Raises _, w1) =>
      match op (Env.sleep svc 2 w1) with
      | (Py.Returns a, w2) => (Py.Returns (Some a), (w2, snd s ++ attempts e 2))
      | (Py.Raises _, w2) =>
          match op (Env.sleep svc 4 w2) with
          | (Py.Returns a, w3) =>
              (Py.Returns (Some a), (w3, snd s ++ attempts e 3))
          | (Py.Raises x, w3) => (Py.Raises x, (w3, snd s ++ attempts e 3))
          end
      end
  end.
Proof.
  destruct s as [w log].
  unfold Fetcher._retry, Fetcher.MAX_RETRIES. cbn [seq Fetcher.retry_from].
  unfold Py.try_except, Py.io_bind, Env.call, Env.time_sleep, Py.io_ret,
    Py.raise. cbn [fst snd].
  destruct (op w) as [[a|x1] w1]; [reflexivity|]. cbn.
  destruct (op (Env.sleep svc _ w1)) as [[a|x2] w2]; cbn.
  - rewrite <- !app_assoc. reflexivity.
  - destruct (op (Env.sleep svc _ w2)) as [[a|x3] w3]; cbn;
      rewrite <- !app_assoc; reflexivity.
Qed.

(** What [_retry] does on a request, whatever the service answers. *)
Lemma retry_call_spec e (op : Env.World svc -> Py.reply A * Env.World svc) s :
  exists k,
    1 <= k <= 3 /\
    snd (snd (Fetcher._retry svc (Env.call e op) s)) = snd s ++ attempts e k /\
    fst (Fetcher._retry svc (Env.call e op) s) <> Py.Returns None /\
    (Py.returned (fst (Fetcher._retry svc (Env.call e op) s)) = false -> k = 3).
Proof.
  rewrite retry_call_unfold.
  destruct (op (fst s)) as [[a|x1] w1].
  { exists 1. cbn. repeat split; try lia; discriminate. }
  destruct (op (Env.sleep svc 2 w1)) as [[a|x2] w2].
  { exists 2. cbn. repeat split; try lia; discriminate. }
  destruct (op (Env.sleep svc 4 w2)) as [[a|x3] w3];
    exists 3; cbn; repeat split; try lia; discriminate.
Qed.

End RetryFacts.

(** X12.  [_retry] on a request makes one to three attempts, the first
    that returns being the last; between two attempts it pauses, 2
    seconds after the first failure and 4 after the second, never after
    the third: at most 6 seconds in all.  It raises only after a third
    failure, with the exception of that attempt, and it never returns
    [None]. *)
Theorem retry_at_most_three_attempts :
  forall (svc : Env.Services) (A : Type) (e : Env.event)
         (op : Env.World svc -> Py.reply A * Env.World svc)
         (s : Env.state svc),
    is_request e = true ->
    let out := Fetcher._retry svc (Env.call e op) s in
    exists k : nat,
      1 <= k <= 3 /\
      snd (snd out) = snd s ++ attempts e k /\
      (seconds_slept (attempts e k) <= 6)%Z /\
      fst out <> Py.Returns None /\
      (forall x, fst out = Py.Raises x ->
                 k = 3 /\
                 exists w, fst (op w) = Py.Raises x).
Proof.
  intros svc A e op s He out. subst out. rewrite retry_call_unfold.
  assert (forall k, k <= 3 -> (seconds_slept (attempts e k) <= 6)%Z) as Hs.
  { intros k Hk. destruct e; try discriminate He;
      (destruct k as [|[|[|[|k]]]]; [| | | |lia]);
      apply Z.leb_le; vm_compute; reflexivity. }
  destruct (op (fst s)) as [[a|x1] w1] eqn:H1.
  { exists 1. split; [lia|]. split; [reflexivity|]. split; [apply Hs; lia|].
    split; [discriminate|]. intros x Hx. discriminate Hx. }
  destruct (op (Env.sleep svc 2 w1)) as [[a|x2] w2] eqn:H2.
  { exists 2. split; [lia|]. split; [reflexivity|]. split; [apply Hs; lia|].
    split; [discriminate|]. intros x Hx. discriminate Hx. }
  destruct (op (Env.sleep svc 4 w2)) as [[a|x3] w3] eqn:H3.
  { exists 3. split; [lia|]. split; [reflexivity|]. split; [apply Hs; lia|].
    split; [discriminate|]. intros x Hx. discriminate Hx. }
  exists 3. split; [lia|]. split; [reflexivity|]. split; [apply Hs; lia|].
  split; [discriminate|]. intros x Hx. cbn in Hx. injection Hx as <-.
  split; [reflexivity|]. exists (Env.sleep svc 4 w2). rewrite H3. reflexivity.
Qed.

Lemma retry_at_most_three_attempts_witness :
  let out :=
    Fetcher._retry (Sample.services true false)
      (Env.call (Env.History "SMPL" "10y")
                (Env.history (Sample.services true false) "SMPL" "10y"))
      (Sample.start true false 1) in
  exists k : nat,
    1 <= k <= 3 /\
    snd (snd out) = [] ++ attempts (Env.History "SMPL" "10y") k /\
    (seconds_slept (attempts (Env.History "SMPL" "10y") k) <= 6)%Z /\
    fst out <> Py.Returns None /\
    (forall x, fst out = Py.Raises x ->
               k = 3 /\
               exists w, fst (Env.history (Sample.services true false)
                                "SMPL" "10y" w) = Py.Raises x).
Proof.
  exact (retry_at_most_three_attempts (Sample.services true false) _
           (Env.History "SMPL" "10y") _ (Sample.start true false 1) eq_refl).
Defined.

(* ================================================================== *)
(** * The cache of price histories *)

(** X13.  Without a Firestore client the fetcher cannot deliver a
    price history at all: [get_stock_data] raises the [AttributeError]
    of the first line of [get_cached_ohlcv], for every ticker, before
    any request to yfinance and whatever yfinance would answer; the
    check of the client made by [cache_stock_to_firestore] is never
    reached from there. *)
Theorem get_stock_data_without_firestore :
  forall (svc : Env.Services) (ticker : string) (s : Env.state svc),
    Env.fetcher_db svc = false ->
    Fetcher.get_stock_data svc ticker s
    = (Py.Raises (Py.AttributeError
                    "'NoneType' object has no attribute 'collection'"), s).
Proof.
  intros svc ticker s Hdb.
  unfold Fetcher.get_stock_data, Fetcher.get_cached_ohlcv, Py.io_bind, Py.raise.
  rewrite Hdb. reflexivity.
Qed.

Lemma get_stock_data_without_firestore_witness :
  Fetcher.get_stock_data (Sample.services false false) "SMPL"
                         (Sample.start false false 0)
  = (Py.Raises (Py.AttributeError
                  "'NoneType' object has no attribute 'collection'"),
     Sample.start false false 0).
Proof.
  exact (get_stock_data_without_firestore (Sample.services false false)
           "SMPL" (Sample.start false false 0) eq_refl).
Defined.

(** The cases of [get_cached_ohlcv] when the module has a client. *)
Lemma get_cached_ohlcv_cases (svc : Env.Services) (ticker : string)
    (s : Env.state svc) :
  Env.fetcher_db svc = true ->
  let T := Py.upper ticker in
  match Env.stock_get svc T (fst s) with
  | (Py.Raises e, w1) =>
      Fetcher.get_cached_ohlcv svc ticker s
      = (Py.Raises e, (w1, snd s ++ [Env.StockGet T]))
  | (Py.Returns doc, w1) =>
      (exists df stamp lu docs w2,
          doc ≫= (fun data => Py.lookup data "lastUpdated")
            = Some (Py.VStr stamp) /\
          stamp <> ""%string /\
          Env.fromisoformat svc stamp = Py.Returns lu /\
          Env.aware lu = false /\
          (Env.utcnow svc w1 - Env.micros lu < 72000000000)%Z /\
          Env.prices_stream svc T w1 = (Py.Returns docs, w2) /\
          flat_map (fun d => default [] d) docs <> [] /\
          Env.frame_of_records svc (flat_map (fun d => default [] d) docs)
            = Py.Returns df /\
          Fetcher.get_cached_ohlcv svc ticker s
          = (Py.Returns (Some df),
             (w2, snd s ++ [Env.StockGet T; Env.PricesStream T])))
      \/
      (exists w2 l,
          Fetcher.get_cached_ohlcv svc ticker s
          = (Py.Returns None, (w2, snd s ++ Env.StockGet T :: l)) /\
          (l = [] \/ l = [Env.PricesStream T]))
  end.
Proof.
  intros Hdb T. destruct s as [w log].
  unfold Fetcher.get_cached_ohlcv. rewrite Hdb. fold T.
  cbv beta iota delta [negb Py.io_bind Env.call fst snd].
  destruct (Env.stock_get svc T w) as [[doc|e] w1]; [|reflexivity].
  destruct doc as [data|]; cbn [mbind option_bind];
    [|right; exists w1, []; split; [reflexivity|left; reflexivity]].
  unfold Py.get_default.
  destruct (Py.lookup data "lastUpdated") as [v|] eqn:Hv;
    [change (default (Py.VStr "") (Some v)) with v
    |right; exists w1, []; split; [reflexivity|left; reflexivity]].
  destruct (Py.truthy v) eqn:Htruthy;
    [|right; exists w1, []; split; [reflexivity|left; reflexivity]].
  unfold Py.try_except, Py.io_bind, Py.lift, Env.now, Py.io_ret.
  cbn [fst snd].
  destruct v as [|b|z|x|stamp];
    try (right; exists w1, []; split; [reflexivity|left; reflexivity]).
  destruct (Env.fromisoformat svc stamp) as [lu|e] eqn:Hlu;
    [|right; exists w1, []; split; [reflexivity|left; reflexivity]].
  unfold Env.sub. cbn [Env.aware Env.micros].
  destruct (Env.aware lu) eqn:Haware; cbn [Bool.eqb];
    [right; exists w1, []; split; [reflexivity|left; reflexivity]|].
  destruct (Env.utcnow svc w1 - Env.micros lu <? Fetcher.fresh_for)%Z eqn:Hage;
    [|right; exists w1, []; split; [reflexivity|left; reflexivity]].
  unfold Env.call. cbn [fst snd].
  destruct (Env.prices_stream svc T w1) as [[docs|e] w2] eqn:Hdocs;
    [|right; exists w2, [Env.PricesStream T]; rewrite <- app_assoc;
      split; [reflexivity|right; reflexivity]].
  destruct (flat_map (fun d => default [] d) docs) as [|p ps] eqn:Hall;
    [right; exists w2, [Env.PricesStream T]; rewrite <- app_assoc;
     split; [reflexivity|right; reflexivity]|].
  destruct (Env.frame_of_records svc (p :: ps)) as [df|e] eqn:Hdf;
    [|right; exists w2, [Env.PricesStream T]; rewrite <- app_assoc;
      split; [reflexivity|right; reflexivity]].
  left. exists df, stamp, lu, docs, w2.
  split; [first [reflexivity | exact Hv]|].
  split; [intros ->; discriminate Htruthy|].
  split; [first [reflexivity | exact Hlu]|].
  split; [first [reflexivity | exact Haware]|].
  split; [apply Z.ltb_lt in Hage; exact Hage|].
  split; [first [reflexivity | exact Hdocs]|].
  split; [first [discriminate | rewrite Hall; discriminate]|].
  split; [first [exact Hdf | rewrite Hall; exact Hdf]|].
  rewrite <- app_assoc. reflexivity.
Qed.

(** X14.  [get_cached_ohlcv] answers a cached history only when it is
    fresh: the stock document exists, its [lastUpdated] is a non-empty
    text that parses to a naive time less than 20 hours before the
    clock (a time in the future counts as fresh), and the year
    documents hold at least one price; the frame is the one built from
    all their prices, and the only calls are the two reads.  Every
    failure after the first read (a stamp that does not parse, a
    zone-aware stamp, a failing stream, a frame that cannot be built)
    is swallowed and answered as a miss: the function raises only when
    the first read does, or when the module has no client. *)
Theorem cached_history_is_fresh :
  forall (svc : Env.Services) (ticker : string) (s : Env.state svc),
    let T := Py.upper ticker in
    let out := Fetcher.get_cached_ohlcv svc ticker s in
    (forall df, fst out = Py.Returns (Some df) ->
       exists data stamp lu w1 docs,
         Env.stock_get svc T (fst s) = (Py.Returns (Some data), w1) /\
         Py.lookup data "lastUpdated" = Some (Py.VStr stamp) /\
         stamp <> ""%string /\
         Env.fromisoformat svc stamp = Py.Returns lu /\
         Env.aware lu = false /\
         (Env.utcnow svc w1 - Env.micros lu < 20 * 3600 * 1000000)%Z /\
         Env.prices_stream svc T w1 = (Py.Returns docs, fst (snd out)) /\
         flat_map (fun d => default [] d) docs <> [] /\
         Env.frame_of_records svc (flat_map (fun d => default [] d) docs)
           = Py.Returns df /\
         snd (snd out) = snd s ++ [Env.StockGet T; Env.PricesStream T])
    /\
    (forall e, fst out = Py.Raises e ->
       Env.fetcher_db svc = false \/
       fst (Env.stock_get svc T (fst s)) = Py.Raises e).
Proof.
  intros svc ticker s T out. subst out.
  destruct (Env.fetcher_db svc) eqn:Hdb.
  - pose proof (get_cached_ohlcv_cases svc ticker s Hdb) as Hcases.
    cbn zeta in Hcases. fold T in Hcases.
    destruct (Env.stock_get svc T (fst s)) as [[doc|x] w1] eqn:Hget.
    + destruct Hcases as [(df & stamp & lu & docs & w2 & Hdoc & Hne & Hlu &
                            Haw & Hage & Hdocs & Hprices & Hdf & ->)
                         |(w2 & l & -> & _)].
      * split; [|intros e He; discriminate He].
        intros df' Hdf'. cbn in Hdf'. injection Hdf' as <-.
        destruct doc as [data|]; [|discriminate Hdoc]. cbn in Hdoc.
        exists data, stamp, lu, w1, docs. cbn [fst snd].
        split; [reflexivity|]. split; [exact Hdoc|]. split; [exact Hne|].
        split; [exact Hlu|]. split; [exact Haw|]. split; [exact Hage|].
        split; [exact Hdocs|]. split; [exact Hprices|].
        split; [exact Hdf|]. reflexivity.
      * split; [intros df Hdf; discriminate Hdf | intros e He; discriminate He].
    + rewrite Hcases. split; [intros df Hdf; discriminate Hdf|].
      intros e He. right. cbn in He |- *. injection He as ->. reflexivity.
  - split; [|intros e _; left; reflexivity].
    intros df Hdf. unfold Fetcher.get_cached_ohlcv in Hdf.
    rewrite Hdb in Hdf. discriminate Hdf.
Qed.

Lemma cached_history_is_fresh_witness :
  exists df,
    fst (Fetcher.get_cached_ohlcv (Sample.services true true) "smpl"
           (Sample.start true true 0)) = Py.Returns (Some df) /\
    exists data stamp lu w1 docs,
      Env.stock_get (Sample.services true true) "SMPL"
        (fst (Sample.start true true 0)) = (Py.Returns (Some data), w1) /\
      Py.lookup data "lastUpdated" = Some (Py.VStr stamp) /\
      stamp <> ""%string /\
      Env.fromisoformat (Sample.services true true) stamp = Py.Returns lu /\
      Env.aware lu = false /\
      (Env.utcnow (Sample.services true true) w1 - Env.micros lu
       < 20 * 3600 * 1000000)%Z /\
      Env.prices_stream (Sample.services true true) "SMPL" w1
        = (Py.Returns docs,
           fst (snd (Fetcher.get_cached_ohlcv (Sample.services true true)
                       "smpl" (Sample.start true true 0)))) /\
      flat_map (fun d => default [] d) docs <> [] /\
      Env.frame_of_records (Sample.services true true)
        (flat_map (fun d => default [] d) docs) = Py.Returns df /\
      snd (snd (Fetcher.get_cached_ohlcv (Sample.services true true) "smpl"
                  (Sample.start true true 0)))
      = [] ++ [Env.StockGet "SMPL"; Env.PricesStream "SMPL"].
Proof.
  exists Sample.history_frame. split; [reflexivity|].
  exact (proj1 (cached_history_is_fresh (Sample.services true true) "smpl"
                  (Sample.start true true 0))
               Sample.history_frame eq_refl).
Defined.

(* ================================================================== *)
(** * Frames *)

Lemma positions_spec (name : string) (df : Frame.t) (j : nat) :
  j ∈ Frame.positions name df <-> Frame.labels df !! j = Some name.
Proof.
  unfold Frame.positions. rewrite list_elem_of_fmap. split.
  - intros ([j' l] & -> & Hin). apply list_elem_of_filter in Hin as [Heq Hin].
    cbn in Heq. apply String.eqb_eq in Heq. subst l.
    apply elem_of_lookup_imap in Hin as (i & l & [= -> ->] & Hl). exact Hl.
  - intros Hl. exists (j, name). split; [reflexivity|].
    apply list_elem_of_filter. split; [cbn; apply String.eqb_refl|].
    apply elem_of_lookup_imap. exists j, name. split; [reflexivity|exact Hl].
Qed.

Lemma positions_nil (name : string) (df : Frame.t) :
  Frame.positions name df = [] <-> ~ name ∈ Frame.labels df.
Proof.
  split.
  - intros Hnil Hin. apply list_elem_of_lookup in Hin as [j Hj].
    apply positions_spec in Hj. rewrite Hnil in Hj.
    apply elem_of_nil in Hj. exact Hj.
  - intros Hnotin. destruct (Frame.positions name df) as [|j js] eqn:Hp;
      [reflexivity|].
    exfalso. apply Hnotin.
    assert (j ∈ Frame.positions name df) as Hj by (rewrite Hp; apply list_elem_of_here).
    apply positions_spec in Hj. eapply list_elem_of_lookup_2. exact Hj.
Qed.

(** The labels of a selection are among the labels asked for, and every
    label asked for is there. *)
Lemma select_labels (names : list string) (df out : Frame.t) :
  Frame.select names df = Py.Returns out ->
  Forall (fun l => l ∈ names) (Frame.labels out) /\
  Forall (fun n => n ∈ Frame.labels out) names /\
  Frame.index out = Frame.index df /\
  length (Frame.rows out) = length (Frame.rows df).
Proof.
  unfold Frame.select. intros Hsel.
  destruct (filter _ names) as [|missing rest] eqn:Hmiss; [|discriminate].
  injection Hsel as <-. cbn.
  assert (forall n, n ∈ names -> Frame.positions n df <> []) as Hpos.
  { intros n Hn Hnil.
    assert (n ∈ filter (fun n => Frame.positions n df = []) names) as Hin
      by (apply list_elem_of_filter; split; assumption).
    rewrite Hmiss in Hin. apply elem_of_nil in Hin. exact Hin. }
  split; [|split; [|split; [reflexivity | apply length_map]]].
  - apply Forall_map. apply Forall_forall. intros j Hj. cbn.
    apply list_elem_of_In, in_flat_map in Hj as (n & Hn & Hj).
    apply list_elem_of_In in Hn, Hj. apply positions_spec in Hj.
    rewrite (nth_lookup_Some _ _ _ _ Hj). exact Hn.
  - apply Forall_forall. intros n Hn.
    destruct (Frame.positions n df) as [|j js] eqn:Hp; [destruct (Hpos n Hn Hp)|].
    assert (j ∈ Frame.positions n df) as Hj by (rewrite Hp; apply list_elem_of_here).
    pose proof Hj as Hl. apply positions_spec in Hl.
    apply list_elem_of_fmap. exists j. split.
    + rewrite (nth_lookup_Some _ _ _ _ Hl). reflexivity.
    + apply list_elem_of_In, in_flat_map. exists n.
      split; apply list_elem_of_In; assumption.
Qed.

(** Assigning a column under a new label appends the label. *)
Lemma assign_new_label (name : string) (col : list Frame.cell) (df : Frame.t) :
  ~ name ∈ Frame.labels df ->
  Frame.labels (Frame.assign name col df) = Frame.labels df ++ [name] /\
  Frame.index (Frame.assign name col df) = Frame.index df /\
  length (Frame.rows (Frame.assign name col df)) = length (Frame.rows df).
Proof.
  intros Hnew. apply positions_nil in Hnew. unfold Frame.assign.
  rewrite Hnew. cbn. split; [reflexivity|]. split; [reflexivity|].
  apply length_imap.
Qed.

Lemma assign_old_label (name : string) (col : list Frame.cell) (df : Frame.t) :
  name ∈ Frame.labels df ->
  Frame.labels (Frame.assign name col df) = Frame.labels df /\
  Frame.index (Frame.assign name col df) = Frame.index df.
Proof.
  intros Hold. unfold Frame.assign.
  destruct (Frame.positions name df) as [|j js] eqn:Hp.
  - apply positions_nil in Hp. contradiction.
  - split; reflexivity.
Qed.

Lemma has_label_spec (name : string) (df : Frame.t) :
  Frame.has_label name df = true <-> name ∈ Frame.labels df.
Proof.
  unfold Frame.has_label. rewrite existsb_exists. split.
  - intros (l & Hin & Heq). apply String.eqb_eq in Heq. subst l.
    apply list_elem_of_In. exact Hin.
  - intros Hin. exists name. split; [apply list_elem_of_In; exact Hin|].
    apply String.eqb_refl.
Qed.

(* ================================================================== *)
(** * The requests of the fetcher *)

Section FetcherFacts.
Context (svc : Env.Services).
Implicit Types (s : Env.state svc).

(** Making the dates naive calls no service and keeps the labels and
    the index. *)
Lemma localize_dates_spec (df : Frame.t) s :
  snd (Fetcher.localize_dates svc df s) = s /\
  forall out, fst (Fetcher.localize_dates svc df s) = Py.Returns out ->
              Frame.labels out = Frame.labels df /\
              Frame.index out = Frame.index df.
Proof.
  unfold Fetcher.localize_dates.
  destruct (Frame.has_label "date" df) eqn:Hdate.
  - apply has_label_spec in Hdate.
    unfold Py.io_bind, Py.lift, Py.io_ret, Py.raise.
    destruct (Frame.series "date" df) as [[col|]|e];
      try (split; [reflexivity | intros out Hout; discriminate Hout]).
    destruct (forallb Frame.is_timestamp col) eqn:Hts.
    + rewrite Hts. split; [reflexivity|]. intros out Hout.
      cbn in Hout. injection Hout as <-. apply assign_old_label. exact Hdate.
    + destruct (Env.to_datetime svc col) as [col'|e];
        [|split; [reflexivity | intros out Hout; discriminate Hout]].
      destruct (forallb Frame.is_timestamp col');
        [|split; [reflexivity | intros out Hout; discriminate Hout]].
      split; [reflexivity|]. intros out Hout.
      cbn in Hout. injection Hout as <-. apply assign_old_label. exact Hdate.
  - split; [reflexivity|]. intros out Hout. cbn in Hout.
    injection Hout as <-. split; reflexivity.
Qed.

(** [fetch_ohlcv] asks for the history one to three times and calls
    nothing else; a frame it returns has at least one row and exactly
    the six price labels. *)
Lemma fetch_ohlcv_spec (ticker period : string) s :
  exists k,
    1 <= k <= 3 /\
    snd (snd (Fetcher.fetch_ohlcv svc ticker period s))
      = snd s ++ attempts (Env.History ticker period) k /\
    forall df,
      fst (Fetcher.fetch_ohlcv svc ticker period s) = Py.Returns df ->
      Forall (fun l => l ∈ ohlcv_labels) (Frame.labels df) /\
      Forall (fun n => n ∈ Frame.labels df) ohlcv_labels /\
      0 < Frame.len df.
Proof.
  destruct (retry_call_spec svc (Env.History ticker period)
              (Env.history svc ticker period) s) as (k & Hk & Hlog & Hsome & _).
  exists k. split; [exact Hk|].
  unfold Fetcher.fetch_ohlcv. unfold Py.io_bind.
  destruct (Fetcher._retry svc _ s) as [[[df0|]|e] s1];
    cbv beta iota; cbn [fst snd] in *;
    [| congruence | split; [exact Hlog | intros df Hdf; discriminate Hdf]].
  destruct (Frame.empty df0) eqn:Hempty;
    [split; [exact Hlog | intros df Hdf; discriminate Hdf]|].
  unfold Py.lift.
  destruct (Frame.reset_index df0) as [df1|e] eqn:Hreset;
    [|split; [exact Hlog | intros df Hdf; discriminate Hdf]].
  destruct (localize_dates_spec (Frame.map_labels Fetcher.normalise df1) s1)
    as [Hstate Hout].
  destruct (Fetcher.localize_dates svc _ s1) as [[df2|e] s2];
    cbn [fst snd] in *; subst s2;
    [|split; [exact Hlog | intros df Hdf; discriminate Hdf]].
  split; [exact Hlog|]. intros df Hdf.
  destruct (Hout df2 eq_refl) as [_ Hindex].
  apply select_labels in Hdf as (Hl1 & Hl2 & Hidx & _).
  split; [exact Hl1|]. split; [exact Hl2|].
  unfold Frame.len. rewrite Hidx, Hindex. cbn.
  unfold Frame.reset_index in Hreset.
  destruct (Frame.has_label _ df0); [discriminate|].
  injection Hreset as <-. cbn. unfold Frame.range_index.
  rewrite length_map, length_seq.
  unfold Frame.empty in Hempty. apply orb_false_iff in Hempty as [Hlen _].
  apply Nat.eqb_neq in Hlen. lia.
Qed.

(** [fetch_company_info] asks for the record one to three times and
    calls nothing else. *)
Lemma fetch_company_info_spec (ticker : string) s :
  exists k,
    1 <= k <= 3 /\
    snd (snd (Fetcher.fetch_company_info svc ticker s))
      = snd s ++ attempts (Env.Info ticker) k.
Proof.
  destruct (retry_call_spec svc (Env.Info ticker) (Env.info svc ticker) s)
    as (k & Hk & Hlog & _).
  exists k. split; [exact Hk|].
  unfold Fetcher.fetch_company_info. unfold Py.io_bind.
  destruct (Fetcher._retry svc _ s) as [[[[info|]|]|e] s1];
    cbv beta iota; cbn [fst snd] in *; exact Hlog.
Qed.

End FetcherFacts.

Section CacheFacts.
Context (svc : Env.Services).
Implicit Types (s : Env.state svc).

Lemma write_years_calls (ticker : string) (df : Frame.t) (j : nat)
    (years : list Z) :
  forall s,
    exists writes,
      snd (snd (Fetcher.write_years svc ticker df j years s))
        = snd s ++ writes /\
      Forall (fun e => is_write e = true) writes.
Proof.
  induction years as [|y years IH]; intros s.
  - exists []. cbn. rewrite app_nil_r. split; [reflexivity|constructor].
  - cbn [Fetcher.write_years]. unfold Py.io_bind, Py.lift.
    destruct (Fetcher.stamp_dates _) as [prices|e].
    + unfold Env.call at 1.
      destruct (Env.prices_set svc _ _ prices (fst s)) as [[[]|e] w1].
      * destruct (IH (w1, snd s ++ [Env.PricesSet ticker (Frame.str_year y) prices]))
          as (writes & Hlog & Hall).
        exists (Env.PricesSet ticker (Frame.str_year y) prices :: writes).
        rewrite Hlog. cbn [snd]. rewrite <- app_assoc.
        split; [reflexivity|]. constructor; [reflexivity|exact Hall].
      * exists [Env.PricesSet ticker (Frame.str_year y) prices].
        split; [reflexivity|]. constructor; [reflexivity|constructor].
    + exists []. cbn. rewrite app_nil_r. split; [reflexivity|constructor].
Qed.

(** With a client, [cache_stock_to_firestore] writes the stock record
    and then only prices; the frame it hands back carries the new
    column [year]. *)
Lemma cache_stock_to_firestore_spec (ticker : string) (df : Frame.t)
    (info : Py.dict Py.value) s :
  Env.fetcher_db svc = true ->
  exists writes,
    snd (snd (Fetcher.cache_stock_to_firestore svc ticker df info s))
      = snd s ++ Env.StockSet (Py.upper ticker) info :: writes /\
    Forall (fun e => is_write e = true) writes /\
    forall out,
      fst (Fetcher.cache_stock_to_firestore svc ticker df info s)
        = Py.Returns out ->
      ~ "year"%string ∈ Frame.labels df ->
      Frame.labels out = Frame.labels df ++ ["year"%string] /\
      Frame.len out = Frame.len df.
Proof.
  intros Hdb. unfold Fetcher.cache_stock_to_firestore. rewrite Hdb.
  cbn [negb]. unfold Py.io_bind. unfold Env.call.
  destruct (Env.stock_set svc _ info (fst s)) as [[[]|e] w1];
    cbv beta iota; cbn [fst snd];
    [|exists []; split; [reflexivity|];
      split; [constructor | intros out Hout; discriminate Hout]].
  unfold Py.lift.
  destruct (Frame.series "date" df) as [[dates|]|e]; cbv beta iota;
    cbn [fst snd];
    try (exists []; split; [reflexivity|];
         split; [constructor | intros out Hout; discriminate Hout]).
  destruct (forallb Frame.is_timestamp dates); cbn [negb];
    [|exists []; split; [reflexivity|];
      split; [constructor | intros out Hout; discriminate Hout]].
  set (df' := Frame.assign "year" _ df).
  destruct (Frame.positions "year" df') as [|j [|j' js]];
    try (exists []; split; [reflexivity|];
         split; [constructor | intros out Hout; discriminate Hout]).
  set (s1 := (w1, snd s ++ [Env.StockSet (Py.upper ticker) info])).
  destruct (write_years_calls (Py.upper ticker) df' j
              (Fetcher.group_keys
                 (map (fun c => match c with
                                | Frame.Timestamp w _ => Frame.year w
                                | _ => 0%Z
                                end) dates)) s1)
    as (writes & Hlog & Hall).
  exists writes.
  destruct (Fetcher.write_years svc _ df' j _ s1) as [[[]|e] s2];
    unfold Py.io_ret; cbn [fst snd] in *; subst s1; cbn [snd] in Hlog;
    rewrite Hlog, <- app_assoc;
    (split; [reflexivity|]); (split; [exact Hall|]);
    [|intros out Hout; discriminate Hout].
  intros out Hout Hnew. cbn in Hout. injection Hout as <-.
  destruct (assign_new_label "year"
              (map Frame.Integer
                 (map (fun c => match c with
                                | Frame.Timestamp w _ => Frame.year w
                                | _ => 0%Z
                                end) dates)) df Hnew) as (Hl & Hi & _).
  split; [exact Hl|]. unfold Frame.len. fold df' in Hi. rewrite Hi.
  reflexivity.
Qed.

End CacheFacts.

Section StockDataFacts.
Context (svc : Env.Services).
Implicit Types (s : Env.state svc).

(** The fresh path of [get_stock_data]: fetch the history, fetch the
    company record, write both. *)
Lemma fresh_path_spec (ticker : string) s :
  Env.fetcher_db svc = true ->
  let out :=
    Py.io_bind (Fetcher.fetch_ohlcv svc ticker "10y") (fun df =>
    Py.io_bind (Fetcher.fetch_company_info svc ticker) (fun info =>
    Fetcher.cache_stock_to_firestore svc ticker df info)) s in
  exists l,
    snd (snd out) = snd s ++ l /\
    fresh_calls ticker l /\
    forall df,
      fst out = Py.Returns df ->
      (exists kh ki info writes,
          l = attempts (Env.History ticker "10y") kh
              ++ attempts (Env.Info ticker) ki
              ++ Env.StockSet (Py.upper ticker) info :: writes /\
          Forall (fun e => is_write e = true) writes) /\
      (exists base,
          Frame.labels df = base ++ ["year"%string] /\
          Forall (fun l => l ∈ ohlcv_labels) base) /\
      0 < Frame.len df.
Proof.
  intros Hdb out. subst out.
  destruct (fetch_ohlcv_spec svc ticker "10y" s) as (kh & Hkh & Hlog1 & Hdf).
  unfold Py.io_bind.
  destruct (Fetcher.fetch_ohlcv svc ticker "10y" s) as [[df|e] s1];
    cbv beta iota; cbn [fst snd] in *;
    [|exists (attempts (Env.History ticker "10y") kh);
      split; [exact Hlog1|]; split; [apply fresh_history; exact Hkh|];
      intros df Hout; discriminate Hout].
  destruct (Hdf df eq_refl) as (Hl1 & Hl2 & Hlen). clear Hdf.
  destruct (fetch_company_info_spec svc ticker s1) as (ki & Hki & Hlog2).
  destruct (Fetcher.fetch_company_info svc ticker s1) as [[info|e] s2];
    cbv beta iota; cbn [fst snd] in *;
    [|exists (attempts (Env.History ticker "10y") kh
              ++ attempts (Env.Info ticker) ki);
      split; [rewrite Hlog2, Hlog1, <- app_assoc; reflexivity|];
      split; [apply fresh_info; assumption|];
      intros df' Hout; discriminate Hout].
  destruct (cache_stock_to_firestore_spec svc ticker df info s2 Hdb)
    as (writes & Hlog3 & Hwrites & Hout).
  exists (attempts (Env.History ticker "10y") kh
          ++ attempts (Env.Info ticker) ki
          ++ Env.StockSet (Py.upper ticker) info :: writes).
  split; [rewrite Hlog3, Hlog2, Hlog1, <- !app_assoc; reflexivity|].
  split; [apply fresh_written; assumption|].
  intros df' Hdf'.
  split; [exists kh, ki, info, writes; split; [reflexivity|exact Hwrites]|].
  assert (~ "year"%string ∈ Frame.labels df) as Hnew.
  { intros Hin. rewrite Forall_forall in Hl1. specialize (Hl1 _ Hin).
    unfold ohlcv_labels in Hl1.
    repeat (apply elem_of_cons in Hl1 as [Hl1|Hl1]; [discriminate|]).
    apply elem_of_nil in Hl1. exact Hl1. }
  destruct (Hout df' Hdf' Hnew) as (Hlabels & Hlen').
  split; [exists (Frame.labels df); split; assumption|].
  rewrite Hlen'. exact Hlen.
Qed.

(** The calls of [get_stock_data], when the module has a client: the
    read of the stock document, perhaps the read of the prices, and
    then nothing or the fresh path. *)
Lemma get_stock_data_spec (ticker : string) s :
  Env.fetcher_db svc = true ->
  let T := Py.upper ticker in
  let out := Fetcher.get_stock_data svc ticker s in
  exists reads l,
    snd (snd out) = snd s ++ Env.StockGet T :: reads ++ l /\
    (reads = [] \/ reads = [Env.PricesStream T]) /\
    (l = [] \/ fresh_calls ticker l) /\
    forall df,
      fst out = Py.Returns df ->
      0 < Frame.len df /\
      ((reads = [Env.PricesStream T] /\ l = []) \/
       (exists kh ki info writes,
           l = attempts (Env.History ticker "10y") kh
               ++ attempts (Env.Info ticker) ki
               ++ Env.StockSet T info :: writes /\
           Forall (fun e => is_write e = true) writes) /\
       exists base,
         Frame.labels df = base ++ ["year"%string] /\
         Forall (fun l => l ∈ ohlcv_labels) base).
Proof.
  intros Hdb T out. subst out.
  pose proof (get_cached_ohlcv_cases svc ticker s Hdb) as Hcases.
  cbn zeta in Hcases. fold T in Hcases.
  unfold Fetcher.get_stock_data.
  change (Py.io_bind (Fetcher.get_cached_ohlcv svc ticker) ?k s)
    with (match Fetcher.get_cached_ohlcv svc ticker s with
          | (Py.Returns a, s') => k a s'
          | (Py.Raises e, s') => (Py.Raises e, s')
          end).
  destruct (Env.stock_get svc T (fst s)) as [[doc|e] w1].
  - destruct Hcases as [(df0 & stamp & lu & docs & w2 & _ & _ & _ & _ & _ &
                          _ & _ & _ & ->) | (w2 & reads & -> & Hreads)].
    + cbv beta iota. destruct (0 <? Frame.len df0) eqn:Hlen.
      * exists [Env.PricesStream T], []. cbn [fst snd Py.io_ret].
        unfold Py.io_ret. cbn [fst snd].
        split; [reflexivity|]. split; [right; reflexivity|].
        split; [left; reflexivity|].
        intros df Hdf. injection Hdf as <-.
        split; [apply Nat.ltb_lt; exact Hlen|]. left. split; reflexivity.
      * destruct (fresh_path_spec ticker
                    (w2, snd s ++ [Env.StockGet T; Env.PricesStream T]) Hdb)
          as (l & Hlog & Hshape & Hout).
        cbn zeta in Hlog, Hout.
        exists [Env.PricesStream T], l.
        split; [rewrite Hlog; cbn [snd]; rewrite <- app_assoc; reflexivity|].
        split; [right; reflexivity|]. split; [right; exact Hshape|].
        intros df Hdf. destruct (Hout df Hdf) as (Hl & Hbase & Hlen').
        split; [exact Hlen'|]. right. split; [exact Hl | exact Hbase].
    + cbv beta iota.
      destruct (fresh_path_spec ticker (w2, snd s ++ Env.StockGet T :: reads) Hdb)
        as (l & Hlog & Hshape & Hout).
      cbn zeta in Hlog, Hout.
      exists reads, l.
      split; [rewrite Hlog; cbn [snd]; rewrite <- app_assoc; reflexivity|].
      split; [exact Hreads|]. split; [right; exact Hshape|].
      intros df Hdf. destruct (Hout df Hdf) as (Hl & Hbase & Hlen').
      split; [exact Hlen'|]. right. split; [exact Hl | exact Hbase].
  - rewrite Hcases. cbv beta iota. cbn [fst snd].
    exists [], []. split; [reflexivity|]. split; [left; reflexivity|].
    split; [left; reflexivity|]. intros df Hdf. discriminate Hdf.
Qed.

End StockDataFacts.

(** X15.  What [get_stock_data] returns.  A frame it returns has at
    least one row.  Either it is the cached frame, and the only calls
    were the reads of the stock document and of the prices, with no
    request to yfinance; or it was fetched: every request was made (the
    history, then the company record, each one to three times), the
    stock record and then the prices were written, and the frame is the
    selection of the six price columns followed by the column [year],
    which [cache_stock_to_firestore] adds to the frame of its caller.
    A freshly fetched history so carries one column more than a cached
    one. *)
Theorem get_stock_data_returns :
  forall (svc : Env.Services) (ticker : string) (s s' : Env.state svc)
         (df : Frame.t),
    Fetcher.get_stock_data svc ticker s = (Py.Returns df, s') ->
    let T := Py.upper ticker in
    0 < Frame.len df /\
    (snd s' = snd s ++ [Env.StockGet T; Env.PricesStream T]
     \/
     exists reads kh ki info writes base,
       snd s' = snd s ++ Env.StockGet T :: reads
                ++ attempts (Env.History ticker "10y") kh
                ++ attempts (Env.Info ticker) ki
                ++ Env.StockSet T info :: writes /\
       (reads = [] \/ reads = [Env.PricesStream T]) /\
       Forall (fun e => is_write e = true) writes /\
       Frame.labels df = base ++ ["year"%string] /\
       Forall (fun l => l ∈ ohlcv_labels) base).
Proof.
  intros svc ticker s s' df Hrun T.
  destruct (Env.fetcher_db svc) eqn:Hdb;
    [|rewrite get_stock_data_without_firestore in Hrun by exact Hdb;
      discriminate Hrun].
  destruct (get_stock_data_spec svc ticker s Hdb)
    as (reads & l & Hlog & Hreads & Hshape & Hout).
  cbn zeta in Hlog, Hout. fold T in Hlog, Hout.
  rewrite Hrun in Hlog, Hout. cbn [fst snd] in Hlog, Hout.
  destruct (Hout df eq_refl) as [Hlen [[-> ->] | [Hl (base & Hlabels & Hbase)]]].
  - split; [exact Hlen|]. left. rewrite Hlog. reflexivity.
  - split; [exact Hlen|]. right.
    destruct Hl as (kh & ki & info & writes & -> & Hw).
    exists reads, kh, ki, info, writes, base.
    split; [exact Hlog|]. split; [exact Hreads|].
    split; [exact Hw|]. split; assumption.
Qed.

Lemma get_stock_data_returns_witness :
  exists df s',
    Fetcher.get_stock_data (Sample.services true false) "smpl"
                           (Sample.start true false 2) = (Py.Returns df, s') /\
    0 < Frame.len df /\
    (snd s' = [] ++ [Env.StockGet "SMPL"; Env.PricesStream "SMPL"]
     \/
     exists reads kh ki info writes base,
       snd s' = [] ++ Env.StockGet "SMPL" :: reads
                ++ attempts (Env.History "smpl" "10y") kh
                ++ attempts (Env.Info "smpl") ki
                ++ Env.StockSet "SMPL" info :: writes /\
       (reads = [] \/ reads = [Env.PricesStream "SMPL"]) /\
       Forall (fun e => is_write e = true) writes /\
       Frame.labels df = base ++ ["year"%string] /\
       Forall (fun l => l ∈ ohlcv_labels) base).
Proof.
  assert (Py.returned (fst (Fetcher.get_stock_data (Sample.services true false)
                              "smpl" (Sample.start true false 2))) = true)
    as Hok by (vm_compute; reflexivity).
  destruct (Fetcher.get_stock_data _ _ _) as [[df|e] s'] eqn:Hrun;
    [|discriminate Hok].
  exists df, s'. split; [reflexivity|].
  exact (get_stock_data_returns _ _ _ _ _ Hrun).
Defined.

Lemma attempts_no_write (e : Env.event) (k : nat) :
  is_request e = true -> Forall (fun x => is_write x = false) (attempts e k).
Proof.
  intros He. unfold attempts. generalize 0.
  induction k as [|k IH]; intros i; cbn; [constructor|].
  constructor; [destruct e; try discriminate He; reflexivity|].
  destruct k; [constructor|]. constructor; [reflexivity | apply IH].
Qed.

Lemma attempts_first (e : Env.event) (k : nat) :
  1 <= k -> e ∈ attempts e k.
Proof.
  intros Hk. destruct k as [|k]; [lia|]. apply list_elem_of_here.
Qed.

Lemma prefix_before_write (N ws pre post : list Env.event) (e : Env.event) :
  Forall (fun x => is_write x = false) N -> is_write e = true ->
  N ++ ws = pre ++ e :: post -> exists mid, pre = N ++ mid.
Proof.
  revert pre. induction N as [|x N IH]; intros pre HN He Heq; [eauto|].
  inversion HN as [|? ? Hx HN']; subst.
  destruct pre as [|y pre]; cbn in Heq.
  - injection Heq as -> _. congruence.
  - injection Heq as -> Heq. destruct (IH pre HN' He Heq) as [mid ->].
    exists mid. reflexivity.
Qed.

(** X16.  [get_stock_data] writes to Firestore only after it has
    fetched: whatever the services answer and however the call ends,
    every write it makes comes after the read of the stock document,
    a request for the history and a request for the company record;
    the first write is the stock record, and all that follows it are
    writes.  A history or a company record that cannot be fetched
    leaves the cache untouched. *)
Theorem get_stock_data_writes_after_fetching :
  forall (svc : Env.Services) (ticker : string) (s : Env.state svc)
         (pre post : list Env.event) (e : Env.event),
    snd (snd (Fetcher.get_stock_data svc ticker s))
      = snd s ++ pre ++ e :: post ->
    is_write e = true ->
    Env.StockGet (Py.upper ticker) ∈ pre /\
    Env.History ticker "10y" ∈ pre /\
    Env.Info ticker ∈ pre /\
    Forall (fun x => is_write x = true) post /\
    (Forall (fun x => is_write x = false) pre ->
     exists info, e = Env.StockSet (Py.upper ticker) info).
Proof.
  intros svc ticker s pre post e Hlog He.
  destruct (Env.fetcher_db svc) eqn:Hdb.
  2:{ rewrite get_stock_data_without_firestore in Hlog by exact Hdb.
      cbn [snd] in Hlog. rewrite <- (app_nil_r (snd s)) in Hlog at 1.
      apply app_inv_head in Hlog. destruct pre; discriminate Hlog. }
  destruct (get_stock_data_spec svc ticker s Hdb)
    as (reads & l & Hlog' & Hreads & Hshape & _).
  cbn zeta in Hlog'. rewrite Hlog in Hlog'. apply app_inv_head in Hlog'.
  set (T := Py.upper ticker) in *.
  assert (Forall (fun x => is_write x = false) (Env.StockGet T :: reads))
    as Hhead.
  { constructor; [reflexivity|].
    destruct Hreads as [->| ->]; repeat constructor. }
  assert (forall N, Forall (fun x => is_write x = false) N ->
                    pre ++ e :: post = N -> False) as Hnone.
  { intros N HN Heq. rewrite Forall_forall in HN.
    assert (e ∈ N) as Hin
      by (rewrite <- Heq; apply elem_of_app; right; apply list_elem_of_here).
    specialize (HN e Hin). congruence. }
  pose proof (attempts_no_write (Env.History ticker "10y")) as HnoH.
  pose proof (attempts_no_write (Env.Info ticker)) as HnoI.
  destruct Hshape as [->|Hshape].
  { exfalso. rewrite app_nil_r in Hlog'. eapply Hnone; [|exact Hlog'].
    exact Hhead. }
  destruct Hshape as [kh Hkh|kh ki Hkh Hki|kh ki info writes Hkh Hki Hw].
  - exfalso. eapply (Hnone ((Env.StockGet T :: reads) ++ _)); [|exact Hlog'].
    apply Forall_app. split; [exact Hhead | apply HnoH; reflexivity].
  - exfalso. eapply (Hnone ((Env.StockGet T :: reads) ++ _)); [|exact Hlog'].
    apply Forall_app. split; [exact Hhead|].
    apply Forall_app. split; [apply HnoH | apply HnoI]; reflexivity.
  - set (N := (Env.StockGet T :: reads)
              ++ attempts (Env.History ticker "10y") kh
              ++ attempts (Env.Info ticker) ki).
    assert (Forall (fun x => is_write x = false) N) as HN.
    { apply Forall_app. split; [exact Hhead|].
      apply Forall_app. split; [apply HnoH | apply HnoI]; reflexivity. }
    assert (pre ++ e :: post = N ++ Env.StockSet T info :: writes) as Heq.
    { rewrite Hlog'. unfold N. cbn. rewrite <- !app_assoc. reflexivity. }
    destruct (prefix_before_write N _ pre post e HN He (eq_sym Heq))
      as [mid ->].
    rewrite <- app_assoc in Heq. apply app_inv_head in Heq.
    assert (forall x, x ∈ N -> x ∈ N ++ mid) as Hsub
      by (intros x Hx; apply elem_of_app; left; exact Hx).
    split; [apply Hsub; apply list_elem_of_here|].
    split; [apply Hsub; unfold N; rewrite !elem_of_app; right; left;
            apply attempts_first; lia|].
    split; [apply Hsub; unfold N; rewrite !elem_of_app; right; right;
            apply attempts_first; lia|].
    destruct mid as [|x mid]; cbn in Heq.
    + assert (e = Env.StockSet T info /\ post = writes) as [He' Hp]
        by (injection Heq; intros; split; congruence).
      split; [rewrite Hp; exact Hw|]. intros _. exists info. exact He'.
    + assert (x = Env.StockSet T info /\ writes = mid ++ e :: post)
        as [Hx Hws] by (injection Heq; intros; split; congruence).
      split.
      * rewrite Hws in Hw. apply Forall_app in Hw as [_ Hw].
        inversion Hw; assumption.
      * intros Hpre. apply Forall_app in Hpre as [_ Hpre].
        inversion Hpre as [|? ? Hx' _]; subst. discriminate Hx'.
Qed.

Lemma get_stock_data_writes_after_fetching_witness :
  Env.StockGet "SMPL" ∈ [Env.StockGet "SMPL"; Env.History "smpl" "10y";
                         Env.Info "smpl"] /\
  Env.History "smpl" "10y" ∈ [Env.StockGet "SMPL"; Env.History "smpl" "10y";
                              Env.Info "smpl"] /\
  Env.Info "smpl" ∈ [Env.StockGet "SMPL"; Env.History "smpl" "10y";
                     Env.Info "smpl"] /\
  Forall (fun x => is_write x = true)
         (drop 4 (snd (snd (Fetcher.get_stock_data (Sample.services true false)
                              "smpl" (Sample.start true false 0))))) /\
  (Forall (fun x => is_write x = false)
          [Env.StockGet "SMPL"; Env.History "smpl" "10y"; Env.Info "smpl"] ->
   exists info,
     nth 3 (snd (snd (Fetcher.get_stock_data (Sample.services true false)
                        "smpl" (Sample.start true false 0))))
           (Env.Sleep 0)
     = Env.StockSet "SMPL" info).
Proof.
  apply (get_stock_data_writes_after_fetching (Sample.services true false)
           "smpl" (Sample.start true false 0)).
  - vm_compute. reflexivity.
  - vm_compute. reflexivity.
Defined.

(* ================================================================== *)
(** * The market indices *)

Section MarketFacts.
Context (svc : Env.Services).
Implicit Types (s : Env.state svc).

Lemma normalised_history_calls (symbol period : string) s :
  exists k,
    1 <= k <= 3 /\
    snd (snd (Fetcher.normalised_history svc symbol period s))
      = snd s ++ attempts (Env.History symbol period) k.
Proof.
  destruct (retry_call_spec svc (Env.History symbol period)
              (Env.history svc symbol period) s) as (k & Hk & Hlog & _).
  exists k. split; [exact Hk|].
  unfold Fetcher.normalised_history. unfold Py.io_bind.
  destruct (Fetcher._retry svc _ s) as [[[df0|]|e] s1];
    cbv beta iota; cbn [fst snd] in *; try exact Hlog.
  unfold Py.lift. destruct (Frame.reset_index df0) as [df1|e];
    cbv beta iota; cbn [fst snd]; [|exact Hlog].
  destruct (localize_dates_spec svc (Frame.map_labels Fetcher.normalise df1) s1)
    as [-> _].
  exact Hlog.
Qed.

(** One index: the function always returns, after one to three
    history requests; the dictionary is unchanged or holds one more
    frame, whose labels are [date] and the name of the index. *)
Lemma fetch_index_spec (result : Py.dict Frame.t) (symbol name : string) s :
  exists k result',
    1 <= k <= 3 /\
    fst (Fetcher.fetch_index svc result symbol name s) = Py.Returns result' /\
    snd (snd (Fetcher.fetch_index svc result symbol name s))
      = snd s ++ attempts (Env.History symbol "10y") k /\
    (result' = result \/
     exists df, result' = Py.set result name df /\
                Forall (fun l => l ∈ ["date"%string; name]) (Frame.labels df)).
Proof.
  destruct (normalised_history_calls symbol "10y" s) as (k & Hk & Hlog).
  exists k. unfold Fetcher.fetch_index, Py.try_except, Py.io_bind.
  destruct (Fetcher.normalised_history svc symbol "10y" s) as [[df|e] s1];
    cbv beta iota; cbn [fst snd] in *;
    [|exists result; unfold Py.io_ret; cbn [fst snd]; eauto].
  unfold Py.lift.
  destruct (Frame.select ["date"; "close"]%string df) as [df'|e] eqn:Hsel;
    cbv beta iota; unfold Py.io_ret; cbn [fst snd];
    [|exists result; eauto].
  eexists. split; [exact Hk|]. split; [reflexivity|]. split; [exact Hlog|].
  right. eexists. split; [reflexivity|].
  apply select_labels in Hsel as (Hl & _). unfold Frame.rename. cbn.
  apply Forall_map. eapply Forall_impl; [exact Hl|].
  intros l Hin. cbn.
  apply elem_of_cons in Hin as [->|Hin]; [apply list_elem_of_here|].
  apply elem_of_cons in Hin as [->|Hin];
    [|apply elem_of_nil in Hin; destruct Hin].
  cbn. apply list_elem_of_further, list_elem_of_here.
Qed.

End MarketFacts.

(** X17.  [fetch_market_data] never raises: each of the three indices
    is asked for in turn (the S&P 500, the VIX, the ten-year yield),
    one to three times each, so with at most nine history requests and
    18 seconds of pauses in all, and an index that cannot be fetched or
    lacks a date or close column is left out without failing the
    others.  The answer holds a subsequence of the names [sp500], [vix]
    and [tnx], each name once, and the labels of each frame are [date]
    and the name of its index. *)
Theorem fetch_market_data_never_fails :
  forall (svc : Env.Services) (s : Env.state svc),
    let out := Fetcher.fetch_market_data svc s in
    exists result k1 k2 k3,
      fst out = Py.Returns result /\
      snd (snd out)
      = snd s ++ attempts (Env.History "^GSPC" "10y") k1
              ++ attempts (Env.History "^VIX" "10y") k2
              ++ attempts (Env.History "^TNX" "10y") k3 /\
      (1 <= k1 <= 3 /\ 1 <= k2 <= 3 /\ 1 <= k3 <= 3) /\
      (seconds_slept (drop (length (snd s)) (snd (snd out))) <= 18)%Z /\
      sublist (map fst result) market_names /\
      Forall (fun entry =>
                Forall (fun l => l ∈ ["date"%string; fst entry])
                       (Frame.labels (snd entry)))
             result.
Proof.
  intros svc s out. subst out.
  unfold Fetcher.fetch_market_data, Fetcher.indices.
  cbn [Fetcher.fetch_indices]. unfold Py.io_bind.
  destruct (fetch_index_spec svc [] "^GSPC" "sp500" s)
    as (k1 & r1 & Hk1 & Hr1 & Hlog1 & Hres1).
  destruct (Fetcher.fetch_index svc [] "^GSPC" "sp500" s) as [x1 s1].
  cbn [fst snd] in Hr1, Hlog1. subst x1. cbv beta iota.
  destruct (fetch_index_spec svc r1 "^VIX" "vix" s1)
    as (k2 & r2 & Hk2 & Hr2 & Hlog2 & Hres2).
  destruct (Fetcher.fetch_index svc r1 "^VIX" "vix" s1) as [x2 s2].
  cbn [fst snd] in Hr2, Hlog2. subst x2. cbv beta iota.
  destruct (fetch_index_spec svc r2 "^TNX" "tnx" s2)
    as (k3 & r3 & Hk3 & Hr3 & Hlog3 & Hres3).
  destruct (Fetcher.fetch_index svc r2 "^TNX" "tnx" s2) as [x3 s3].
  cbn [fst snd] in Hr3, Hlog3. subst x3. cbv beta iota.
  unfold Py.io_ret. cbn [fst snd].
  exists r3, k1, k2, k3. split; [reflexivity|].
  assert (snd s3 = snd s ++ attempts (Env.History "^GSPC" "10y") k1
                   ++ attempts (Env.History "^VIX" "10y") k2
                   ++ attempts (Env.History "^TNX" "10y") k3) as Hlog.
  { rewrite Hlog3, Hlog2, Hlog1, <- !app_assoc. reflexivity. }
  split; [exact Hlog|]. split; [auto|].
  split.
  { rewrite Hlog, drop_app_length.
    destruct Hk1 as [? ?], Hk2 as [? ?], Hk3 as [? ?].
    destruct k1 as [|[|[|[|k1]]]]; try lia;
    destruct k2 as [|[|[|[|k2]]]]; try lia;
    destruct k3 as [|[|[|[|k3]]]]; try lia;
    apply Z.leb_le; vm_compute; reflexivity. }
  unfold market_names.
  destruct Hres1 as [->|(d1 & -> & Hd1)];
  destruct Hres2 as [->|(d2 & -> & Hd2)];
  destruct Hres3 as [->|(d3 & -> & Hd3)];
  cbn; (split; [|repeat (constructor; [assumption|]); constructor]).
  - repeat apply sublist_cons. constructor.
  - apply sublist_cons, sublist_cons, sublist_skip. constructor.
  - apply sublist_cons, sublist_skip, sublist_cons. constructor.
  - apply sublist_cons, sublist_skip, sublist_skip. constructor.
  - apply sublist_skip, sublist_cons, sublist_cons. constructor.
  - apply sublist_skip, sublist_cons, sublist_skip. constructor.
  - apply sublist_skip, sublist_skip, sublist_cons. constructor.
  - apply sublist_skip, sublist_skip, sublist_skip. constructor.
Qed.

(* ================================================================== *)
(** * The search of stocks *)

Lemma NoDup_take_prefix {A} (n : nat) (l : list A) :
  NoDup l -> NoDup (take n l).
Proof.
  intros Hnd. revert n. induction Hnd as [|x l Hx Hnd IH]; intros [|n]; cbn;
    try constructor.
  - intros Hin. apply Hx. apply elem_of_take in Hin as (i & Hi & _).
    eapply list_elem_of_lookup_2. exact Hi.
  - apply IH.
Qed.

Section SearchFacts.
Context (svc : Env.Services).
Implicit Types (s : Env.state svc).

Lemma tickers_entry (t : string) (n x c p ch cp : Py.value) :
  Py.get (Main.entry t n x c p ch cp) "ticker" = Py.VStr t.
Proof. reflexivity. Qed.

(** The loop over the quotes keeps the tickers distinct and not empty,
    as long as every ticker of the results was seen. *)
Lemma add_quotes_distinct (quotes : list Env.quote) :
  forall (seen : list string) (results : list (Py.dict Py.value)),
    NoDup (Main.tickers results) ->
    Forall (fun v => exists t, v = Py.VStr t /\ t <> ""%string /\ t ∈ seen)
           (Main.tickers results) ->
    NoDup (Main.tickers (Main.add_quotes quotes seen results)) /\
    Forall (fun v => exists t, v = Py.VStr t /\ t <> ""%string)
           (Main.tickers (Main.add_quotes quotes seen results)).
Proof.
  induction quotes as [|quote quotes IH]; intros seen results Hnd Hseen.
  - cbn. split; [exact Hnd|].
    eapply Forall_impl; [exact Hseen|]. intros v (t & ? & ? & _). eauto.
  - cbn [Main.add_quotes].
    set (sym := default ""%string (Env.symbol quote)).
    destruct (negb (String.eqb sym "") && negb (bool_decide (sym ∈ seen))
              && bool_decide (Env.quoteType quote
                              ∈ [Some "EQUITY"; Some "ETF"]%string)) eqn:Hadd.
    + apply andb_true_iff in Hadd as [Hadd _].
      apply andb_true_iff in Hadd as [Hne Hnew].
      apply negb_true_iff, String.eqb_neq in Hne.
      apply negb_true_iff, bool_decide_eq_false in Hnew.
      apply IH.
      * unfold Main.tickers. rewrite map_app. cbn [map]. rewrite tickers_entry.
        apply NoDup_app. split; [exact Hnd|]. split; [|apply NoDup_singleton].
        intros v Hv Hin. apply list_elem_of_singleton in Hin. subst v.
        rewrite Forall_forall in Hseen.
        destruct (Hseen _ Hv) as (t & [= <-] & _ & Hin). contradiction.
      * unfold Main.tickers. rewrite map_app. cbn [map]. rewrite tickers_entry.
        apply Forall_app. split.
        -- eapply Forall_impl; [exact Hseen|].
           intros v (t & ? & ? & ?). exists t. repeat split; try assumption.
           apply list_elem_of_further. assumption.
        -- constructor; [|constructor]. exists sym.
           repeat split; [exact Hne | apply list_elem_of_here].
    + apply IH; assumption.
Qed.

(** The direct lookup returns no entry, or the entry of the query. *)
Lemma direct_lookup_spec (q : string) s :
  exists results,
    fst (Main.direct_lookup svc q s) = Py.Returns results /\
    snd (snd (Main.direct_lookup svc q s)) = snd s ++ [Env.Info q] /\
    (results = [] \/ exists e, results = [e] /\ Py.get e "ticker" = Py.VStr q).
Proof.
  unfold Main.direct_lookup, Py.try_except, Py.io_bind, Env.call, Py.io_ret.
  destruct (Env.info svc q (fst s)) as [[info|e] w1]; cbv beta iota;
    cbn [fst snd]; [|exists []; auto].
  destruct (Py.truthy _); cbn [fst snd]; [|exists []; auto].
  eexists. split; [reflexivity|]. split; [reflexivity|].
  right. eexists. split; reflexivity.
Qed.

End SearchFacts.

(** X18.  On a query of ASCII text, [stock_search] never raises and
    answers at most ten entries whose tickers are pairwise distinct,
    each a non-empty text: the query in upper case when its direct
    lookup has a price, then the symbols of the equities and funds that
    yfinance's search returns, a symbol at most once.  A query of
    blanks is answered with the empty list without any request; any
    other query costs exactly one lookup and one search, whether they
    succeed or not. *)
Theorem stock_search_distinct_tickers :
  forall (svc : Env.Services) (q : string) (s : Env.state svc),
    Py.is_ascii q = true ->
    let Q := Py.strip (Py.upper q) in
    let out := Main.stock_search svc q s in
    exists results,
      fst out = Py.Returns results /\
      length results <= 10 /\
      NoDup (Main.tickers results) /\
      Forall (fun v => exists t, v = Py.VStr t /\ t <> ""%string)
             (Main.tickers results) /\
      (if String.eqb Q "" then results = [] /\ snd out = s
       else snd (snd out) = snd s ++ [Env.Info Q; Env.Search Q 8]).
Proof.
  intros svc q s _ Q out. subst out. unfold Main.stock_search. fold Q.
  destruct (String.eqb Q "") eqn:HQ.
  { exists []. cbn. repeat split; try constructor. lia. }
  apply String.eqb_neq in HQ.
  unfold Py.io_bind.
  destruct (direct_lookup_spec svc Q s) as (r1 & Hr1 & Hlog1 & Hcase).
  destruct (Main.direct_lookup svc Q s) as [x1 s1].
  cbn [fst snd] in Hr1, Hlog1. subst x1. cbv beta iota.
  assert (NoDup (Main.tickers r1) /\
          Forall (fun v => exists t, v = Py.VStr t /\ t <> ""%string /\
                    t ∈ omap (fun t => match t with
                                        | Py.VStr s => Some s
                                        | _ => None
                                        end) (Main.tickers r1))
                 (Main.tickers r1)) as [Hnd Hseen].
  { destruct Hcase as [->|(e & -> & He)].
    - split; constructor.
    - unfold Main.tickers. cbn [map]. rewrite He. cbn.
      split; [apply NoDup_singleton|].
      constructor; [|constructor]. exists Q.
      repeat split; [exact HQ | apply list_elem_of_here]. }
  unfold Main.search_quotes, Py.try_except, Py.io_bind, Env.call, Py.io_ret.
  destruct (Env.search svc Q 8 (fst s1)) as [[found|e] w2]; cbv beta iota;
    cbn [fst snd].
  - destruct (add_quotes_distinct (default [] found) _ r1 Hnd Hseen)
      as [Hnd' Hall'].
    eexists. split; [reflexivity|].
    split; [rewrite length_take; lia|].
    unfold Main.tickers in *. rewrite <- !firstn_map.
    split; [eapply NoDup_take_prefix; exact Hnd'|].
    split; [apply Forall_take; exact Hall'|].
    rewrite Hlog1, <- app_assoc. reflexivity.
  - eexists. split; [reflexivity|].
    split; [rewrite length_take; lia|].
    unfold Main.tickers in *. rewrite <- !firstn_map.
    split; [eapply NoDup_take_prefix; exact Hnd|].
    split; [apply Forall_take; eapply Forall_impl; [exact Hseen|];
            intros v (t & ? & ? & _); eauto|].
    rewrite Hlog1, <- app_assoc. reflexivity.
Qed.

Lemma stock_search_distinct_tickers_witness :
  let svc := Sample.services true false in
  let s := Sample.start true false 0 in
  (exists results,
     Main.stock_search svc " smpl " s
     = (Py.Returns results,
        (fst s, [Env.Info "SMPL"; Env.Search "SMPL" 8])) /\
     Main.tickers results = [Py.VStr "SMPL"; Py.VStr "SMPX"]) /\
  Main.stock_search svc "   " s = (Py.Returns [], s).
Proof.
  cbv zeta. split.
  - destruct (stock_search_distinct_tickers (Sample.services true false)
                " smpl " (Sample.start true false 0) eq_refl)
      as (results & Hr & _).
    exists results. split.
    + rewrite (surjective_pairing (Main.stock_search _ _ _)), Hr.
      f_equal; vm_compute; reflexivity.
    + assert (fst (Main.stock_search (Sample.services true false) " smpl "
                     (Sample.start true false 0))
              = Py.Returns results) as Hr' by exact Hr.
      clear Hr. vm_compute in Hr'. injection Hr' as <-. reflexivity.
  - destruct (stock_search_distinct_tickers (Sample.services true false)
                "   " (Sample.start true false 0) eq_refl)
      as (results & Hr & _ & _ & _ & Hnil & Hs).
    rewrite (surjective_pairing (Main.stock_search _ _ _)), Hr, Hs, Hnil.
    reflexivity.
Defined.

(* ================================================================== *)
(** * The status of a prediction *)

(** X19.  The status updates of a run, in the order of its calls.
    With a Firestore client the run first marks the prediction as
    running.  When that fails, the failure is reported and nothing
    else happens: no data is fetched and the generator is untouched.
    Otherwise the data is fetched, with whatever calls the fetcher
    makes; when it raises, its exception is reported and the pipeline
    does not run.  On fetched data the pipeline runs, and after the
    fetcher's calls comes the last update: the failure of the
    pipeline; or its results, exactly the horizons and the chart series
    it completed with, followed by a report of failure when writing
    the results failed.  Without a client nothing is written and the
    only calls are the fetcher's.  No exception leaves the function,
    and a failure of the last report is dropped. *)
Theorem run_prediction_status_updates :
  forall (svc : Env.Services) (L : Predict.Libs)
         (read_prices : Frame.t -> result (list Engineering.ohlcv))
         (read_market :
            Py.dict Frame.t -> result (list (string * Engineering.market_frame)))
         (elapse : Env.World svc -> Env.World svc)
         (prediction_id ticker : string) (horizons : list string)
         (g : RandomState (Predict.np L)) (s : Env.state svc),
    let out := Task.run_prediction svc L read_prices read_market elapse
                 prediction_id ticker horizons g s in
    let upd := Env.PredictionUpdate prediction_id in
    let running := Task.update_status svc prediction_id Env.Running s in
    let fetched := Task.fetch_data svc ticker (snd running) in
    (if Env.predict_db svc
     then snd (snd running) = snd s ++ [upd Env.Running]
     else running = (Py.Returns tt, s)) /\
    match fst running with
    | Py.Raises e =>
        fst out = g /\
        snd (snd out)
        = snd (snd running) ++ [upd (Env.Failed (Task.str_exc e))]
    | Py.Returns _ =>
        match fst fetched with
        | Py.Raises e =>
            fst out = g /\
            snd (snd out)
            = snd (snd fetched)
              ++ (if Env.predict_db svc
                  then [upd (Env.Failed (Task.str_exc e))] else [])
        | Py.Returns (df, market_data) =>
            let pipeline :=
              Predict.run_prediction
                (Task.with_data L read_prices read_market df market_data)
                prediction_id ticker horizons g in
            fst out = snd pipeline /\
            exists tail,
              snd (snd out) = snd (snd fetched) ++ tail /\
              if Env.predict_db svc then
                match fst pipeline with
                | Predict.Failed e =>
                    tail = [upd (Env.Failed (Task.str_exc (Py.Builtin e)))]
                | Predict.Completed rs ts =>
                    exists stamp rest,
                      tail = upd (Env.Completed rs ts stamp) :: rest /\
                      (rest = [] \/ exists msg, rest = [upd (Env.Failed msg)])
                end
              else tail = []
        end
    end.
Proof.
  intros svc L read_prices read_market elapse pid ticker hs g s
    out upd running fetched.
  subst out upd running fetched.
  unfold Task.run_prediction, Task.report_failure, Task.update_status,
    Py.try_except, Py.io_bind, Env.now, Env.call, Py.io_ret.
  destruct s as [w log].
  destruct (Env.predict_db svc); cbv beta iota; cbn [fst snd].
  - destruct (Env.prediction_update svc pid Env.Running w) as [[[]|e] w1];
      cbv beta iota; cbn [fst snd]; (split; [reflexivity|]).
    + destruct (Task.fetch_data svc ticker _) as [[[df md]|e] [w2 log2]];
        cbv beta iota; cbn [fst snd].
      * destruct (Predict.run_prediction
                    (Task.with_data L read_prices read_market df md)
                    pid ticker hs g)
          as [[rs ts|e] g']; cbn [fst snd].
        -- destruct (Env.prediction_update svc pid (Env.Completed rs ts _) _)
             as [[[]|e] w3]; cbv beta iota; cbn [fst snd].
           ++ split; [reflexivity|].
              eexists. split; [reflexivity|].
              eexists _, []. split; [reflexivity|]. left. reflexivity.
           ++ destruct (Env.prediction_update svc pid (Env.Failed _) w3)
                as [[[]|e'] w4]; cbv beta iota; cbn [fst snd];
                (split; [reflexivity|];
                 eexists; split; [rewrite <- !app_assoc; reflexivity|];
                 eexists _, _; split; [reflexivity|];
                 right; eexists; reflexivity).
        -- destruct (Env.prediction_update svc pid (Env.Failed _) _)
             as [[[]|e'] w3]; cbv beta iota; cbn [fst snd];
             (split; [reflexivity|]; eexists; split; reflexivity).
      * destruct (Env.prediction_update svc pid (Env.Failed _) w2)
          as [[[]|e'] w3]; cbv beta iota; cbn [fst snd];
          (split; reflexivity).
    + destruct (Env.prediction_update svc pid (Env.Failed _) w1)
        as [[[]|e'] w2]; cbv beta iota; cbn [fst snd]; (split; reflexivity).
  - split; [reflexivity|].
    destruct (Task.fetch_data svc ticker _) as [[[df md]|e] [w2 log2]];
      cbv beta iota; cbn [fst snd].
    + destruct (Predict.run_prediction
                    (Task.with_data L read_prices read_market df md)
                    pid ticker hs g)
        as [[rs ts|e] g']; cbn [fst snd]; (split; [reflexivity|]);
        exists []; rewrite app_nil_r; split; reflexivity.
    + rewrite app_nil_r. split; reflexivity.
Qed.

(** X20.  The final status of a run reflects its outcome.  When the
    module has a client and the document accepts its updates, a run
    makes exactly two updates, one before and one after the calls of
    the fetcher: running, and then [failed] with the message of the
    exception, when the fetcher raised or the pipeline failed, or
    [completed], if and only if the pipeline completed, with its
    horizon results and chart series and the time of the clock when
    the pipeline has run.  The generator is left as the pipeline left
    it. *)
Theorem run_prediction_reports_outcome :
  forall (svc : Env.Services) (L : Predict.Libs)
         (read_prices : Frame.t -> result (list Engineering.ohlcv))
         (read_market :
            Py.dict Frame.t -> result (list (string * Engineering.market_frame)))
         (elapse : Env.World svc -> Env.World svc)
         (prediction_id ticker : string) (horizons : list string)
         (g : RandomState (Predict.np L)) (s : Env.state svc),
    Env.predict_db svc = true ->
    (forall u w, Py.returned (fst (Env.prediction_update svc prediction_id u w))
                 = true) ->
    let out := Task.run_prediction svc L read_prices read_market elapse
                 prediction_id ticker horizons g s in
    let upd := Env.PredictionUpdate prediction_id in
    let w1 := snd (Env.prediction_update svc prediction_id Env.Running (fst s)) in
    let fetched :=
      Task.fetch_data svc ticker (w1, snd s ++ [upd Env.Running]) in
    match fst fetched with
    | Py.Raises e =>
        fst out = g /\
        snd (snd out)
        = snd (snd fetched) ++ [upd (Env.Failed (Task.str_exc e))]
    | Py.Returns (df, market_data) =>
        let pipeline :=
          Predict.run_prediction
            (Task.with_data L read_prices read_market df market_data)
            prediction_id ticker horizons g in
        fst out = snd pipeline /\
        snd (snd out)
        = snd (snd fetched) ++
          [upd
             match fst pipeline with
             | Predict.Completed rs ts =>
                 Env.Completed rs ts
                   (Env.isoformat svc
                      {| Env.micros :=
                           Env.utcnow svc (elapse (fst (snd fetched)));
                         Env.aware := false |})
             | Predict.Failed e => Env.Failed (Task.str_exc (Py.Builtin e))
             end]
    end.
Proof.
  intros svc L read_prices read_market elapse pid ticker hs g s Hdb Hok
    out upd w1 fetched.
  subst out upd w1 fetched.
  unfold Task.run_prediction, Task.report_failure, Task.update_status,
    Py.try_except, Py.io_bind, Env.now, Env.call, Py.io_ret.
  rewrite Hdb. cbv beta iota. destruct s as [w log]. cbn [fst snd].
  pose proof (Hok Env.Running w) as Hrun.
  destruct (Env.prediction_update svc pid Env.Running w) as [[[]|e] w1];
    [|discriminate Hrun]. cbv beta iota; cbn [fst snd].
  destruct (Task.fetch_data svc ticker _) as [[[df md]|e] [w2 log2]];
    cbv beta iota; cbn [fst snd].
  - destruct (Predict.run_prediction
                    (Task.with_data L read_prices read_market df md)
                    pid ticker hs g) as [[rs ts|e] g'];
      cbn [fst snd].
    + match goal with
      | |- context [Env.prediction_update svc pid ?u ?w'] =>
          pose proof (Hok u w') as Hdone;
          destruct (Env.prediction_update svc pid u w') as [[[]|e] w3];
          [|discriminate Hdone]
      end.
      cbv beta iota; cbn [fst snd]. split; reflexivity.
    + match goal with
      | |- context [Env.prediction_update svc pid ?u ?w'] =>
          pose proof (Hok u w') as Hdone;
          destruct (Env.prediction_update svc pid u w') as [[[]|e'] w3];
          [|discriminate Hdone]
      end.
      cbv beta iota; cbn [fst snd]. split; reflexivity.
  - match goal with
    | |- context [Env.prediction_update svc pid ?u ?w'] =>
        pose proof (Hok u w') as Hdone;
        destruct (Env.prediction_update svc pid u w') as [[[]|e'] w3];
        [|discriminate Hdone]
    end.
    cbv beta iota; cbn [fst snd]. split; reflexivity.
Qed.

Lemma run_prediction_reports_outcome_witness :
  let svc := Sample.services true false in
  let s := Sample.start true false 1 in
  let out := Task.run_prediction svc (Reference.libs 0) Sample.read_prices
               Sample.read_market Sample.elapse "p1" "smpl" ["1yr"]
               0%float s in
  let upd := Env.PredictionUpdate "p1" in
  let w1 := snd (Env.prediction_update svc "p1" Env.Running (fst s)) in
  let fetched :=
    Task.fetch_data svc "smpl" (w1, snd s ++ [upd Env.Running]) in
  match fst fetched with
  | Py.Raises e =>
      fst out = 0%float /\
      snd (snd out)
      = snd (snd fetched) ++ [upd (Env.Failed (Task.str_exc e))]
  | Py.Returns (df, market_data) =>
      let pipeline :=
        Predict.run_prediction
          (Task.with_data (Reference.libs 0) Sample.read_prices
             Sample.read_market df market_data)
          "p1" "smpl" ["1yr"] 0%float in
      fst out = snd pipeline /\
      snd (snd out)
      = snd (snd fetched) ++
        [upd
           match fst pipeline with
           | Predict.Completed rs ts =>
               Env.Completed rs ts
                 (Env.isoformat svc
                    {| Env.micros :=
                         Env.utcnow svc (Sample.elapse (fst (snd fetched)));
                       Env.aware := false |})
           | Predict.Failed e => Env.Failed (Task.str_exc (Py.Builtin e))
           end]
  end.
Proof.
  exact (run_prediction_reports_outcome (Sample.services true false)
           (Reference.libs 0) Sample.read_prices Sample.read_market
           Sample.elapse "p1" "smpl" ["1yr"] 0%float
           (Sample.start true false 1) eq_refl (fun _ _ => eq_refl)).
Defined.

(* ================================================================== *)
(** * The history and the company record of a ticker *)

Section RequestFacts.
Context (svc : Env.Services).
Implicit Types (s : Env.state svc).

(** X21.  [fetch_ohlcv] never returns an empty frame: a frame it returns
    has at least one row and exactly the six price labels (every label
    is one of them, and each of them is a label).  It asks for the
    history one to three times and calls nothing else.  An empty
    history is an answer, not a failure: it is not asked for again, and
    [ValueError("No data returned for <ticker>")] is raised after the one
    request, without a pause. *)
Theorem fetch_ohlcv_checks_history (ticker period : string) s :
  (forall df,
     fst (Fetcher.fetch_ohlcv svc ticker period s) = Py.Returns df ->
     0 < Frame.len df /\
     Forall (fun l => l ∈ ohlcv_labels) (Frame.labels df) /\
     Forall (fun n => n ∈ Frame.labels df) ohlcv_labels) /\
  (exists k,
     1 <= k <= 3 /\
     calls_of (Fetcher.fetch_ohlcv svc ticker period) s
       = attempts (Env.History ticker period) k) /\
  (forall df0 w1,
     Env.history svc ticker period (fst s) = (Py.Returns df0, w1) ->
     Frame.empty df0 = true ->
     Fetcher.fetch_ohlcv svc ticker period s =
       (Py.Raises (Py.Builtin (ValueError ("No data returned for " ++ ticker))),
        (w1, snd s ++ [Env.History ticker period]))).
Proof.
  destruct (fetch_ohlcv_spec svc ticker period s) as (k & Hk & Hlog & Hdf).
  split; [|split].
  - intros df Hout. destruct (Hdf df Hout) as (Hl1 & Hl2 & Hlen).
    split; [exact Hlen|]. split; assumption.
  - exists k. split; [exact Hk|]. unfold calls_of. rewrite Hlog.
    apply drop_app_length.
  - intros df0 w1 Hanswer Hempty. unfold Fetcher.fetch_ohlcv, Py.io_bind.
    rewrite retry_call_unfold, Hanswer. cbv beta iota. rewrite Hempty.
    reflexivity.
Qed.

(** X22.  For a ticker of ASCII text, the record [fetch_company_info]
    returns has the eight keys of
    the stock document, the ticker in upper case, and no field that is
    [None]: a field yfinance leaves out, or holds as [None], zero or the
    empty text, is replaced by its default (the ticker as given for the
    name, the empty text for exchange and sector, 0 for the three
    numbers).  A record that is [None] itself is not replaced, as it is
    in [stock_search]: the function raises [AttributeError] after the
    one request. *)
Theorem fetch_company_info_no_missing_field (ticker : string) s :
  Py.is_ascii ticker = true ->
  (forall r,
     fst (Fetcher.fetch_company_info svc ticker s) = Py.Returns r ->
     map fst r = company_keys /\
     Py.get r "ticker" = Py.VStr (Py.upper ticker) /\
     Forall (fun kv => snd kv <> Py.VNone) r /\
     (Py.truthy (Py.get r "name") = true \/
      Py.get r "name" = Py.VStr ticker) /\
     Forall (fun k => Py.truthy (Py.get r k) = true \/
                      Py.get r k = Py.VStr "")
            ["exchange"; "sector"]%string /\
     Forall (fun k => Py.truthy (Py.get r k) = true \/
                      Py.get r k = Py.VInt 0)
            ["lastPrice"; "change"; "changePercent"]%string) /\
  (forall w1,
     Env.info svc ticker (fst s) = (Py.Returns None, w1) ->
     Fetcher.fetch_company_info svc ticker s =
       (Py.Raises (Py.AttributeError "'NoneType' object has no attribute 'get'"),
        (w1, snd s ++ [Env.Info ticker]))).
Proof.
  intros _.
  assert (Hor : forall a b, Py.truthy (Py.or_ a b) = true \/ Py.or_ a b = b).
  { intros a b. unfold Py.or_. destruct (Py.truthy a) eqn:Ha; [left|right];
      [exact Ha | reflexivity]. }
  assert (Hnone : forall a b, b <> Py.VNone -> Py.or_ a b <> Py.VNone).
  { intros a b Hb. unfold Py.or_. destruct (Py.truthy a) eqn:Ha; [|exact Hb].
    intros ->. discriminate Ha. }
  split.
  - intros r. unfold Fetcher.fetch_company_info, Py.io_bind.
    destruct (Fetcher._retry svc _ s) as [[[[info|]|]|e] s1];
      cbv beta iota; cbn [fst]; try discriminate.
    unfold Env.now, Py.io_ret. cbn [fst]. intros Hr. injection Hr as <-.
    split; [reflexivity|]. split; [reflexivity|].
    split; [|split; [|split]].
    + repeat (constructor 2;
              [cbn [snd]; first [discriminate | repeat apply Hnone; discriminate]|]).
      constructor 1.
    + unfold Py.get at 1 3. cbn [Py.lookup String.eqb Ascii.eqb Bool.eqb default].
      cbn. apply Hor.
    + repeat (constructor 2; [unfold Py.get at 1 3; cbn; apply Hor|]).
      constructor 1.
    + repeat (constructor 2; [unfold Py.get at 1 3; cbn; apply Hor|]).
      constructor 1.
  - intros w1 Hanswer. unfold Fetcher.fetch_company_info, Py.io_bind.
    rewrite retry_call_unfold, Hanswer. reflexivity.
Qed.

End RequestFacts.

Lemma fetch_company_info_no_missing_field_witness :
  exists r,
    fst (Fetcher.fetch_company_info (Sample.services true false) "smpl"
           (Sample.start true false 0)) = Py.Returns r /\
    map fst r = company_keys /\
    Py.get r "ticker" = Py.VStr "SMPL" /\
    Py.get r "sector" = Py.VStr "" /\
    Forall (fun kv => snd kv <> Py.VNone) r.
Proof.
  assert (Py.returned
            (fst (Fetcher.fetch_company_info (Sample.services true false)
                    "smpl" (Sample.start true false 0))) = true) as Hok
    by (vm_compute; reflexivity).
  destruct (fst (Fetcher.fetch_company_info (Sample.services true false)
                   "smpl" (Sample.start true false 0))) as [r|e] eqn:Hr;
    [|discriminate Hok].
  destruct (fetch_company_info_no_missing_field (Sample.services true false)
              "smpl" (Sample.start true false 0) eq_refl)
    as [Hrec _].
  destruct (Hrec r Hr) as (Hkeys & Hticker & Hnone & _ & _ & _).
  exists r. split; [reflexivity|]. split; [exact Hkeys|].
  split; [exact Hticker|]. split; [|exact Hnone].
  vm_compute in Hr. injection Hr as <-. reflexivity.
Defined.

(* ================================================================== *)
(** * Dictionaries and records *)

Lemma lookup_set_eq {V} (d : Py.dict V) (k : string) (v : V) :
  Py.lookup (Py.set d k v) k = Some v.
Proof.
  induction d as [|[k' v'] d IH]; cbn.
  - rewrite String.eqb_refl. reflexivity.
  - destruct (String.eqb k' k) eqn:Hk; cbn.
    + rewrite String.eqb_refl. reflexivity.
    + rewrite Hk. exact IH.
Qed.

Lemma lookup_set_ne {V} (d : Py.dict V) (k k' : string) (v : V) :
  k <> k' -> Py.lookup (Py.set d k v) k' = Py.lookup d k'.
Proof.
  intros Hne. induction d as [|[k0 v0] d IH]; cbn.
  - apply String.eqb_neq in Hne. rewrite Hne. reflexivity.
  - destruct (String.eqb k0 k) eqn:Hk; cbn.
    + apply String.eqb_eq in Hk. subst k0.
      apply String.eqb_neq in Hne. rewrite Hne. reflexivity.
    + destruct (String.eqb k0 k'); [reflexivity | exact IH].
Qed.

Lemma keys_set {V} (d : Py.dict V) (k k' : string) (v : V) :
  k' ∈ map fst (Py.set d k v) <-> k' = k \/ k' ∈ map fst d.
Proof.
  induction d as [|[k0 v0] d IH]; cbn.
  - rewrite list_elem_of_singleton. rewrite elem_of_nil. tauto.
  - destruct (String.eqb k0 k) eqn:Hk; cbn; rewrite !elem_of_cons.
    + apply String.eqb_eq in Hk. subst k0. tauto.
    + rewrite IH. tauto.
Qed.

Lemma lookup_is_Some {V} (d : Py.dict V) (k : string) :
  is_Some (Py.lookup d k) <-> k ∈ map fst d.
Proof.
  induction d as [|[k0 v0] d IH]; cbn.
  - rewrite elem_of_nil. split; [intros [x Hx]; discriminate Hx | tauto].
  - rewrite elem_of_cons. destruct (String.eqb k0 k) eqn:Hk.
    + apply String.eqb_eq in Hk. subst k0. split; [left; reflexivity | eauto].
    + apply String.eqb_neq in Hk. rewrite IH. split; [tauto|].
      intros [->|Hin]; [contradiction | exact Hin].
Qed.

(** A dictionary built from pairs holds, under a key none of the later
    pairs has, what it held before; its keys are the keys of the
    pairs. *)
Lemma lookup_of_pairs_absent {V} (kvs : list (string * V)) (d : Py.dict V)
    (k : string) :
  ~ k ∈ map fst kvs ->
  Py.lookup (fold_left (fun d kv => Py.set d (fst kv) (snd kv)) kvs d) k
  = Py.lookup d k.
Proof.
  revert d. induction kvs as [|[k0 v0] kvs IH]; intros d Hk; [reflexivity|].
  cbn in *. rewrite elem_of_cons in Hk.
  rewrite IH by tauto. apply lookup_set_ne. intros ->. tauto.
Qed.

Lemma keys_of_pairs {V} (kvs : list (string * V)) (d : Py.dict V) (k : string) :
  k ∈ map fst (fold_left (fun d kv => Py.set d (fst kv) (snd kv)) kvs d)
  <-> k ∈ map fst kvs \/ k ∈ map fst d.
Proof.
  revert d. induction kvs as [|[k0 v0] kvs IH]; intros d; cbn.
  - rewrite elem_of_nil. tauto.
  - rewrite IH, keys_set, elem_of_cons. tauto.
Qed.

(* ================================================================== *)
(** * Well-formed frames *)

Lemma reset_index_well_formed (df out : Frame.t) :
  frame_well_formed df -> Frame.reset_index df = Py.Returns out ->
  frame_well_formed out /\ Frame.len out = Frame.len df.
Proof.
  intros [Hlen Hrows]. unfold Frame.reset_index.
  destruct (Frame.has_label _ df); [discriminate|]. intros [= <-].
  unfold frame_well_formed, Frame.len. cbn.
  unfold Frame.range_index. rewrite length_map, length_seq.
  split; [|reflexivity]. unfold Frame.len. split.
  - rewrite length_zip_with. lia.
  - apply Forall_forall. intros r Hr.
    apply elem_of_lookup_zip_with in Hr as (i & c & r0 & -> & _ & Hr0).
    cbn. f_equal. rewrite Forall_forall in Hrows. apply Hrows.
    eapply list_elem_of_lookup_2. exact Hr0.
Qed.

Lemma map_labels_well_formed (f : string -> string) (df : Frame.t) :
  frame_well_formed df -> frame_well_formed (Frame.map_labels f df).
Proof.
  intros [Hlen Hrows]. split; [exact Hlen|]. cbn. rewrite length_map. exact Hrows.
Qed.

(** The selection of [date] and of labels other than [date], from a
    frame with one column [date]: that column comes first, and under
    no other label. *)
Lemma select_date_first (names : list string) (df out : Frame.t) (j : nat) :
  Frame.positions "date" df = [j] -> ~ "date"%string ∈ names ->
  Frame.select ("date"%string :: names) df = Py.Returns out ->
  exists js,
    Frame.labels out
      = "date"%string :: map (fun j => nth j (Frame.labels df) ""%string) js /\
    ~ "date"%string ∈ map (fun j => nth j (Frame.labels df) ""%string) js /\
    Frame.rows out
      = map (fun r => nth j r (Frame.Number nan)
                      :: map (fun j => nth j r (Frame.Number nan)) js)
            (Frame.rows df).
Proof.
  intros Hdate Hnames. unfold Frame.select.
  destruct (filter _ _) as [|missing rest]; [|discriminate]. intros [= <-].
  cbn [flat_map]. rewrite Hdate. cbn [app map Frame.labels Frame.rows].
  exists (flat_map (fun n => Frame.positions n df) names).
  assert (Hj : nth j (Frame.labels df) ""%string = "date"%string).
  { assert (j ∈ Frame.positions "date" df) as Hin
      by (rewrite Hdate; apply list_elem_of_here).
    apply positions_spec in Hin. apply (nth_lookup_Some _ _ _ _ Hin). }
  rewrite Hj. split; [reflexivity|]. split; [|reflexivity].
  intros Hin. apply list_elem_of_fmap in Hin as (j' & Heq & Hj').
  apply list_elem_of_In, in_flat_map in Hj' as (n & Hn & Hj').
  apply list_elem_of_In in Hn, Hj'. apply positions_spec in Hj'.
  rewrite (nth_lookup_Some _ _ _ _ Hj') in Heq. subst n. contradiction.
Qed.

(* ================================================================== *)
(** * The history endpoint *)

Section HistoryFacts.
Context (svc : Env.Services).
Implicit Types (s : Env.state svc).

(** What [_retry] answers on a request is what the service answered in
    some world. *)
Lemma retry_call_answer {A} (e : Env.event)
    (op : Env.World svc -> Py.reply A * Env.World svc) s (a : option A) :
  fst (Fetcher._retry svc (Env.call e op) s) = Py.Returns a ->
  exists a0 w, a = Some a0 /\ fst (op w) = Py.Returns a0.
Proof.
  rewrite retry_call_unfold.
  destruct (op (fst s)) as [[a1|x1] w1] eqn:H1.
  { intros [= <-]. exists a1, (fst s). rewrite H1. split; reflexivity. }
  destruct (op (Env.sleep svc 2 w1)) as [[a2|x2] w2] eqn:H2.
  { intros [= <-]. exists a2, (Env.sleep svc 2 w1). rewrite H2.
    split; reflexivity. }
  destruct (op (Env.sleep svc 4 w2)) as [[a3|x3] w3] eqn:H3.
  { intros [= <-]. exists a3, (Env.sleep svc 4 w2). rewrite H3.
    split; reflexivity. }
  discriminate.
Qed.

(** The dates [localize_dates] leaves in a well-formed frame with a
    column [date] are naive timestamps, in the one column of that
    label. *)
Lemma localize_dates_naive (df out : Frame.t) s :
  (forall col col',
     Env.to_datetime svc col = Py.Returns col' -> length col' = length col) ->
  frame_well_formed df -> "date"%string ∈ Frame.labels df ->
  fst (Fetcher.localize_dates svc df s) = Py.Returns out ->
  exists j,
    Frame.positions "date" out = [j] /\
    frame_well_formed out /\
    Frame.labels out = Frame.labels df /\
    Frame.index out = Frame.index df /\
    Forall (fun r => exists wall,
                       nth j r (Frame.Number nan) = Frame.Timestamp wall None)
           (Frame.rows out).
Proof.
  intros Hto [Hlen Hrows] Hdate. unfold Fetcher.localize_dates.
  apply has_label_spec in Hdate. rewrite Hdate.
  unfold Py.io_bind, Py.lift, Py.io_ret, Py.raise, Frame.series.
  destruct (Frame.positions "date" df) as [|j [|j' js]] eqn:Hpos;
    cbv beta iota; cbn [fst]; try discriminate.
  set (col := Frame.column_at j df).
  assert (Hcol : length col = length (Frame.rows df))
    by (unfold col, Frame.column_at; apply length_map).
  assert (Hj : j < length (Frame.labels df)).
  { assert (j ∈ Frame.positions "date" df) as Hin
      by (rewrite Hpos; apply list_elem_of_here).
    apply positions_spec in Hin. apply lookup_lt_Some in Hin. exact Hin. }
  assert (Hassign : forall col2,
            length col2 = length (Frame.rows df) ->
            forallb Frame.is_timestamp col2 = true ->
            let out := Frame.assign "date" (map Frame.tz_localize_none col2) df in
            Frame.positions "date" out = [j] /\
            frame_well_formed out /\
            Frame.labels out = Frame.labels df /\
            Frame.index out = Frame.index df /\
            Forall (fun r => exists wall,
                       nth j r (Frame.Number nan) = Frame.Timestamp wall None)
                   (Frame.rows out)).
  { intros col2 Hlen2 Hts. unfold Frame.assign. rewrite Hpos. cbv zeta.
    split; [exact Hpos|]. split; [|split; [reflexivity|split; [reflexivity|]]].
    - split; cbn [Frame.rows Frame.index Frame.labels].
      + rewrite length_imap. exact Hlen.
      + apply Forall_forall. intros r Hr.
        apply elem_of_lookup_imap in Hr as (i & r0 & -> & Hr0).
        rewrite length_imap. rewrite Forall_forall in Hrows. apply Hrows.
        eapply list_elem_of_lookup_2. exact Hr0.
    - cbn [Frame.rows]. apply Forall_forall. intros r Hr.
      apply elem_of_lookup_imap in Hr as (i & r0 & -> & Hr0).
      assert (Hr0len : length r0 = length (Frame.labels df)).
      { rewrite Forall_forall in Hrows. apply Hrows.
        eapply list_elem_of_lookup_2. exact Hr0. }
      assert (Hi : i < length col2)
        by (rewrite Hlen2; eapply lookup_lt_Some; exact Hr0).
      destruct (lookup_lt_is_Some_2 col2 i Hi) as [c Hc].
      assert (Hjr : j < length r0) by lia.
      destruct (lookup_lt_is_Some_2 r0 j Hjr) as [c0 Hc0].
      assert (Hcell : imap (fun j0 c1 =>
                 if bool_decide (j0 ∈ [j])
                 then nth i (map Frame.tz_localize_none col2) (Frame.Number nan)
                 else c1) r0 !! j
               = Some (nth i (map Frame.tz_localize_none col2) (Frame.Number nan))).
      { rewrite list_lookup_imap, Hc0. cbn.
        rewrite bool_decide_eq_true_2 by apply list_elem_of_here. reflexivity. }
      rewrite (nth_lookup_Some _ _ _ _ Hcell).
      assert (Hc' : map Frame.tz_localize_none col2 !! i
                    = Some (Frame.tz_localize_none c))
        by (rewrite list_lookup_fmap, Hc; reflexivity).
      rewrite (nth_lookup_Some _ _ _ _ Hc').
      rewrite forallb_forall in Hts.
      assert (Frame.is_timestamp c = true) as Hts_c.
      { apply Hts. apply list_elem_of_In. eapply list_elem_of_lookup_2. exact Hc. }
      destruct c as [wall tz| | |]; try discriminate Hts_c.
      exists wall. reflexivity. }
  destruct (forallb Frame.is_timestamp col) eqn:Hts.
  - rewrite Hts. intros [= <-]. exists j. apply Hassign; assumption.
  - destruct (Env.to_datetime svc col) as [col'|x] eqn:Hconv;
      cbv beta iota; cbn [fst]; [|discriminate].
    destruct (forallb Frame.is_timestamp col') eqn:Hts';
      cbn [fst]; [|discriminate].
    intros [= <-]. exists j. apply Hassign; [|exact Hts'].
    rewrite (Hto _ _ Hconv). exact Hcol.
Qed.

(** In a frame [fetch_ohlcv] returns, the first column is the one
    column [date], of naive timestamps, and the frame is well formed. *)
Lemma fetch_ohlcv_dates (ticker period : string) s (df : Frame.t) :
  histories_well_formed svc ->
  fst (Fetcher.fetch_ohlcv svc ticker period s) = Py.Returns df ->
  exists ls,
    Frame.labels df = "date"%string :: ls /\
    ~ "date"%string ∈ ls /\
    length (Frame.rows df) = Frame.len df /\
    Forall (fun r => exists wall rest,
                       r = Frame.Timestamp wall None :: rest /\
                       length rest = length ls)
           (Frame.rows df).
Proof.
  intros [Hhist Hto]. unfold Fetcher.fetch_ohlcv, Py.io_bind.
  destruct (Fetcher._retry svc _ s) as [[[df0|]|e] s1] eqn:Hretry;
    cbv beta iota; cbn [fst]; try discriminate.
  assert (Hwf0 : frame_well_formed df0).
  { assert (fst (Fetcher._retry svc
                   (Env.call (Env.History ticker period)
                             (Env.history svc ticker period)) s)
            = Py.Returns (Some df0)) as Hfst by (rewrite Hretry; reflexivity).
    apply retry_call_answer in Hfst as (a0 & w & [= <-] & Hw).
    exact (Hhist _ _ _ _ Hw). }
  destruct (Frame.empty df0); cbn [fst]; [discriminate|].
  unfold Py.lift.
  destruct (Frame.reset_index df0) as [df1|e] eqn:Hreset;
    cbv beta iota; cbn [fst]; [|discriminate].
  destruct (reset_index_well_formed _ _ Hwf0 Hreset) as [Hwf1 _].
  apply (map_labels_well_formed Fetcher.normalise) in Hwf1.
  set (df1' := Frame.map_labels Fetcher.normalise df1) in *.
  destruct (Fetcher.localize_dates svc df1' s1) as [[df2|e] s2] eqn:Hloc;
    cbv beta iota; cbn [fst]; [|discriminate].
  intros Hsel.
  assert (Hdate : "date"%string ∈ Frame.labels df1').
  { destruct (Frame.has_label "date" df1') eqn:Hhas;
      [apply has_label_spec; exact Hhas|].
    exfalso. unfold Fetcher.localize_dates in Hloc. rewrite Hhas in Hloc.
    injection Hloc as <- <-.
    assert (Hnil : Frame.positions "date" df1' = []).
    { apply positions_nil. intros Hin. apply has_label_spec in Hin.
      congruence. }
    unfold Frame.select in Hsel.
    rewrite filter_cons_True in Hsel by exact Hnil. discriminate Hsel. }
  assert (Hfst : fst (Fetcher.localize_dates svc df1' s1) = Py.Returns df2)
    by (rewrite Hloc; reflexivity).
  destruct (localize_dates_naive _ _ _ Hto Hwf1 Hdate Hfst)
    as (j & Hpos & [Hlen2 Hrows2] & Hlabels & Hindex & Hts).
  destruct (select_date_first ["open"; "high"; "low"; "close"; "volume"]%string
              df2 df j Hpos) as (js & Hl & Hnot & Hrows); [| exact Hsel |].
  { intros Hin. repeat (apply elem_of_cons in Hin as [Hin|Hin];
                        [discriminate Hin|]).
    apply elem_of_nil in Hin. exact Hin. }
  exists (map (fun j => nth j (Frame.labels df2) ""%string) js).
  split; [exact Hl|]. split; [exact Hnot|].
  apply select_labels in Hsel as (_ & _ & Hidx & Hlen).
  split; [unfold Frame.len; rewrite Hlen, Hidx; exact Hlen2|].
  rewrite Hrows. apply Forall_map. eapply Forall_impl; [exact Hts|].
  cbv beta. intros r [wall Hr]. exists wall, (map (fun j => nth j r (Frame.Number nan)) js).
  rewrite Hr. split; [reflexivity|]. rewrite !length_map. reflexivity.
Qed.

(** The records of such a frame: each holds its naive timestamp under
    [date], and has the labels of the frame as keys. *)
Lemma to_records_dates (df : Frame.t) (ls : list string) :
  Frame.labels df = "date"%string :: ls -> ~ "date"%string ∈ ls ->
  Forall (fun r => exists wall rest,
                     r = Frame.Timestamp wall None :: rest /\
                     length rest = length ls)
         (Frame.rows df) ->
  Forall (fun r => (exists wall,
                      Py.lookup r "date" = Some (Frame.Timestamp wall None)) /\
                   forall k, k ∈ map fst r <-> k ∈ Frame.labels df)
         (Frame.to_records df).
Proof.
  intros Hl Hnot Hrows. unfold Frame.to_records. apply Forall_map.
  eapply Forall_impl; [exact Hrows|]. cbv beta.
  intros r (wall & rest & -> & Hlen). rewrite Hl.
  unfold Py.of_pairs. cbn [zip zip_with fold_left fst snd Py.set].
  assert (Hkeys : map fst (zip ls rest) = ls) by (apply fst_zip; lia).
  split.
  - exists wall. rewrite lookup_of_pairs_absent by (rewrite Hkeys; exact Hnot).
    reflexivity.
  - intros k. rewrite keys_of_pairs, Hkeys. cbn [map fst].
    rewrite !elem_of_cons, elem_of_nil. tauto.
Qed.

(** The loop of [stock_history] over records that hold a timestamp
    under [date]: every date becomes the text of its day, and nothing
    else changes. *)
Lemma format_dates_spec (rs : list (Py.dict Frame.cell)) :
  Forall (fun r => exists wall,
                     Py.lookup r "date" = Some (Frame.Timestamp wall None)) rs ->
  exists rs',
    Main.format_dates svc rs = Py.Returns rs' /\
    Forall2 (fun r r' =>
               exists wall,
                 Py.lookup r "date" = Some (Frame.Timestamp wall None) /\
                 r' = Py.set r "date" (Frame.Text (Frame.strftime_ymd wall)))
            rs rs'.
Proof.
  induction 1 as [|r rs [wall Hr] _ (rs' & Hrs & Hall)].
  - exists []. split; [reflexivity | constructor].
  - exists (Py.set r "date" (Frame.Text (Frame.strftime_ymd wall)) :: rs').
    cbn [Main.format_dates]. unfold Main.format_date. rewrite Hr, Hrs.
    split; [reflexivity|]. constructor; [|exact Hall].
    exists wall. split; [exact Hr | reflexivity].
Qed.

(** X23.  With histories that are well-formed frames and a ticker of
    ASCII text, [stock_history]
    raises exactly when [fetch_ohlcv] on the upper-case ticker does, and
    with its exception; it calls nothing else.  Otherwise it returns one
    record per row of the frame, at least one; each is the record of
    its row with the date, a naive timestamp, replaced by the text of
    its day, and its keys are the six price labels.  The fallback
    [str(r["date"])] is never taken. *)
Theorem stock_history_records :
  histories_well_formed svc ->
  forall (ticker period : string) s,
    Py.is_ascii ticker = true ->
    let fetched := Fetcher.fetch_ohlcv svc (Py.upper ticker) period s in
    snd (Main.stock_history svc ticker period s) = snd fetched /\
    match fst fetched with
    | Py.Raises e => fst (Main.stock_history svc ticker period s) = Py.Raises e
    | Py.Returns df =>
        exists rs,
          fst (Main.stock_history svc ticker period s) = Py.Returns rs /\
          length rs = Frame.len df /\ 0 < length rs /\
          Forall2 (fun r r' =>
                     exists wall,
                       Py.lookup r "date" = Some (Frame.Timestamp wall None) /\
                       r' = Py.set r "date"
                                   (Frame.Text (Frame.strftime_ymd wall)))
                  (Frame.to_records df) rs /\
          Forall (fun r' => forall k,
                              is_Some (Py.lookup r' k) <-> k ∈ ohlcv_labels)
                 rs
    end.
Proof.
  intros Hwf ticker period s _ fetched.
  pose proof (fetch_ohlcv_dates (Py.upper ticker) period s) as Hdates.
  destruct (fetch_ohlcv_spec svc (Py.upper ticker) period s)
    as (_ & _ & _ & Hshape).
  unfold Main.stock_history, Py.io_bind. fold fetched in Hdates, Hshape |- *.
  destruct fetched as [[df|e] s1]; cbn [fst snd] in *;
    [|split; reflexivity].
  destruct (Hdates df Hwf eq_refl) as (ls & Hl & Hnot & Hlen & Hrows).
  destruct (Hshape df eq_refl) as (Hl1 & Hl2 & Hpos).
  pose proof (to_records_dates df ls Hl Hnot Hrows) as Hrecords.
  destruct (format_dates_spec (Frame.to_records df)) as (rs & Hrs & Hall).
  { eapply Forall_impl; [exact Hrecords|]. cbv beta. intros r [Hr _]. exact Hr. }
  unfold Py.lift. rewrite Hrs. cbn [fst snd]. split; [reflexivity|].
  exists rs. split; [reflexivity|].
  assert (Hlen_rs : length rs = Frame.len df).
  { rewrite <- (Forall2_length _ _ _ Hall). unfold Frame.to_records.
    rewrite length_map. exact Hlen. }
  split; [exact Hlen_rs|]. split; [lia|]. split; [exact Hall|].
  clear Hrs Hlen_rs. induction Hall as [|r r' rs0 rs0' (wall & Hr & ->) _ IH];
    [constructor|].
  apply Forall_cons_1 in Hrecords as [[_ Hkeys] Hrecords].
  constructor; [|exact (IH Hrecords)].
  intros k. rewrite lookup_is_Some, keys_set, Hkeys.
  rewrite Forall_forall in Hl1, Hl2. split.
  - intros [-> | Hk]; [|exact (Hl1 k Hk)].
    unfold ohlcv_labels. apply list_elem_of_here.
  - intros Hk. right. exact (Hl2 k Hk).
Qed.

End HistoryFacts.

Lemma stock_history_records_witness :
  histories_well_formed (Sample.services true false) /\
  let svc := Sample.services true false in
  let s := Sample.start true false 1 in
  let fetched := Fetcher.fetch_ohlcv svc (Py.upper "smpl") "1y" s in
  snd (Main.stock_history svc "smpl" "1y" s) = snd fetched /\
  match fst fetched with
  | Py.Raises e => fst (Main.stock_history svc "smpl" "1y" s) = Py.Raises e
  | Py.Returns df =>
      exists rs,
        fst (Main.stock_history svc "smpl" "1y" s) = Py.Returns rs /\
        length rs = Frame.len df /\ 0 < length rs /\
        Forall2 (fun r r' =>
                   exists wall,
                     Py.lookup r "date" = Some (Frame.Timestamp wall None) /\
                     r' = Py.set r "date"
                                 (Frame.Text (Frame.strftime_ymd wall)))
                (Frame.to_records df) rs /\
        Forall (fun r' => forall k,
                            is_Some (Py.lookup r' k) <-> k ∈ ohlcv_labels)
               rs
  end.
Proof.
  assert (Hwf : histories_well_formed (Sample.services true false)).
  { split.
    - intros symbol period w df. cbn. destruct (Sample.failing w); cbn;
        [|discriminate].
      intros [= <-]. split; [reflexivity|]. repeat constructor.
    - intros col col'. cbn. intros [= <-]. reflexivity. }
  split; [exact Hwf|].
  exact (stock_history_records (Sample.services true false) Hwf
           "smpl" "1y" (Sample.start true false 1) eq_refl).
Defined.

(* ================================================================== *)
(** * The groups of [cache_stock_to_firestore] *)

Lemma insert_year_elem (x y : Z) (ys : list Z) :
  x ∈ Fetcher.insert_year y ys <-> x = y \/ x ∈ ys.
Proof.
  induction ys as [|y' ys IH]; cbn.
  - rewrite list_elem_of_singleton, elem_of_nil. tauto.
  - destruct (y <? y')%Z eqn:Hlt; [rewrite !elem_of_cons; tauto|].
    destruct (y =? y')%Z eqn:Heq.
    + apply Z.eqb_eq in Heq. subst y'. rewrite elem_of_cons. tauto.
    + rewrite !elem_of_cons, IH. tauto.
Qed.

Lemma insert_year_sorted (y : Z) (ys : list Z) :
  StronglySorted Z.lt ys -> StronglySorted Z.lt (Fetcher.insert_year y ys).
Proof.
  induction 1 as [|y' ys Hsorted IH Hall]; cbn.
  - constructor; constructor.
  - destruct (y <? y')%Z eqn:Hlt.
    + apply Z.ltb_lt in Hlt. constructor.
      * constructor; assumption.
      * constructor; [exact Hlt|].
        eapply Forall_impl; [exact Hall|]. cbv beta. intros z Hz. lia.
    + destruct (y =? y')%Z eqn:Heq; [constructor; assumption|].
      apply Z.ltb_ge in Hlt. apply Z.eqb_neq in Heq.
      constructor; [exact IH|].
      apply Forall_forall. intros z Hz. apply insert_year_elem in Hz as [->|Hz].
      * lia.
      * rewrite Forall_forall in Hall. exact (Hall z Hz).
Qed.

(** The keys of the groups are the years of the column, each once, in
    ascending order. *)
Lemma group_keys_spec (years : list Z) :
  StronglySorted Z.lt (Fetcher.group_keys years) /\
  forall y, y ∈ Fetcher.group_keys years <-> y ∈ years.
Proof.
  unfold Fetcher.group_keys.
  assert (forall acc,
            StronglySorted Z.lt acc ->
            StronglySorted Z.lt
              (fold_left (fun ys y => Fetcher.insert_year y ys) years acc) /\
            forall y,
              y ∈ fold_left (fun ys y => Fetcher.insert_year y ys) years acc
              <-> y ∈ years \/ y ∈ acc) as Hgen.
  { induction years as [|y0 years IH]; intros acc Hacc; cbn.
    - split; [exact Hacc|]. intros y. rewrite elem_of_nil. tauto.
    - destruct (IH (Fetcher.insert_year y0 acc) (insert_year_sorted _ _ Hacc))
        as [Hs He].
      split; [exact Hs|]. intros y. rewrite He, insert_year_elem, elem_of_cons.
      tauto. }
  destruct (Hgen [] (SSorted_nil _)) as [Hs He].
  split; [exact Hs|]. intros y. rewrite He, elem_of_nil. tauto.
Qed.

Lemma sorted_lt_NoDup (ys : list Z) : StronglySorted Z.lt ys -> NoDup ys.
Proof.
  induction 1 as [|y ys _ IH Hall]; constructor; [|exact IH].
  intros Hin. rewrite Forall_forall in Hall. specialize (Hall y Hin). lia.
Qed.

(** Groups by a key that every element has, over distinct keys, hold
    every element once. *)
Lemma count_groups {A} (b : Z -> A -> bool) (keys : list Z) (l : list A) :
  NoDup keys ->
  (forall x, x ∈ l ->
             exists y0, y0 ∈ keys /\ forall y, b y x = true <-> y = y0) ->
  length (flat_map (fun y => filter (fun x => b y x = true) l) keys) = length l.
Proof.
  intros Hnodup. induction l as [|x l IH]; intros Hkey.
  - clear. induction keys as [|y keys IH]; [reflexivity|exact IH].
  - destruct (Hkey x (list_elem_of_here _ _)) as (y0 & Hy0 & Hb).
    cbn [length]. rewrite <- IH
      by (intros x' Hx'; apply Hkey; apply list_elem_of_further; exact Hx').
    clear IH Hkey. induction keys as [|y keys IH]; [apply elem_of_nil in Hy0 as []|].
    apply NoDup_cons in Hnodup as [Hy Hnodup].
    cbn [flat_map]. rewrite !length_app, filter_cons.
    destruct (decide (y = y0)) as [->|Hne].
    + rewrite decide_True by (apply Hb; reflexivity). cbn [length Nat.add].
      f_equal. f_equal. clear IH Hy0 Hnodup.
      induction keys as [|y keys IH]; [reflexivity|].
      cbn [flat_map]. rewrite !length_app, filter_cons.
      rewrite decide_False.
      * rewrite IH; [reflexivity|]. intros Hin. apply Hy.
        apply list_elem_of_further. exact Hin.
      * intros Hyx. apply Hb in Hyx. subst y. apply Hy. apply list_elem_of_here.
    + rewrite decide_False by (intros Hyx; apply Hb in Hyx; contradiction).
      apply elem_of_cons in Hy0 as [->|Hy0]; [contradiction|].
      rewrite (IH Hnodup Hy0). lia.
Qed.

(** The first values of a list that was extended, by position. *)
Lemma map_nth_prefix {A} (l t : list A) (d : A) :
  map (fun j => nth j (l ++ t) d) (seq 0 (length l)) = l.
Proof.
  apply list_eq. intros i. rewrite list_lookup_fmap.
  destruct (decide (i < length l)) as [Hi|Hi].
  - rewrite lookup_seq_lt by exact Hi. cbn.
    rewrite app_nth1 by exact Hi.
    destruct (lookup_lt_is_Some_2 l i Hi) as [x Hx].
    rewrite Hx. f_equal. apply (nth_lookup_Some _ _ _ _ Hx).
  - rewrite lookup_seq_ge by lia. cbn. symmetry.
    apply lookup_ge_None. lia.
Qed.

Lemma filter_all {A} (P : A -> Prop) `{forall x, Decision (P x)} (l : list A) :
  (forall x, x ∈ l -> P x) -> filter P l = l.
Proof.
  induction l as [|x l IH]; intros Hall; [reflexivity|].
  rewrite filter_cons, decide_True by (apply Hall; apply list_elem_of_here).
  f_equal. apply IH. intros x' Hx'. apply Hall. apply list_elem_of_further.
  exact Hx'.
Qed.

(** The columns a frame keeps when the column [year] that was appended
    to it is dropped are its own. *)
Lemma keep_without_year (labels : list string) :
  ~ "year"%string ∈ labels ->
  filter (fun j => negb (String.eqb (nth j (labels ++ ["year"%string]) ""%string)
                                    "year") = true)
         (seq 0 (length (labels ++ ["year"%string])))
  = seq 0 (length labels).
Proof.
  intros Hnew. rewrite length_app. cbn [length]. rewrite Nat.add_1_r, seq_S.
  rewrite filter_app, filter_cons, filter_nil. cbn [Nat.add].
  rewrite decide_False.
  2:{ rewrite nth_middle. cbn. discriminate. }
  rewrite app_nil_r. apply filter_all.
  intros j Hj. apply elem_of_seq in Hj as [_ Hj]. cbn in Hj.
  rewrite app_nth1 by exact Hj.
  apply negb_true_iff, String.eqb_neq. intros Heq. apply Hnew.
  rewrite <- Heq. apply list_elem_of_In, nth_In. exact Hj.
Qed.

(** Under a label a frame has once, the record of a row holds the
    value of that column. *)
Lemma lookup_record_unique (labels : list string) (r : list Frame.cell)
    (name : string) (j : nat) :
  length r = length labels ->
  labels !! j = Some name ->
  (forall i, labels !! i = Some name -> i = j) ->
  Py.lookup (Py.of_pairs (zip labels r)) name = Some (nth j r (Frame.Number nan)).
Proof.
  intros Hlen Hj Hunique.
  assert (Hjr : j < length r)
    by (rewrite Hlen; eapply lookup_lt_Some; exact Hj).
  destruct (lookup_lt_is_Some_2 r j Hjr) as [c Hc].
  rewrite (nth_lookup_Some _ _ _ _ Hc).
  rewrite <- (take_drop_middle labels j name Hj).
  rewrite <- (take_drop_middle r j c Hc).
  rewrite zip_with_app
    by (rewrite !length_take; lia).
  cbn [zip_with]. unfold Py.of_pairs. rewrite fold_left_app. cbn [fold_left fst snd].
  rewrite lookup_of_pairs_absent; [apply lookup_set_eq|].
  fold (zip (drop (S j) labels) (drop (S j) r)).
  rewrite fst_zip by (rewrite !length_drop; lia).
  intros Hin. apply list_elem_of_lookup in Hin as [i Hi].
  rewrite lookup_drop in Hi. apply Hunique in Hi. lia.
Qed.

(** [stamp_dates] on records it accepts: every date was a timestamp and
    is now the text of its day; nothing else changes. *)
Lemma stamp_dates_spec (rs ps : list (Py.dict Frame.cell)) :
  Fetcher.stamp_dates rs = Py.Returns ps ->
  Forall2 (fun r p =>
             exists wall tz,
               Py.lookup r "date" = Some (Frame.Timestamp wall tz) /\
               p = Py.set r "date" (Frame.Text (Frame.strftime_ymd wall)))
          rs ps.
Proof.
  revert ps. induction rs as [|r rs IH]; intros ps; cbn.
  - intros [= <-]. constructor.
  - unfold Fetcher.stamp_date.
    destruct (Py.lookup r "date") as [[wall tz| | |]|] eqn:Hr; try discriminate.
    destruct (Fetcher.stamp_dates rs) as [qs|e]; [|discriminate].
    intros [= <-]. constructor; [|apply IH; reflexivity].
    exists wall, tz. split; [exact Hr|reflexivity].
Qed.

(** The group of a year in a frame that was given its column [year]:
    the records of the rows of that year, without the year. *)
Lemma group_records_spec (df : Frame.t) (ycol : list Frame.cell) (y : Z) :
  ~ "year"%string ∈ Frame.labels df ->
  Forall (fun r => length r = length (Frame.labels df)) (Frame.rows df) ->
  let df' := Frame.assign "year" ycol df in
  let n := length (Frame.labels df) in
  let members :=
    filter (fun p => match nth n (snd p) (Frame.Number nan) with
                     | Frame.Integer y' => (y' =? y)%Z
                     | _ => false
                     end = true)
           (zip (Frame.index df') (Frame.rows df')) in
  length (Fetcher.group_records df' n y) = length members /\
  Forall (fun rec =>
            exists i r,
              Frame.rows df !! i = Some r /\
              rec = Py.of_pairs (zip (Frame.labels df) r) /\
              nth i ycol (Frame.Number nan) = Frame.Integer y)
         (Fetcher.group_records df' n y).
Proof.
  intros Hnew Hrows df'.
  assert (Hdf' : df' = {| Frame.index_name := Frame.index_name df;
                          Frame.index := Frame.index df;
                          Frame.labels := Frame.labels df ++ ["year"%string];
                          Frame.rows :=
                            imap (fun i r => r ++ [nth i ycol (Frame.Number nan)])
                                 (Frame.rows df) |}).
  { unfold df', Frame.assign.
    rewrite (proj2 (positions_nil "year" df) Hnew). reflexivity. }
  clearbody df'. subst df'. intros n members.
  unfold Fetcher.group_records. fold n. fold members.
  unfold Frame.drop_column, Frame.to_records.
  cbn [Frame.labels Frame.rows Frame.index Frame.index_name].
  rewrite (keep_without_year _ Hnew), map_nth_prefix.
  rewrite !length_map. split; [reflexivity|].
  apply Forall_map. apply Forall_map. apply Forall_map.
  apply Forall_forall. intros [c r'] Hin.
  subst members. apply list_elem_of_filter in Hin as [Hy Hin].
  cbn [snd] in *.
  apply elem_of_lookup_zip_with in Hin as (i & c0 & r0 & [= <- <-] & _ & Hr').
  cbn [Frame.rows] in Hr'.
  rewrite list_lookup_imap in Hr'.
  destruct (Frame.rows df !! i) as [r|] eqn:Hr; [|discriminate Hr'].
  cbn in Hr'. injection Hr' as <-.
  assert (Hlen : length r = n).
  { rewrite Forall_forall in Hrows. apply Hrows.
    eapply list_elem_of_lookup_2. exact Hr. }
  exists i, r. split; [exact Hr|].
  subst n. rewrite <- Hlen at 1. rewrite map_nth_prefix. split; [reflexivity|].
  rewrite <- Hlen in Hy. rewrite nth_middle in Hy.
  destruct (nth i ycol (Frame.Number nan)) as [| y' | |]; try discriminate Hy.
  apply Z.eqb_eq in Hy. subst y'. reflexivity.
Qed.

Section CacheGroups.
Context (svc : Env.Services).
Implicit Types (s : Env.state svc).

(** The loop over the groups, when it ends without an exception: one
    write per year, of the stamped records of its group. *)
Lemma write_years_returns (ticker : string) (df : Frame.t) (j : nat)
    (ys : list Z) :
  forall s s',
    Fetcher.write_years svc ticker df j ys s = (Py.Returns tt, s') ->
    exists docs : list (Z * list (Py.dict Frame.cell)),
      map fst docs = ys /\
      Forall (fun d => Fetcher.stamp_dates (Fetcher.group_records df j (fst d))
                       = Py.Returns (snd d)) docs /\
      snd s' = snd s ++ map (fun d => Env.PricesSet ticker
                                        (Frame.str_year (fst d)) (snd d)) docs.
Proof.
  induction ys as [|y ys IH]; intros s s'.
  - cbn. intros [= <-]. exists []. cbn. rewrite app_nil_r.
    split; [reflexivity|]. split; [constructor | reflexivity].
  - cbn [Fetcher.write_years]. unfold Py.io_bind, Py.lift.
    destruct (Fetcher.stamp_dates _) as [prices|e] eqn:Hstamp;
      [|discriminate].
    unfold Env.call at 1.
    destruct (Env.prices_set svc _ _ prices (fst s)) as [[[]|e] w1];
      [|discriminate].
    intros Hrest. apply IH in Hrest as (docs & Hkeys & Hall & Hlog).
    exists ((y, prices) :: docs). cbn [map fst snd].
    split; [rewrite Hkeys; reflexivity|].
    split; [constructor; [exact Hstamp | exact Hall]|].
    rewrite Hlog. cbn [snd]. rewrite <- app_assoc. reflexivity.
Qed.

(** X24.  With a client, a well-formed frame without a column [year],
    and no exception: [cache_stock_to_firestore] writes the stock
    record and then one document of prices per calendar year of the
    dates, the years in ascending order, each once.  No document is
    empty, the documents hold as many records as the frame has rows,
    and every record of the document of a year is the record of a row
    whose date lies in that year, with the date as the text of its
    day. *)
Theorem cache_one_document_per_year (ticker : string) (df out : Frame.t)
    (info : Py.dict Py.value) s s' :
  Env.fetcher_db svc = true ->
  frame_well_formed df ->
  ~ "year"%string ∈ Frame.labels df ->
  Fetcher.cache_stock_to_firestore svc ticker df info s = (Py.Returns out, s') ->
  exists docs : list (Z * list (Py.dict Frame.cell)),
    snd s' = snd s ++ Env.StockSet (Py.upper ticker) info
                      :: map (fun d => Env.PricesSet (Py.upper ticker)
                                         (Frame.str_year (fst d)) (snd d)) docs /\
    StronglySorted Z.lt (map fst docs) /\
    Forall (fun d => snd d <> []) docs /\
    length (concat (map snd docs)) = Frame.len df /\
    Forall (fun d =>
              Forall (fun p =>
                        exists r wall tz,
                          r ∈ Frame.to_records df /\
                          Py.lookup r "date" = Some (Frame.Timestamp wall tz) /\
                          Frame.year wall = fst d /\
                          p = Py.set r "date"
                                     (Frame.Text (Frame.strftime_ymd wall)))
                     (snd d))
           docs.
Proof.
  intros Hdb [Hlen Hrows] Hnew. unfold Fetcher.cache_stock_to_firestore.
  rewrite Hdb. cbn [negb]. unfold Py.io_bind. unfold Env.call.
  destruct (Env.stock_set svc _ info (fst s)) as [[[]|e] w1];
    cbv beta iota; [|discriminate].
  unfold Py.lift, Frame.series.
  destruct (Frame.positions "date" df) as [|jd [|jd' jds]] eqn:Hpos;
    cbv beta iota; try discriminate.
  destruct (forallb Frame.is_timestamp (Frame.column_at jd df)); cbn [negb];
    [|discriminate].
  set (year_of := fun c => match c with
                           | Frame.Timestamp w _ => Frame.year w
                           | _ => 0%Z
                           end).
  set (years := map year_of (Frame.column_at jd df)).
  set (ycol := map Frame.Integer years).
  set (df' := Frame.assign "year" ycol df).
  set (n := length (Frame.labels df)).
  destruct (assign_new_label "year" ycol df Hnew) as (Hlabels' & Hindex' & Hrows').
  fold df' in Hlabels', Hindex', Hrows'.
  destruct (Frame.positions "year" df') as [|j [|j' js]] eqn:Hpy;
    try discriminate.
  assert (Hj : j = n).
  { assert (j ∈ Frame.positions "year" df') as Hin
      by (rewrite Hpy; apply list_elem_of_here).
    apply positions_spec in Hin. rewrite Hlabels' in Hin.
    destruct (decide (j < n)) as [Hlt|Hge].
    - rewrite lookup_app_l in Hin by exact Hlt. exfalso. apply Hnew.
      eapply list_elem_of_lookup_2. exact Hin.
    - apply lookup_lt_Some in Hin. rewrite length_app in Hin. cbn in Hin.
      fold n in Hin. lia. }
  subst j.
  set (s1 := (w1, snd s ++ [Env.StockSet (Py.upper ticker) info])).
  destruct (Fetcher.write_years svc (Py.upper ticker) df' n
              (Fetcher.group_keys years) s1) as [[[]|e] s2] eqn:Hw;
    [|discriminate].
  unfold Py.io_ret. intros [= <- <-].
  apply write_years_returns in Hw as (docs & Hkeys & Hstamp & Hlog).
  destruct (group_keys_spec years) as [Hsorted Helem].
  exists docs.
  (* the value of the year column in the row of a position *)
  assert (Hycol : forall i r,
            Frame.rows df !! i = Some r ->
            nth i ycol (Frame.Number nan)
            = Frame.Integer (year_of (nth jd r (Frame.Number nan)))).
  { intros i r Hr. apply nth_lookup_Some with (d := Frame.Number nan).
    unfold ycol, years, Frame.column_at.
    rewrite !list_lookup_fmap, Hr. reflexivity. }
  (* the position of the column [date] *)
  assert (Hjd : Frame.labels df !! jd = Some "date"%string).
  { apply positions_spec. rewrite Hpos. apply list_elem_of_here. }
  assert (Hunique : forall i, Frame.labels df !! i = Some "date"%string -> i = jd).
  { intros i Hi. apply positions_spec in Hi. rewrite Hpos in Hi.
    apply list_elem_of_singleton in Hi. exact Hi. }
  (* the sizes and the members of the groups *)
  set (b := fun (y : Z) (p : Frame.cell * list Frame.cell) =>
              match nth n (snd p) (Frame.Number nan) with
              | Frame.Integer y' => (y' =? y)%Z
              | _ => false
              end).
  set (zipped := zip (Frame.index df') (Frame.rows df')).
  assert (Hgroup : forall d, d ∈ docs ->
            length (snd d)
            = length (filter (fun p => b (fst d) p = true) zipped) /\
            Forall (fun p =>
                      exists r wall tz,
                        r ∈ Frame.to_records df /\
                        Py.lookup r "date" = Some (Frame.Timestamp wall tz) /\
                        Frame.year wall = fst d /\
                        p = Py.set r "date"
                                   (Frame.Text (Frame.strftime_ymd wall)))
                   (snd d)).
  { intros [y ps] Hd. rewrite Forall_forall in Hstamp.
    specialize (Hstamp _ Hd). cbn [fst snd] in *.
    apply stamp_dates_spec in Hstamp.
    destruct (group_records_spec df ycol y Hnew Hrows) as [Hsize Hrecs].
    cbv zeta in Hsize, Hrecs. fold df' n in Hsize, Hrecs.
    split.
    - rewrite <- (Forall2_length _ _ _ Hstamp). exact Hsize.
    - clear Hsize Hd. revert Hrecs.
      induction Hstamp as [|rec p recs ps0 (wall & tz & Hrec & ->) _ IH];
        intros Hrecs; [constructor|].
      apply Forall_cons_1 in Hrecs as [(i & r & Hr & -> & Hy) Hrecs].
      constructor; [|exact (IH Hrecs)].
      exists (Py.of_pairs (zip (Frame.labels df) r)), wall, tz.
      assert (Hlen_r : length r = length (Frame.labels df)).
      { rewrite Forall_forall in Hrows. apply Hrows.
        eapply list_elem_of_lookup_2. exact Hr. }
      split; [|split; [exact Hrec|split; [|reflexivity]]].
      + unfold Frame.to_records. apply list_elem_of_fmap. exists r.
        split; [reflexivity|]. eapply list_elem_of_lookup_2. exact Hr.
      + rewrite (lookup_record_unique _ _ _ _ Hlen_r Hjd Hunique) in Hrec.
        injection Hrec as Hcell. rewrite (Hycol i r Hr), Hcell in Hy.
        cbn in Hy. injection Hy as Hy. exact Hy. }
  (* every row belongs to the group of one year *)
  assert (Hzipped : forall p, p ∈ zipped ->
            exists y0, y0 ∈ Fetcher.group_keys years /\
                       forall y, b y p = true <-> y = y0).
  { intros [c r'] Hp. unfold zipped in Hp.
    apply elem_of_lookup_zip_with in Hp as (i & c0 & r0 & [= <- <-] & _ & Hr0).
    unfold df', Frame.assign in Hr0.
    rewrite (proj2 (positions_nil "year" df) Hnew) in Hr0.
    cbn [Frame.rows] in Hr0. rewrite list_lookup_imap in Hr0.
    destruct (Frame.rows df !! i) as [r|] eqn:Hr; [|discriminate Hr0].
    cbn in Hr0. injection Hr0 as <-.
    assert (Hlen_r : length r = n).
    { rewrite Forall_forall in Hrows. apply Hrows.
      eapply list_elem_of_lookup_2. exact Hr. }
    exists (year_of (nth jd r (Frame.Number nan))). split.
    - apply Helem. unfold years, Frame.column_at.
      apply list_elem_of_fmap. exists (nth jd r (Frame.Number nan)).
      split; [reflexivity|]. apply list_elem_of_fmap. exists r.
      split; [reflexivity|]. eapply list_elem_of_lookup_2. exact Hr.
    - intros y. unfold b. cbn [snd]. rewrite <- Hlen_r, nth_middle.
      rewrite (Hycol i r Hr). rewrite Z.eqb_eq. split; congruence. }
  assert (Hzlen : length zipped = Frame.len df).
  { unfold zipped. rewrite length_zip_with, Hindex', Hrows'.
    unfold Frame.len. lia. }
  split; [|split; [|split; [|split]]].
  - rewrite Hlog. unfold s1. cbn [snd]. rewrite <- app_assoc. reflexivity.
  - rewrite Hkeys. exact Hsorted.
  - apply Forall_forall. intros d Hd Hempty.
    destruct (Hgroup d Hd) as [Hsize _]. rewrite Hempty in Hsize.
    assert (Hkey : fst d ∈ years).
    { apply Helem. rewrite <- Hkeys. apply list_elem_of_fmap.
      exists d. split; [reflexivity | exact Hd]. }
    unfold years, Frame.column_at in Hkey.
    apply list_elem_of_fmap in Hkey as (c & Hc & Hin).
    apply list_elem_of_fmap in Hin as (r & -> & Hin).
    apply list_elem_of_lookup in Hin as [i Hr].
    assert (Hi : i < length (Frame.index df'))
      by (rewrite Hindex', <- Hlen; eapply lookup_lt_Some; exact Hr).
    destruct (lookup_lt_is_Some_2 _ i Hi) as [c Hc'].
    assert (Hmember : (c, r ++ [nth i ycol (Frame.Number nan)])
                      ∈ filter (fun p => b (fst d) p = true) zipped).
    { apply list_elem_of_filter. split.
      - unfold b. cbn [snd].
        assert (Hlen_r : length r = n).
        { rewrite Forall_forall in Hrows. apply Hrows.
          eapply list_elem_of_lookup_2. exact Hr. }
        rewrite <- Hlen_r, nth_middle, (Hycol i r Hr), <- Hc.
        apply Z.eqb_refl.
      - unfold zipped. apply elem_of_lookup_zip_with.
        exists i, c, (r ++ [nth i ycol (Frame.Number nan)]).
        split; [reflexivity|]. split; [exact Hc'|].
        unfold df', Frame.assign.
        rewrite (proj2 (positions_nil "year" df) Hnew).
        cbn [Frame.rows]. rewrite list_lookup_imap, Hr. reflexivity. }
    destruct (filter _ zipped); [apply elem_of_nil in Hmember as []|].
    discriminate Hsize.
  - rewrite <- Hzlen.
    rewrite <- (count_groups b (Fetcher.group_keys years) zipped
                  (sorted_lt_NoDup _ Hsorted) Hzipped).
    rewrite <- Hkeys. clear Hkeys Hlog Hstamp.
    induction docs as [|d docs IH]; [reflexivity|].
    cbn [map concat flat_map]. rewrite !length_app.
    rewrite IH by (intros d' Hd'; apply Hgroup; apply list_elem_of_further;
                   exact Hd').
    destruct (Hgroup d (list_elem_of_here _ _)) as [-> _]. reflexivity.
  - apply Forall_forall. intros d Hd. exact (proj2 (Hgroup d Hd)).
Qed.

End CacheGroups.

Lemma cache_one_document_per_year_witness :
  exists out s',
    Fetcher.cache_stock_to_firestore (Sample.services true false) "smpl"
      sample_prices Sample.company (Sample.start true false 0)
    = (Py.Returns out, s') /\
    exists docs : list (Z * list (Py.dict Frame.cell)),
      snd s' = [] ++ Env.StockSet (Py.upper "smpl") Sample.company
                     :: map (fun d => Env.PricesSet (Py.upper "smpl")
                                        (Frame.str_year (fst d)) (snd d)) docs /\
      StronglySorted Z.lt (map fst docs) /\
      Forall (fun d => snd d <> []) docs /\
      length (concat (map snd docs)) = Frame.len sample_prices /\
      Forall (fun d =>
                Forall (fun p =>
                          exists r wall tz,
                            r ∈ Frame.to_records sample_prices /\
                            Py.lookup r "date" = Some (Frame.Timestamp wall tz) /\
                            Frame.year wall = fst d /\
                            p = Py.set r "date"
                                       (Frame.Text (Frame.strftime_ymd wall)))
                       (snd d))
             docs.
Proof.
  assert (Py.returned
            (fst (Fetcher.cache_stock_to_firestore (Sample.services true false)
                    "smpl" sample_prices Sample.company
                    (Sample.start true false 0))) = true)
    as Hok by (vm_compute; reflexivity).
  destruct (Fetcher.cache_stock_to_firestore _ _ _ _ _) as [[out|e] s'] eqn:Hrun;
    [|discriminate Hok].
  exists out, s'. split; [reflexivity|].
  assert (Hwf : frame_well_formed sample_prices)
    by (split; [reflexivity | repeat constructor]).
  assert (Hnew : ~ "year"%string ∈ Frame.labels sample_prices).
  { intros Hin. cbn in Hin.
    repeat (apply elem_of_cons in Hin as [Hin|Hin]; [discriminate Hin|]).
    apply elem_of_nil in Hin. exact Hin. }
  exact (cache_one_document_per_year (Sample.services true false) "smpl"
           sample_prices out Sample.company (Sample.start true false 0) s'
           eq_refl Hwf Hnew Hrun).
Defined.
